(** * CodeCity: the isometric canvas visualizer and its git colour manager

    A shallow embedding of [canvas-visualizer.js] and of the
    [GitMetadataColorManager] class, with the properties of the layout
    engine, the projection, the view-fit calculator and the colour mapper.

    Numbers.  A JavaScript number is an IEEE-754 double.  It is modelled by
    [JS.num]: a real number, one of the two infinities, or NaN.  The
    arithmetic is exact (no rounding) and there is a single zero; NaN and the
    infinities propagate as they do in JavaScript.  Array lengths and loop
    indices are natural numbers.

    State.  The module variables and the assigned fields of CONFIG form a
    record [State.t] that the functions pass along; what the page reads from
    outside (the clock of [Date.now()], the size of the canvas) is the record
    [Env.t].  Drawing on the canvas and writing the side panels is left out,
    apart from the status line of the file selector, the colours of a
    building and the fills of its three faces (the colours of the outlines
    are left out), the order in which [renderCity] paints, the
    screen bounds that [drawBuilding] stores for the pointer, and the
    numbers that [displayProjectStats] shows.  The variables of the mouse
    handlers form the record [Pointer.t]; a building object is named there
    by its index in [buildings]. *)

From Stdlib Require Import Reals Lra Lia ZArith List Ascii String Bool Permutation Sorted.
Import ListNotations.

Open Scope string_scope.
Open Scope list_scope.
Open Scope R_scope.

(** * The program *)

(** ** JavaScript numbers *)

Inductive num : Type :=
| NaN
| PInf
| NInf
| Fin (r : R).

Module JS.

Definition Rltb (a b : R) : bool := if Rlt_dec a b then true else false.
Definition Reqb (a b : R) : bool := if Req_dec_T a b then true else false.

(** [a + b] *)
Definition add (a b : num) : num :=
  match a, b with
  | NaN, _ => NaN
  | _, NaN => NaN
  | PInf, NInf => NaN
  | NInf, PInf => NaN
  | PInf, _ => PInf
  | _, PInf => PInf
  | NInf, _ => NInf
  | _, NInf => NInf
  | Fin x, Fin y => Fin (x + y)
  end.

(** [a - b] *)
Definition sub (a b : num) : num :=
  match a, b with
  | NaN, _ => NaN
  | _, NaN => NaN
  | PInf, PInf => NaN
  | NInf, NInf => NaN
  | PInf, _ => PInf
  | _, NInf => PInf
  | NInf, _ => NInf
  | _, PInf => NInf
  | Fin x, Fin y => Fin (x - y)
  end.

(** the infinity that has the sign of the real [y], NaN when [y] is zero *)
Definition inf_signed (positive : bool) (y : R) : num :=
  if Rltb 0 y then (if positive then PInf else NInf)
  else if Rltb y 0 then (if positive then NInf else PInf)
  else NaN.

(** [a * b] *)
Definition mul (a b : num) : num :=
  match a, b with
  | NaN, _ => NaN
  | _, NaN => NaN
  | Fin x, Fin y => Fin (x * y)
  | PInf, PInf => PInf
  | NInf, NInf => PInf
  | PInf, NInf => NInf
  | NInf, PInf => NInf
  | PInf, Fin y => inf_signed true y
  | Fin y, PInf => inf_signed true y
  | NInf, Fin y => inf_signed false y
  | Fin y, NInf => inf_signed false y
  end.

(** [a / b]; a finite number divided by zero is an infinity, 0/0 is NaN *)
Definition div (a b : num) : num :=
  match a, b with
  | NaN, _ => NaN
  | _, NaN => NaN
  | Fin x, Fin y => if Reqb y 0 then inf_signed true x else Fin (x / y)
  | Fin _, _ => Fin 0
  | PInf, Fin y => if Rltb y 0 then NInf else PInf
  | NInf, Fin y => if Rltb y 0 then PInf else NInf
  | _, _ => NaN
  end.

(** [Math.max(a, b)]: NaN as soon as one argument is NaN *)
Definition max (a b : num) : num :=
  match a, b with
  | NaN, _ => NaN
  | _, NaN => NaN
  | PInf, _ => PInf
  | _, PInf => PInf
  | NInf, y => y
  | x, NInf => x
  | Fin x, Fin y => Fin (Rmax x y)
  end.

(** [Math.min(a, b)] *)
Definition min (a b : num) : num :=
  match a, b with
  | NaN, _ => NaN
  | _, NaN => NaN
  | NInf, _ => NInf
  | _, NInf => NInf
  | PInf, y => y
  | x, PInf => x
  | Fin x, Fin y => Fin (Rmin x y)
  end.

(** [Math.max(...l)] and [Math.min(...l)] *)
Definition max_list (l : list num) : num := fold_left max l NInf.
Definition min_list (l : list num) : num := fold_left min l PInf.

(** [Math.sqrt(a)] *)
Definition sqrt (a : num) : num :=
  match a with
  | NaN => NaN
  | NInf => NaN
  | PInf => PInf
  | Fin x => if Rltb x 0 then NaN else Fin (R_sqrt.sqrt x)
  end.

(** [a < b]; every comparison with NaN is false *)
Definition ltb (a b : num) : bool :=
  match a, b with
  | NaN, _ => false
  | _, NaN => false
  | PInf, _ => false
  | _, NInf => false
  | NInf, _ => true
  | _, PInf => true
  | Fin x, Fin y => Rltb x y
  end.

(** [a > b] *)
Definition gtb (a b : num) : bool := ltb b a.

(** [a === b] on numbers; NaN is not equal to itself *)
Definition eqb (a b : num) : bool :=
  match a, b with
  | PInf, PInf => true
  | NInf, NInf => true
  | Fin x, Fin y => Reqb x y
  | _, _ => false
  end.

(** truthiness of a number: 0 and NaN are falsy *)
Definition truthy (a : num) : bool :=
  match a with
  | NaN => false
  | Fin x => negb (Reqb x 0)
  | _ => true
  end.

(** [a || b] on numbers *)
Definition or (a b : num) : num := if truthy a then a else b.

(** an integer as a number *)
Definition of_Z (z : Z) : num := Fin (IZR z).

(** ToNumber of a numeric field that may be missing: [undefined] is NaN *)
Definition of_field (v : option Z) : num :=
  match v with
  | Some z => of_Z z
  | None => NaN
  end.

(** the order of finite numbers, for stating properties: it holds of no
    NaN and of no infinity *)
Definition le (a b : num) : Prop :=
  match a, b with
  | Fin x, Fin y => x <= y
  | _, _ => False
  end.

End JS.

(** an array length as a number *)
Definition of_nat (n : nat) : num := JS.of_Z (Z.of_nat n).

(** [Math.ceil(Math.sqrt(n))] for an array length [n]: the square root of a
    perfect square is exact, any other lies strictly between two integers *)
Definition ceil_sqrt (n : nat) : nat :=
  let s := Nat.sqrt n in
  if Nat.eqb (s * s) n then s else S s.

(** [Math.ceil(n / d)] for array lengths *)
Definition ceil_div (n d : nat) : nat := Nat.div (n + (d - 1)) d.

(** ** The data set: what [JSON.parse] yields for a well-shaped file *)

Module GitMetadata.
(** [lastModified] is an ISO-8601 string in the file; the model keeps the
    epoch milliseconds that [new Date(s).getTime()] reads from it.  A field
    that is absent ([undefined]) is [None]. *)
Record t : Type := mk {
  commits : option Z;
  authors : option Z;
  lastModified : option Z
}.
End GitMetadata.

Module Class.
Record t : Type := mk {
  name : string;
  linesOfCode : option Z;
  gitMetadata : option GitMetadata.t
}.
End Class.

Module Package.
Record t : Type := mk {
  name : string;
  classes : list Class.t
}.
End Package.

Module Data.
Record t : Type := mk {
  packages : list Package.t
}.
End Data.

(** ** CONFIG: the fields that are never assigned *)

Module CONFIG.
Definition buildingWidth : num := Fin 30.
Definition buildingDepth : num := Fin 30.
Definition buildingSpacing : num := Fin 5.
Definition packagePadding : num := Fin 20.
Definition packageSpacing : num := Fin 0.
Definition locToHeightScale : num := Fin 0.8.
Definition minBuildingHeight : num := Fin 10.
Definition minBuildingWidth : num := Fin 20.
Definition maxBuildingWidth : num := Fin 80.
Definition minBuildingDepth : num := Fin 20.
Definition maxBuildingDepth : num := Fin 80.
Definition isoAngle : R := PI / 6.
Definition packageColor : string := "#7f8c8d".
Definition packageHighlight : string := "#95a5a6".
Definition buildingBaseColor : string := "#34495e".
Definition buildingHighlightColor : string := "#3498db".
Definition buildingSelectedColor : string := "#e74c3c".
End CONFIG.

(** ** [Array.prototype.sort]

    The sort is stable, and a comparator result that is NaN counts as 0.
    [insert cmp a l] puts [a], which stood before every element of [l],
    behind the leading elements [b] with [cmp a b > 0].  Where the
    comparator is not consistent (differences that are NaN) the order is the
    choice of the engine; the model then keeps the order of this insertion. *)

Fixpoint insert {A : Type} (cmp : A -> A -> num) (a : A) (l : list A) : list A :=
  match l with
  | [] => [a]
  | b :: l' => if JS.gtb (cmp a b) (Fin 0) then b :: insert cmp a l' else a :: l
  end.

Fixpoint sort {A : Type} (cmp : A -> A -> num) (l : list A) : list A :=
  match l with
  | [] => []
  | a :: l' => insert cmp a (sort cmp l')
  end.

(** ** The layout engine *)

(** [calculatePackageMass(pkg)] *)
Definition calculatePackageMass (pkg : Package.t) : num :=
  fold_left (fun sum cls => JS.add sum (JS.of_field (Class.linesOfCode cls)))
            (Package.classes pkg) (Fin 0).

Module Footprint.
Record t : Type := mk {
  width : num;
  depth : num
}.
End Footprint.

(** [calculateBuildingFootprint(linesOfCode)] *)
Definition calculateBuildingFootprint (linesOfCode : num) : Footprint.t :=
  let scaleFactor := JS.sqrt (JS.div linesOfCode (Fin 50)) in
  let width :=
    JS.min CONFIG.maxBuildingWidth
           (JS.max CONFIG.minBuildingWidth (JS.mul CONFIG.buildingWidth scaleFactor)) in
  let depth :=
    JS.min CONFIG.maxBuildingDepth
           (JS.max CONFIG.minBuildingDepth (JS.mul CONFIG.buildingDepth scaleFactor)) in
  Footprint.mk width depth.

Module Position.
Record t : Type := mk {
  x : num;
  y : num;
  class : Class.t
}.
End Position.

Module PkgLayout.
Record t : Type := mk {
  width : num;
  height : num;
  depth : num;
  positions : list Position.t
}.
End PkgLayout.

(** the variables of [calculatePackageLayout] that its loop assigns, with
    the loop index *)
Module Cursor.
Record t : Type := mk {
  index : nat;
  positions : list Position.t;
  currentX : num;
  currentY : num;
  rowHeight : num;
  maxWidth : num;
  totalDepth : num
}.
End Cursor.

(** the body of [sortedClasses.forEach((cls, index) => ...)] *)
Definition placeClass (maxBuildingsPerRow : nat) (c : Cursor.t) (cls : Class.t) : Cursor.t :=
  let footprint := calculateBuildingFootprint (JS.of_field (Class.linesOfCode cls)) in
  let wrap := Nat.ltb 0 (Cursor.index c)
              && Nat.eqb (Nat.modulo (Cursor.index c) maxBuildingsPerRow) 0 in
  let currentX := if wrap then CONFIG.packagePadding else Cursor.currentX c in
  let currentY :=
    if wrap then JS.add (Cursor.currentY c) (JS.add (Cursor.rowHeight c) CONFIG.buildingSpacing)
    else Cursor.currentY c in
  let rowHeight := if wrap then Fin 0 else Cursor.rowHeight c in
  let buildingEndX := JS.add currentX (Footprint.width footprint) in
  let buildingEndY := JS.add currentY (Footprint.depth footprint) in
  Cursor.mk (S (Cursor.index c))
            (Cursor.positions c ++ [Position.mk currentX currentY cls])
            (JS.add currentX (JS.add (Footprint.width footprint) CONFIG.buildingSpacing))
            currentY
            (JS.max rowHeight (Footprint.depth footprint))
            (JS.max (Cursor.maxWidth c) buildingEndX)
            (JS.max (Cursor.totalDepth c) buildingEndY).

Definition byLinesOfCodeDesc (a b : Class.t) : num :=
  JS.sub (JS.of_field (Class.linesOfCode b)) (JS.of_field (Class.linesOfCode a)).

(** [calculatePackageLayout(pkg)] *)
Definition calculatePackageLayout (pkg : Package.t) : PkgLayout.t :=
  let sortedClasses := sort byLinesOfCodeDesc (Package.classes pkg) in
  let maxBuildingsPerRow := Nat.min 6 (ceil_sqrt (List.length (Package.classes pkg))) in
  let start :=
    Cursor.mk 0 [] CONFIG.packagePadding CONFIG.packagePadding (Fin 0) (Fin 0)
              CONFIG.packagePadding in
  let c := fold_left (placeClass maxBuildingsPerRow) sortedClasses start in
  PkgLayout.mk (JS.add (Cursor.maxWidth c) CONFIG.packagePadding)
               (Fin 5)
               (JS.add (Cursor.totalDepth c) CONFIG.packagePadding)
               (Cursor.positions c).

(** ** The git colour manager ([GitMetadataColorManager]) *)

Module Color.
Record t : Type := mk {
  hue : num;
  saturation : num;
  lightness : num
}.
End Color.

(** the three template strings of [getShades]: each is
    [hsl(${hue}, ${saturation}%, ${lightness}%)], kept as its three numbers *)
Module Shades.
Record t : Type := mk {
  top : Color.t;
  right : Color.t;
  left : Color.t
}.
End Shades.

Module ColorOptions.
Record t : Type := mk {
  useFrequency : bool;
  useAge : bool;
  colorBlindMode : bool
}.
(** [options = {}]: the defaults of the destructuring *)
Definition default : t := mk true true false.
End ColorOptions.

(** [v || d] for a constructor argument [v] that may be [undefined] *)
Definition orDefault (v : option num) (d : num) : num :=
  match v with
  | Some n => JS.or n d
  | None => d
  end.

Module GitMetadataColorManager.

Record t : Type := mk {
  maxCommits : num;
  maxAuthors : num;
  oldestDate : num;
  newestDate : num;
  dateRange : num
}.

(** [new GitMetadataColorManager(maxCommits, maxAuthors, oldestDate,
    newestDate)]; [now] is what [Date.now()] returns *)
Definition constructor (now : num) (maxCommits maxAuthors oldestDate newestDate : option num) : t :=
  let maxCommits := orDefault maxCommits (Fin 1) in
  let maxAuthors := orDefault maxAuthors (Fin 1) in
  let oldestDate := orDefault oldestDate now in
  let newestDate := orDefault newestDate now in
  mk maxCommits maxAuthors oldestDate newestDate (JS.sub newestDate oldestDate).

(** [getColorForBuilding(gitMetadata, options)] *)
Definition getColorForBuilding (self : t) (now : num)
           (gitMetadata : option GitMetadata.t) (options : ColorOptions.t) : Color.t :=
  let hue := Fin 200 in
  let saturation := Fin 70 in
  let lightness := Fin 50 in
  let hue :=
    match ColorOptions.useFrequency options, gitMetadata with
    | true, Some g =>
        match GitMetadata.commits g with
        | Some commits =>
            let normalizedFrequency :=
              JS.min (Fin 1) (JS.div (JS.of_Z commits) (maxCommits self)) in
            if ColorOptions.colorBlindMode options
            then JS.sub (Fin 270) (JS.mul normalizedFrequency (Fin 240))
            else JS.sub (Fin 240) (JS.mul normalizedFrequency (Fin 240))
        | None => hue
        end
    | _, _ => hue
    end in
  let saturation :=
    match ColorOptions.useAge options, gitMetadata with
    | true, Some g =>
        match GitMetadata.lastModified g with
        | Some lastModifiedTime =>
            let daysSinceChange :=
              JS.div (JS.sub now (JS.of_Z lastModifiedTime)) (Fin (1000 * 60 * 60 * 24)) in
            let maxAgeDays := Fin 365 in
            let ageFactor :=
              JS.max (Fin 0)
                     (JS.min (Fin 1) (JS.sub (Fin 1) (JS.div daysSinceChange maxAgeDays))) in
            JS.add (Fin 20) (JS.mul ageFactor (Fin 50))
        | None => saturation
        end
    | _, _ => saturation
    end in
  Color.mk hue saturation lightness.

(** [getShades(baseColor)] *)
Definition getShades (baseColor : Color.t) : Shades.t :=
  let hue := Color.hue baseColor in
  let saturation := Color.saturation baseColor in
  let lightness := Color.lightness baseColor in
  Shades.mk (Color.mk hue saturation (JS.add lightness (Fin 20)))
            (Color.mk hue saturation lightness)
            (Color.mk hue saturation (JS.sub lightness (Fin 20))).

(** [getFrequencyLabel(commits)] *)
Definition getFrequencyLabel (commits : num) : string :=
  if JS.eqb commits (Fin 0) then "No changes"
  else if JS.eqb commits (Fin 1) then "Single change"
  else if JS.ltb commits (Fin 5) then "Low activity"
  else if JS.ltb commits (Fin 15) then "Moderate activity"
  else if JS.ltb commits (Fin 50) then "High activity"
  else "Very high activity".

End GitMetadataColorManager.

(** ** The state of the page: the module variables and the assigned fields
    of CONFIG *)

Module Building.
Record t : Type := mk {
  className : string;
  packageName : string;
  linesOfCode : option Z;
  gitMetadata : option GitMetadata.t;
  x : num;
  y : num;
  z : num;
  width : num;
  depth : num;
  height : num;
  color : string
}.
End Building.

Module PackageObj.
Record t : Type := mk {
  name : string;
  x : num;
  y : num;
  width : num;
  height : num;
  depth : num;
  z : num;
  buildings : list Building.t
}.
End PackageObj.

(** [CONFIG.gitNormalization]; the dates are [null] until data with git
    metadata is loaded *)
Module GitNormalization.
Record t : Type := mk {
  maxCommits : num;
  maxAuthors : num;
  oldestDate : option num;
  newestDate : option num
}.
Definition initial : t := mk (Fin 0) (Fin 0) None None.
End GitNormalization.

(** [CONFIG.scale], [CONFIG.offsetX], [CONFIG.offsetY] *)
Module View.
Record t : Type := mk {
  scale : num;
  offsetX : num;
  offsetY : num
}.
Definition initial : t := mk (Fin 1) (Fin 100) (Fin 100).
End View.

(** the toggles of the page *)
Module Toggles.
Record t : Type := mk {
  layoutStrategy : string;
  showGitData : bool;
  showFrequency : bool;
  showAge : bool;
  showRecentGlow : bool;
  colorBlindMode : bool
}.
Definition initial : t := mk "quadrant" true true true true false.
End Toggles.

(** [fileStatus.textContent] and [fileStatus.style.color] *)
Module FileStatus.
Record t : Type := mk {
  textContent : string;
  color : string
}.
End FileStatus.

Module State.
Record t : Type := mk {
  projectData : option Data.t;
  buildings : list Building.t;
  packages : list PackageObj.t;
  gitColorManager : option GitMetadataColorManager.t;
  gitNormalization : GitNormalization.t;
  view : View.t;
  toggles : Toggles.t;
  fileStatus : FileStatus.t
}.

Definition initial : t :=
  mk None [] [] None GitNormalization.initial View.initial Toggles.initial
     (FileStatus.mk EmptyString EmptyString).

Definition setProjectData (d : option Data.t) (s : t) : t :=
  mk d (buildings s) (packages s) (gitColorManager s) (gitNormalization s) (view s)
     (toggles s) (fileStatus s).

Definition setPlacements (bs : list Building.t) (ps : list PackageObj.t) (s : t) : t :=
  mk (projectData s) bs ps (gitColorManager s) (gitNormalization s) (view s)
     (toggles s) (fileStatus s).

Definition setGit (m : option GitMetadataColorManager.t) (n : GitNormalization.t) (s : t) : t :=
  mk (projectData s) (buildings s) (packages s) m n (view s) (toggles s) (fileStatus s).

Definition setView (v : View.t) (s : t) : t :=
  mk (projectData s) (buildings s) (packages s) (gitColorManager s) (gitNormalization s) v
     (toggles s) (fileStatus s).

Definition setFileStatus (f : FileStatus.t) (s : t) : t :=
  mk (projectData s) (buildings s) (packages s) (gitColorManager s) (gitNormalization s)
     (view s) (toggles s) f.
End State.

(** what the page reads from its surroundings: the clock and the canvas *)
Module Env.
Record t : Type := mk {
  now : num;
  canvasWidth : num;
  canvasHeight : num
}.
End Env.

(** ** The projection *)

Module Point.
Record t : Type := mk {
  x : num;
  y : num
}.
End Point.

(** [Math.cos(CONFIG.isoAngle)] and [Math.sin(CONFIG.isoAngle)] *)
Definition cosIso : num := Fin (cos CONFIG.isoAngle).
Definition sinIso : num := Fin (sin CONFIG.isoAngle).

(** [toIsometric(x, y, z)], which reads the view from CONFIG *)
Definition toIsometric (v : View.t) (x y z : num) : Point.t :=
  let isoX := JS.mul (JS.sub x y) cosIso in
  let isoY := JS.sub (JS.mul (JS.add x y) sinIso) z in
  Point.mk (JS.add (JS.mul isoX (View.scale v)) (View.offsetX v))
           (JS.add (JS.mul isoY (View.scale v)) (View.offsetY v)).

(** ** Packages in a region *)

Module PkgWithMass.
Record t : Type := mk {
  pkg : Package.t;
  mass : num
}.
End PkgWithMass.

(** the variables of [layoutPackagesInRegion] that its loop assigns, with
    the loop index and the two module arrays it pushes to *)
Module Region.
Record t : Type := mk {
  idx : nat;
  packageX : num;
  packageY : num;
  maxRowHeight : num;
  buildings : list Building.t;
  packages : list PackageObj.t
}.
End Region.

(** the body of [pkgLayout.positions.forEach(pos => ...)] up to the pushes *)
Definition makeBuilding (pkg : Package.t) (packageX packageY : num) (pos : Position.t)
  : Building.t :=
  let cls := Position.class pos in
  let buildingHeight :=
    JS.max CONFIG.minBuildingHeight
           (JS.mul (JS.of_field (Class.linesOfCode cls)) CONFIG.locToHeightScale) in
  let footprint := calculateBuildingFootprint (JS.of_field (Class.linesOfCode cls)) in
  Building.mk (Class.name cls) (Package.name pkg) (Class.linesOfCode cls)
              (Class.gitMetadata cls)
              (JS.add packageX (Position.x pos)) (JS.add packageY (Position.y pos)) (Fin 5)
              (Footprint.width footprint) (Footprint.depth footprint) buildingHeight
              CONFIG.buildingBaseColor.

(** the body of [packagesWithMass.forEach((pkgWithMass, idx) => ...)] *)
Definition placePackage (startX startY maxRowWidth : num) (r : Region.t)
           (pkgWithMass : PkgWithMass.t) : Region.t :=
  let pkg := PkgWithMass.pkg pkgWithMass in
  let pkgLayout := calculatePackageLayout pkg in
  let wrap :=
    Nat.ltb 0 (Region.idx r)
    && JS.gtb (JS.add (JS.sub (Region.packageX r) startX) (PkgLayout.width pkgLayout))
              maxRowWidth in
  let packageX := if wrap then startX else Region.packageX r in
  let packageY :=
    if wrap then JS.add (Region.packageY r) (JS.add (Region.maxRowHeight r) CONFIG.packageSpacing)
    else Region.packageY r in
  let maxRowHeight := if wrap then Fin 0 else Region.maxRowHeight r in
  let created := map (makeBuilding pkg packageX packageY) (PkgLayout.positions pkgLayout) in
  let packageObj :=
    PackageObj.mk (Package.name pkg) packageX packageY (PkgLayout.width pkgLayout)
                  (PkgLayout.height pkgLayout) (PkgLayout.depth pkgLayout) (Fin 0) created in
  Region.mk (S (Region.idx r))
            (JS.add packageX (JS.add (PkgLayout.width pkgLayout) CONFIG.packageSpacing))
            packageY
            (JS.max maxRowHeight (PkgLayout.depth pkgLayout))
            (Region.buildings r ++ created)
            (Region.packages r ++ [packageObj]).

(** [layoutPackagesInRegion(packagesWithMass, startX, startY, maxRowWidth)] *)
Definition layoutPackagesInRegion (packagesWithMass : list PkgWithMass.t)
           (startX startY maxRowWidth : num) (st : State.t) : State.t :=
  let start :=
    Region.mk 0 startX startY (Fin 0) (State.buildings st) (State.packages st) in
  let r := fold_left (placePackage startX startY maxRowWidth) packagesWithMass start in
  State.setPlacements (Region.buildings r) (Region.packages r) st.

(** [l.slice(s, e)] and [l.slice(s)] *)
Definition slice {A : Type} (s e : nat) (l : list A) : list A := firstn (e - s) (skipn s l).
Definition sliceFrom {A : Type} (s : nat) (l : list A) : list A := skipn s l.

Module Quadrant.
Record t : Type := mk {
  packages : list PkgWithMass.t;
  startX : num;
  startY : num
}.
End Quadrant.

(** [layoutPackagesQuadrant(packagesWithMass)] *)
Definition layoutPackagesQuadrant (packagesWithMass : list PkgWithMass.t) (st : State.t)
  : State.t :=
  let quartileSize := ceil_div (List.length packagesWithMass) 4 in
  let q1 := slice 0 quartileSize packagesWithMass in
  let q2 := slice quartileSize (quartileSize * 2) packagesWithMass in
  let q3 := slice (quartileSize * 2) (quartileSize * 3) packagesWithMass in
  let q4 := sliceFrom (quartileSize * 3) packagesWithMass in
  let packagesPerQuadrant := ceil_div (List.length packagesWithMass) 4 in
  let packagesPerRowInQuadrant := ceil_sqrt packagesPerQuadrant in
  let estimatedPackageSize := 150%nat in
  let maxRowWidth := of_nat (packagesPerRowInQuadrant * estimatedPackageSize) in
  let quadrants :=
    [ Quadrant.mk q1 maxRowWidth maxRowWidth;
      Quadrant.mk q2 (JS.mul maxRowWidth (Fin 2)) (Fin 0);
      Quadrant.mk q3 (Fin 0) (JS.mul maxRowWidth (Fin 2));
      Quadrant.mk q4 (Fin 0) (Fin 0) ] in
  fold_left
    (fun st quadrant =>
       layoutPackagesInRegion (Quadrant.packages quadrant) (Quadrant.startX quadrant)
                              (Quadrant.startY quadrant) maxRowWidth st)
    quadrants st.

(** [layoutPackagesGrid(packagesWithMass)] *)
Definition layoutPackagesGrid (packagesWithMass : list PkgWithMass.t) (st : State.t)
  : State.t :=
  let packagesPerRow := ceil_sqrt (List.length packagesWithMass) in
  let estimatedPackageSize := 150%nat in
  let maxRowWidth := of_nat (packagesPerRow * estimatedPackageSize) in
  layoutPackagesInRegion packagesWithMass (Fin 0) (Fin 0) maxRowWidth st.

(** ** Normalization bounds of the git metadata *)

Module GitScan.
Record t : Type := mk {
  maxCommits : num;
  maxAuthors : num;
  oldestDate : num;
  newestDate : num;
  hasGitData : bool
}.
Definition initial : t := mk (Fin 0) (Fin 0) PInf (Fin 0) false.
End GitScan.

(** the body of [pkg.classes.forEach(cls => ...)] *)
Definition scanClass (g : GitScan.t) (cls : Class.t) : GitScan.t :=
  match Class.gitMetadata cls with
  | Some gm =>
      let maxCommits :=
        match GitMetadata.commits gm with
        | Some c => JS.max (GitScan.maxCommits g) (JS.of_Z c)
        | None => GitScan.maxCommits g
        end in
      let maxAuthors :=
        match GitMetadata.authors gm with
        | Some a => JS.max (GitScan.maxAuthors g) (JS.of_Z a)
        | None => GitScan.maxAuthors g
        end in
      match GitMetadata.lastModified gm with
      | Some t =>
          let date := JS.of_Z t in
          GitScan.mk maxCommits maxAuthors (JS.min (GitScan.oldestDate g) date)
                     (JS.max (GitScan.newestDate g) date) true
      | None =>
          GitScan.mk maxCommits maxAuthors (GitScan.oldestDate g) (GitScan.newestDate g) true
      end
  | None => g
  end.

Definition scanData (data : Data.t) : GitScan.t :=
  fold_left (fun g pkg => fold_left scanClass (Package.classes pkg) g)
            (Data.packages data) GitScan.initial.

(** [calculateGitNormalization(data)] *)
Definition calculateGitNormalization (env : Env.t) (data : Data.t) (st : State.t) : State.t :=
  let g := scanData data in
  if GitScan.hasGitData g then
    let maxCommits := JS.or (GitScan.maxCommits g) (Fin 1) in
    let maxAuthors := JS.or (GitScan.maxAuthors g) (Fin 1) in
    let oldestDate :=
      if JS.eqb (GitScan.oldestDate g) PInf then Env.now env else GitScan.oldestDate g in
    let newestDate := JS.or (GitScan.newestDate g) (Env.now env) in
    State.setGit
      (Some (GitMetadataColorManager.constructor (Env.now env) (Some maxCommits)
               (Some maxAuthors) (Some oldestDate) (Some newestDate)))
      (GitNormalization.mk maxCommits maxAuthors (Some oldestDate) (Some newestDate))
      st
  else st.

(** ** The view-fit calculator *)

Module Bounds.
Record t : Type := mk {
  minX : num;
  maxX : num;
  minY : num;
  maxY : num;
  minZ : num;
  maxZ : num
}.
Definition initial : t := mk PInf NInf PInf NInf PInf NInf.
End Bounds.

(** the six assignments that both loops over the placements make for a box
    at [(x, y, z)] of size [w], [d], [h] *)
Definition growBounds (b : Bounds.t) (x y z w d h : num) : Bounds.t :=
  Bounds.mk (JS.min (Bounds.minX b) x) (JS.max (Bounds.maxX b) (JS.add x w))
            (JS.min (Bounds.minY b) y) (JS.max (Bounds.maxY b) (JS.add y d))
            (JS.min (Bounds.minZ b) z) (JS.max (Bounds.maxZ b) (JS.add z h)).

Definition growByPackage (b : Bounds.t) (pkg : PackageObj.t) : Bounds.t :=
  growBounds b (PackageObj.x pkg) (PackageObj.y pkg) (PackageObj.z pkg)
             (PackageObj.width pkg) (PackageObj.depth pkg) (PackageObj.height pkg).

Definition growByBuilding (b : Bounds.t) (building : Building.t) : Bounds.t :=
  growBounds b (Building.x building) (Building.y building) (Building.z building)
             (Building.width building) (Building.depth building) (Building.height building).

(** the bounding box of the city in 3D: first all packages, then all buildings *)
Definition cityBounds (packages : list PackageObj.t) (buildings : list Building.t) : Bounds.t :=
  fold_left growByBuilding buildings (fold_left growByPackage packages Bounds.initial).

(** [toIsoRaw(x, y, z)]: the projection without scale and offset *)
Definition toIsoRaw (x y z : num) : Point.t :=
  Point.mk (JS.mul (JS.sub x y) cosIso) (JS.sub (JS.mul (JS.add x y) sinIso) z).

Definition boundsCorners (b : Bounds.t) : list Point.t :=
  [ toIsoRaw (Bounds.minX b) (Bounds.minY b) (Bounds.minZ b);
    toIsoRaw (Bounds.maxX b) (Bounds.minY b) (Bounds.minZ b);
    toIsoRaw (Bounds.maxX b) (Bounds.maxY b) (Bounds.minZ b);
    toIsoRaw (Bounds.minX b) (Bounds.maxY b) (Bounds.minZ b);
    toIsoRaw (Bounds.minX b) (Bounds.minY b) (Bounds.maxZ b);
    toIsoRaw (Bounds.maxX b) (Bounds.minY b) (Bounds.maxZ b);
    toIsoRaw (Bounds.maxX b) (Bounds.maxY b) (Bounds.maxZ b);
    toIsoRaw (Bounds.minX b) (Bounds.maxY b) (Bounds.maxZ b) ].

(** the new scale: [Math.min(scaleX, scaleY, 1.5)] *)
Definition fitScale (env : Env.t) (corners : list Point.t) : num :=
  let screenMinX := JS.min_list (map Point.x corners) in
  let screenMaxX := JS.max_list (map Point.x corners) in
  let screenMinY := JS.min_list (map Point.y corners) in
  let screenMaxY := JS.max_list (map Point.y corners) in
  let screenWidth := JS.sub screenMaxX screenMinX in
  let screenHeight := JS.sub screenMaxY screenMinY in
  let padding := Fin 50 in
  let availableWidth := JS.sub (Env.canvasWidth env) (JS.mul padding (Fin 2)) in
  let availableHeight := JS.sub (Env.canvasHeight env) (JS.mul padding (Fin 2)) in
  let scaleX := JS.div availableWidth screenWidth in
  let scaleY := JS.div availableHeight screenHeight in
  JS.min_list [scaleX; scaleY; Fin 1.5].

(** [calculateViewTransform()]; the two [console.log] calls and the unused
    3D centre are left out *)
Definition calculateViewTransform (env : Env.t) (st : State.t) : State.t :=
  if Nat.eqb (List.length (State.buildings st)) 0
     && Nat.eqb (List.length (State.packages st)) 0
  then st
  else
    let corners := boundsCorners (cityBounds (State.packages st) (State.buildings st)) in
    let newScale := fitScale env corners in
    let scaledCorners :=
      map (fun c => Point.mk (JS.mul (Point.x c) newScale) (JS.mul (Point.y c) newScale))
          corners in
    let screenMinX := JS.min_list (map Point.x scaledCorners) in
    let screenMaxX := JS.max_list (map Point.x scaledCorners) in
    let screenMinY := JS.min_list (map Point.y scaledCorners) in
    let screenMaxY := JS.max_list (map Point.y scaledCorners) in
    let screenCenterX := JS.div (JS.add screenMinX screenMaxX) (Fin 2) in
    let screenCenterY := JS.div (JS.add screenMinY screenMaxY) (Fin 2) in
    let canvasCenterX := JS.div (Env.canvasWidth env) (Fin 2) in
    let canvasCenterY := JS.div (Env.canvasHeight env) (Fin 2) in
    State.setView
      (View.mk newScale (JS.sub canvasCenterX screenCenterX)
               (JS.sub canvasCenterY screenCenterY))
      st.

(** ** Loading a data set *)

Definition byMassDesc (a b : PkgWithMass.t) : num :=
  JS.sub (PkgWithMass.mass b) (PkgWithMass.mass a).

(** [processData(data)]; [showGitControlsIfNeeded] only touches the page *)
Definition processData (env : Env.t) (data : Data.t) (st : State.t) : State.t :=
  let st := State.setPlacements [] [] st in
  let packagesWithMass :=
    sort byMassDesc
         (map (fun pkg => PkgWithMass.mk pkg (calculatePackageMass pkg)) (Data.packages data)) in
  let st :=
    if String.eqb (Toggles.layoutStrategy (State.toggles st)) "grid"
    then layoutPackagesGrid packagesWithMass st
    else layoutPackagesQuadrant packagesWithMass st in
  let st := calculateGitNormalization env data st in
  calculateViewTransform env st.

(** ** The colours of a building

    [drawBuilding] decides [baseColor] and [shades] before it paints.
    [isHovered] and [isSelected] are the results of the two identity
    comparisons with [hoveredBuilding] and [selectedBuilding]. *)

Module Paint.
Record t : Type := mk {
  baseColor : string;
  shades : option Shades.t
}.
End Paint.

Definition drawBuilding_paint (env : Env.t) (st : State.t) (isHovered isSelected : bool)
           (building : Building.t) : Paint.t :=
  let baseColor := Building.color building in
  if isSelected then Paint.mk CONFIG.buildingSelectedColor None
  else if isHovered then Paint.mk CONFIG.buildingHighlightColor None
  else
    match Building.gitMetadata building, State.gitColorManager st with
    | Some g, Some manager =>
        if Toggles.showGitData (State.toggles st) then
          let colorData :=
            GitMetadataColorManager.getColorForBuilding
              manager (Env.now env) (Some g)
              (ColorOptions.mk (Toggles.showFrequency (State.toggles st))
                               (Toggles.showAge (State.toggles st))
                               (Toggles.colorBlindMode (State.toggles st))) in
          Paint.mk baseColor (Some (GitMetadataColorManager.getShades colorData))
        else Paint.mk baseColor None
    | _, _ => Paint.mk baseColor None
    end.

(** what [ctx.fillStyle] is set to: a colour string of CONFIG, one of the
    [hsl(...)] strings of [getShades], or the string [rgb(r, g, b)] of
    [lighten], kept as its three numbers *)
Inductive fillStyle : Type :=
| CssColor (c : string)
| HslColor (c : Color.t)
| RgbColor (r g b : num).

(** the fill of the right face: [shades ? shades.right : baseColor] *)
Definition rightFaceFill (p : Paint.t) : fillStyle :=
  match Paint.shades p with
  | Some s => HslColor (Shades.right s)
  | None => CssColor (Paint.baseColor p)
  end.

(** ** The file selector

    [reader.onload] parses the text of the selected file and checks the
    [packages] field before it assigns anything.  A parsed document is a
    JSON value; the numbers of the files are integers. *)

#[local] Set Warnings "-register-all".

Inductive json : Type :=
| JNull
| JBool (b : bool)
| JNumber (z : Z)
| JString (s : string)
| JArray (items : list json)
| JObject (fields : list (string * json)).

(** what [JSON.parse(e.target.result)] does: it throws a SyntaxError or
    returns a value *)
Inductive parseResult : Type :=
| SyntaxError (message : string)
| Parsed (data : json).

(** the value of a key of a parsed object; of a key that occurs twice the
    last occurrence counts *)
Definition field (key : string) (fields : list (string * json)) : option json :=
  match find (fun kv => String.eqb (fst kv) key) (rev fields) with
  | Some kv => Some (snd kv)
  | None => None
  end.

(** the outcome of reading [data.packages] *)
Inductive propertyRead : Type :=
| ReadThrows
| ReadUndefined
| ReadValue (v : json).

(** [data.packages]: a TypeError on [null], [undefined] on every value that
    has no such property *)
Definition readPackages (data : json) : propertyRead :=
  match data with
  | JNull => ReadThrows
  | JObject fields =>
      match field "packages" fields with
      | Some v => ReadValue v
      | None => ReadUndefined
      end
  | _ => ReadUndefined
  end.

(** truthiness of what was read *)
Definition truthyRead (r : propertyRead) : bool :=
  match r with
  | ReadValue JNull => false
  | ReadValue (JBool b) => b
  | ReadValue (JNumber z) => negb (Z.eqb z 0)
  | ReadValue (JString s) => negb (String.eqb s EmptyString)
  | ReadValue (JArray _) => true
  | ReadValue (JObject _) => true
  | _ => false
  end.

(** [Array.isArray(v)] *)
Definition isArray (r : propertyRead) : bool :=
  match r with
  | ReadValue (JArray _) => true
  | _ => false
  end.

Definition invalidFormatMessage : string := "Invalid data format: missing packages array".

(** the [catch] block: the message goes to the status line, in red *)
Definition reportError (message : string) (st : State.t) : State.t :=
  State.setFileStatus (FileStatus.mk (String.append "✗ Error: " message) "#e74c3c") st.

(** [reader.onload].  [typeErrorMessage] is the message of the TypeError
    that the engine raises for [null.packages].  [asDataset] reads a
    document of the expected shape as the data set it describes; the result
    is [None] on a document with a [packages] array of another shape, which
    the model of [processData] does not cover.  [renderCity] and
    [displayProjectStats] only draw. *)
Definition onload (asDataset : json -> option Data.t) (typeErrorMessage : string)
           (env : Env.t) (fileName : string) (result : parseResult) (st : State.t)
  : option State.t :=
  match result with
  | SyntaxError message => Some (reportError message st)
  | Parsed data =>
      match readPackages data with
      | ReadThrows => Some (reportError typeErrorMessage st)
      | r =>
          if negb (truthyRead r) || negb (isArray r)
          then Some (reportError invalidFormatMessage st)
          else
            match asDataset data with
            | Some d =>
                let st := State.setProjectData (Some d) st in
                let st := processData env d st in
                Some (State.setFileStatus
                        (FileStatus.mk (String.append "✓ Successfully loaded " fileName)
                                       "#27ae60")
                        st)
            | None => None
            end
      end
  end.

(** ** More operations on numbers *)

Module JSMath.

(** [a <= b]; every comparison with NaN is false *)
Definition leb (a b : num) : bool :=
  match a, b with
  | NaN, _ => false
  | _, NaN => false
  | NInf, _ => true
  | _, PInf => true
  | PInf, _ => false
  | _, NInf => false
  | Fin x, Fin y => negb (JS.Rltb y x)
  end.

(** [a >= b] *)
Definition geb (a b : num) : bool := leb b a.

(** [Math.floor(a)] *)
Definition floor (a : num) : num :=
  match a with
  | Fin x => Fin (IZR (Int_part x))
  | other => other
  end.

(** [Math.round(a)]: the nearest integer, halves go up *)
Definition round (a : num) : num := floor (JS.add a (Fin 0.5)).

(** [Math.exp(a)] *)
Definition exp (a : num) : num :=
  match a with
  | NaN => NaN
  | PInf => PInf
  | NInf => Fin 0
  | Fin x => Fin (Rtrigo_def.exp x)
  end.

End JSMath.

(** ** The colour utility functions

    [lighten] and [darken] read a colour string [#rrggbb], two hexadecimal
    digits for each channel.  The colour strings of the program are ASCII:
    a character of the string is one code unit. *)

(** [color.replace('#', '')]: the first [#] of the string is removed *)
Fixpoint replaceHash (color : string) : string :=
  match color with
  | EmptyString => EmptyString
  | String c rest =>
      if Ascii.eqb c "#" then rest else String c (replaceHash rest)
  end.

(** [hex.substr(start, length)] for a [start] that is not negative *)
Definition substr (hex : string) (start length : nat) : string :=
  String.substring start length hex.

(** the white space that [parseInt] skips: TAB, LF, VT, FF, CR and space *)
Definition isWhiteSpace (c : ascii) : bool :=
  let n := nat_of_ascii c in
  (Nat.leb 9 n && Nat.leb n 13) || Nat.eqb n 32.

Fixpoint trimStart (s : string) : string :=
  match s with
  | EmptyString => EmptyString
  | String c rest => if isWhiteSpace c then trimStart rest else s
  end.

(** the value of a digit of radix 16 *)
Definition digit16 (c : ascii) : option Z :=
  let n := Z.of_nat (nat_of_ascii c) in
  if (48 <=? n)%Z && (n <=? 57)%Z then Some (n - 48)%Z
  else if (97 <=? n)%Z && (n <=? 102)%Z then Some (n - 87)%Z
  else if (65 <=? n)%Z && (n <=? 70)%Z then Some (n - 55)%Z
  else None.

(** the value of the digits up to the first character that is no digit of
    radix 16; [acc] is the value of the digits read so far, [None] as long
    as there is none *)
Fixpoint digits16 (s : string) (acc : option Z) : option Z :=
  match s with
  | EmptyString => acc
  | String c rest =>
      match digit16 c with
      | Some d =>
          digits16 rest (Some (16 * match acc with Some a => a | None => 0 end + d)%Z)
      | None => acc
      end
  end.

(** [parseInt(s, 16)]: leading white space is skipped, then a sign, then
    [0x] or [0X]; the digits that follow give the value, and NaN when there
    is no digit *)
Definition parseInt (s : string) : num :=
  let s := trimStart s in
  let sign :=
    match s with
    | String "-"%char _ => (-1)%Z
    | _ => 1%Z
    end in
  let s :=
    match s with
    | String "-"%char rest => rest
    | String "+"%char rest => rest
    | _ => s
    end in
  let s :=
    match s with
    | String "0"%char (String "x"%char rest) => rest
    | String "0"%char (String "X"%char rest) => rest
    | _ => s
    end in
  match digits16 s None with
  | Some z => JS.of_Z (sign * z)
  | None => NaN
  end.

(** [lighten(color, factor)]; the result is the string
    [rgb(${Math.floor(r)}, ${Math.floor(g)}, ${Math.floor(b)})] *)
Definition lighten (color : string) (factor : num) : fillStyle :=
  let hex := replaceHash color in
  let r := JS.min (Fin 255) (JS.mul (parseInt (substr hex 0 2)) factor) in
  let g := JS.min (Fin 255) (JS.mul (parseInt (substr hex 2 2)) factor) in
  let b := JS.min (Fin 255) (JS.mul (parseInt (substr hex 4 2)) factor) in
  RgbColor (JSMath.floor r) (JSMath.floor g) (JSMath.floor b).

(** [darken(color, factor)] *)
Definition darken (color : string) (factor : num) : fillStyle :=
  lighten color factor.

(** the fill of the top face: [shades ? shades.top : lighten(baseColor, 1.2)] *)
Definition topFaceFill (p : Paint.t) : fillStyle :=
  match Paint.shades p with
  | Some s => HslColor (Shades.top s)
  | None => lighten (Paint.baseColor p) (Fin 1.2)
  end.

(** the fill of the left face: [shades ? shades.left : darken(baseColor, 0.7)] *)
Definition leftFaceFill (p : Paint.t) : fillStyle :=
  match Paint.shades p with
  | Some s => HslColor (Shades.left s)
  | None => darken (Paint.baseColor p) (Fin 0.7)
  end.

(** ** The dates of the colour manager

    [isRecent] and [formatDate] are methods of [GitMetadataColorManager];
    they read no field of the object.  [now] is the clock, in milliseconds. *)

(** [isRecent(gitMetadata, days = 7)] *)
Definition isRecent (now : num) (gitMetadata : option GitMetadata.t) (days : num) : bool :=
  match gitMetadata with
  | None => false
  | Some g =>
      match GitMetadata.lastModified g with
      | None => false
      | Some lastModifiedTime =>
          let daysSinceChange :=
            JS.div (JS.sub now (JS.of_Z lastModifiedTime)) (Fin (1000 * 60 * 60 * 24)) in
          JSMath.leb daysSinceChange days
      end
  end.

(** what [formatDate] returns: a fixed string, or a template string with
    one number, kept as the number *)
Inductive relativeDate : Type :=
| DateUnknown
| Today
| Yesterday
| DaysAgo (n : num)
| WeeksAgo (n : num)
| MonthsAgo (n : num)
| YearsAgo (n : num).

(** [formatDate(dateString)] *)
Definition formatDate (now : num) (dateString : option Z) : relativeDate :=
  match dateString with
  | None => DateUnknown
  | Some date =>
      let daysDiff :=
        JSMath.floor (JS.div (JS.sub now (JS.of_Z date)) (Fin (1000 * 60 * 60 * 24))) in
      if JS.eqb daysDiff (Fin 0) then Today
      else if JS.eqb daysDiff (Fin 1) then Yesterday
      else if JS.ltb daysDiff (Fin 7) then DaysAgo daysDiff
      else if JS.ltb daysDiff (Fin 30) then WeeksAgo (JSMath.floor (JS.div daysDiff (Fin 7)))
      else if JS.ltb daysDiff (Fin 365) then MonthsAgo (JSMath.floor (JS.div daysDiff (Fin 30)))
      else YearsAgo (JSMath.floor (JS.div daysDiff (Fin 365)))
  end.

(** ** Deprecated classes *)

(** [s.includes(keyword)] *)
Fixpoint includes (s keyword : string) {struct s} : bool :=
  (String.prefix keyword s
   || match s with
      | EmptyString => false
      | String _ rest => includes rest keyword
      end)%bool.

Definition deprecatedKeywords : list string := ["Deprecated"; "Legacy"; "Obsolete"; "Old"].

(** [isDeprecated(className)] *)
Definition isDeprecated (className : string) : bool :=
  existsb (fun keyword => includes className keyword) deprecatedKeywords.

(** ** The order of painting ([renderCity]) *)

(** the items [{type: 'package', obj}] and [{type: 'building', obj}] *)
Inductive drawable : Type :=
| PackageItem (obj : PackageObj.t)
| BuildingItem (obj : Building.t).

(** [item.obj.y + item.obj.x] *)
Definition itemDepth (item : drawable) : num :=
  match item with
  | PackageItem p => JS.add (PackageObj.y p) (PackageObj.x p)
  | BuildingItem b => JS.add (Building.y b) (Building.x b)
  end.

Definition byDepth (a b : drawable) : num := JS.sub (itemDepth a) (itemDepth b).

(** [renderCity()], as the sequence of its calls of [drawPackagePlatform]
    and [drawBuilding] *)
Definition renderCity (st : State.t) : list drawable :=
  match State.projectData st with
  | None => []
  | Some _ =>
      sort byDepth (map PackageItem (State.packages st) ++ map BuildingItem (State.buildings st))
  end.

(** ** The box of a building on the screen *)

Module ScreenBounds.
Record t : Type := mk {
  minX : num;
  maxX : num;
  minY : num;
  maxY : num
}.
End ScreenBounds.

(** the eight corners that [drawBuilding] projects *)
Definition buildingCorners (v : View.t) (building : Building.t) : list Point.t :=
  let x := Building.x building in
  let y := Building.y building in
  let z := Building.z building in
  let w := Building.width building in
  let d := Building.depth building in
  let h := Building.height building in
  [ toIsometric v x y z;
    toIsometric v (JS.add x w) y z;
    toIsometric v (JS.add x w) (JS.add y d) z;
    toIsometric v x (JS.add y d) z;
    toIsometric v x y (JS.add z h);
    toIsometric v (JS.add x w) y (JS.add z h);
    toIsometric v (JS.add x w) (JS.add y d) (JS.add z h);
    toIsometric v x (JS.add y d) (JS.add z h) ].

(** the [building.screenBounds] that [drawBuilding] stores *)
Definition drawBuilding_screenBounds (v : View.t) (building : Building.t) : ScreenBounds.t :=
  let corners := buildingCorners v building in
  ScreenBounds.mk (JS.min_list (map Point.x corners)) (JS.max_list (map Point.x corners))
                  (JS.min_list (map Point.y corners)) (JS.max_list (map Point.y corners)).

(** a building object with the field that [drawBuilding] adds to it; the
    field is missing until the building has been drawn *)
Module Drawn.
Record t : Type := mk {
  building : Building.t;
  screenBounds : option ScreenBounds.t
}.
End Drawn.

(** ** The pointer *)

(** the condition of the [if] in the loop of [handleMouseMove] *)
Definition underPointer (mouseX mouseY : num) (d : Drawn.t) : bool :=
  match Drawn.screenBounds d with
  | None => false
  | Some sb =>
      JSMath.geb mouseX (ScreenBounds.minX sb) && JSMath.leb mouseX (ScreenBounds.maxX sb)
      && JSMath.geb mouseY (ScreenBounds.minY sb) && JSMath.leb mouseY (ScreenBounds.maxY sb)
  end.

(** the variables of the loop: [i], [foundHovered] and [maxDepth]; a
    building object is named by its index in [buildings] *)
Module Hit.
Record t : Type := mk {
  i : nat;
  foundHovered : option nat;
  maxDepth : num
}.
End Hit.

(** the body of the loop *)
Definition hitStep (mouseX mouseY : num) (h : Hit.t) (d : Drawn.t) : Hit.t :=
  if underPointer mouseX mouseY d then
    let depth := JS.add (Building.y (Drawn.building d)) (Building.x (Drawn.building d)) in
    if JS.gtb depth (Hit.maxDepth h)
    then Hit.mk (S (Hit.i h)) (Some (Hit.i h)) depth
    else Hit.mk (S (Hit.i h)) (Hit.foundHovered h) (Hit.maxDepth h)
  else Hit.mk (S (Hit.i h)) (Hit.foundHovered h) (Hit.maxDepth h).

(** the loop of [handleMouseMove]: the building under the pointer that is
    nearest to the viewer *)
Definition findHovered (mouseX mouseY : num) (buildings : list Drawn.t) : option nat :=
  Hit.foundHovered (fold_left (hitStep mouseX mouseY) buildings (Hit.mk 0 None NInf)).

(** [isPanning], [panStartX], ..., [hoveredBuilding], [selectedBuilding] *)
Module Pointer.
Record t : Type := mk {
  isPanning : bool;
  panStartX : num;
  panStartY : num;
  panOffsetX : num;
  panOffsetY : num;
  hoveredBuilding : option nat;
  selectedBuilding : option nat
}.
Definition initial : t := mk false (Fin 0) (Fin 0) (Fin 0) (Fin 0) None None.
End Pointer.

(** [handleMouseMove(event)]; [mouseX], [mouseY] are the position of the
    pointer on the canvas.  The view and the pointer state after it. *)
Definition handleMouseMove (mouseX mouseY : num) (buildings : list Drawn.t)
           (vp : View.t * Pointer.t) : View.t * Pointer.t :=
  let (v, p) := vp in
  if Pointer.isPanning p then
    let deltaX := JS.sub mouseX (Pointer.panStartX p) in
    let deltaY := JS.sub mouseY (Pointer.panStartY p) in
    (View.mk (View.scale v) (JS.add (Pointer.panOffsetX p) deltaX)
             (JS.add (Pointer.panOffsetY p) deltaY), p)
  else
    (v, Pointer.mk (Pointer.isPanning p) (Pointer.panStartX p) (Pointer.panStartY p)
                   (Pointer.panOffsetX p) (Pointer.panOffsetY p)
                   (findHovered mouseX mouseY buildings) (Pointer.selectedBuilding p)).

(** [handleClick(event)] *)
Definition handleClick (p : Pointer.t) : Pointer.t :=
  match Pointer.hoveredBuilding p with
  | Some b =>
      Pointer.mk (Pointer.isPanning p) (Pointer.panStartX p) (Pointer.panStartY p)
                 (Pointer.panOffsetX p) (Pointer.panOffsetY p)
                 (Pointer.hoveredBuilding p) (Some b)
  | None => p
  end.

(** [handleMouseDown(event)]; [button] is [event.button] *)
Definition handleMouseDown (button : Z) (mouseX mouseY : num) (vp : View.t * Pointer.t)
  : View.t * Pointer.t :=
  let (v, p) := vp in
  if Z.eqb button 1 then
    (v, Pointer.mk true mouseX mouseY (View.offsetX v) (View.offsetY v)
                   (Pointer.hoveredBuilding p) (Pointer.selectedBuilding p))
  else (v, p).

Definition stopPanning (p : Pointer.t) : Pointer.t :=
  Pointer.mk false (Pointer.panStartX p) (Pointer.panStartY p)
             (Pointer.panOffsetX p) (Pointer.panOffsetY p)
             (Pointer.hoveredBuilding p) (Pointer.selectedBuilding p).

(** [handleMouseUp(event)] *)
Definition handleMouseUp (button : Z) (vp : View.t * Pointer.t) : View.t * Pointer.t :=
  let (v, p) := vp in
  if Z.eqb button 1 then (v, stopPanning p) else (v, p).

(** [handleMouseLeave(event)] *)
Definition handleMouseLeave (vp : View.t * Pointer.t) : View.t * Pointer.t :=
  let (v, p) := vp in
  if Pointer.isPanning p then (v, stopPanning p) else (v, p).

(** [handleWheel(event)]; [deltaY] is [event.deltaY] *)
Definition handleWheel (mouseX mouseY deltaY : num) (v : View.t) : View.t :=
  let zoomIntensity := Fin 0.1 in
  let wheel := if JS.ltb deltaY (Fin 0) then Fin 1 else Fin (-1) in
  let zoom := JSMath.exp (JS.mul wheel zoomIntensity) in
  let worldX := JS.div (JS.sub mouseX (View.offsetX v)) (View.scale v) in
  let worldY := JS.div (JS.sub mouseY (View.offsetY v)) (View.scale v) in
  let newScale := JS.mul (View.scale v) zoom in
  let scale := JS.max (Fin 0.1) (JS.min (Fin 5) newScale) in
  View.mk scale (JS.sub mouseX (JS.mul worldX scale)) (JS.sub mouseY (JS.mul worldY scale)).

(** ** The layout strategy radios ([setupLayoutControls]) *)

(** the [change] listener of a radio whose value is [value]; [renderCity]
    only paints *)
Definition layoutRadio_change (env : Env.t) (value : string) (st : State.t) : State.t :=
  let toggles := State.toggles st in
  let st :=
    State.mk (State.projectData st) (State.buildings st) (State.packages st)
             (State.gitColorManager st) (State.gitNormalization st) (State.view st)
             (Toggles.mk value (Toggles.showGitData toggles) (Toggles.showFrequency toggles)
                         (Toggles.showAge toggles) (Toggles.showRecentGlow toggles)
                         (Toggles.colorBlindMode toggles))
             (State.fileStatus st) in
  match State.projectData st with
  | Some data => processData env data st
  | None => st
  end.

(** ** The statistics of the project ([displayProjectStats]) *)

(** [largestClass], [smallestClass], [largestLoc], [smallestLoc] *)
Module Extremes.
Record t : Type := mk {
  largestClass : option string;
  smallestClass : option string;
  largestLoc : num;
  smallestLoc : num
}.
Definition initial : t := mk None None (Fin 0) PInf.
End Extremes.

(** the body of [pkg.classes.forEach(cls => ...)] *)
Definition statsStep (e : Extremes.t) (cls : Class.t) : Extremes.t :=
  let loc := JS.of_field (Class.linesOfCode cls) in
  let e :=
    if JS.gtb loc (Extremes.largestLoc e)
    then Extremes.mk (Some (Class.name cls)) (Extremes.smallestClass e) loc
                     (Extremes.smallestLoc e)
    else e in
  if JS.ltb loc (Extremes.smallestLoc e)
  then Extremes.mk (Extremes.largestClass e) (Some (Class.name cls)) (Extremes.largestLoc e) loc
  else e.

(** the numbers that [displayProjectStats] writes into the page *)
Module Stats.
Record t : Type := mk {
  totalPackages : num;
  totalClasses : num;
  totalLoc : num;
  avgLocPerClass : num;
  extremes : Extremes.t
}.
End Stats.

(** [displayProjectStats(data)] *)
Definition displayProjectStats (data : Data.t) : Stats.t :=
  let totalPackages := of_nat (List.length (Data.packages data)) in
  let totalClasses :=
    fold_left (fun sum pkg => JS.add sum (of_nat (List.length (Package.classes pkg))))
              (Data.packages data) (Fin 0) in
  let totalLoc :=
    fold_left
      (fun sum pkg =>
         JS.add sum
                (fold_left (fun s cls => JS.add s (JS.of_field (Class.linesOfCode cls)))
                           (Package.classes pkg) (Fin 0)))
      (Data.packages data) (Fin 0) in
  let avgLocPerClass := JSMath.round (JS.div totalLoc totalClasses) in
  let extremes :=
    fold_left (fun e pkg => fold_left statsStep (Package.classes pkg) e)
              (Data.packages data) Extremes.initial in
  Stats.mk totalPackages totalClasses totalLoc avgLocPerClass extremes.

(** * The vocabulary of the properties *)

(** ** Footprints of the buildings of one package

    [layoutPackagesInRegion] gives the building of a position the footprint
    [calculateBuildingFootprint(pos.class.linesOfCode)], the one
    [calculatePackageLayout] advanced its cursor with. *)

Definition footprintOf (p : Position.t) : Footprint.t :=
  calculateBuildingFootprint (JS.of_field (Class.linesOfCode (Position.class p))).

(** two buildings of a package do not overlap: one ends, in x or in y,
    where the other begins or before *)
Definition disjoint (p q : Position.t) : Prop :=
  JS.le (JS.add (Position.x p) (Footprint.width (footprintOf p))) (Position.x q) \/
  JS.le (JS.add (Position.x q) (Footprint.width (footprintOf q))) (Position.x p) \/
  JS.le (JS.add (Position.y p) (Footprint.depth (footprintOf p))) (Position.y q) \/
  JS.le (JS.add (Position.y q) (Footprint.depth (footprintOf q))) (Position.y p).

(** the building lies on the platform of its package, the padding away
    from each of the four edges *)
Definition inside (L : PkgLayout.t) (p : Position.t) : Prop :=
  JS.le CONFIG.packagePadding (Position.x p) /\
  JS.le (JS.add (JS.add (Position.x p) (Footprint.width (footprintOf p))) CONFIG.packagePadding)
        (PkgLayout.width L) /\
  JS.le CONFIG.packagePadding (Position.y p) /\
  JS.le (JS.add (JS.add (Position.y p) (Footprint.depth (footprintOf p))) CONFIG.packagePadding)
        (PkgLayout.depth L).

(** the width and the depth of the package are the greatest end-x and the
    greatest end-y of its buildings plus the padding *)
Definition tight (L : PkgLayout.t) : Prop :=
  (exists p, In p (PkgLayout.positions L) /\
     PkgLayout.width L
     = JS.add (JS.add (Position.x p) (Footprint.width (footprintOf p))) CONFIG.packagePadding) /\
  (exists p, In p (PkgLayout.positions L) /\
     PkgLayout.depth L
     = JS.add (JS.add (Position.y p) (Footprint.depth (footprintOf p))) CONFIG.packagePadding).

(** a class record of the data model: its lines of code are there and are
    not negative *)
Definition wellFormedClass (cls : Class.t) : Prop :=
  exists n : Z, Class.linesOfCode cls = Some n /\ (0 <= n)%Z.

(** the side of the square footprint of a class of [n] lines *)
Definition footprintSide (n : Z) : R := Rmin 80 (Rmax 20 (30 * sqrt (IZR n / 50))).

(** the position [p] is the rectangle at [(x, y)] of width [w] and depth [d] *)
Definition placedAt (p : Position.t) (x y w d : R) : Prop :=
  Position.x p = Fin x /\ Position.y p = Fin y /\
  footprintOf p = Footprint.mk (Fin w) (Fin d).

(** [mw] and [td] are the greatest end-x and end-y of the positions [ps];
    before the first position they are 0 and the padding *)
Definition reaches (ps : list Position.t) (mw td : R) : Prop :=
  (ps = [] /\ mw = 0 /\ td = 20) \/
  ((exists p x y w d, In p ps /\ placedAt p x y w d /\ x + w = mw) /\
   (exists p x y w d, In p ps /\ placedAt p x y w d /\ y + d = td)).

(** the invariant of the loop of [calculatePackageLayout]: the rows above
    the current one end a spacing before it, the buildings of the current
    row end a spacing before the cursor *)
Definition cursorInv (c : Cursor.t) : Prop :=
  exists cx cy rh mw td : R,
    Cursor.currentX c = Fin cx /\ Cursor.currentY c = Fin cy /\
    Cursor.rowHeight c = Fin rh /\ Cursor.maxWidth c = Fin mw /\
    Cursor.totalDepth c = Fin td /\
    20 <= cx /\ 20 <= cy /\ 0 <= rh /\ 0 <= mw /\ 20 <= td /\
    (forall p, In p (Cursor.positions c) ->
       exists x y w d, placedAt p x y w d /\
         20 <= x /\ 20 <= y /\ 0 < w /\ 0 < d /\
         x + w <= mw /\ y + d <= td /\ y + d <= cy + rh /\
         (y + d + 5 <= cy \/ (y = cy /\ x + w + 5 <= cx))) /\
    ForallOrdPairs disjoint (Cursor.positions c) /\
    reaches (Cursor.positions c) mw td.


(** all class records of a data set, in the order the loops visit them *)
Definition allClasses (data : Data.t) : list Class.t :=
  flat_map Package.classes (Data.packages data).

(** the maxima that the scan has found are non-negative integers *)
Definition scanInv (g : GitScan.t) : Prop :=
  exists c a : Z, (0 <= c)%Z /\ (0 <= a)%Z /\
    GitScan.maxCommits g = JS.of_Z c /\ GitScan.maxAuthors g = JS.of_Z a.

(** no class record of the list carries a [lastModified] *)
Definition noDates (l : list Class.t) : Prop :=
  forall cls gm, In cls l -> Class.gitMetadata cls = Some gm ->
                 GitMetadata.lastModified gm = None.

(** two states hold the same placements: the same packages and the same
    buildings, in the same order *)
Definition samePlacements (s1 s2 : State.t) : Prop :=
  State.packages s1 = State.packages s2 /\ State.buildings s1 = State.buildings s2.

(** the data set of the scenario: one package "a.b" with the classes X of
    150 lines and Y of 85 lines, no git metadata *)
Definition scenarioData : Data.t :=
  Data.mk [ Package.mk "a.b" [ Class.mk "X" (Some 150%Z) None;
                               Class.mk "Y" (Some 85%Z) None ] ].

(** the height that [makeBuilding] gives the building of a class *)
Definition heightOfClass (cls : Class.t) : num :=
  JS.max CONFIG.minBuildingHeight
         (JS.mul (JS.of_field (Class.linesOfCode cls)) CONFIG.locToHeightScale).

(** what the scenario looks at in a building: name, height, metadata, colour *)
Definition summary (b : Building.t) : string * num * option GitMetadata.t * string :=
  (Building.className b, Building.height b, Building.gitMetadata b, Building.color b).

Definition summaryOfClass (cls : Class.t) : string * num * option GitMetadata.t * string :=
  (Class.name cls, heightOfClass cls, Class.gitMetadata cls, CONFIG.buildingBaseColor).

Definition scenarioEnv : Env.t := Env.mk (Fin 0) (Fin 800) (Fin 600).

(** ** Hue and saturation of a fill colour

    To compare a colour string such as [#34495e] with a hue and a
    saturation, the usual conversion of RGB to HSL: the hue in degrees, the
    saturation in percent. *)

Definition hexDigit (c : Ascii.ascii) : option Z :=
  let n := Z.of_nat (Ascii.nat_of_ascii c) in
  if (48 <=? n)%Z && (n <=? 57)%Z then Some (n - 48)%Z
  else if (97 <=? n)%Z && (n <=? 102)%Z then Some (n - 87)%Z
  else if (65 <=? n)%Z && (n <=? 70)%Z then Some (n - 55)%Z
  else None.

Definition hexPair (a b : Ascii.ascii) : option Z :=
  match hexDigit a, hexDigit b with
  | Some h, Some l => Some (16 * h + l)%Z
  | _, _ => None
  end.

(** the three channels of a colour string [#rrggbb] *)
Definition rgbOfHex (s : string) : option (Z * Z * Z) :=
  match s with
  | String "#"%char (String r1 (String r2 (String g1 (String g2 (String b1 (String b2
      EmptyString)))))) =>
      match hexPair r1 r2, hexPair g1 g2, hexPair b1 b2 with
      | Some r, Some g, Some b => Some (r, g, b)
      | _, _, _ => None
      end
  | _ => None
  end.

Definition hueOfRgb (r g b : Z) : R :=
  let M := Z.max r (Z.max g b) in
  let m := Z.min r (Z.min g b) in
  if Z.eqb M m then 0
  else if Z.eqb M r then
    60 * (IZR (g - b) / IZR (M - m)) + (if Z.ltb g b then 360 else 0)
  else if Z.eqb M g then 60 * (IZR (b - r) / IZR (M - m) + 2)
  else 60 * (IZR (r - g) / IZR (M - m) + 4).

Definition saturationOfRgb (r g b : Z) : R :=
  let M := Z.max r (Z.max g b) in
  let m := Z.min r (Z.min g b) in
  if Z.eqb M m then 0
  else 100 * IZR (M - m) / IZR (255 - Z.abs (M + m - 255)).

Definition finiteValue (a : num) : option R :=
  match a with
  | Fin r => Some r
  | _ => None
  end.

(** the three channels of a string [rgb(r, g, b)]: whole numbers, taken
    into the range from 0 to 255; a string with NaN or an infinity is no
    colour *)
Definition channel (a : num) : option Z :=
  match a with
  | Fin x => Some (Z.max 0 (Z.min 255 (Int_part x)))
  | _ => None
  end.

Definition rgbOfChannels (r g b : num) : option (Z * Z * Z) :=
  match channel r, channel g, channel b with
  | Some r, Some g, Some b => Some (r, g, b)
  | _, _, _ => None
  end.

Definition fillRgb (f : fillStyle) : option (Z * Z * Z) :=
  match f with
  | CssColor s => rgbOfHex s
  | RgbColor r g b => rgbOfChannels r g b
  | HslColor _ => None
  end.

Definition fillHue (f : fillStyle) : option R :=
  match f with
  | HslColor c => finiteValue (Color.hue c)
  | _ =>
      match fillRgb f with
      | Some (r, g, b) => Some (hueOfRgb r g b)
      | None => None
      end
  end.

Definition fillSaturation (f : fillStyle) : option R :=
  match f with
  | HslColor c => finiteValue (Color.saturation c)
  | _ =>
      match fillRgb f with
      | Some (r, g, b) => Some (saturationOfRgb r g b)
      | None => None
      end
  end.

(** the fills of the three faces that [drawBuilding] paints: top, right,
    left *)
Definition faceFills (p : Paint.t) : list fillStyle :=
  [topFaceFill p; rightFaceFill p; leftFaceFill p].

(** ** The TypeError of a read on null

    The message that V8 gives the TypeError of [data.packages] when [data]
    is null.  Other engines word it differently. *)
Definition nullReadMessage : string :=
  "Cannot read properties of null (reading 'packages')".

(** ** The view fit, as the design states it

    Over the reals: the bounding box of a list of boxes, its eight corners
    under the isometric projection, the extents of the projected corners
    and the scale that fits them into the canvas less a padding of 50 on
    each side, at most 1.5. *)

Module Geometry.

Record Box : Type := mkBox {
  x : R;
  y : R;
  z : R;
  width : R;
  depth : R;
  height : R
}.

(** least and greatest element of a list (0 for the empty list) *)
Definition minOf (l : list R) : R :=
  match l with
  | [] => 0
  | a :: l' => fold_left Rmin l' a
  end.

Definition maxOf (l : list R) : R :=
  match l with
  | [] => 0
  | a :: l' => fold_left Rmax l' a
  end.

Record Bounds3 : Type := mkBounds3 {
  minX : R;
  maxX : R;
  minY : R;
  maxY : R;
  minZ : R;
  maxZ : R
}.

Definition boundingBox (boxes : list Box) : Bounds3 :=
  mkBounds3 (minOf (map x boxes)) (maxOf (map (fun b => x b + width b) boxes))
            (minOf (map y boxes)) (maxOf (map (fun b => y b + depth b) boxes))
            (minOf (map z boxes)) (maxOf (map (fun b => z b + height b) boxes)).

Definition corners3 (b : Bounds3) : list (R * R * R) :=
  [ (minX b, minY b, minZ b); (maxX b, minY b, minZ b);
    (maxX b, maxY b, minZ b); (minX b, maxY b, minZ b);
    (minX b, minY b, maxZ b); (maxX b, minY b, maxZ b);
    (maxX b, maxY b, maxZ b); (minX b, maxY b, maxZ b) ].

Definition isoX (c : R * R * R) : R :=
  let '(x, y, _) := c in (x - y) * cos (PI / 6).

Definition isoY (c : R * R * R) : R :=
  let '(x, y, z) := c in (x + y) * sin (PI / 6) - z.

Definition projectedWidth (b : Bounds3) : R :=
  maxOf (map isoX (corners3 b)) - minOf (map isoX (corners3 b)).

Definition projectedHeight (b : Bounds3) : R :=
  maxOf (map isoY (corners3 b)) - minOf (map isoY (corners3 b)).

Definition padding : R := 50.

Definition fitScale (canvasWidth canvasHeight : R) (b : Bounds3) : R :=
  Rmin (Rmin ((canvasWidth - 2 * padding) / projectedWidth b)
             ((canvasHeight - 2 * padding) / projectedHeight b))
       1.5.

(** a box of the data model: a positive footprint, a height that is not
    negative *)
Definition proper (b : Box) : Prop := 0 < width b /\ 0 < depth b /\ 0 <= height b.

End Geometry.

(** position and size of a placement, as six numbers *)
Definition geometry : Type := (num * num * num * num * num * num)%type.

Definition packageGeometry (p : PackageObj.t) : geometry :=
  (PackageObj.x p, PackageObj.y p, PackageObj.z p,
   PackageObj.width p, PackageObj.depth p, PackageObj.height p).

Definition buildingGeometry (b : Building.t) : geometry :=
  (Building.x b, Building.y b, Building.z b,
   Building.width b, Building.depth b, Building.height b).

(** all placements of the city, in the order [calculateViewTransform]
    visits them *)
Definition cityGeometry (st : State.t) : list geometry :=
  map packageGeometry (State.packages st) ++ map buildingGeometry (State.buildings st).

Definition liftBox (b : Geometry.Box) : geometry :=
  (Fin (Geometry.x b), Fin (Geometry.y b), Fin (Geometry.z b),
   Fin (Geometry.width b), Fin (Geometry.depth b), Fin (Geometry.height b)).

Definition growByGeometry (b : Bounds.t) (g : geometry) : Bounds.t :=
  let '(x, y, z, w, d, h) := g in growBounds b x y z w d h.

Definition liftBounds (b : Geometry.Bounds3) : Bounds.t :=
  Bounds.mk (Fin (Geometry.minX b)) (Fin (Geometry.maxX b))
            (Fin (Geometry.minY b)) (Fin (Geometry.maxY b))
            (Fin (Geometry.minZ b)) (Fin (Geometry.maxZ b)).

(** the eight corners of the bounding box, projected with the view [v] *)
Definition projectedCorners (v : View.t) (b : Geometry.Bounds3) : list Point.t :=
  map (fun c : R * R * R => let '(x, y, z) := c in toIsometric v (Fin x) (Fin y) (Fin z))
      (Geometry.corners3 b).

(** the centre of the bounding rectangle of a list of screen points *)
Definition screenCenter (l : list Point.t) : Point.t :=
  Point.mk (JS.div (JS.add (JS.min_list (map Point.x l)) (JS.max_list (map Point.x l)))
                   (Fin 2))
           (JS.div (JS.add (JS.min_list (map Point.y l)) (JS.max_list (map Point.y l)))
                   (Fin 2)).

(** a placement with finite coordinates, a positive footprint and a height
    that is not negative *)
Definition properGeometry (g : geometry) : Prop :=
  exists box, g = liftBox box /\ Geometry.proper box.

(** a data set of the data model: every class record is well formed *)
Definition wellFormedData (data : Data.t) : Prop :=
  Forall (fun pkg => Forall wellFormedClass (Package.classes pkg)) (Data.packages data).

(** the invariant of the loop of [layoutPackagesInRegion] *)
Definition regionInv (r : Region.t) : Prop :=
  (exists px py mh,
      Region.packageX r = Fin px /\ Region.packageY r = Fin py /\
      Region.maxRowHeight r = Fin mh) /\
  Forall properGeometry (map packageGeometry (Region.packages r)) /\
  Forall properGeometry (map buildingGeometry (Region.buildings r)).

(** the placements of a state are all proper *)
Definition properCity (st : State.t) : Prop :=
  Forall properGeometry (map packageGeometry (State.packages st)) /\
  Forall properGeometry (map buildingGeometry (State.buildings st)).

(** ** Order of the placements *)

(** the lines of code of a class record, 0 when the field is missing *)
Definition locOf (cls : Class.t) : Z :=
  match Class.linesOfCode cls with
  | Some n => n
  | None => 0%Z
  end.

(** the class records of the list with exactly [n] lines of code, in order *)
Definition withLines (n : Z) (l : list Class.t) : list Class.t :=
  filter (fun cls => Z.eqb (locOf cls) n) l.

(** on the list [l] the comparator [cmp] says "a after b" exactly when the
    rank of [a] is the greater one *)
Definition ranksBy {A : Type} (cmp : A -> A -> num) (rank : A -> R) (l : list A) : Prop :=
  forall a b, In a l -> In b l ->
              (JS.gtb (cmp a b) (Fin 0) = true <-> rank b < rank a).

(** ** What a layout places *)

(** the packages by mass, as [processData] hands them to the layout *)
Definition packagesByMass (data : Data.t) : list PkgWithMass.t :=
  sort byMassDesc
       (map (fun pkg => PkgWithMass.mk pkg (calculatePackageMass pkg)) (Data.packages data)).

(** the names of the classes of a package in the order of its buildings *)
Definition classNamesInOrder (pkg : Package.t) : list string :=
  map Class.name (sort byLinesOfCodeDesc (Package.classes pkg)).

(** the platform [P] carries the package [pkg]: its name, and one building
    per class, in the order of the layout *)
Definition carries (P : PackageObj.t) (pkg : Package.t) : Prop :=
  PackageObj.name P = Package.name pkg /\
  map Building.className (PackageObj.buildings P) = classNamesInOrder pkg /\
  Forall (fun b => Building.packageName b = Package.name pkg) (PackageObj.buildings P).

(** ** Platforms and buildings in the coordinates of the city *)

(** two buildings do not overlap: one ends, in x or in y, where the other
    begins or before *)
Definition buildingsDisjoint (a b : Building.t) : Prop :=
  JS.le (JS.add (Building.x a) (Building.width a)) (Building.x b) \/
  JS.le (JS.add (Building.x b) (Building.width b)) (Building.x a) \/
  JS.le (JS.add (Building.y a) (Building.depth a)) (Building.y b) \/
  JS.le (JS.add (Building.y b) (Building.depth b)) (Building.y a).

Definition platformsDisjoint (P Q : PackageObj.t) : Prop :=
  JS.le (JS.add (PackageObj.x P) (PackageObj.width P)) (PackageObj.x Q) \/
  JS.le (JS.add (PackageObj.x Q) (PackageObj.width Q)) (PackageObj.x P) \/
  JS.le (JS.add (PackageObj.y P) (PackageObj.depth P)) (PackageObj.y Q) \/
  JS.le (JS.add (PackageObj.y Q) (PackageObj.depth Q)) (PackageObj.y P).

(** the building stands on the platform, the padding away from its edges *)
Definition onPlatform (P : PackageObj.t) (b : Building.t) : Prop :=
  JS.le (JS.add (PackageObj.x P) CONFIG.packagePadding) (Building.x b) /\
  JS.le (JS.add (JS.add (Building.x b) (Building.width b)) CONFIG.packagePadding)
        (JS.add (PackageObj.x P) (PackageObj.width P)) /\
  JS.le (JS.add (PackageObj.y P) CONFIG.packagePadding) (Building.y b) /\
  JS.le (JS.add (JS.add (Building.y b) (Building.depth b)) CONFIG.packagePadding)
        (JS.add (PackageObj.y P) (PackageObj.depth P)).

(** the rectangles of a building and of a platform, in reals *)
Definition buildingRect (b : Building.t) (x y w d : R) : Prop :=
  Building.x b = Fin x /\ Building.y b = Fin y /\
  Building.width b = Fin w /\ Building.depth b = Fin d.

Definition platformRect (P : PackageObj.t) (x y w d : R) : Prop :=
  PackageObj.x P = Fin x /\ PackageObj.y P = Fin y /\
  PackageObj.width P = Fin w /\ PackageObj.depth P = Fin d.

(** a platform with its buildings on it, no two of them overlapping *)
Definition wellPlaced (P : PackageObj.t) : Prop :=
  exists x y w d,
    platformRect P x y w d /\ 0 < w /\ 0 < d /\
    (forall b, In b (PackageObj.buildings P) ->
       exists bx bY bw bd,
         buildingRect b bx bY bw bd /\ 0 < bw /\ 0 < bd /\
         x + 20 <= bx /\ bx + bw + 20 <= x + w /\
         y + 20 <= bY /\ bY + bd + 20 <= y + d) /\
    ForallOrdPairs buildingsDisjoint (PackageObj.buildings P).

(** the invariant of the loop of [layoutPackagesInRegion] for the platforms
    [cur] it has placed: the rows above the current one end where it begins
    or before, the platforms of the current row end at the cursor or before *)
Definition rowsInv (r : Region.t) (cur : list PackageObj.t) : Prop :=
  exists px py mh,
    Region.packageX r = Fin px /\ Region.packageY r = Fin py /\
    Region.maxRowHeight r = Fin mh /\ 0 <= mh /\
    (forall P, In P cur ->
       exists x y w d, platformRect P x y w d /\
         y + d <= py + mh /\ (y + d <= py \/ (y = py /\ x + w <= px))) /\
    ForallOrdPairs platformsDisjoint cur /\
    Forall wellPlaced cur.

(** ** The pointer and the boxes on the screen *)

(** the depth by which [handleMouseMove] and [renderCity] order buildings *)
Definition buildingDepth (b : Building.t) : num := JS.add (Building.y b) (Building.x b).

Definition finiteDepth (d : Drawn.t) : Prop :=
  exists r : R, buildingDepth (Drawn.building d) = Fin r.

(** the invariant of the loop of [handleMouseMove] after the buildings
    [pre]: the building found is under the pointer, no building under the
    pointer is nearer to the viewer, none before it is as near *)
Definition hitInv (mouseX mouseY : num) (pre : list Drawn.t) (h : Hit.t) : Prop :=
  Hit.i h = List.length pre /\
  match Hit.foundHovered h with
  | None =>
      Hit.maxDepth h = NInf /\ Forall (fun d => underPointer mouseX mouseY d = false) pre
  | Some i =>
      exists d m,
        nth_error pre i = Some d /\ underPointer mouseX mouseY d = true /\
        buildingDepth (Drawn.building d) = Fin m /\ Hit.maxDepth h = Fin m /\
        forall j d' m',
          nth_error pre j = Some d' -> underPointer mouseX mouseY d' = true ->
          buildingDepth (Drawn.building d') = Fin m' ->
          m' <= m /\ ((j < i)%nat -> m' < m)
  end.

(** a building with finite coordinates and sizes that are not negative *)
Definition buildingBox (b : Building.t) (x y z w d h : R) : Prop :=
  Building.x b = Fin x /\ Building.y b = Fin y /\ Building.z b = Fin z /\
  Building.width b = Fin w /\ Building.depth b = Fin d /\ Building.height b = Fin h /\
  0 <= w /\ 0 <= d /\ 0 <= h.

(** the building as [drawBuilding] leaves it *)
Definition drawn (v : View.t) (b : Building.t) : Drawn.t :=
  Drawn.mk b (Some (drawBuilding_screenBounds v b)).

(** the eight corners of a box, and where the view draws a point *)
Definition boxCorners (x y z w d h : R) : list (R * R * R) :=
  [ (x, y, z); (x + w, y, z); (x + w, y + d, z); (x, y + d, z);
    (x, y, z + h); (x + w, y, z + h); (x + w, y + d, z + h); (x, y + d, z + h) ].

Definition screenX (s ox : R) (c : R * R * R) : R :=
  let '(x, y, _) := c in (x - y) * cos CONFIG.isoAngle * s + ox.

Definition screenY (s oy : R) (c : R * R * R) : R :=
  let '(x, y, z) := c in ((x + y) * sin CONFIG.isoAngle - z) * s + oy.

(** the depth of an item as a real (0 when it is not finite) *)
Definition depthRank (item : drawable) : R :=
  match itemDepth item with
  | Fin r => r
  | _ => 0
  end.

(** [a] is painted before [b] *)
Definition paintedBefore (items : list drawable) (a b : drawable) : Prop :=
  exists i j, (i < j)%nat /\ nth_error items i = Some a /\ nth_error items j = Some b.

(** ** The shape of a building *)

(** the building of a class of [n >= 0] lines: on the platform, as high as
    0.8 per line but 10 at least, on a square of side [footprintSide n], in
    the base colour *)
Definition shapedBuilding (b : Building.t) : Prop :=
  exists n : Z,
    Building.linesOfCode b = Some n /\ (0 <= n)%Z /\
    Building.z b = Fin 5 /\
    Building.height b = Fin (Rmax 10 (IZR n * 0.8)) /\
    Building.width b = Fin (footprintSide n) /\
    Building.depth b = Fin (footprintSide n) /\
    Building.color b = "#34495e".

(** a platform: on the ground, 5 high, with shaped buildings *)
Definition shapedPlatform (P : PackageObj.t) : Prop :=
  PackageObj.z P = Fin 0 /\ PackageObj.height P = Fin 5 /\
  Forall shapedBuilding (PackageObj.buildings P).

(** ** The statistics *)

(** the sum of the lines of code of a list of classes *)
Definition totalLines (l : list Class.t) : Z := fold_right (fun cls s => (locOf cls + s)%Z) 0%Z l.

(** [c] is the first class of [l] whose lines of code are the greatest *)
Definition firstLargest (l : list Class.t) (c : Class.t) : Prop :=
  exists before after,
    l = before ++ c :: after /\
    (forall c', In c' before -> (locOf c' < locOf c)%Z) /\
    (forall c', In c' after -> (locOf c' <= locOf c)%Z).

(** [c] is the first class of [l] whose lines of code are the least *)
Definition firstSmallest (l : list Class.t) (c : Class.t) : Prop :=
  exists before after,
    l = before ++ c :: after /\
    (forall c', In c' before -> (locOf c < locOf c')%Z) /\
    (forall c', In c' after -> (locOf c <= locOf c')%Z).

(** the invariant of the loop of [displayProjectStats] after the classes
    [seen] *)
Definition extremesInv (seen : list Class.t) (e : Extremes.t) : Prop :=
  ((Extremes.largestClass e = None /\ Extremes.largestLoc e = Fin 0 /\
    forall c, In c seen -> locOf c = 0%Z) \/
   (exists c, firstLargest seen c /\ (0 < locOf c)%Z /\
              Extremes.largestClass e = Some (Class.name c) /\
              Extremes.largestLoc e = JS.of_Z (locOf c))) /\
  ((seen = [] /\ Extremes.smallestClass e = None /\ Extremes.smallestLoc e = PInf) \/
   (exists c, firstSmallest seen c /\
              Extremes.smallestClass e = Some (Class.name c) /\
              Extremes.smallestLoc e = JS.of_Z (locOf c))).

(** ** The maxima of the git metadata *)

(** the maxima that the scan has found bound the commits and the authors
    of the classes [seen] *)
Definition gitBounds (seen : list Class.t) (g : GitScan.t) : Prop :=
  exists c a : Z,
    (0 <= c)%Z /\ (0 <= a)%Z /\
    GitScan.maxCommits g = JS.of_Z c /\ GitScan.maxAuthors g = JS.of_Z a /\
    forall cls gm, In cls seen -> Class.gitMetadata cls = Some gm ->
      (forall k, GitMetadata.commits gm = Some k -> (k <= c)%Z) /\
      (forall k, GitMetadata.authors gm = Some k -> (k <= a)%Z).

(** ** Rows of buildings *)

(** the position [q], placed [j]-th, relative to [p], placed [i]-th before
    it, when the rows hold [m] buildings: in the same row they have the
    same y, and [q] follows [p] directly at the spacing; a later row begins
    beyond the end of [p] and the spacing *)
Definition inRows (m i j : nat) (p q : Position.t) : Prop :=
  ((i / m = j / m)%nat -> Position.y q = Position.y p) /\
  ((i / m < j / m)%nat ->
   JS.le (JS.add (JS.add (Position.y p) (Footprint.depth (footprintOf p)))
                 CONFIG.buildingSpacing)
         (Position.y q)) /\
  (j = S i -> (j mod m)%nat <> 0%nat ->
   Position.x q
   = JS.add (JS.add (Position.x p) (Footprint.width (footprintOf p))) CONFIG.buildingSpacing).

(** the invariant of the loop of [calculatePackageLayout] for the rows *)
Definition rowsOf (m : nat) (c : Cursor.t) : Prop :=
  Cursor.index c = List.length (Cursor.positions c) /\
  exists cx cy rh : R,
    Cursor.currentX c = Fin cx /\ Cursor.currentY c = Fin cy /\ Cursor.rowHeight c = Fin rh /\
    (Cursor.positions c = [] -> cx = 20) /\
    (forall i p, nth_error (Cursor.positions c) i = Some p ->
       exists x y w d,
         placedAt p x y w d /\
         y + d <= cy + rh /\
         ((i / m = (List.length (Cursor.positions c) - 1) / m)%nat -> y = cy) /\
         ((i / m < (List.length (Cursor.positions c) - 1) / m)%nat -> y + d + 5 <= cy) /\
         ((i mod m)%nat = 0%nat -> x = 20) /\
         (S i = List.length (Cursor.positions c) -> cx = x + w + 5)) /\
    (forall i j p q, (i < j)%nat ->
       nth_error (Cursor.positions c) i = Some p ->
       nth_error (Cursor.positions c) j = Some q -> inRows m i j p q).

(** ** The order of the packages *)

(** the mass of a package of the data model: the lines of code of its classes *)
Definition massOf (pkg : Package.t) : Z := totalLines (Package.classes pkg).

(** the packages of the list with the mass [n], in order *)
Definition withMass (n : Z) (l : list Package.t) : list Package.t :=
  filter (fun pkg => Z.eqb (massOf pkg) n) l.

(** where the first platform is placed: the origin with the grid strategy,
    the corner of the first quadrant with the other *)
Definition firstCorner (strategy : string) (packages : nat) : num :=
  if String.eqb strategy "grid" then Fin 0
  else of_nat (ceil_sqrt (ceil_div packages 4) * 150).

(** ** Platforms that overlap *)

(** the two platforms have a point of the plane in common that lies
    strictly inside both *)
Definition platformsOverlap (P Q : PackageObj.t) : Prop :=
  JS.ltb (PackageObj.x P) (JS.add (PackageObj.x Q) (PackageObj.width Q)) = true /\
  JS.ltb (PackageObj.x Q) (JS.add (PackageObj.x P) (PackageObj.width P)) = true /\
  JS.ltb (PackageObj.y P) (JS.add (PackageObj.y Q) (PackageObj.depth Q)) = true /\
  JS.ltb (PackageObj.y Q) (JS.add (PackageObj.y P) (PackageObj.depth P)) = true.

(** a package of three classes or more, each of 356 lines or more, so that
    each of its buildings has the greatest footprint *)
Definition largePackage (pkg : Package.t) : Prop :=
  (3 <= List.length (Package.classes pkg))%nat /\
  Forall (fun cls => exists n : Z, Class.linesOfCode cls = Some n /\ (356 <= n)%Z)
         (Package.classes pkg).

(** * Properties *)

(** ** Comparison and absorption lemmas for [JS.num] *)

Lemma Rltb_true (a b : R) : a < b -> JS.Rltb a b = true.
Proof. intros H. unfold JS.Rltb. destruct (Rlt_dec a b); [reflexivity | contradiction]. Qed.

Lemma Rltb_false (a b : R) : b <= a -> JS.Rltb a b = false.
Proof. intros H. unfold JS.Rltb. destruct (Rlt_dec a b); [lra | reflexivity]. Qed.

Lemma Reqb_true (a b : R) : a = b -> JS.Reqb a b = true.
Proof. intros H. unfold JS.Reqb. destruct (Req_dec_T a b); [reflexivity | contradiction]. Qed.

Lemma Reqb_false (a b : R) : a <> b -> JS.Reqb a b = false.
Proof. intros H. unfold JS.Reqb. destruct (Req_dec_T a b); [contradiction | reflexivity]. Qed.

Lemma add_NaN_r (a : num) : JS.add a NaN = NaN.
Proof. destruct a; reflexivity. Qed.

Lemma div_Fin (x y : R) : y <> 0 -> JS.div (Fin x) (Fin y) = Fin (x / y).
Proof. intros H. unfold JS.div. rewrite Reqb_false by assumption. reflexivity. Qed.

Lemma sqrt_Fin (x : R) : 0 <= x -> JS.sqrt (Fin x) = Fin (sqrt x).
Proof. intros H. unfold JS.sqrt. rewrite Rltb_false by assumption. reflexivity. Qed.

(** ** The footprint of a class *)

Lemma footprintSide_bounds (n : Z) : 20 <= footprintSide n <= 80.
Proof.
  unfold footprintSide. split.
  - apply Rmin_glb; [lra | apply Rmax_l].
  - apply Rmin_l.
Qed.

Lemma calculateBuildingFootprint_of_Z (n : Z) :
  (0 <= n)%Z ->
  calculateBuildingFootprint (JS.of_Z n)
  = Footprint.mk (Fin (footprintSide n)) (Fin (footprintSide n)).
Proof.
  intros Hn. apply IZR_le in Hn.
  unfold calculateBuildingFootprint, JS.of_Z.
  rewrite div_Fin by lra.
  rewrite sqrt_Fin by (unfold Rdiv; nra).
  reflexivity.
Qed.

(** outside the data model: a negative [linesOfCode] has a NaN footprint *)
Lemma calculateBuildingFootprint_negative (n : Z) :
  (n < 0)%Z -> calculateBuildingFootprint (JS.of_Z n) = Footprint.mk NaN NaN.
Proof.
  intros Hn. apply IZR_lt in Hn.
  unfold calculateBuildingFootprint, JS.of_Z.
  rewrite div_Fin by lra. unfold JS.sqrt.
  rewrite Rltb_true by (unfold Rdiv; nra). reflexivity.
Qed.

(** ** Sorting permutes *)

Lemma insert_perm {A : Type} (cmp : A -> A -> num) (a : A) (l : list A) :
  Permutation (insert cmp a l) (a :: l).
Proof.
  induction l as [|b l IH]; cbn [insert].
  - apply Permutation_refl.
  - destruct (JS.gtb (cmp a b) (Fin 0)).
    + eapply perm_trans; [apply perm_skip, IH | apply perm_swap].
    + apply Permutation_refl.
Qed.

Lemma sort_perm {A : Type} (cmp : A -> A -> num) (l : list A) :
  Permutation (sort cmp l) l.
Proof.
  induction l as [|a l IH]; simpl.
  - apply perm_nil.
  - eapply perm_trans; [apply insert_perm | apply perm_skip, IH].
Qed.

(** ** Pairs of a list that grows at its end *)

Lemma ForallOrdPairs_snoc {A : Type} (R : A -> A -> Prop) (l : list A) (b : A) :
  ForallOrdPairs R l -> Forall (fun a => R a b) l -> ForallOrdPairs R (l ++ [b]).
Proof.
  induction 1 as [|a l Ha Hl IH]; intros Hb; simpl.
  - constructor; constructor.
  - inversion Hb; subst. constructor.
    + apply Forall_app. split; [assumption | constructor; [assumption | constructor]].
    + apply IH. assumption.
Qed.

Lemma ForallOrdPairs_nth {A : Type} (R : A -> A -> Prop) (l : list A) :
  ForallOrdPairs R l ->
  forall i j a b, (i < j)%nat ->
    nth_error l i = Some a -> nth_error l j = Some b -> R a b.
Proof.
  induction 1 as [|x l Hx Hl IH]; intros i j a b Hij Hi Hj.
  - destruct i; discriminate.
  - destruct j as [|j]; [lia|]. simpl in Hj.
    destruct i as [|i]; simpl in Hi.
    + inversion Hi; subst. rewrite Forall_forall in Hx.
      apply Hx. eapply nth_error_In; eassumption.
    + apply (IH i j); [lia | assumption | assumption].
Qed.

(** ** The loop of [calculatePackageLayout] keeps its invariant *)

Lemma disjoint_of_rects (p q : Position.t) (x y w d x' y' w' d' : R) :
  placedAt p x y w d -> placedAt q x' y' w' d' ->
  x + w <= x' \/ y + d <= y' ->
  disjoint p q.
Proof.
  intros (Hx & Hy & Hf) (Hx' & Hy' & Hf') H.
  unfold disjoint. rewrite Hx, Hy, Hf, Hx', Hy', Hf'. cbn.
  destruct H; [left | right; right; left]; assumption.
Qed.

Lemma cursorInv_place (idx : nat) (ps : list Position.t) (cls : Class.t) (n : Z)
      (nx ny rh0 mw td : R) :
  Class.linesOfCode cls = Some n -> (0 <= n)%Z ->
  20 <= nx -> 20 <= ny -> 0 <= rh0 -> 0 <= mw -> 20 <= td ->
  (forall p, In p ps ->
     exists x y w d, placedAt p x y w d /\
       20 <= x /\ 20 <= y /\ 0 < w /\ 0 < d /\
       x + w <= mw /\ y + d <= td /\ y + d <= ny + rh0 /\
       (y + d + 5 <= ny \/ (y = ny /\ x + w + 5 <= nx))) ->
  ForallOrdPairs disjoint ps ->
  reaches ps mw td ->
  let s := footprintSide n in
  cursorInv (Cursor.mk idx (ps ++ [Position.mk (Fin nx) (Fin ny) cls])
                       (Fin (nx + (s + 5))) (Fin ny) (Fin (Rmax rh0 s))
                       (Fin (Rmax mw (nx + s))) (Fin (Rmax td (ny + s)))).
Proof.
  intros Hloc Hn Bx By Brh Bmw Btd Hpos Hdis Hreach s.
  pose proof (footprintSide_bounds n) as Hs. fold s in Hs.
  assert (Hnew : placedAt (Position.mk (Fin nx) (Fin ny) cls) nx ny s s).
  { repeat split. unfold footprintOf. cbn [Position.class]. rewrite Hloc.
    apply calculateBuildingFootprint_of_Z. assumption. }
  pose proof (Rmax_l rh0 s) as M1. pose proof (Rmax_r rh0 s) as M2.
  pose proof (Rmax_l mw (nx + s)) as M3. pose proof (Rmax_r mw (nx + s)) as M4.
  pose proof (Rmax_l td (ny + s)) as M5. pose proof (Rmax_r td (ny + s)) as M6.
  exists (nx + (s + 5)), ny, (Rmax rh0 s), (Rmax mw (nx + s)), (Rmax td (ny + s)).
  cbn [Cursor.currentX Cursor.currentY Cursor.rowHeight Cursor.maxWidth
       Cursor.totalDepth Cursor.positions].
  repeat (split; [reflexivity|]).
  split; [lra|]. split; [lra|]. split; [lra|]. split; [lra|]. split; [lra|]. split.
  - intros p Hp. apply in_app_or in Hp. destruct Hp as [Hp | [Hp | []]].
    + destruct (Hpos p Hp) as (x & y & w & d & Hpl & H1 & H2 & H3 & H4 & H5 & H6 & H7 & H8).
      exists x, y, w, d. repeat (split; [first [assumption | lra]|]).
      destruct H8 as [H8 | [H8 H9]]; [left; lra | right; split; lra].
    + subst p. exists nx, ny, s, s. repeat (split; [first [assumption | lra]|]).
      right. split; lra.
  - split.
    + apply ForallOrdPairs_snoc; [assumption|].
      apply Forall_forall. intros p Hp.
      destruct (Hpos p Hp) as (x & y & w & d & Hpl & H1 & H2 & H3 & H4 & H5 & H6 & H7 & H8).
      apply (disjoint_of_rects _ _ _ _ _ _ _ _ _ _ Hpl Hnew).
      destruct H8 as [H8 | [H8 H9]]; [right | left]; lra.
    + right. split.
      * destruct (Rle_dec mw (nx + s)) as [Hle | Hgt].
        -- exists (Position.mk (Fin nx) (Fin ny) cls), nx, ny, s, s.
           split; [apply in_or_app; right; left; reflexivity|].
           split; [exact Hnew | rewrite Rmax_right; lra].
        -- destruct Hreach as [(_ & E & _) | [(p & x & y & w & d & Hin & Hpl & E) _]]; [lra|].
           exists p, x, y, w, d. split; [apply in_or_app; left; exact Hin|].
           split; [exact Hpl | rewrite Rmax_left; lra].
      * destruct (Rle_dec td (ny + s)) as [Hle | Hgt].
        -- exists (Position.mk (Fin nx) (Fin ny) cls), nx, ny, s, s.
           split; [apply in_or_app; right; left; reflexivity|].
           split; [exact Hnew | rewrite Rmax_right; lra].
        -- destruct Hreach as [(_ & _ & E) | [_ (p & x & y & w & d & Hin & Hpl & E)]]; [lra|].
           exists p, x, y, w, d. split; [apply in_or_app; left; exact Hin|].
           split; [exact Hpl | rewrite Rmax_left; lra].
Qed.

Lemma placeClass_inv (m : nat) (c : Cursor.t) (cls : Class.t) :
  wellFormedClass cls -> cursorInv c -> cursorInv (placeClass m c cls).
Proof.
  intros [n [Hloc Hn]]
         (cx & cy & rh & mw & td & Hcx & Hcy & Hrh & Hmw & Htd & Bx & By & Brh & Bmw & Btd
          & Hpos & Hdis & Hreach).
  assert (Hfp : calculateBuildingFootprint (JS.of_field (Class.linesOfCode cls))
                = Footprint.mk (Fin (footprintSide n)) (Fin (footprintSide n))).
  { rewrite Hloc. apply calculateBuildingFootprint_of_Z. assumption. }
  unfold placeClass. rewrite Hfp, Hcx, Hcy, Hrh, Hmw, Htd.
  destruct (Nat.ltb 0 (Cursor.index c) && Nat.eqb (Nat.modulo (Cursor.index c) m) 0)%bool;
    cbn.
  - apply (cursorInv_place _ _ _ n 20 (cy + (rh + 5)) 0 mw td); try assumption; try lra.
    intros p Hp.
    destruct (Hpos p Hp) as (x & y & w & d & Hpl & H1 & H2 & H3 & H4 & H5 & H6 & H7 & H8).
    exists x, y, w, d. repeat (split; [first [assumption | lra]|]). left. lra.
  - apply (cursorInv_place _ _ _ n cx cy rh mw td); assumption.
Qed.

Lemma fold_placeClass_inv (m : nat) (l : list Class.t) (c : Cursor.t) :
  Forall wellFormedClass l -> cursorInv c ->
  cursorInv (fold_left (placeClass m) l c).
Proof.
  revert c. induction l as [|cls l IH]; intros c Hl Hc; simpl.
  - assumption.
  - inversion Hl; subst. apply IH; [assumption|].
    apply placeClass_inv; assumption.
Qed.

Lemma fold_placeClass_classes (m : nat) (l : list Class.t) (c : Cursor.t) :
  map Position.class (Cursor.positions (fold_left (placeClass m) l c))
  = map Position.class (Cursor.positions c) ++ l.
Proof.
  revert c. induction l as [|cls l IH]; intros c; simpl.
  - rewrite app_nil_r. reflexivity.
  - rewrite IH. cbn [placeClass Cursor.positions]. rewrite map_app, <- app_assoc.
    reflexivity.
Qed.

Lemma calculatePackageLayout_cursor (pkg : Package.t) :
  Forall wellFormedClass (Package.classes pkg) ->
  cursorInv
    (fold_left (placeClass (Nat.min 6 (ceil_sqrt (List.length (Package.classes pkg)))))
               (sort byLinesOfCodeDesc (Package.classes pkg))
               (Cursor.mk 0 [] CONFIG.packagePadding CONFIG.packagePadding (Fin 0) (Fin 0)
                          CONFIG.packagePadding)).
Proof.
  intros Hwf. apply fold_placeClass_inv.
  - eapply Permutation_Forall; [apply Permutation_sym, sort_perm | assumption].
  - exists 20, 20, 0, 0, 20. cbn. repeat (split; [first [reflexivity | lra]|]).
    split; [intros p []|]. split; [constructor|]. left. auto.
Qed.

Lemma calculatePackageLayout_classes (pkg : Package.t) :
  map Position.class (PkgLayout.positions (calculatePackageLayout pkg))
  = sort byLinesOfCodeDesc (Package.classes pkg).
Proof.
  unfold calculatePackageLayout. cbn [PkgLayout.positions].
  rewrite fold_placeClass_classes. reflexivity.
Qed.

(** C1: for every package whose classes have non-negative lines of code
    (all zero, or one huge outlier among tiny classes, included),
    [calculatePackageLayout] places one building per class, no two
    buildings of the package overlap, and the package footprint contains
    every building, the padding away from its edges; when the package has a
    class, its width is the greatest end-x of a building plus the padding
    and its depth the greatest end-y plus the padding. *)
Theorem calculatePackageLayout_no_overlap (pkg : Package.t) :
  Forall wellFormedClass (Package.classes pkg) ->
  let L := calculatePackageLayout pkg in
  Permutation (map Position.class (PkgLayout.positions L)) (Package.classes pkg) /\
  (forall i j p q, (i < j)%nat ->
     nth_error (PkgLayout.positions L) i = Some p ->
     nth_error (PkgLayout.positions L) j = Some q ->
     disjoint p q /\ disjoint q p) /\
  (forall p, In p (PkgLayout.positions L) -> inside L p) /\
  (Package.classes pkg <> [] -> tight L).
Proof.
  intros Hwf L.
  set (m := Nat.min 6 (ceil_sqrt (List.length (Package.classes pkg)))).
  set (start := Cursor.mk 0 [] CONFIG.packagePadding CONFIG.packagePadding (Fin 0) (Fin 0)
                          CONFIG.packagePadding).
  pose proof (calculatePackageLayout_cursor pkg Hwf) as Hinv. fold m start in Hinv.
  destruct Hinv as (cx & cy & rh & mw & td & Hcx & Hcy & Hrh & Hmw & Htd & Bx & By & Brh
                    & Bmw & Btd & Hpos & Hdis & Hreach).
  assert (Hclasses : Permutation (map Position.class (PkgLayout.positions L))
                                 (Package.classes pkg)).
  { unfold L. rewrite calculatePackageLayout_classes. apply sort_perm. }
  split; [exact Hclasses|]. split; [|split].
  - intros i j p q Hij Hi Hj.
    pose proof (ForallOrdPairs_nth _ _ Hdis i j p q Hij Hi Hj) as H.
    split; [exact H|]. unfold disjoint in *. tauto.
  - intros p Hp.
    destruct (Hpos p Hp) as (x & y & w & d & (Hx & Hy & Hf) & H1 & H2 & H3 & H4 & H5 & H6 & _).
    unfold inside, L, calculatePackageLayout.
    cbn [PkgLayout.width PkgLayout.depth].
    fold m. fold start. rewrite Hmw, Htd, Hx, Hy, Hf. cbn. lra.
  - intros Hne.
    assert (Hps : PkgLayout.positions L <> []).
    { intros E. apply Hne. rewrite E in Hclasses. cbn in Hclasses.
      apply Permutation_nil. exact Hclasses. }
    change (PkgLayout.positions L) with (Cursor.positions (fold_left (placeClass m)
              (sort byLinesOfCodeDesc (Package.classes pkg)) start)) in Hps.
    destruct Hreach as [(E & _) | [(p & x & y & w & d & Hin & (Hx & Hy & Hf) & E)
                                   (q & x' & y' & w' & d' & Hin' & (Hx' & Hy' & Hf') & E')]];
      [contradiction|].
    unfold tight, L, calculatePackageLayout.
    cbn [PkgLayout.width PkgLayout.depth PkgLayout.positions]. fold m. fold start.
    split.
    + exists p. split; [exact Hin|]. rewrite Hmw, Hx, Hf. cbn. rewrite E. reflexivity.
    + exists q. split; [exact Hin'|]. rewrite Htd, Hy', Hf'. cbn. rewrite E'. reflexivity.
Qed.

Lemma calculatePackageLayout_no_overlap_witness :
  let pkg := Package.mk "outlier"
               [ Class.mk "A" (Some 1%Z) None; Class.mk "B" (Some 100000%Z) None;
                 Class.mk "C" (Some 1%Z) None; Class.mk "D" (Some 0%Z) None ] in
  Forall wellFormedClass (Package.classes pkg) /\
  (forall p, In p (PkgLayout.positions (calculatePackageLayout pkg)) ->
             inside (calculatePackageLayout pkg) p).
Proof.
  intros pkg.
  assert (H : Forall wellFormedClass (Package.classes pkg)).
  { repeat constructor; eexists; (split; [reflexivity | lia]). }
  split; [exact H|].
  exact (proj1 (proj2 (proj2 (calculatePackageLayout_no_overlap pkg H)))).
Defined.

(** ** A class without [linesOfCode] *)






(** ** The isometric projection *)

(** C4: [toIsometric] maps the world point (x, y, z) to
    screenX = (x - y) cos(30 deg) scale + offsetX and
    screenY = ((x + y) sin(30 deg) - z) scale + offsetY, where
    cos(30 deg) = sqrt(3)/2 and sin(30 deg) = 1/2;
    the screen x does not depend on z. *)
Theorem toIsometric_formula (scale offsetX offsetY x y z : R) :
  let v := View.mk (Fin scale) (Fin offsetX) (Fin offsetY) in
  toIsometric v (Fin x) (Fin y) (Fin z)
  = Point.mk (Fin ((x - y) * cos (PI / 6) * scale + offsetX))
             (Fin (((x + y) * sin (PI / 6) - z) * scale + offsetY)) /\
  toIsometric v (Fin x) (Fin y) (Fin z)
  = Point.mk (Fin ((x - y) * (sqrt 3 / 2) * scale + offsetX))
             (Fin (((x + y) / 2 - z) * scale + offsetY)) /\
  (forall (w : View.t) (a b c c' : num),
     Point.x (toIsometric w a b c) = Point.x (toIsometric w a b c')).
Proof.
  intros v.
  assert (H : toIsometric v (Fin x) (Fin y) (Fin z)
              = Point.mk (Fin ((x - y) * cos (PI / 6) * scale + offsetX))
                         (Fin (((x + y) * sin (PI / 6) - z) * scale + offsetY)))
    by reflexivity.
  split; [exact H|]. split.
  - rewrite H, cos_PI6, sin_PI6. f_equal. f_equal. lra.
  - intros w a b c c'. reflexivity.
Qed.

(** ** The labels of the change frequency *)

Lemma eqb_of_Z (a b : Z) : JS.eqb (JS.of_Z a) (JS.of_Z b) = Z.eqb a b.
Proof.
  unfold JS.eqb, JS.of_Z. destruct (Z.eqb_spec a b) as [->|Hne].
  - apply Reqb_true. reflexivity.
  - apply Reqb_false. intros H. apply eq_IZR in H. contradiction.
Qed.

Lemma ltb_of_Z (a b : Z) : JS.ltb (JS.of_Z a) (JS.of_Z b) = Z.ltb a b.
Proof.
  unfold JS.ltb, JS.of_Z. destruct (Z.ltb_spec a b) as [Hlt|Hge].
  - apply Rltb_true. apply IZR_lt. assumption.
  - apply Rltb_false. apply IZR_le. assumption.
Qed.

Lemma getFrequencyLabel_of_Z (c : Z) :
  GitMetadataColorManager.getFrequencyLabel (JS.of_Z c)
  = if Z.eqb c 0 then "No changes"
    else if Z.eqb c 1 then "Single change"
    else if Z.ltb c 5 then "Low activity"
    else if Z.ltb c 15 then "Moderate activity"
    else if Z.ltb c 50 then "High activity"
    else "Very high activity".
Proof.
  unfold GitMetadataColorManager.getFrequencyLabel.
  change (Fin 0) with (JS.of_Z 0). change (Fin 1) with (JS.of_Z 1).
  change (Fin 5) with (JS.of_Z 5). change (Fin 15) with (JS.of_Z 15).
  change (Fin 50) with (JS.of_Z 50).
  rewrite !eqb_of_Z, !ltb_of_Z. reflexivity.
Qed.

(** C7: on the non-negative integers [getFrequencyLabel] returns
    "No changes" for 0, "Single change" for 1, "Low activity" on [2,5),
    "Moderate activity" on [5,15), "High activity" on [15,50) and
    "Very high activity" from 50 on; it is total. *)
Theorem getFrequencyLabel_boundaries (c : N) :
  let label := GitMetadataColorManager.getFrequencyLabel (JS.of_Z (Z.of_N c)) in
  (c = 0%N -> label = "No changes") /\
  (c = 1%N -> label = "Single change") /\
  ((2 <= c < 5)%N -> label = "Low activity") /\
  ((5 <= c < 15)%N -> label = "Moderate activity") /\
  ((15 <= c < 50)%N -> label = "High activity") /\
  ((50 <= c)%N -> label = "Very high activity").
Proof.
  intros label. unfold label. rewrite getFrequencyLabel_of_Z.
  repeat split; intros H;
    repeat match goal with
           | |- context [Z.eqb ?a ?b] => destruct (Z.eqb_spec a b); try lia
           | |- context [Z.ltb ?a ?b] => destruct (Z.ltb_spec a b); try lia
           end; reflexivity.
Qed.

Lemma getFrequencyLabel_boundaries_witness :
  (5 <= 14 < 15)%N /\
  GitMetadataColorManager.getFrequencyLabel (JS.of_Z (Z.of_N 14)) = "Moderate activity".
Proof.
  assert (H : (5 <= 14 < 15)%N) by lia.
  split; [exact H|].
  exact (proj1 (proj2 (proj2 (proj2 (getFrequencyLabel_boundaries 14)))) H).
Defined.

(** ** The hue of the change frequency *)

Lemma or_of_Z_one (M : Z) :
  JS.or (JS.of_Z M) (Fin 1) = JS.of_Z (if Z.eqb M 0 then 1 else M).
Proof.
  unfold JS.or, JS.truthy, JS.of_Z. destruct (Z.eqb_spec M 0) as [->|Hne].
  - rewrite Reqb_true by reflexivity. reflexivity.
  - rewrite Reqb_false; [reflexivity|]. intros H. apply eq_IZR in H. contradiction.
Qed.

Lemma hue_closed_form (manager : GitMetadataColorManager.t) (T : R) (now : num)
      (c : Z) (authors lastModified : option Z) (useAge colorBlind : bool) :
  GitMetadataColorManager.maxCommits manager = Fin T -> T <> 0 ->
  Color.hue
    (GitMetadataColorManager.getColorForBuilding
       manager now (Some (GitMetadata.mk (Some c) authors lastModified))
       (ColorOptions.mk true useAge colorBlind))
  = Fin ((if colorBlind then 270 else 240) - Rmin 1 (IZR c / T) * 240).
Proof.
  intros HT Hne. unfold GitMetadataColorManager.getColorForBuilding.
  cbn [ColorOptions.useFrequency ColorOptions.colorBlindMode GitMetadata.commits Color.hue].
  rewrite HT. unfold JS.of_Z. rewrite div_Fin by assumption.
  destruct colorBlind; reflexivity.
Qed.

Lemma Rmin_one_mono (a b : R) : a <= b -> Rmin 1 a <= Rmin 1 b.
Proof.
  intros H. unfold Rmin. destruct (Rle_dec 1 a), (Rle_dec 1 b); lra.
Qed.

(** C5: with frequency colouring on, the hue does not increase with the
    commit count on [0, maxCommits]; it is 240 at 0 and 0 at maxCommits
    (270 and 30 in colour-blind mode).  With frequency colouring off, or
    without metadata, or without the commits field, the hue is 200.
    [top] is the [maxCommits] that the constructor keeps for the integer
    maximum [M] it is given. *)
Theorem hue_heat_map (now clock : num) (M : Z) (maxAuthors oldest newest : option num)
        (useAge colorBlind : bool) (authors lastModified : option Z) :
  let manager :=
    GitMetadataColorManager.constructor clock (Some (JS.of_Z M)) maxAuthors oldest newest in
  let top := (if Z.eqb M 0 then 1 else M)%Z in
  let hue (c : Z) :=
    Color.hue
      (GitMetadataColorManager.getColorForBuilding
         manager now (Some (GitMetadata.mk (Some c) authors lastModified))
         (ColorOptions.mk true useAge colorBlind)) in
  let blue := if colorBlind then 270 else 240 in
  GitMetadataColorManager.maxCommits manager = JS.of_Z top /\
  (forall c1 c2 : Z, (0 <= c1)%Z -> (c1 <= c2)%Z -> (c2 <= top)%Z ->
                     JS.le (hue c2) (hue c1)) /\
  hue 0%Z = Fin blue /\
  hue top = Fin (blue - 240) /\
  (forall (m : GitMetadataColorManager.t) (t : num) (g : option GitMetadata.t)
          (o : ColorOptions.t),
     ColorOptions.useFrequency o = false \/ g = None \/
     (exists gm, g = Some gm /\ GitMetadata.commits gm = None) ->
     Color.hue (GitMetadataColorManager.getColorForBuilding m t g o) = Fin 200).
Proof.
  intros manager top hue blue.
  assert (Hmax : GitMetadataColorManager.maxCommits manager = JS.of_Z top).
  { unfold manager, GitMetadataColorManager.constructor.
    cbn [GitMetadataColorManager.maxCommits orDefault]. apply or_of_Z_one. }
  assert (Htop : IZR top <> 0).
  { unfold top. intros H. apply eq_IZR in H. destruct (Z.eqb_spec M 0); lia. }
  assert (Hhue : forall c, hue c = Fin (blue - Rmin 1 (IZR c / IZR top) * 240)).
  { intros c. unfold hue. apply hue_closed_form; assumption. }
  split; [exact Hmax|]. split; [|split; [|split]].
  - intros c1 c2 H0 H12 H2top. rewrite !Hhue. cbn [JS.le].
    assert (Hpos : 0 < IZR top).
    { apply IZR_lt. assert (top <> 0)%Z by (intros E; apply Htop; rewrite E; reflexivity). lia. }
    assert (Hq : IZR c1 / IZR top <= IZR c2 / IZR top).
    { unfold Rdiv. apply Rmult_le_compat_r.
      - left. apply Rinv_0_lt_compat. assumption.
      - apply IZR_le. assumption. }
    pose proof (Rmin_one_mono _ _ Hq). lra.
  - rewrite Hhue. f_equal. unfold Rdiv. rewrite Rmult_0_l.
    rewrite Rmin_right by lra. lra.
  - rewrite Hhue. f_equal. unfold Rdiv. rewrite Rinv_r by assumption.
    rewrite Rmin_left by lra. lra.
  - intros m t g o H. unfold GitMetadataColorManager.getColorForBuilding.
    cbn [Color.hue].
    destruct H as [H | [H | [gm [Hg Hc]]]].
    + rewrite H. reflexivity.
    + rewrite H. destruct (ColorOptions.useFrequency o); reflexivity.
    + rewrite Hg, Hc. destruct (ColorOptions.useFrequency o); reflexivity.
Qed.

Lemma hue_heat_map_witness :
  let manager :=
    GitMetadataColorManager.constructor (Fin 0) (Some (JS.of_Z 45)) None None None in
  let hue (c : Z) :=
    Color.hue
      (GitMetadataColorManager.getColorForBuilding
         manager (Fin 0) (Some (GitMetadata.mk (Some c) None None))
         (ColorOptions.mk true true false)) in
  (0 <= 3)%Z /\ (3 <= 45)%Z /\ (45 <= 45)%Z /\ JS.le (hue 45%Z) (hue 3%Z).
Proof.
  intros manager hue.
  assert (H0 : (0 <= 3)%Z) by lia.
  assert (H1 : (3 <= 45)%Z) by lia.
  assert (H2 : (45 <= 45)%Z) by lia.
  repeat (split; [assumption|]).
  exact (proj1 (proj2 (hue_heat_map (Fin 0) (Fin 0) 45 None None None true false None None))
               3%Z 45%Z H0 H1 H2).
Defined.

(** ** The normalization bounds are never zero *)

Lemma max_of_Z (a b : Z) : JS.max (JS.of_Z a) (JS.of_Z b) = JS.of_Z (Z.max a b).
Proof.
  unfold JS.max, JS.of_Z. f_equal.
  destruct (Z.max_spec a b) as [[Hlt ->] | [Hle ->]].
  - apply Rmax_right. apply IZR_le. lia.
  - apply Rmax_left. apply IZR_le. assumption.
Qed.

Lemma scanData_flat (data : Data.t) :
  scanData data = fold_left scanClass (allClasses data) GitScan.initial.
Proof.
  unfold scanData, allClasses.
  generalize GitScan.initial. induction (Data.packages data) as [|pkg l IH]; intros g.
  - reflexivity.
  - simpl. rewrite fold_left_app. apply IH.
Qed.

Lemma scanClass_inv (g : GitScan.t) (cls : Class.t) : scanInv g -> scanInv (scanClass g cls).
Proof.
  intros (c & a & Hc & Ha & Ec & Ea). unfold scanClass.
  destruct (Class.gitMetadata cls) as [gm|]; [|exists c, a; auto].
  assert (Hc' : exists c', (0 <= c')%Z /\
            match GitMetadata.commits gm with
            | Some k => JS.max (GitScan.maxCommits g) (JS.of_Z k)
            | None => GitScan.maxCommits g
            end = JS.of_Z c').
  { destruct (GitMetadata.commits gm) as [k|].
    - exists (Z.max c k). rewrite Ec, max_of_Z. split; [lia | reflexivity].
    - exists c. auto. }
  assert (Ha' : exists a', (0 <= a')%Z /\
            match GitMetadata.authors gm with
            | Some k => JS.max (GitScan.maxAuthors g) (JS.of_Z k)
            | None => GitScan.maxAuthors g
            end = JS.of_Z a').
  { destruct (GitMetadata.authors gm) as [k|].
    - exists (Z.max a k). rewrite Ea, max_of_Z. split; [lia | reflexivity].
    - exists a. auto. }
  destruct Hc' as (c' & Hc0 & Ec'). destruct Ha' as (a' & Ha0 & Ea').
  exists c', a'.
  destruct (GitMetadata.lastModified gm); cbn; auto.
Qed.

Lemma scanClass_hasGitData (g : GitScan.t) (cls : Class.t) :
  GitScan.hasGitData g = true \/ Class.gitMetadata cls <> None ->
  GitScan.hasGitData (scanClass g cls) = true.
Proof.
  intros H. unfold scanClass. destruct (Class.gitMetadata cls) as [gm|].
  - destruct (GitMetadata.lastModified gm); reflexivity.
  - destruct H as [H | H]; [assumption | contradiction].
Qed.

Lemma scanClass_noDate (g : GitScan.t) (cls : Class.t) :
  (forall gm, Class.gitMetadata cls = Some gm -> GitMetadata.lastModified gm = None) ->
  GitScan.oldestDate (scanClass g cls) = GitScan.oldestDate g /\
  GitScan.newestDate (scanClass g cls) = GitScan.newestDate g.
Proof.
  intros H. unfold scanClass. destruct (Class.gitMetadata cls) as [gm|]; [|auto].
  rewrite (H gm eq_refl). cbn. auto.
Qed.

Lemma fold_scanClass (l : list Class.t) (g : GitScan.t) :
  scanInv g ->
  let g' := fold_left scanClass l g in
  scanInv g' /\
  (GitScan.hasGitData g = true \/ (exists cls, In cls l /\ Class.gitMetadata cls <> None) ->
   GitScan.hasGitData g' = true) /\
  (noDates l ->
   GitScan.oldestDate g' = GitScan.oldestDate g /\
   GitScan.newestDate g' = GitScan.newestDate g).
Proof.
  revert g. induction l as [|cls l IH]; intros g Hinv; cbn.
  - split; [assumption|]. split; [|auto].
    intros [H | (cls & [] & _)]. assumption.
  - destruct (IH (scanClass g cls) (scanClass_inv g cls Hinv)) as (I1 & I2 & I3).
    split; [exact I1|]. split.
    + intros H. apply I2.
      destruct H as [H | (c & [-> | Hin] & Hgm)].
      * left. apply scanClass_hasGitData. left. assumption.
      * left. apply scanClass_hasGitData. right. assumption.
      * right. exists c. split; assumption.
    + intros Hno.
      assert (Hl : noDates l).
      { intros c gm Hin. apply Hno. right. assumption. }
      destruct (I3 Hl) as [E1 E2].
      destruct (scanClass_noDate g cls) as [E3 E4].
      { intros gm. apply Hno. left. reflexivity. }
      rewrite E1, E2, E3, E4. auto.
Qed.

Lemma or_same (a : num) : JS.or a a = a.
Proof. unfold JS.or. destruct (JS.truthy a); reflexivity. Qed.

Lemma constructor_defaults (now : num) (c a o n : option num) :
  GitMetadataColorManager.maxCommits (GitMetadataColorManager.constructor now None a o n)
  = Fin 1 /\
  GitMetadataColorManager.maxCommits
    (GitMetadataColorManager.constructor now (Some (Fin 0)) a o n) = Fin 1 /\
  GitMetadataColorManager.maxAuthors (GitMetadataColorManager.constructor now c None o n)
  = Fin 1 /\
  GitMetadataColorManager.maxAuthors
    (GitMetadataColorManager.constructor now c (Some (Fin 0)) o n) = Fin 1 /\
  GitMetadataColorManager.oldestDate (GitMetadataColorManager.constructor now c a None n)
  = now /\
  GitMetadataColorManager.newestDate (GitMetadataColorManager.constructor now c a o None)
  = now.
Proof.
  assert (H : JS.or (Fin 0) (Fin 1) = Fin 1).
  { unfold JS.or, JS.truthy. rewrite Reqb_true by reflexivity. reflexivity. }
  unfold GitMetadataColorManager.constructor.
  cbn [GitMetadataColorManager.maxCommits GitMetadataColorManager.maxAuthors
       GitMetadataColorManager.oldestDate GitMetadataColorManager.newestDate orDefault].
  rewrite H. repeat split; reflexivity.
Qed.

(** C10: the constructor replaces a maximum that is 0 or missing by 1 and
    a missing date by the current time.  When some class of the data set
    carries [gitMetadata], [calculateGitNormalization] constructs the colour
    manager, with maxCommits >= 1 and maxAuthors >= 1, so that
    [commits / maxCommits] in [getColorForBuilding] divides by a number that
    is not zero; when no class has a [lastModified], both dates of the
    manager are the current time. *)
Theorem gitColorManager_maxima_at_least_one (env : Env.t) (data : Data.t) (st : State.t) :
  (forall now c a o n,
     GitMetadataColorManager.maxCommits (GitMetadataColorManager.constructor now None a o n)
     = Fin 1 /\
     GitMetadataColorManager.maxCommits
       (GitMetadataColorManager.constructor now (Some (Fin 0)) a o n) = Fin 1 /\
     GitMetadataColorManager.maxAuthors (GitMetadataColorManager.constructor now c None o n)
     = Fin 1 /\
     GitMetadataColorManager.maxAuthors
       (GitMetadataColorManager.constructor now c (Some (Fin 0)) o n) = Fin 1 /\
     GitMetadataColorManager.oldestDate (GitMetadataColorManager.constructor now c a None n)
     = now /\
     GitMetadataColorManager.newestDate (GitMetadataColorManager.constructor now c a o None)
     = now) /\
  ((exists cls, In cls (allClasses data) /\ Class.gitMetadata cls <> None) ->
   exists manager (m a : R),
     State.gitColorManager (calculateGitNormalization env data st) = Some manager /\
     GitMetadataColorManager.maxCommits manager = Fin m /\ 1 <= m /\
     GitMetadataColorManager.maxAuthors manager = Fin a /\ 1 <= a /\
     (forall c : Z,
        JS.div (JS.of_Z c) (GitMetadataColorManager.maxCommits manager) = Fin (IZR c / m)) /\
     (noDates (allClasses data) ->
      GitMetadataColorManager.oldestDate manager = Env.now env /\
      GitMetadataColorManager.newestDate manager = Env.now env)).
Proof.
  split; [intros now c a o n; apply constructor_defaults|].
  intros Hgit.
  assert (Hinit : scanInv GitScan.initial).
  { exists 0%Z, 0%Z. repeat split; try lia; reflexivity. }
  destruct (fold_scanClass (allClasses data) _ Hinit) as (Hinv & Hhas & Hdates).
  rewrite <- scanData_flat in Hinv, Hhas, Hdates.
  unfold calculateGitNormalization. rewrite (Hhas (or_intror Hgit)).
  destruct Hinv as (c & a & Hc & Ha & Ec & Ea).
  set (c' := (if Z.eqb c 0 then 1 else c)%Z).
  set (a' := (if Z.eqb a 0 then 1 else a)%Z).
  assert (Hc' : (1 <= c')%Z) by (unfold c'; destruct (Z.eqb_spec c 0); lia).
  assert (Ha' : (1 <= a')%Z) by (unfold a'; destruct (Z.eqb_spec a 0); lia).
  assert (Ec' : (if Z.eqb c' 0 then 1 else c')%Z = c') by (destruct (Z.eqb_spec c' 0); lia).
  assert (Ea' : (if Z.eqb a' 0 then 1 else a')%Z = a') by (destruct (Z.eqb_spec a' 0); lia).
  eexists. exists (IZR c'), (IZR a').
  cbn [State.gitColorManager State.setGit].
  split; [reflexivity|].
  unfold GitMetadataColorManager.constructor.
  cbn [GitMetadataColorManager.maxCommits GitMetadataColorManager.maxAuthors
       GitMetadataColorManager.oldestDate GitMetadataColorManager.newestDate orDefault].
  rewrite Ec, Ea, !or_of_Z_one. fold c' a'. rewrite Ec', Ea'.
  split; [reflexivity|]. split; [apply IZR_le; assumption|].
  split; [reflexivity|]. split; [apply IZR_le; assumption|].
  split.
  - intros k. unfold JS.of_Z. apply div_Fin.
    apply IZR_le in Hc'. lra.
  - intros Hno. destruct (Hdates Hno) as [E1 E2].
    rewrite E1, E2. cbn [GitScan.initial GitScan.oldestDate GitScan.newestDate JS.eqb].
    replace (JS.or (Fin 0) (Env.now env)) with (Env.now env).
    + rewrite !or_same. auto.
    + unfold JS.or, JS.truthy. rewrite Reqb_true by reflexivity. reflexivity.
Qed.

Lemma gitColorManager_maxima_at_least_one_witness :
  let cls := Class.mk "Calculator" (Some 150%Z)
               (Some (GitMetadata.mk (Some 0%Z) None None)) in
  let data := Data.mk [Package.mk "com.example.math" [cls]] in
  (exists c, In c (allClasses data) /\ Class.gitMetadata c <> None) /\
  exists manager (m a : R),
    State.gitColorManager
      (calculateGitNormalization (Env.mk (Fin 0) (Fin 800) (Fin 600)) data State.initial)
    = Some manager /\
    GitMetadataColorManager.maxCommits manager = Fin m /\ 1 <= m.
Proof.
  intros cls data.
  assert (H : exists c, In c (allClasses data) /\ Class.gitMetadata c <> None).
  { exists cls. split; [left; reflexivity | discriminate]. }
  split; [exact H|].
  destruct (proj2 (gitColorManager_maxima_at_least_one
                     (Env.mk (Fin 0) (Fin 800) (Fin 600)) data State.initial) H)
    as (manager & m & a & H1 & H2 & H3 & _).
  exists manager, m, a. auto.
Defined.

(** ** The layout is a function of the data set and of the strategy *)

Lemma layoutPackagesInRegion_same (l : list PkgWithMass.t) (x y w : num) (s1 s2 : State.t) :
  samePlacements s1 s2 ->
  samePlacements (layoutPackagesInRegion l x y w s1) (layoutPackagesInRegion l x y w s2).
Proof.
  intros [Hp Hb]. unfold samePlacements, layoutPackagesInRegion.
  cbn [State.packages State.buildings State.setPlacements].
  rewrite Hp, Hb. split; reflexivity.
Qed.

Lemma layoutPackagesInRegion_toggles (l : list PkgWithMass.t) (x y w : num) (s : State.t) :
  State.toggles (layoutPackagesInRegion l x y w s) = State.toggles s.
Proof. reflexivity. Qed.

Lemma fold_quadrants_same (w : num) (qs : list Quadrant.t) (s1 s2 : State.t) :
  samePlacements s1 s2 ->
  samePlacements
    (fold_left (fun st q => layoutPackagesInRegion (Quadrant.packages q) (Quadrant.startX q)
                                                   (Quadrant.startY q) w st) qs s1)
    (fold_left (fun st q => layoutPackagesInRegion (Quadrant.packages q) (Quadrant.startX q)
                                                   (Quadrant.startY q) w st) qs s2).
Proof.
  revert s1 s2. induction qs as [|q qs IH]; intros s1 s2 H; cbn [fold_left].
  - assumption.
  - apply IH. apply layoutPackagesInRegion_same. assumption.
Qed.

Lemma fold_quadrants_toggles (w : num) (qs : list Quadrant.t) (s : State.t) :
  State.toggles
    (fold_left (fun st q => layoutPackagesInRegion (Quadrant.packages q) (Quadrant.startX q)
                                                   (Quadrant.startY q) w st) qs s)
  = State.toggles s.
Proof.
  revert s. induction qs as [|q qs IH]; intros s; cbn [fold_left].
  - reflexivity.
  - rewrite IH. reflexivity.
Qed.

Lemma calculateGitNormalization_keeps (env : Env.t) (data : Data.t) (s : State.t) :
  State.packages (calculateGitNormalization env data s) = State.packages s /\
  State.buildings (calculateGitNormalization env data s) = State.buildings s /\
  State.toggles (calculateGitNormalization env data s) = State.toggles s.
Proof.
  unfold calculateGitNormalization.
  destruct (GitScan.hasGitData (scanData data)); repeat split; reflexivity.
Qed.

Lemma calculateViewTransform_keeps (env : Env.t) (s : State.t) :
  State.packages (calculateViewTransform env s) = State.packages s /\
  State.buildings (calculateViewTransform env s) = State.buildings s /\
  State.toggles (calculateViewTransform env s) = State.toggles s /\
  State.projectData (calculateViewTransform env s) = State.projectData s.
Proof.
  unfold calculateViewTransform.
  destruct (Nat.eqb (List.length (State.buildings s)) 0
            && Nat.eqb (List.length (State.packages s)) 0)%bool;
    repeat split; reflexivity.
Qed.

Lemma processData_toggles (env : Env.t) (data : Data.t) (s : State.t) :
  State.toggles (processData env data s) = State.toggles s.
Proof.
  unfold processData.
  match goal with
  | |- State.toggles (calculateViewTransform ?e ?st) = _ =>
      destruct (calculateViewTransform_keeps e st) as (_ & _ & -> & _)
  end.
  match goal with
  | |- State.toggles (calculateGitNormalization ?e ?d ?st) = _ =>
      destruct (calculateGitNormalization_keeps e d st) as (_ & _ & ->)
  end.
  cbn [State.toggles State.setPlacements].
  destruct (String.eqb (Toggles.layoutStrategy (State.toggles s)) "grid").
  - reflexivity.
  - unfold layoutPackagesQuadrant. rewrite fold_quadrants_toggles. reflexivity.
Qed.

Lemma processData_same (env1 env2 : Env.t) (data : Data.t) (s1 s2 : State.t) :
  Toggles.layoutStrategy (State.toggles s1) = Toggles.layoutStrategy (State.toggles s2) ->
  samePlacements (processData env1 data s1) (processData env2 data s2).
Proof.
  intros Hstrategy. unfold processData.
  set (pwm := sort byMassDesc
                (map (fun pkg => PkgWithMass.mk pkg (calculatePackageMass pkg))
                     (Data.packages data))).
  cbn [State.toggles State.setPlacements]. rewrite <- Hstrategy.
  set (l1 := if String.eqb (Toggles.layoutStrategy (State.toggles s1)) "grid"
             then layoutPackagesGrid pwm (State.setPlacements [] [] s1)
             else layoutPackagesQuadrant pwm (State.setPlacements [] [] s1)).
  set (l2 := if String.eqb (Toggles.layoutStrategy (State.toggles s1)) "grid"
             then layoutPackagesGrid pwm (State.setPlacements [] [] s2)
             else layoutPackagesQuadrant pwm (State.setPlacements [] [] s2)).
  assert (Hl : samePlacements l1 l2).
  { unfold l1, l2.
    assert (H0 : samePlacements (State.setPlacements [] [] s1) (State.setPlacements [] [] s2))
      by (split; reflexivity).
    destruct (String.eqb (Toggles.layoutStrategy (State.toggles s1)) "grid").
    - unfold layoutPackagesGrid. apply layoutPackagesInRegion_same. assumption.
    - unfold layoutPackagesQuadrant. apply fold_quadrants_same. assumption. }
  destruct Hl as [Hp Hb]. unfold samePlacements.
  destruct (calculateViewTransform_keeps env1 (calculateGitNormalization env1 data l1))
    as (-> & -> & _).
  destruct (calculateViewTransform_keeps env2 (calculateGitNormalization env2 data l2))
    as (-> & -> & _).
  destruct (calculateGitNormalization_keeps env1 data l1) as (-> & -> & _).
  destruct (calculateGitNormalization_keeps env2 data l2) as (-> & -> & _).
  split; assumption.
Qed.

(** C8: two runs of [processData] on the same data set with the same
    layout strategy give the same packages and the same buildings
    (positions, footprints and heights, in the same order), whatever the
    state each run starts from and whatever the clock and the canvas are;
    in particular a second run after the first one changes no placement. *)
Theorem processData_deterministic (env1 env2 : Env.t) (data : Data.t) (s1 s2 : State.t) :
  Toggles.layoutStrategy (State.toggles s1) = Toggles.layoutStrategy (State.toggles s2) ->
  State.packages (processData env1 data s1) = State.packages (processData env2 data s2) /\
  State.buildings (processData env1 data s1) = State.buildings (processData env2 data s2) /\
  State.packages (processData env2 data (processData env1 data s1))
  = State.packages (processData env1 data s1) /\
  State.buildings (processData env2 data (processData env1 data s1))
  = State.buildings (processData env1 data s1).
Proof.
  intros Hstrategy.
  destruct (processData_same env1 env2 data s1 s2 Hstrategy) as [Hp Hb].
  destruct (processData_same env2 env1 data (processData env1 data s1) s1) as [Hp' Hb'].
  { rewrite processData_toggles. reflexivity. }
  repeat split; assumption.
Qed.

(** ** The buildings that a layout creates *)

Lemma sort_scenario :
  sort byLinesOfCodeDesc [Class.mk "X" (Some 150%Z) None; Class.mk "Y" (Some 85%Z) None]
  = [Class.mk "X" (Some 150%Z) None; Class.mk "Y" (Some 85%Z) None].
Proof.
  cbn [sort insert]. unfold byLinesOfCodeDesc, JS.gtb.
  cbn [Class.linesOfCode JS.of_field]. change (Fin 0) with (JS.of_Z 0).
  unfold JS.sub, JS.of_Z. rewrite <- minus_IZR. 
  change (JS.ltb (Fin (IZR 0)) (Fin (IZR (85 - 150)))) with (JS.ltb (JS.of_Z 0) (JS.of_Z (85 - 150))).
  rewrite ltb_of_Z. reflexivity.
Qed.

Lemma summary_makeBuilding (pkg : Package.t) (px py : num) (l : list Position.t) :
  map summary (map (makeBuilding pkg px py) l) = map summaryOfClass (map Position.class l).
Proof.
  induction l as [|pos l IH]; [reflexivity|]. cbn [map]. rewrite IH. reflexivity.
Qed.

Lemma summary_layout (pkg : Package.t) (px py : num) :
  map summary (map (makeBuilding pkg px py) (PkgLayout.positions (calculatePackageLayout pkg)))
  = map summaryOfClass (sort byLinesOfCodeDesc (Package.classes pkg)).
Proof.
  rewrite summary_makeBuilding, calculatePackageLayout_classes. reflexivity.
Qed.

Lemma heightOfClass_scenario :
  heightOfClass (Class.mk "X" (Some 150%Z) None) = Fin 120 /\
  heightOfClass (Class.mk "Y" (Some 85%Z) None) = Fin 68.
Proof.
  unfold heightOfClass, CONFIG.minBuildingHeight, CONFIG.locToHeightScale.
  cbn [Class.linesOfCode JS.of_field]. unfold JS.of_Z, JS.mul, JS.max.
  split; f_equal; rewrite Rmax_right; lra.
Qed.

Lemma scenario_buildings (env : Env.t) (st0 : State.t) :
  map summary (State.buildings (processData env scenarioData st0))
  = [ ("X", Fin 120, None, "#34495e"); ("Y", Fin 68, None, "#34495e") ].
Proof.
  unfold processData.
  match goal with
  | |- context [State.buildings (calculateViewTransform ?e ?s)] =>
      destruct (calculateViewTransform_keeps e s) as (_ & -> & _)
  end.
  match goal with
  | |- context [State.buildings (calculateGitNormalization ?e ?d ?s)] =>
      destruct (calculateGitNormalization_keeps e d s) as (_ & -> & _)
  end.
  cbn [State.toggles State.setPlacements scenarioData Data.packages map sort insert].
  assert (H : forall px py,
             map summary
                 (map (makeBuilding (Package.mk "a.b" [Class.mk "X" (Some 150%Z) None;
                                                       Class.mk "Y" (Some 85%Z) None]) px py)
                      (PkgLayout.positions
                         (calculatePackageLayout
                            (Package.mk "a.b" [Class.mk "X" (Some 150%Z) None;
                                               Class.mk "Y" (Some 85%Z) None]))))
             = [ ("X", Fin 120, None, "#34495e"); ("Y", Fin 68, None, "#34495e") ]).
  { intros px py. rewrite summary_layout. cbn [Package.classes]. rewrite sort_scenario.
    cbn [map]. unfold summaryOfClass. destruct heightOfClass_scenario as [-> ->].
    reflexivity. }
  destruct (String.eqb (Toggles.layoutStrategy (State.toggles st0)) "grid").
  - unfold layoutPackagesGrid, layoutPackagesInRegion.
    cbn [State.buildings State.setPlacements State.packages fold_left].
    unfold placePackage at 1.
    cbn [Region.idx Nat.ltb Nat.leb andb Region.buildings app PkgWithMass.pkg].
    apply H.
  - unfold layoutPackagesQuadrant.
    cbn [List.length ceil_div Nat.add Nat.sub Nat.div Nat.divmod fst slice sliceFrom
         Nat.mul firstn skipn fold_left Quadrant.packages Quadrant.startX Quadrant.startY].
    unfold layoutPackagesInRegion.
    cbn [State.buildings State.setPlacements State.packages fold_left Region.buildings].
    unfold placePackage at 1.
    cbn [Region.idx Nat.ltb Nat.leb andb Region.buildings app PkgWithMass.pkg].
    apply H.
Qed.

Lemma getColorForBuilding_default (manager : GitMetadataColorManager.t) (now : num)
      (options : ColorOptions.t) :
  GitMetadataColorManager.getColorForBuilding manager now None options
  = Color.mk (Fin 200) (Fin 70) (Fin 50).
Proof.
  unfold GitMetadataColorManager.getColorForBuilding.
  destruct (ColorOptions.useFrequency options), (ColorOptions.useAge options); reflexivity.
Qed.

Lemma drawBuilding_paint_no_metadata (env : Env.t) (st : State.t) (b : Building.t) :
  Building.gitMetadata b = None ->
  drawBuilding_paint env st false false b = Paint.mk (Building.color b) None.
Proof.
  intros H. unfold drawBuilding_paint. rewrite H. reflexivity.
Qed.

Lemma summary_in (l : list Building.t) (b : Building.t)
      (expected : list (string * num * option GitMetadata.t * string)) :
  map summary l = expected -> In b l -> In (summary b) expected.
Proof. intros <- H. apply in_map. assumption. Qed.

Lemma Int_part_unique (r : R) (z : Z) : IZR z <= r -> r < IZR z + 1 -> Int_part r = z.
Proof.
  intros H1 H2. symmetry. apply Int_part_spec. lra.
Qed.

Lemma floor_min_255 (x : R) (k : Z) :
  IZR k <= x -> x < IZR k + 1 -> x <= 255 ->
  JSMath.floor (JS.min (Fin 255) (Fin x)) = Fin (IZR k).
Proof.
  intros H1 H2 H3. cbn [JS.min JSMath.floor].
  rewrite Rmin_right by exact H3.
  rewrite (Int_part_unique x k H1 H2). reflexivity.
Qed.

(** the channels of the base colour: 0x34 = 52, 0x49 = 73, 0x5e = 94 *)
Lemma baseColor_channels :
  let hex := replaceHash "#34495e" in
  hex = "34495e" /\
  parseInt (substr hex 0 2) = Fin 52 /\
  parseInt (substr hex 2 2) = Fin 73 /\
  parseInt (substr hex 4 2) = Fin 94.
Proof. repeat split; reflexivity. Qed.

(** [lighten('#34495e', 1.2)] is [rgb(62, 87, 112)] and
    [darken('#34495e', 0.7)] is [rgb(36, 51, 65)] *)
Lemma lighten_baseColor :
  lighten "#34495e" (Fin 1.2) = RgbColor (Fin 62) (Fin 87) (Fin 112) /\
  darken "#34495e" (Fin 0.7) = RgbColor (Fin 36) (Fin 51) (Fin 65).
Proof.
  destruct baseColor_channels as (_ & Hr & Hg & Hb). cbv zeta in Hr, Hg, Hb.
  unfold darken, lighten. rewrite Hr, Hg, Hb. cbn [JS.mul].
  split; f_equal; apply floor_min_255; lra.
Qed.

Lemma channel_of_Z (k : Z) : (0 <= k <= 255)%Z -> channel (Fin (IZR k)) = Some k.
Proof.
  intros H. unfold channel. rewrite (Int_part_unique (IZR k) k) by lra.
  f_equal. lia.
Qed.

(** the hue and the saturation of the two derived shades *)
Lemma shades_hue_saturation :
  fillHue (RgbColor (Fin 62) (Fin 87) (Fin 112)) = Some 210 /\
  fillSaturation (RgbColor (Fin 62) (Fin 87) (Fin 112)) = Some (100 * 50 / 174) /\
  fillHue (RgbColor (Fin 36) (Fin 51) (Fin 65)) = Some (60 * (4 - 15 / 29)) /\
  fillSaturation (RgbColor (Fin 36) (Fin 51) (Fin 65)) = Some (100 * 29 / 101).
Proof.
  assert (Ht : fillRgb (RgbColor (Fin 62) (Fin 87) (Fin 112)) = Some (62, 87, 112)%Z).
  { unfold fillRgb, rgbOfChannels. rewrite !channel_of_Z by lia. reflexivity. }
  assert (Hl : fillRgb (RgbColor (Fin 36) (Fin 51) (Fin 65)) = Some (36, 51, 65)%Z).
  { unfold fillRgb, rgbOfChannels. rewrite !channel_of_Z by lia. reflexivity. }
  unfold fillHue, fillSaturation. rewrite Ht, Hl.
  change (hueOfRgb 62 87 112) with (60 * (IZR (-25) / IZR 50 + 4)).
  change (saturationOfRgb 62 87 112) with (100 * IZR 50 / IZR 174).
  change (hueOfRgb 36 51 65) with (60 * (IZR (-15) / IZR 29 + 4)).
  change (saturationOfRgb 36 51 65) with (100 * IZR 29 / IZR 101).
  repeat split; f_equal; lra.
Qed.

(** the base colour [#34495e] is rgb(52, 73, 94): hue 210, saturation
    42/146 of 100, about 28.8 *)
Lemma baseColor_hue_saturation :
  fillHue (CssColor "#34495e") = Some 210 /\
  fillSaturation (CssColor "#34495e") = Some (100 * 42 / 146).
Proof.
  split.
  - change (fillHue (CssColor "#34495e"))
      with (Some (60 * (IZR (-21) / IZR 42 + 4))).
    f_equal. lra.
  - change (fillSaturation (CssColor "#34495e")) with (Some (100 * IZR 42 / IZR 146)).
    reflexivity.
Qed.

(** C6, as stated, fails on the colour: in the scenario the buildings are
    not rendered with hue 200 and saturation 70.  The fill of the right
    face, the base shade of a building, is the colour string #34495e of
    CONFIG, of hue 210. *)
Lemma scenario_color_is_not_the_mapper_default :
  let st := processData scenarioEnv scenarioData State.initial in
  ~ (map Building.height (State.buildings st) = [Fin 120; Fin 68] /\
     forall b, In b (State.buildings st) ->
       let fill := rightFaceFill (drawBuilding_paint scenarioEnv st false false b) in
       fillHue fill = Some 200 /\ fillSaturation fill = Some 70).
Proof.
  intros st [_ H].
  pose proof (scenario_buildings scenarioEnv State.initial) as Hs. fold st in Hs.
  destruct (State.buildings st) as [|b l]; [discriminate Hs|].
  destruct (H b (or_introl eq_refl)) as [Hhue _].
  cbn [map] in Hs. injection Hs as Hb _. unfold summary in Hb.
  assert (Hmeta : Building.gitMetadata b = None) by congruence.
  assert (Hcolor : Building.color b = "#34495e") by congruence.
  rewrite (drawBuilding_paint_no_metadata _ _ _ Hmeta), Hcolor in Hhue.
  change (rightFaceFill (Paint.mk "#34495e" None)) with (CssColor "#34495e") in Hhue.
  rewrite (proj1 baseColor_hue_saturation) in Hhue.
  injection Hhue as Hhue. lra.
Qed.

(** C6, amended: for the data set with the one package "a.b" of the classes
    X (150 lines) and Y (85 lines) without git metadata, [processData]
    creates exactly two buildings, X of height 120 and Y of height 68.
    Hue 200 and saturation 70 are what [getColorForBuilding] returns when
    it is given no metadata; [drawBuilding] does not call it for these
    buildings: unless hovered or selected they are painted from the fixed
    base colour #34495e, of hue 210 and saturation 100 * 42 / 146, about
    29, which is the fill of the right face.  The top face is filled with
    [lighten] of the base colour by 1.2, the string rgb(62, 87, 112), and
    the left face with [darken] of it by 0.7, the string rgb(36, 51, 65).
    No face has hue 200 or saturation 70. *)
Theorem scenario_heights_and_color (env : Env.t) (st0 : State.t) :
  let st := processData env scenarioData st0 in
  map (fun b => (Building.className b, Building.height b)) (State.buildings st)
  = [("X", Fin 120); ("Y", Fin 68)] /\
  (forall manager now options,
     GitMetadataColorManager.getColorForBuilding manager now None options
     = Color.mk (Fin 200) (Fin 70) (Fin 50)) /\
  (forall b env' st', In b (State.buildings st) ->
     drawBuilding_paint env' st' false false b = Paint.mk "#34495e" None /\
     rightFaceFill (drawBuilding_paint env' st' false false b) = CssColor "#34495e" /\
     fillHue (rightFaceFill (drawBuilding_paint env' st' false false b)) = Some 210 /\
     (exists s,
        fillSaturation (rightFaceFill (drawBuilding_paint env' st' false false b)) = Some s /\
        s = 100 * 42 / 146 /\ 28.5 < s < 29) /\
     topFaceFill (drawBuilding_paint env' st' false false b)
     = lighten "#34495e" (Fin 1.2) /\
     lighten "#34495e" (Fin 1.2) = RgbColor (Fin 62) (Fin 87) (Fin 112) /\
     leftFaceFill (drawBuilding_paint env' st' false false b)
     = darken "#34495e" (Fin 0.7) /\
     darken "#34495e" (Fin 0.7) = RgbColor (Fin 36) (Fin 51) (Fin 65) /\
     Forall (fun fill => fillHue fill <> Some 200 /\ fillSaturation fill <> Some 70)
            (faceFills (drawBuilding_paint env' st' false false b))).
Proof.
  intros st. pose proof (scenario_buildings env st0) as Hs. fold st in Hs.
  split; [|split].
  - replace (map (fun b => (Building.className b, Building.height b)) (State.buildings st))
      with (map (fun s : string * num * option GitMetadata.t * string =>
                   (fst (fst (fst s)), snd (fst (fst s))))
                (map summary (State.buildings st))).
    + rewrite Hs. reflexivity.
    + rewrite map_map. reflexivity.
  - apply getColorForBuilding_default.
  - intros b env' st' Hin.
    pose proof (summary_in _ _ _ Hs Hin) as Hb.
    assert (Hmeta : Building.gitMetadata b = None /\ Building.color b = "#34495e").
    { unfold summary in Hb. destruct Hb as [Hb | [Hb | []]]; injection Hb; auto. }
    destruct Hmeta as [Hm Hc].
    rewrite (drawBuilding_paint_no_metadata env' st' b Hm), Hc.
    destruct baseColor_hue_saturation as [Hhue Hsat].
    destruct lighten_baseColor as [Htop Hleft].
    destruct shades_hue_saturation as (Hth & Hts & Hlh & Hls).
    change (rightFaceFill (Paint.mk "#34495e" None)) with (CssColor "#34495e").
    change (topFaceFill (Paint.mk "#34495e" None)) with (lighten "#34495e" (Fin 1.2)).
    change (leftFaceFill (Paint.mk "#34495e" None)) with (darken "#34495e" (Fin 0.7)).
    split; [reflexivity|]. split; [reflexivity|]. split; [exact Hhue|].
    split; [exists (100 * 42 / 146); split; [exact Hsat | split; [reflexivity | lra]]|].
    split; [reflexivity|]. split; [exact Htop|].
    split; [reflexivity|]. split; [exact Hleft|].
    unfold faceFills.
    change (rightFaceFill (Paint.mk "#34495e" None)) with (CssColor "#34495e").
    change (topFaceFill (Paint.mk "#34495e" None)) with (lighten "#34495e" (Fin 1.2)).
    change (leftFaceFill (Paint.mk "#34495e" None)) with (darken "#34495e" (Fin 0.7)).
    rewrite Htop, Hleft.
    repeat constructor.
    + rewrite Hth. intros H. injection H as H. lra.
    + rewrite Hts. intros H. injection H as H. lra.
    + rewrite Hhue. intros H. injection H as H. lra.
    + rewrite Hsat. intros H. injection H as H. lra.
    + rewrite Hlh. intros H. injection H as H. lra.
    + rewrite Hls. intros H. injection H as H. lra.
Qed.

Lemma scenario_heights_and_color_witness :
  let st := processData scenarioEnv scenarioData State.initial in
  exists b, In b (State.buildings st) /\
            rightFaceFill (drawBuilding_paint scenarioEnv st false false b)
            = CssColor "#34495e".
Proof.
  intros st.
  pose proof (scenario_heights_and_color scenarioEnv State.initial) as (Hh & _ & Hp).
  fold st in Hh, Hp.
  destruct (State.buildings st) as [|b l]; [discriminate Hh|].
  exists b. split; [left; reflexivity|].
  exact (proj1 (proj2 (Hp b scenarioEnv st (or_introl eq_refl)))).
Defined.

Lemma processData_deterministic_witness :
  Toggles.layoutStrategy (State.toggles State.initial)
  = Toggles.layoutStrategy (State.toggles (processData scenarioEnv scenarioData State.initial))
  /\ State.buildings (processData scenarioEnv scenarioData State.initial)
     = State.buildings
         (processData scenarioEnv scenarioData
                      (processData scenarioEnv scenarioData State.initial)).
Proof.
  assert (H : Toggles.layoutStrategy (State.toggles State.initial)
              = Toggles.layoutStrategy
                  (State.toggles (processData scenarioEnv scenarioData State.initial))).
  { rewrite processData_toggles. reflexivity. }
  split; [exact H|].
  exact (proj1 (proj2 (processData_deterministic scenarioEnv scenarioEnv scenarioData
                         State.initial
                         (processData scenarioEnv scenarioData State.initial) H))).
Defined.

(** ** Least and greatest element of a list *)

Lemma fold_min_Fin (l : list R) (a : R) :
  fold_left JS.min (map Fin l) (Fin a) = Fin (fold_left Rmin l a).
Proof.
  revert a. induction l as [|b l IH]; intros a; [reflexivity|].
  cbn [map fold_left]. change (JS.min (Fin a) (Fin b)) with (Fin (Rmin a b)). apply IH.
Qed.

Lemma fold_max_Fin (l : list R) (a : R) :
  fold_left JS.max (map Fin l) (Fin a) = Fin (fold_left Rmax l a).
Proof.
  revert a. induction l as [|b l IH]; intros a; [reflexivity|].
  cbn [map fold_left]. change (JS.max (Fin a) (Fin b)) with (Fin (Rmax a b)). apply IH.
Qed.

Lemma min_list_Fin {A : Type} (f : A -> R) (l : list A) :
  l <> [] -> JS.min_list (map (fun c => Fin (f c)) l) = Fin (Geometry.minOf (map f l)).
Proof.
  intros Hl. destruct l as [|a l]; [contradiction|].
  rewrite <- (map_map f Fin). unfold JS.min_list. cbn [map fold_left Geometry.minOf].
  change (JS.min PInf (Fin (f a))) with (Fin (f a)). apply fold_min_Fin.
Qed.

Lemma max_list_Fin {A : Type} (f : A -> R) (l : list A) :
  l <> [] -> JS.max_list (map (fun c => Fin (f c)) l) = Fin (Geometry.maxOf (map f l)).
Proof.
  intros Hl. destruct l as [|a l]; [contradiction|].
  rewrite <- (map_map f Fin). unfold JS.max_list. cbn [map fold_left Geometry.maxOf].
  change (JS.max NInf (Fin (f a))) with (Fin (f a)). apply fold_max_Fin.
Qed.

Lemma fold_min_le (l : list R) (a : R) :
  fold_left Rmin l a <= a /\ forall b, In b l -> fold_left Rmin l a <= b.
Proof.
  revert a. induction l as [|c l IH]; intros a; cbn [fold_left].
  - split; [lra | intros b []].
  - destruct (IH (Rmin a c)) as [H1 H2].
    pose proof (Rmin_l a c). pose proof (Rmin_r a c).
    split; [lra|]. intros b [<- | Hb]; [lra | apply H2; assumption].
Qed.

Lemma fold_max_ge (l : list R) (a : R) :
  a <= fold_left Rmax l a /\ forall b, In b l -> b <= fold_left Rmax l a.
Proof.
  revert a. induction l as [|c l IH]; intros a; cbn [fold_left].
  - split; [lra | intros b []].
  - destruct (IH (Rmax a c)) as [H1 H2].
    pose proof (Rmax_l a c). pose proof (Rmax_r a c).
    split; [lra|]. intros b [<- | Hb]; [lra | apply H2; assumption].
Qed.

Lemma minOf_le (l : list R) (b : R) : In b l -> Geometry.minOf l <= b.
Proof.
  destruct l as [|a l]; [intros []|]. cbn [Geometry.minOf].
  destruct (fold_min_le l a) as [H1 H2]. intros [<- | Hb]; [assumption | apply H2; assumption].
Qed.

Lemma maxOf_ge (l : list R) (b : R) : In b l -> b <= Geometry.maxOf l.
Proof.
  destruct l as [|a l]; [intros []|]. cbn [Geometry.maxOf].
  destruct (fold_max_ge l a) as [H1 H2]. intros [<- | Hb]; [assumption | apply H2; assumption].
Qed.

Lemma Rmin_shift (a b o : R) : Rmin (a + o) (b + o) = Rmin a b + o.
Proof. unfold Rmin. destruct (Rle_dec (a + o) (b + o)), (Rle_dec a b); lra. Qed.

Lemma Rmax_shift (a b o : R) : Rmax (a + o) (b + o) = Rmax a b + o.
Proof. unfold Rmax. destruct (Rle_dec (a + o) (b + o)), (Rle_dec a b); lra. Qed.

Lemma fold_min_shift {A : Type} (f : A -> R) (o : R) (l : list A) (a : R) :
  fold_left Rmin (map (fun c => f c + o) l) (a + o) = fold_left Rmin (map f l) a + o.
Proof.
  revert a. induction l as [|c l IH]; intros a; [reflexivity|].
  cbn [map fold_left]. rewrite Rmin_shift. apply IH.
Qed.

Lemma fold_max_shift {A : Type} (f : A -> R) (o : R) (l : list A) (a : R) :
  fold_left Rmax (map (fun c => f c + o) l) (a + o) = fold_left Rmax (map f l) a + o.
Proof.
  revert a. induction l as [|c l IH]; intros a; [reflexivity|].
  cbn [map fold_left]. rewrite Rmax_shift. apply IH.
Qed.

Lemma minOf_shift {A : Type} (f : A -> R) (o : R) (l : list A) :
  l <> [] ->
  Geometry.minOf (map (fun c => f c + o) l) = Geometry.minOf (map f l) + o.
Proof.
  intros Hl. destruct l as [|a l]; [contradiction|]. apply fold_min_shift.
Qed.

Lemma maxOf_shift {A : Type} (f : A -> R) (o : R) (l : list A) :
  l <> [] ->
  Geometry.maxOf (map (fun c => f c + o) l) = Geometry.maxOf (map f l) + o.
Proof.
  intros Hl. destruct l as [|a l]; [contradiction|]. apply fold_max_shift.
Qed.

(** ** The bounding box that [calculateViewTransform] computes *)

Lemma fold_left_map {A B C : Type} (f : C -> B -> C) (g : A -> B) (l : list A) (c : C) :
  fold_left f (map g l) c = fold_left (fun acc a => f acc (g a)) l c.
Proof. revert c. induction l as [|a l IH]; intros c; [reflexivity | apply IH]. Qed.

Lemma cityBounds_geometry (st : State.t) :
  cityBounds (State.packages st) (State.buildings st)
  = fold_left growByGeometry (cityGeometry st) Bounds.initial.
Proof.
  unfold cityBounds, cityGeometry. rewrite fold_left_app, !fold_left_map. reflexivity.
Qed.

Lemma fold_grow_lifted (l : list Geometry.Box) (B : Geometry.Bounds3) :
  fold_left growByGeometry (map liftBox l) (liftBounds B)
  = liftBounds
      (Geometry.mkBounds3
         (fold_left Rmin (map Geometry.x l) (Geometry.minX B))
         (fold_left Rmax (map (fun b => Geometry.x b + Geometry.width b) l) (Geometry.maxX B))
         (fold_left Rmin (map Geometry.y l) (Geometry.minY B))
         (fold_left Rmax (map (fun b => Geometry.y b + Geometry.depth b) l) (Geometry.maxY B))
         (fold_left Rmin (map Geometry.z l) (Geometry.minZ B))
         (fold_left Rmax (map (fun b => Geometry.z b + Geometry.height b) l) (Geometry.maxZ B))).
Proof.
  revert B. induction l as [|b l IH]; intros B.
  - destruct B; reflexivity.
  - cbn [map fold_left].
    change (growByGeometry (liftBounds B) (liftBox b))
      with (liftBounds
              (Geometry.mkBounds3
                 (Rmin (Geometry.minX B) (Geometry.x b))
                 (Rmax (Geometry.maxX B) (Geometry.x b + Geometry.width b))
                 (Rmin (Geometry.minY B) (Geometry.y b))
                 (Rmax (Geometry.maxY B) (Geometry.y b + Geometry.depth b))
                 (Rmin (Geometry.minZ B) (Geometry.z b))
                 (Rmax (Geometry.maxZ B) (Geometry.z b + Geometry.height b)))).
    rewrite IH. reflexivity.
Qed.

Lemma cityBounds_lifted (st : State.t) (boxes : list Geometry.Box) :
  cityGeometry st = map liftBox boxes -> boxes <> [] ->
  cityBounds (State.packages st) (State.buildings st)
  = liftBounds (Geometry.boundingBox boxes).
Proof.
  intros Hg Hne. rewrite cityBounds_geometry, Hg.
  destruct boxes as [|b l]; [contradiction|].
  cbn [map fold_left].
  change (growByGeometry Bounds.initial (liftBox b))
    with (liftBounds
            (Geometry.mkBounds3 (Geometry.x b) (Geometry.x b + Geometry.width b)
                                (Geometry.y b) (Geometry.y b + Geometry.depth b)
                                (Geometry.z b) (Geometry.z b + Geometry.height b))).
  rewrite fold_grow_lifted. reflexivity.
Qed.

Lemma cos_PI6_pos : 0 < cos (PI / 6).
Proof.
  rewrite cos_PI6. assert (0 < sqrt 3) by (apply sqrt_lt_R0; lra). lra.
Qed.

Lemma boundingBox_extent (boxes : list Geometry.Box) :
  boxes <> [] -> Forall Geometry.proper boxes ->
  let B := Geometry.boundingBox boxes in
  Geometry.minX B < Geometry.maxX B /\ Geometry.minY B < Geometry.maxY B /\
  Geometry.minZ B <= Geometry.maxZ B.
Proof.
  intros Hne Hall. destruct boxes as [|b l]; [contradiction|].
  inversion Hall as [|? ? (Hw & Hd & Hh) _]; subst.
  cbn zeta. unfold Geometry.boundingBox.
  cbn [Geometry.minX Geometry.maxX Geometry.minY Geometry.maxY Geometry.minZ Geometry.maxZ].
  pose proof (minOf_le (map Geometry.x (b :: l)) (Geometry.x b) (or_introl eq_refl)).
  pose proof (minOf_le (map Geometry.y (b :: l)) (Geometry.y b) (or_introl eq_refl)).
  pose proof (minOf_le (map Geometry.z (b :: l)) (Geometry.z b) (or_introl eq_refl)).
  pose proof (maxOf_ge (map (fun b => Geometry.x b + Geometry.width b) (b :: l)) _
                       (or_introl eq_refl)).
  pose proof (maxOf_ge (map (fun b => Geometry.y b + Geometry.depth b) (b :: l)) _
                       (or_introl eq_refl)).
  pose proof (maxOf_ge (map (fun b => Geometry.z b + Geometry.height b) (b :: l)) _
                       (or_introl eq_refl)).
  repeat split; lra.
Qed.

Lemma projected_extent_pos (B : Geometry.Bounds3) :
  Geometry.minX B < Geometry.maxX B -> Geometry.minY B < Geometry.maxY B ->
  Geometry.minZ B <= Geometry.maxZ B ->
  0 < Geometry.projectedWidth B /\ 0 < Geometry.projectedHeight B.
Proof.
  intros HX HY HZ. unfold Geometry.projectedWidth, Geometry.projectedHeight.
  pose proof cos_PI6_pos as Hc.
  split.
  - assert (H1 : Geometry.isoX (Geometry.maxX B, Geometry.minY B, Geometry.minZ B)
                 <= Geometry.maxOf (map Geometry.isoX (Geometry.corners3 B))).
    { apply maxOf_ge. right. left. reflexivity. }
    assert (H2 : Geometry.minOf (map Geometry.isoX (Geometry.corners3 B))
                 <= Geometry.isoX (Geometry.minX B, Geometry.maxY B, Geometry.minZ B)).
    { apply minOf_le. right. right. right. left. reflexivity. }
    cbn [Geometry.isoX] in H1, H2.
    assert (0 < ((Geometry.maxX B - Geometry.minX B) + (Geometry.maxY B - Geometry.minY B))
                * cos (PI / 6)) by (apply Rmult_lt_0_compat; lra).
    nra.
  - assert (H1 : Geometry.isoY (Geometry.maxX B, Geometry.maxY B, Geometry.minZ B)
                 <= Geometry.maxOf (map Geometry.isoY (Geometry.corners3 B))).
    { apply maxOf_ge. right. right. left. reflexivity. }
    assert (H2 : Geometry.minOf (map Geometry.isoY (Geometry.corners3 B))
                 <= Geometry.isoY (Geometry.minX B, Geometry.minY B, Geometry.maxZ B)).
    { apply minOf_le. right. right. right. right. left. reflexivity. }
    cbn [Geometry.isoY] in H1, H2. rewrite sin_PI6 in H1, H2.
    lra.
Qed.

Lemma boundsCorners_lifted (B : Geometry.Bounds3) :
  boundsCorners (liftBounds B)
  = map (fun c => Point.mk (Fin (Geometry.isoX c)) (Fin (Geometry.isoY c))) (Geometry.corners3 B).
Proof. reflexivity. Qed.

Lemma fitScale_lifted (env : Env.t) (cw ch : R) (B : Geometry.Bounds3) :
  Env.canvasWidth env = Fin cw -> Env.canvasHeight env = Fin ch ->
  0 < Geometry.projectedWidth B -> 0 < Geometry.projectedHeight B ->
  fitScale env (boundsCorners (liftBounds B)) = Fin (Geometry.fitScale cw ch B).
Proof.
  intros Hw Hh Hpw Hph. unfold fitScale. rewrite boundsCorners_lifted, Hw, Hh.
  rewrite !map_map. cbn [Point.x Point.y].
  rewrite !min_list_Fin, !max_list_Fin by discriminate.
  fold (Geometry.projectedWidth B). 
  change (JS.sub (Fin (Geometry.maxOf (map Geometry.isoX (Geometry.corners3 B))))
                 (Fin (Geometry.minOf (map Geometry.isoX (Geometry.corners3 B)))))
    with (Fin (Geometry.projectedWidth B)).
  change (JS.sub (Fin (Geometry.maxOf (map Geometry.isoY (Geometry.corners3 B))))
                 (Fin (Geometry.minOf (map Geometry.isoY (Geometry.corners3 B)))))
    with (Fin (Geometry.projectedHeight B)).
  change (JS.sub (Fin cw) (JS.mul (Fin 50) (Fin 2))) with (Fin (cw - 50 * 2)).
  change (JS.sub (Fin ch) (JS.mul (Fin 50) (Fin 2))) with (Fin (ch - 50 * 2)).
  rewrite !div_Fin by lra.
  unfold JS.min_list. cbn [fold_left JS.min].
  unfold Geometry.fitScale, Geometry.padding.
  replace (50 * 2) with (2 * 50) by lra. reflexivity.
Qed.

Lemma cityGeometry_nonempty (st : State.t) (boxes : list Geometry.Box) :
  cityGeometry st = map liftBox boxes -> boxes <> [] ->
  (Nat.eqb (List.length (State.buildings st)) 0
   && Nat.eqb (List.length (State.packages st)) 0)%bool = false.
Proof.
  intros Hg Hne. unfold cityGeometry in Hg.
  destruct (State.buildings st) as [|b bs]; [|reflexivity].
  destruct (State.packages st) as [|p ps]; [|reflexivity].
  destruct boxes; [contradiction | discriminate Hg].
Qed.

Lemma screenCenter_shifted {A : Type} (f g : A -> R) (ox oy : R) (l : list A) :
  l <> [] ->
  screenCenter (map (fun c => Point.mk (Fin (f c + ox)) (Fin (g c + oy))) l)
  = Point.mk (Fin ((Geometry.minOf (map f l) + Geometry.maxOf (map f l)) / 2 + ox))
             (Fin ((Geometry.minOf (map g l) + Geometry.maxOf (map g l)) / 2 + oy)).
Proof.
  intros Hl. unfold screenCenter. rewrite !map_map. cbn [Point.x Point.y].
  rewrite (min_list_Fin (fun c => f c + ox)), (max_list_Fin (fun c => f c + ox)) by assumption.
  rewrite (min_list_Fin (fun c => g c + oy)), (max_list_Fin (fun c => g c + oy)) by assumption.
  rewrite !minOf_shift, !maxOf_shift by assumption.
  cbn [JS.add]. rewrite !div_Fin by lra. f_equal; f_equal; lra.
Qed.

(** the offsets that centre the corners scaled by [s] *)
Lemma calculateViewTransform_view
      (env : Env.t) (st : State.t) (cw ch : R) (boxes : list Geometry.Box) :
  cityGeometry st = map liftBox boxes ->
  boxes <> [] ->
  Forall Geometry.proper boxes ->
  Env.canvasWidth env = Fin cw ->
  Env.canvasHeight env = Fin ch ->
  let B := Geometry.boundingBox boxes in
  let s := Geometry.fitScale cw ch B in
  let xs := map (fun c => Geometry.isoX c * s) (Geometry.corners3 B) in
  let ys := map (fun c => Geometry.isoY c * s) (Geometry.corners3 B) in
  State.view (calculateViewTransform env st)
  = View.mk (Fin s)
            (Fin (cw / 2 - (Geometry.minOf xs + Geometry.maxOf xs) / 2))
            (Fin (ch / 2 - (Geometry.minOf ys + Geometry.maxOf ys) / 2)).
Proof.
  intros Hg Hne Hproper Hw Hh B s xs ys.
  destruct (boundingBox_extent boxes Hne Hproper) as (HX & HY & HZ). fold B in HX, HY, HZ.
  destruct (projected_extent_pos B HX HY HZ) as [Hpw Hph].
  unfold calculateViewTransform.
  rewrite (cityGeometry_nonempty st boxes Hg Hne).
  rewrite (cityBounds_lifted st boxes Hg Hne). fold B.
  rewrite (fitScale_lifted env cw ch B Hw Hh Hpw Hph). fold s.
  cbn [State.view State.setView].
  rewrite boundsCorners_lifted, Hw, Hh, !map_map. cbn [Point.x Point.y].
  change (fun x : R * R * R => JS.mul (Fin (Geometry.isoX x)) (Fin s))
    with (fun x : R * R * R => Fin (Geometry.isoX x * s)).
  change (fun x : R * R * R => JS.mul (Fin (Geometry.isoY x)) (Fin s))
    with (fun x : R * R * R => Fin (Geometry.isoY x * s)).
  rewrite (min_list_Fin (fun c => Geometry.isoX c * s)),
          (max_list_Fin (fun c => Geometry.isoX c * s)),
          (min_list_Fin (fun c => Geometry.isoY c * s)),
          (max_list_Fin (fun c => Geometry.isoY c * s)) by discriminate.
  cbn [JS.add]. rewrite !div_Fin by lra. reflexivity.
Qed.

(** the corners projected with such a view are centred on the canvas *)
Lemma centered_view (B : Geometry.Bounds3) (s cw ch : R) :
  let xs := map (fun c => Geometry.isoX c * s) (Geometry.corners3 B) in
  let ys := map (fun c => Geometry.isoY c * s) (Geometry.corners3 B) in
  screenCenter
    (projectedCorners
       (View.mk (Fin s)
                (Fin (cw / 2 - (Geometry.minOf xs + Geometry.maxOf xs) / 2))
                (Fin (ch / 2 - (Geometry.minOf ys + Geometry.maxOf ys) / 2)))
       B)
  = Point.mk (Fin (cw / 2)) (Fin (ch / 2)).
Proof.
  intros xs ys.
  set (ox := cw / 2 - _). set (oy := ch / 2 - _).
  assert (Hproj : projectedCorners (View.mk (Fin s) (Fin ox) (Fin oy)) B
                  = map (fun c => Point.mk (Fin (Geometry.isoX c * s + ox))
                                           (Fin (Geometry.isoY c * s + oy)))
                        (Geometry.corners3 B)).
  { reflexivity. }
  rewrite Hproj.
  rewrite (screenCenter_shifted (fun c => Geometry.isoX c * s) (fun c => Geometry.isoY c * s))
    by discriminate.
  fold xs ys. unfold ox, oy. f_equal; f_equal; lra.
Qed.

(** C3: for a city that is not empty, of boxes with finite coordinates,
    positive footprints and non-negative heights, and for every finite
    canvas size, [calculateViewTransform] sets the scale to
    min((W - 100) / w, (H - 100) / h, 1.5), where w and h are the extents of
    the eight isometrically projected corners of the 3D bounding box of all
    packages and buildings, and sets the offsets so that the bounding
    rectangle of these corners, projected with the new view, is centred on
    the centre (W/2, H/2) of the canvas. *)
Theorem calculateViewTransform_fit_and_center
        (env : Env.t) (st : State.t) (cw ch : R) (boxes : list Geometry.Box) :
  cityGeometry st = map liftBox boxes ->
  boxes <> [] ->
  Forall Geometry.proper boxes ->
  Env.canvasWidth env = Fin cw ->
  Env.canvasHeight env = Fin ch ->
  let st' := calculateViewTransform env st in
  let B := Geometry.boundingBox boxes in
  View.scale (State.view st') = Fin (Geometry.fitScale cw ch B) /\
  screenCenter (projectedCorners (State.view st') B) = Point.mk (Fin (cw / 2)) (Fin (ch / 2)).
Proof.
  intros Hg Hne Hproper Hw Hh st' B. unfold st'.
  pose proof (calculateViewTransform_view env st cw ch boxes Hg Hne Hproper Hw Hh) as Hview.
  cbv zeta in Hview. fold B in Hview. rewrite Hview.
  split.
  - reflexivity.
  - apply centered_view.
Qed.

Lemma calculateViewTransform_fit_and_center_witness :
  let st := State.setPlacements
              [] [PackageObj.mk "a.b" (Fin 0) (Fin 0) (Fin 100) (Fin 5) (Fin 80) (Fin 0) []]
              State.initial in
  let boxes := [Geometry.mkBox 0 0 0 100 80 5] in
  cityGeometry st = map liftBox boxes /\
  boxes <> [] /\
  Forall Geometry.proper boxes /\
  View.scale (State.view (calculateViewTransform scenarioEnv st))
  = Fin (Geometry.fitScale 800 600 (Geometry.boundingBox boxes)).
Proof.
  intros st boxes.
  assert (H1 : cityGeometry st = map liftBox boxes) by reflexivity.
  assert (H2 : boxes <> []) by discriminate.
  assert (H3 : Forall Geometry.proper boxes).
  { constructor; [|constructor]. unfold Geometry.proper. cbn. lra. }
  repeat (split; [assumption|]).
  exact (proj1 (calculateViewTransform_fit_and_center scenarioEnv st 800 600 boxes
                  H1 H2 H3 eq_refl eq_refl)).
Defined.

(** ** Loading a file without a packages array *)

(** C9, amended: when the selected file parses to a JSON value whose
    [packages] field is missing or is not an array, the handler ends
    normally and reports an error on the status line, and nothing else of
    the state changes: the data set loaded before, its packages and its
    buildings stay as they were.  For every document but [null] the error
    is "Invalid data format: missing packages array"; for the document
    [null], on which already the read of [data.packages] throws, it is the
    message of the TypeError of the engine. *)
Theorem onload_without_packages_array
        (asDataset : json -> option Data.t) (typeErrorMessage : string)
        (env : Env.t) (fileName : string) (data : json) (st : State.t) :
  isArray (readPackages data) = false ->
  exists message st',
    onload asDataset typeErrorMessage env fileName (Parsed data) st = Some st' /\
    (data <> JNull -> message = "Invalid data format: missing packages array") /\
    (data = JNull -> message = typeErrorMessage) /\
    st' = State.setFileStatus
            (FileStatus.mk (String.append "✗ Error: " message) "#e74c3c") st /\
    State.projectData st' = State.projectData st /\
    State.packages st' = State.packages st /\
    State.buildings st' = State.buildings st /\
    State.gitColorManager st' = State.gitColorManager st /\
    State.view st' = State.view st.
Proof.
  intros Harr. unfold onload.
  destruct (readPackages data) as [| |v] eqn:Hread.
  - exists typeErrorMessage. eexists. split; [reflexivity|].
    split.
    + intros Hnull. destruct data; try discriminate Hread; try contradiction.
      cbn in Hread. destruct (field "packages" fields); discriminate Hread.
    + repeat split; reflexivity.
  - exists invalidFormatMessage. eexists. split; [reflexivity|].
    split; [reflexivity|]. split.
    + intros ->. discriminate Hread.
    + repeat split; reflexivity.
  - exists invalidFormatMessage. eexists. rewrite Harr, orb_true_r.
    split; [reflexivity|]. split; [reflexivity|]. split.
    + intros ->. discriminate Hread.
    + repeat split; reflexivity.
Qed.

Lemma onload_without_packages_array_witness :
  let data := JObject [("name", JString "city"); ("packages", JString "none")] in
  isArray (readPackages data) = false /\
  exists st',
    onload (fun _ => None) "TypeError" scenarioEnv "data.json" (Parsed data) State.initial = Some st' /\
    State.fileStatus st'
    = FileStatus.mk "✗ Error: Invalid data format: missing packages array" "#e74c3c".
Proof.
  intros data.
  assert (H : isArray (readPackages data) = false) by reflexivity.
  split; [exact H|].
  destruct (onload_without_packages_array (fun _ => None) "TypeError" scenarioEnv "data.json" data
              State.initial H) as (message & st' & Hrun & Hmsg & _ & Hst & _).
  exists st'. split; [exact Hrun|].
  rewrite Hst, (Hmsg ltac:(discriminate)). reflexivity.
Defined.

(** for the document [null] the read of [data.packages] itself throws; the
    handler reports the TypeError of the engine the same way *)
Lemma onload_null (asDataset : json -> option Data.t) (typeErrorMessage : string)
      (env : Env.t) (fileName : string) (st : State.t) :
  onload asDataset typeErrorMessage env fileName (Parsed JNull) st
  = Some (reportError typeErrorMessage st).
Proof. reflexivity. Qed.

(** C9, as stated, fails on the file whose text is [null].  It parses, the
    value has no [packages] array, and the status line does not show the
    descriptive error: the read of [data.packages] throws first, and the
    status line shows the message of that TypeError, here the one of V8. *)
Lemma onload_null_is_not_the_descriptive_error :
  let data := JNull in
  let run := onload (fun _ => None) nullReadMessage scenarioEnv "data.json" (Parsed data)
                    State.initial in
  isArray (readPackages data) = false /\
  run = Some (State.setFileStatus
                (FileStatus.mk "✗ Error: Cannot read properties of null (reading 'packages')"
                               "#e74c3c")
                State.initial) /\
  ~ (exists st',
       run = Some st' /\
       State.fileStatus st'
       = FileStatus.mk "✗ Error: Invalid data format: missing packages array" "#e74c3c").
Proof.
  intros data run.
  assert (Hrun : run = Some (reportError nullReadMessage State.initial)).
  { apply onload_null. }
  split; [reflexivity|]. split; [exact Hrun|].
  intros (st' & Hst & Hstatus). rewrite Hrun in Hst. injection Hst as <-.
  discriminate Hstatus.
Qed.

(** ** The placements of a well-formed data set are proper *)

Lemma calculatePackageLayout_finite (pkg : Package.t) :
  Forall wellFormedClass (Package.classes pkg) ->
  let L := calculatePackageLayout pkg in
  exists W D : R,
    PkgLayout.width L = Fin W /\ PkgLayout.depth L = Fin D /\ 0 < W /\ 0 < D /\
    forall p, In p (PkgLayout.positions L) ->
      wellFormedClass (Position.class p) /\
      exists x y w d, placedAt p x y w d /\ 0 < w /\ 0 < d.
Proof.
  intros Hwf L.
  destruct (calculatePackageLayout_cursor pkg Hwf)
    as (cx & cy & rh & mw & td & Hcx & Hcy & Hrh & Hmw & Htd & Bx & By & Brh & Bmw & Btd
        & Hpos & _ & _).
  exists (mw + 20), (td + 20). unfold L, calculatePackageLayout.
  cbn [PkgLayout.width PkgLayout.depth PkgLayout.positions].
  rewrite Hmw, Htd. split; [reflexivity|]. split; [reflexivity|].
  split; [lra|]. split; [lra|].
  intros p Hp. split.
  - assert (Hin : In (Position.class p) (sort byLinesOfCodeDesc (Package.classes pkg))).
    { rewrite <- calculatePackageLayout_classes. apply in_map. exact Hp. }
    rewrite Forall_forall in Hwf. apply Hwf.
    eapply Permutation_in; [apply sort_perm | exact Hin].
  - destruct (Hpos p Hp) as (x & y & w & d & Hpl & _ & _ & Hw & Hd & _).
    exists x, y, w, d. auto.
Qed.

Lemma makeBuilding_proper (pkg : Package.t) (px py : R) (pos : Position.t)
      (x y w d : R) :
  wellFormedClass (Position.class pos) -> placedAt pos x y w d -> 0 < w -> 0 < d ->
  properGeometry (buildingGeometry (makeBuilding pkg (Fin px) (Fin py) pos)).
Proof.
  intros (n & Hloc & Hn) (Hx & Hy & Hf) Hw Hd.
  exists (Geometry.mkBox (px + x) (py + y) 5 w d (Rmax 10 (IZR n * 0.8))).
  split.
  - unfold buildingGeometry, makeBuilding, liftBox.
    cbn [Building.x Building.y Building.z Building.width Building.depth Building.height
         Geometry.x Geometry.y Geometry.z Geometry.width Geometry.depth Geometry.height].
    unfold footprintOf in Hf. rewrite Hf, Hx, Hy, Hloc. reflexivity.
  - unfold Geometry.proper. cbn [Geometry.width Geometry.depth Geometry.height].
    pose proof (Rmax_l 10 (IZR n * 0.8)). repeat split; lra.
Qed.

Lemma placePackage_inv (sx sy : R) (w : num) (r : Region.t) (p : PkgWithMass.t) :
  Forall wellFormedClass (Package.classes (PkgWithMass.pkg p)) ->
  regionInv r -> regionInv (placePackage (Fin sx) (Fin sy) w r p).
Proof.
  intros Hwf ((px & py & mh & Hpx & Hpy & Hmh) & Hpk & Hbs).
  destruct (calculatePackageLayout_finite _ Hwf) as (W & D & HW & HD & HWpos & HDpos & Hpos).
  unfold placePackage. rewrite Hpx, Hpy, Hmh, HW, HD.
  set (wrap := (Nat.ltb 0 (Region.idx r) && _)%bool).
  assert (Hxy : exists nx ny nh,
             (if wrap then Fin sx else Fin px) = Fin nx /\
             (if wrap then JS.add (Fin py) (JS.add (Fin mh) CONFIG.packageSpacing) else Fin py)
             = Fin ny /\
             (if wrap then Fin 0 else Fin mh) = Fin nh).
  { destruct wrap; do 3 eexists; repeat split; reflexivity. }
  destruct Hxy as (nx & ny & nh & -> & -> & ->).
  split; [|split].
  - do 3 eexists. cbn. repeat split; reflexivity.
  - cbn [Region.packages]. rewrite map_app. apply Forall_app. split; [assumption|].
    constructor; [|constructor].
    exists (Geometry.mkBox nx ny 0 W D 5). split; [reflexivity|].
    unfold Geometry.proper. cbn. lra.
  - cbn [Region.buildings]. rewrite map_app. apply Forall_app. split; [assumption|].
    rewrite Forall_map, Forall_map. apply Forall_forall. intros pos Hin.
    destruct (Hpos pos Hin) as (Hc & x & y & w' & d & Hpl & Hw & Hd).
    apply (makeBuilding_proper _ nx ny pos x y w' d); assumption.
Qed.

Lemma fold_placePackage_inv (sx sy : R) (w : num) (l : list PkgWithMass.t) (r : Region.t) :
  Forall (fun p => Forall wellFormedClass (Package.classes (PkgWithMass.pkg p))) l ->
  regionInv r ->
  regionInv (fold_left (placePackage (Fin sx) (Fin sy) w) l r) /\
  List.length (Region.packages (fold_left (placePackage (Fin sx) (Fin sy) w) l r))
  = (List.length (Region.packages r) + List.length l)%nat.
Proof.
  revert r. induction l as [|p l IH]; intros r Hl Hr; cbn [fold_left].
  - split; [assumption | cbn; lia].
  - inversion Hl; subst.
    destruct (IH (placePackage (Fin sx) (Fin sy) w r p)) as [I1 I2].
    + assumption.
    + apply placePackage_inv; assumption.
    + split; [exact I1|]. rewrite I2. cbn [placePackage Region.packages].
      rewrite length_app. cbn. lia.
Qed.

Lemma layoutPackagesInRegion_proper (sx sy : R) (w : num) (l : list PkgWithMass.t)
      (st : State.t) :
  Forall (fun p => Forall wellFormedClass (Package.classes (PkgWithMass.pkg p))) l ->
  properCity st ->
  let st' := layoutPackagesInRegion l (Fin sx) (Fin sy) w st in
  properCity st' /\
  List.length (State.packages st') = (List.length (State.packages st) + List.length l)%nat.
Proof.
  intros Hl [Hp Hb] st'.
  assert (Hr : regionInv (Region.mk 0 (Fin sx) (Fin sy) (Fin 0) (State.buildings st)
                                    (State.packages st))).
  { split; [|split; assumption]. do 3 eexists. repeat split; reflexivity. }
  destruct (fold_placePackage_inv sx sy w l _ Hl Hr) as [(_ & I1 & I2) I3].
  unfold st', layoutPackagesInRegion, properCity.
  cbn [State.packages State.buildings State.setPlacements].
  repeat split; assumption.
Qed.

Lemma Forall_firstn_skipn {A : Type} (P : A -> Prop) (n : nat) (l : list A) :
  Forall P l -> Forall P (firstn n l) /\ Forall P (skipn n l).
Proof.
  intros H. rewrite <- (firstn_skipn n l) in H. apply Forall_app in H. exact H.
Qed.

Lemma Forall_slice {A : Type} (P : A -> Prop) (a b : nat) (l : list A) :
  Forall P l -> Forall P (slice a b l).
Proof.
  intros H. unfold slice.
  apply (Forall_firstn_skipn P (b - a)). apply (Forall_firstn_skipn P a). assumption.
Qed.

Lemma layoutPackagesQuadrant_proper (l : list PkgWithMass.t) (st : State.t) :
  Forall (fun p => Forall wellFormedClass (Package.classes (PkgWithMass.pkg p))) l ->
  properCity st ->
  properCity (layoutPackagesQuadrant l st) /\
  (List.length (State.packages st)
   + List.length (slice 0 (ceil_div (List.length l) 4) l)
   <= List.length (State.packages (layoutPackagesQuadrant l st)))%nat.
Proof.
  intros Hl Hst.
  set (qs := ceil_div (List.length l) 4).
  set (M := IZR (Z.of_nat (ceil_sqrt qs * 150))).
  set (mrw := of_nat (ceil_sqrt qs * 150)).
  set (s1 := layoutPackagesInRegion (slice 0 qs l) (Fin M) (Fin M) mrw st).
  set (s2 := layoutPackagesInRegion (slice qs (qs * 2) l) (Fin (M * 2)) (Fin 0) mrw s1).
  set (s3 := layoutPackagesInRegion (slice (qs * 2) (qs * 3) l) (Fin 0) (Fin (M * 2)) mrw s2).
  set (s4 := layoutPackagesInRegion (sliceFrom (qs * 3) l) (Fin 0) (Fin 0) mrw s3).
  change (layoutPackagesQuadrant l st) with s4.
  destruct (layoutPackagesInRegion_proper M M mrw (slice 0 qs l) st
              (Forall_slice _ _ _ _ Hl) Hst) as [P1 L1]. fold s1 in P1, L1.
  destruct (layoutPackagesInRegion_proper (M * 2) 0 mrw (slice qs (qs * 2) l) s1
              (Forall_slice _ _ _ _ Hl) P1) as [P2 L2]. fold s2 in P2, L2.
  destruct (layoutPackagesInRegion_proper 0 (M * 2) mrw (slice (qs * 2) (qs * 3) l) s2
              (Forall_slice _ _ _ _ Hl) P2) as [P3 L3]. fold s3 in P3, L3.
  destruct (layoutPackagesInRegion_proper 0 0 mrw (sliceFrom (qs * 3) l) s3
              (proj2 (Forall_firstn_skipn _ (qs * 3) _ Hl)) P3) as [P4 L4]. fold s4 in P4, L4.
  split; [exact P4|]. rewrite L4, L3, L2, L1. lia.
Qed.

Lemma first_quartile_nonempty {A : Type} (l : list A) :
  l <> [] -> (1 <= List.length (slice 0 (ceil_div (List.length l) 4) l))%nat.
Proof.
  intros Hne. unfold slice, ceil_div. cbn [skipn]. rewrite length_firstn.
  assert (Hlen : (1 <= List.length l)%nat) by (destruct l; [contradiction | cbn; lia]).
  assert (0 < (List.length l + (4 - 1)) / 4)%nat.
  { apply Nat.div_str_pos. lia. }
  lia.
Qed.

Lemma proper_boxes (gs : list geometry) :
  Forall properGeometry gs ->
  exists boxes, gs = map liftBox boxes /\ Forall Geometry.proper boxes.
Proof.
  induction 1 as [|g gs Hg _ IH].
  - exists []. split; [reflexivity | constructor].
  - destruct Hg as (box & Eg & Hbox). destruct IH as (boxes & Egs & Hboxes).
    exists (box :: boxes). split.
    + rewrite Eg, Egs. reflexivity.
    + constructor; assumption.
Qed.

Lemma properCity_boxes (st : State.t) :
  properCity st -> State.packages st <> [] ->
  exists boxes, cityGeometry st = map liftBox boxes /\ boxes <> [] /\
                Forall Geometry.proper boxes.
Proof.
  intros [Hp Hb] Hne.
  assert (Hall : Forall properGeometry (cityGeometry st)).
  { unfold cityGeometry. apply Forall_app. split; assumption. }
  assert (Hg : cityGeometry st <> []).
  { unfold cityGeometry. destruct (State.packages st); [contradiction | discriminate]. }
  destruct (proper_boxes _ Hall) as (boxes & E & Hboxes).
  exists boxes. split; [exact E|]. split; [|exact Hboxes].
  intros ->. apply Hg. exact E.
Qed.

Lemma layout_proper (data : Data.t) (st : State.t) :
  wellFormedData data -> Data.packages data <> [] ->
  let pwm := sort byMassDesc
               (map (fun pkg => PkgWithMass.mk pkg (calculatePackageMass pkg))
                    (Data.packages data)) in
  let st0 := State.setPlacements [] [] st in
  let st1 := if String.eqb (Toggles.layoutStrategy (State.toggles st0)) "grid"
             then layoutPackagesGrid pwm st0 else layoutPackagesQuadrant pwm st0 in
  properCity st1 /\ State.packages st1 <> [].
Proof.
  intros Hwf Hne pwm st0 st1.
  assert (Hpwm : Forall (fun p => Forall wellFormedClass (Package.classes (PkgWithMass.pkg p)))
                        pwm).
  { eapply Permutation_Forall; [apply Permutation_sym, sort_perm|].
    rewrite Forall_map. exact Hwf. }
  assert (Hlen : pwm <> []).
  { intros E. apply Hne.
    assert (Hl : List.length pwm = List.length (Data.packages data)).
    { unfold pwm. rewrite (Permutation_length (sort_perm _ _)), length_map. reflexivity. }
    rewrite E in Hl. destruct (Data.packages data); [reflexivity | discriminate Hl]. }
  assert (H0 : properCity st0) by (split; constructor).
  assert (Hnonempty : forall s : State.t, (1 <= List.length (State.packages s))%nat ->
                                          State.packages s <> []).
  { intros s Hs E. rewrite E in Hs. cbn in Hs. lia. }
  unfold st1. destruct (String.eqb (Toggles.layoutStrategy (State.toggles st0)) "grid").
  - unfold layoutPackagesGrid.
    destruct (layoutPackagesInRegion_proper 0 0
                (of_nat (ceil_sqrt (List.length pwm) * 150)) pwm st0 Hpwm H0) as [P L].
    split; [exact P|]. apply Hnonempty. rewrite L.
    destruct pwm; [contradiction | cbn; lia].
  - destruct (layoutPackagesQuadrant_proper pwm st0 Hpwm H0) as [P L].
    split; [exact P|]. apply Hnonempty.
    pose proof (first_quartile_nonempty pwm Hlen). lia.
Qed.

(** the view after [processData]: for every well-formed data set with at
    least one package and every finite canvas the placements are proper
    boxes, the scale is the fit scale of their bounding box and the city is
    centred *)
Lemma processData_view_fit (env : Env.t) (data : Data.t) (st : State.t) (cw ch : R) :
  wellFormedData data -> Data.packages data <> [] ->
  Env.canvasWidth env = Fin cw -> Env.canvasHeight env = Fin ch ->
  let st' := processData env data st in
  exists boxes,
    cityGeometry st' = map liftBox boxes /\ boxes <> [] /\ Forall Geometry.proper boxes /\
    View.scale (State.view st')
    = Fin (Geometry.fitScale cw ch (Geometry.boundingBox boxes)) /\
    screenCenter (projectedCorners (State.view st') (Geometry.boundingBox boxes))
    = Point.mk (Fin (cw / 2)) (Fin (ch / 2)).
Proof.
  intros Hwf Hne Hw Hh st'.
  destruct (layout_proper data st Hwf Hne) as [P N]. cbv zeta in P, N.
  unfold st', processData.
  set (st1 := if String.eqb _ "grid" then _ else _) in *.
  set (st2 := calculateGitNormalization env data st1).
  destruct (calculateGitNormalization_keeps env data st1) as (Kp & Kb & _). fold st2 in Kp, Kb.
  assert (P2 : properCity st2) by (unfold properCity; rewrite Kp, Kb; exact P).
  assert (N2 : State.packages st2 <> []) by (rewrite Kp; exact N).
  destruct (properCity_boxes st2 P2 N2) as (boxes & Hg & Hb & Hproper).
  exists boxes.
  destruct (calculateViewTransform_keeps env st2) as (Vp & Vb & _).
  split; [unfold cityGeometry in *; rewrite Vp, Vb; exact Hg|].
  split; [exact Hb|]. split; [exact Hproper|].
  pose proof (calculateViewTransform_view env st2 cw ch boxes Hg Hb Hproper Hw Hh) as Hview.
  cbv zeta in Hview. rewrite Hview. split; [reflexivity | apply centered_view].
Qed.

(** ** The layout of a small package, traced *)

Lemma footprintSide_zero : footprintSide 0 = 20.
Proof.
  unfold footprintSide. replace (0 / 50) with 0 by lra. rewrite sqrt_0.
  rewrite Rmult_0_r, Rmax_left by lra. apply Rmin_right. lra.
Qed.

(** two classes without a line of code: both get the minimum footprint
    20 x 20 and stand in one row, 5 apart, on a platform of 85 x 60 *)
Example layout_of_two_empty_classes :
  let A := Class.mk "A" (Some 0%Z) None in
  let B := Class.mk "B" (Some 0%Z) None in
  calculatePackageLayout (Package.mk "p" [A; B])
  = PkgLayout.mk (Fin 85) (Fin 5) (Fin 60)
                 [Position.mk (Fin 20) (Fin 20) A; Position.mk (Fin 45) (Fin 20) B].
Proof.
  intros A B.
  assert (Hsort : sort byLinesOfCodeDesc [A; B] = [A; B]).
  { cbn [sort insert]. unfold byLinesOfCodeDesc, JS.gtb.
    cbn [A B Class.linesOfCode JS.of_field JS.of_Z JS.sub JS.ltb].
    rewrite Rltb_false by lra. reflexivity. }
  assert (Hfp : calculateBuildingFootprint (JS.of_Z 0) = Footprint.mk (Fin 20) (Fin 20)).
  { rewrite calculateBuildingFootprint_of_Z by lia. rewrite footprintSide_zero. reflexivity. }
  unfold calculatePackageLayout. cbn [Package.classes]. rewrite Hsort.
  cbn [fold_left]. unfold placeClass.
  cbn [A B Class.linesOfCode JS.of_field Cursor.index Cursor.positions Cursor.currentX
       Cursor.currentY Cursor.rowHeight Cursor.maxWidth Cursor.totalDepth].
  rewrite Hfp.
  cbn [Footprint.width Footprint.depth List.length ceil_sqrt Nat.sqrt Nat.min Nat.ltb Nat.leb
       Nat.eqb Nat.modulo andb app PkgLayout.positions].
  cbn.
  rewrite (Rmax_right 0 (20 + 20)), (Rmax_right (20 + 20) (20 + (20 + 5) + 20)) by lra.
  rewrite (Rmax_right 20 (20 + 20)), (Rmax_left (20 + 20) (20 + 20)) by lra.
  unfold CONFIG.packagePadding.
  repeat f_equal; lra.
Qed.

(** three such classes: the rows hold ceil(sqrt 3) = 2 buildings, the third
    class opens the second row, a spacing below the first *)
Example layout_wraps_after_two :
  let A := Class.mk "A" (Some 0%Z) None in
  let B := Class.mk "B" (Some 0%Z) None in
  let C := Class.mk "C" (Some 0%Z) None in
  calculatePackageLayout (Package.mk "p" [A; B; C])
  = PkgLayout.mk (Fin 85) (Fin 5) (Fin 85)
                 [Position.mk (Fin 20) (Fin 20) A; Position.mk (Fin 45) (Fin 20) B;
                  Position.mk (Fin 20) (Fin 45) C].
Proof.
  intros A B C.
  assert (Hsort : sort byLinesOfCodeDesc [A; B; C] = [A; B; C]).
  { assert (Hcmp : forall a b : Class.t,
               Class.linesOfCode a = Some 0%Z -> Class.linesOfCode b = Some 0%Z ->
               JS.gtb (byLinesOfCodeDesc a b) (Fin 0) = false).
    { intros a b Ha Hb. unfold byLinesOfCodeDesc, JS.gtb. rewrite Ha, Hb.
      cbn [JS.of_field JS.of_Z JS.sub JS.ltb]. apply Rltb_false. lra. }
    cbn [sort insert]. rewrite (Hcmp B C) by reflexivity.
    cbn [insert]. rewrite (Hcmp A B) by reflexivity. reflexivity. }
  assert (Hfp : calculateBuildingFootprint (JS.of_Z 0) = Footprint.mk (Fin 20) (Fin 20)).
  { rewrite calculateBuildingFootprint_of_Z by lia. rewrite footprintSide_zero. reflexivity. }
  unfold calculatePackageLayout. cbn [Package.classes]. rewrite Hsort.
  cbn [fold_left]. unfold placeClass.
  cbn [A B C Class.linesOfCode JS.of_field Cursor.index Cursor.positions Cursor.currentX
       Cursor.currentY Cursor.rowHeight Cursor.maxWidth Cursor.totalDepth].
  rewrite Hfp.
  cbn [Footprint.width Footprint.depth List.length ceil_sqrt Nat.sqrt Nat.min Nat.ltb Nat.leb
       Nat.eqb Nat.modulo andb app PkgLayout.positions].
  cbn.
  repeat match goal with
         | |- context [Rmax ?a ?b] =>
             first [rewrite (Rmax_right a b) by lra | rewrite (Rmax_left a b) by lra]
         end.
  unfold CONFIG.packagePadding.
  repeat f_equal; lra.
Qed.

(** the larger class comes first, whatever the order in the file *)
Example sort_puts_larger_first :
  let X := Class.mk "X" (Some 150%Z) None in
  let Y := Class.mk "Y" (Some 85%Z) None in
  sort byLinesOfCodeDesc [Y; X] = [X; Y] /\ sort byLinesOfCodeDesc [X; Y] = [X; Y].
Proof.
  intros X Y. split.
  - cbn [sort insert]. unfold byLinesOfCodeDesc, JS.gtb.
    cbn [X Y Class.linesOfCode JS.of_field JS.of_Z JS.sub JS.ltb].
    rewrite Rltb_true by lra. cbn [insert]. reflexivity.
  - apply sort_scenario.
Qed.

(** * Further properties *)

(** ** Floor and integer division *)

Lemma Int_part_div (a b : Z) : (0 < b)%Z -> Int_part (IZR a / IZR b) = (a / b)%Z.
Proof.
  intros Hb.
  assert (Hb' : 0 < IZR b) by (apply IZR_lt; assumption).
  pose proof (Z.div_mod a b ltac:(lia)) as Hdm.
  pose proof (Z.mod_pos_bound a b Hb) as [Hr0 Hr1].
  assert (Ha : IZR a = IZR b * IZR (a / b) + IZR (a mod b)).
  { rewrite <- mult_IZR, <- plus_IZR. f_equal. exact Hdm. }
  apply IZR_le in Hr0. apply IZR_lt in Hr1.
  assert (Hq : IZR a / IZR b = IZR (a / b) + IZR (a mod b) / IZR b).
  { rewrite Ha. field. lra. }
  assert (0 <= IZR (a mod b) / IZR b < 1).
  { split.
    - apply Rmult_le_pos; [lra | left; apply Rinv_0_lt_compat; lra].
    - apply Rmult_lt_reg_r with (IZR b); [lra|]. field_simplify; lra. }
  apply Int_part_unique; lra.
Qed.

Lemma floor_div_of_Z (a b : Z) :
  (0 < b)%Z -> JSMath.floor (JS.div (JS.of_Z a) (JS.of_Z b)) = JS.of_Z (a / b).
Proof.
  intros Hb. unfold JS.of_Z. rewrite div_Fin.
  - cbn [JSMath.floor]. rewrite Int_part_div by assumption. reflexivity.
  - apply IZR_lt in Hb. lra.
Qed.

(** ** Saturation by age, hue beyond the maximum *)

Lemma Rmax_zero_mono (a b : R) : a <= b -> Rmax 0 a <= Rmax 0 b.
Proof.
  intros H. unfold Rmax. destruct (Rle_dec 0 a), (Rle_dec 0 b); lra.
Qed.

Lemma saturation_closed_form (manager : GitMetadataColorManager.t) (n : R) (t : Z)
      (commits authors : option Z) (useFrequency colorBlind : bool) :
  Color.saturation
    (GitMetadataColorManager.getColorForBuilding
       manager (Fin n) (Some (GitMetadata.mk commits authors (Some t)))
       (ColorOptions.mk useFrequency true colorBlind))
  = Fin (20 + Rmax 0 (Rmin 1 (1 - (n - IZR t) / (1000 * 60 * 60 * 24) / 365)) * 50).
Proof.
  unfold GitMetadataColorManager.getColorForBuilding.
  cbn [ColorOptions.useAge GitMetadata.lastModified Color.saturation].
  unfold JS.of_Z. cbn [JS.sub]. rewrite div_Fin by lra. rewrite div_Fin by lra.
  reflexivity.
Qed.

(** X1: the saturation of a building with a date, age colouring on: between 20
    and 70, 70 for a change now or in the future, 20 from 365 days on, and
    never lower for the later change; 70 without a date or with age
    colouring off *)
Theorem saturation_fades_with_age (manager : GitMetadataColorManager.t) (n : R)
        (commits authors : option Z) (useFrequency colorBlind : bool) :
  let sat (t : Z) :=
    Color.saturation
      (GitMetadataColorManager.getColorForBuilding
         manager (Fin n) (Some (GitMetadata.mk commits authors (Some t)))
         (ColorOptions.mk useFrequency true colorBlind)) in
  (forall t, exists s, sat t = Fin s /\ 20 <= s <= 70) /\
  (forall t, n <= IZR t -> sat t = Fin 70) /\
  (forall t, 365 * (1000 * 60 * 60 * 24) <= n - IZR t -> sat t = Fin 20) /\
  (forall t1 t2, (t1 <= t2)%Z -> JS.le (sat t1) (sat t2)) /\
  (forall (m : GitMetadataColorManager.t) (now : num) (g : option GitMetadata.t)
          (o : ColorOptions.t),
     ColorOptions.useAge o = false \/ g = None \/
     (exists gm, g = Some gm /\ GitMetadata.lastModified gm = None) ->
     Color.saturation (GitMetadataColorManager.getColorForBuilding m now g o) = Fin 70).
Proof.
  intros sat.
  assert (Hsat : forall t, sat t
            = Fin (20 + Rmax 0 (Rmin 1 (1 - (n - IZR t) / (1000 * 60 * 60 * 24) / 365)) * 50)).
  { intros t. apply saturation_closed_form. }
  assert (Hday : 0 < / (1000 * 60 * 60 * 24) / 365).
  { apply Rmult_lt_0_compat; apply Rinv_0_lt_compat; lra. }
  assert (Hage : forall t, (n - IZR t) / (1000 * 60 * 60 * 24) / 365
                           = (n - IZR t) * (/ (1000 * 60 * 60 * 24) / 365)).
  { intros t. unfold Rdiv. ring. }
  split; [|split; [|split; [|split]]].
  - intros t. eexists. split; [apply Hsat|].
    pose proof (Rmax_l 0 (Rmin 1 (1 - (n - IZR t) / (1000 * 60 * 60 * 24) / 365))).
    assert (Rmax 0 (Rmin 1 (1 - (n - IZR t) / (1000 * 60 * 60 * 24) / 365)) <= 1).
    { apply Rmax_lub; [lra | apply Rmin_l]. }
    lra.
  - intros t Ht. rewrite Hsat. f_equal. rewrite Hage.
    assert ((n - IZR t) * (/ (1000 * 60 * 60 * 24) / 365) <= 0) by nra.
    rewrite Rmin_left by lra. rewrite Rmax_right by lra. lra.
  - intros t Ht. rewrite Hsat. f_equal. rewrite Hage.
    assert (1 <= (n - IZR t) * (/ (1000 * 60 * 60 * 24) / 365)).
    { replace 1 with (365 * (1000 * 60 * 60 * 24) * (/ (1000 * 60 * 60 * 24) / 365))
        by (field; lra).
      apply Rmult_le_compat_r; lra. }
    rewrite Rmin_right by lra. rewrite Rmax_left by lra. lra.
  - intros t1 t2 H12. rewrite !Hsat, !Hage. cbn [JS.le]. apply IZR_le in H12.
    assert ((n - IZR t2) * (/ (1000 * 60 * 60 * 24) / 365)
            <= (n - IZR t1) * (/ (1000 * 60 * 60 * 24) / 365)) by nra.
    set (a1 := (n - IZR t1) * _) in *. set (a2 := (n - IZR t2) * _) in *.
    assert (Rmax 0 (Rmin 1 (1 - a1)) <= Rmax 0 (Rmin 1 (1 - a2))).
    { apply Rmax_zero_mono. apply Rmin_one_mono. lra. }
    lra.
  - intros m now g o H. unfold GitMetadataColorManager.getColorForBuilding.
    cbn [Color.saturation].
    destruct H as [H | [H | [gm [Hg Hc]]]].
    + rewrite H. reflexivity.
    + rewrite H. destruct (ColorOptions.useAge o); reflexivity.
    + rewrite Hg, Hc. destruct (ColorOptions.useAge o); reflexivity.
Qed.

Lemma saturation_fades_with_age_witness :
  let manager := GitMetadataColorManager.constructor (Fin 0) None None None None in
  let sat (t : Z) :=
    Color.saturation
      (GitMetadataColorManager.getColorForBuilding
         manager (Fin 1000) (Some (GitMetadata.mk None None (Some t)))
         (ColorOptions.mk true true false)) in
  1000 <= IZR 2000 /\ sat 2000%Z = Fin 70.
Proof.
  intros manager sat.
  assert (H : 1000 <= IZR 2000) by lra.
  split; [exact H|].
  exact (proj1 (proj2 (saturation_fades_with_age manager 1000 None None true false)) 2000%Z H).
Defined.

(** X2: the hue of a manager whose [maxCommits] is positive: at or above the
    maximum it is the red end, for every commit count that is not negative it
    stays between the two ends; a negative count is not clamped and gives a
    hue beyond the blue end *)
Theorem hue_is_clamped_above_only (manager : GitMetadataColorManager.t) (T : R) (now : num)
        (authors lastModified : option Z) (useAge colorBlind : bool) :
  GitMetadataColorManager.maxCommits manager = Fin T -> 0 < T ->
  let hue (c : Z) :=
    Color.hue
      (GitMetadataColorManager.getColorForBuilding
         manager now (Some (GitMetadata.mk (Some c) authors lastModified))
         (ColorOptions.mk true useAge colorBlind)) in
  let blue := if colorBlind then 270 else 240 in
  (forall c, T <= IZR c -> hue c = Fin (blue - 240)) /\
  (forall c, (0 <= c)%Z -> exists h, hue c = Fin h /\ blue - 240 <= h <= blue) /\
  (forall c, (c < 0)%Z -> exists h, hue c = Fin h /\ blue < h).
Proof.
  intros HT Hpos hue blue.
  assert (Hhue : forall c, hue c = Fin (blue - Rmin 1 (IZR c / T) * 240)).
  { intros c. unfold hue. apply hue_closed_form; [assumption | lra]. }
  assert (Hinv : 0 < / T) by (apply Rinv_0_lt_compat; assumption).
  split; [|split].
  - intros c Hc. rewrite Hhue. f_equal.
    assert (1 <= IZR c / T).
    { replace 1 with (T * / T) by (field; lra). unfold Rdiv.
      apply Rmult_le_compat_r; lra. }
    rewrite Rmin_left by assumption. lra.
  - intros c Hc. eexists. split; [apply Hhue|]. apply IZR_le in Hc.
    assert (0 <= IZR c / T) by (unfold Rdiv; apply Rmult_le_pos; lra).
    pose proof (Rmin_l 1 (IZR c / T)).
    assert (0 <= Rmin 1 (IZR c / T)) by (apply Rmin_glb; lra).
    lra.
  - intros c Hc. eexists. split; [apply Hhue|]. apply IZR_lt in Hc.
    assert (IZR c / T < 0) by (unfold Rdiv; nra).
    rewrite Rmin_right by lra. lra.
Qed.

Lemma hue_is_clamped_above_only_witness :
  let manager := GitMetadataColorManager.constructor (Fin 0) (Some (Fin 45)) None None None in
  GitMetadataColorManager.maxCommits manager = Fin 45 /\ 0 < 45 /\ 45 <= IZR 90 /\
  Color.hue
    (GitMetadataColorManager.getColorForBuilding
       manager (Fin 0) (Some (GitMetadata.mk (Some 90%Z) None None))
       (ColorOptions.mk true true false))
  = Fin (240 - 240).
Proof.
  intros manager.
  assert (H1 : GitMetadataColorManager.maxCommits manager = Fin 45).
  { unfold manager, GitMetadataColorManager.constructor.
    cbn [GitMetadataColorManager.maxCommits orDefault]. unfold JS.or, JS.truthy.
    rewrite Reqb_false by lra. reflexivity. }
  assert (H2 : 0 < 45) by lra.
  assert (H3 : 45 <= IZR 90) by lra.
  repeat (split; [assumption|]).
  exact (proj1 (hue_is_clamped_above_only manager 45 (Fin 0) None None true false H1 H2)
               90%Z H3).
Defined.

(** ** Recent changes and relative dates *)

(** X3: [isRecent] holds exactly of metadata with a date that lies at most
    [days] days before [now]; a date in the future counts as recent *)
Theorem isRecent_iff (n days : R) (gitMetadata : option GitMetadata.t) :
  isRecent (Fin n) gitMetadata (Fin days) = true <->
  exists g t, gitMetadata = Some g /\ GitMetadata.lastModified g = Some t /\
              n - IZR t <= days * (1000 * 60 * 60 * 24).
Proof.
  unfold isRecent. destruct gitMetadata as [g|].
  - destruct (GitMetadata.lastModified g) as [t|] eqn:Ht.
    + unfold JS.of_Z. cbn [JS.sub]. rewrite div_Fin by lra. cbn [JSMath.leb].
      assert (Hiff : days < (n - IZR t) / (1000 * 60 * 60 * 24)
                     <-> days * (1000 * 60 * 60 * 24) < n - IZR t).
      { split; intros H.
        - apply Rmult_lt_compat_r with (r := 1000 * 60 * 60 * 24) in H; [|lra].
          replace ((n - IZR t) / (1000 * 60 * 60 * 24) * (1000 * 60 * 60 * 24))
            with (n - IZR t) in H by (field; lra).
          exact H.
        - apply Rmult_lt_reg_r with (r := 1000 * 60 * 60 * 24); [lra|].
          replace ((n - IZR t) / (1000 * 60 * 60 * 24) * (1000 * 60 * 60 * 24))
            with (n - IZR t) by (field; lra).
          exact H. }
      unfold JS.Rltb. destruct (Rlt_dec days ((n - IZR t) / (1000 * 60 * 60 * 24))) as [Hlt|Hge].
      * split; [discriminate|]. intros (g' & t' & Eg & Et & Hle).
        injection Eg as <-. rewrite Ht in Et. injection Et as <-.
        apply Hiff in Hlt. lra.
      * split; [|reflexivity]. intros _. exists g, t.
        split; [reflexivity|]. split; [exact Ht|].
        destruct (Rle_or_lt (n - IZR t) (days * (1000 * 60 * 60 * 24))) as [H|H];
          [exact H | apply Hiff in H; contradiction].
    + split; [discriminate|]. intros (g' & t' & Eg & Et & _).
      injection Eg as <-. rewrite Ht in Et. discriminate.
  - split; [discriminate|]. intros (g' & t' & Eg & _). discriminate.
Qed.

(** X4: [formatDate] on a date [t] and a clock [n], both in whole milliseconds:
    with d the whole days elapsed, it is Today for 0, Yesterday for 1, d
    days below 7 (also for a date in the future, where d is negative),
    1 to 4 weeks below 30, 1 to 12 months below 365, and then at least one
    year; it never reports 0 weeks, months or years *)
Theorem formatDate_ranges (n t : Z) :
  let d := ((n - t) / 86400000)%Z in
  let r := formatDate (JS.of_Z n) (Some t) in
  (d = 0%Z -> r = Today) /\
  (d = 1%Z -> r = Yesterday) /\
  ((d < 0 \/ 2 <= d < 7)%Z -> r = DaysAgo (JS.of_Z d)) /\
  ((7 <= d < 30)%Z -> r = WeeksAgo (JS.of_Z (d / 7)) /\ (1 <= d / 7 <= 4)%Z) /\
  ((30 <= d < 365)%Z -> r = MonthsAgo (JS.of_Z (d / 30)) /\ (1 <= d / 30 <= 12)%Z) /\
  ((365 <= d)%Z -> r = YearsAgo (JS.of_Z (d / 365)) /\ (1 <= d / 365)%Z).
Proof.
  intros d r.
  assert (Hr : r = if Z.eqb d 0 then Today
                   else if Z.eqb d 1 then Yesterday
                   else if Z.ltb d 7 then DaysAgo (JS.of_Z d)
                   else if Z.ltb d 30 then WeeksAgo (JS.of_Z (d / 7))
                   else if Z.ltb d 365 then MonthsAgo (JS.of_Z (d / 30))
                   else YearsAgo (JS.of_Z (d / 365))).
  { unfold r, formatDate.
    assert (Hdays : JSMath.floor (JS.div (JS.sub (JS.of_Z n) (JS.of_Z t))
                                         (Fin (1000 * 60 * 60 * 24)))
                    = JS.of_Z d).
    { replace (JS.sub (JS.of_Z n) (JS.of_Z t)) with (JS.of_Z (n - t))
        by (unfold JS.of_Z; cbn [JS.sub]; rewrite minus_IZR; reflexivity).
      replace (Fin (1000 * 60 * 60 * 24)) with (JS.of_Z 86400000)
        by (unfold JS.of_Z; f_equal; lra).
      apply floor_div_of_Z. lia. }
    rewrite Hdays.
    change (Fin 0) with (JS.of_Z 0). change (Fin 1) with (JS.of_Z 1).
    change (Fin 7) with (JS.of_Z 7). change (Fin 30) with (JS.of_Z 30).
    change (Fin 365) with (JS.of_Z 365).
    rewrite !eqb_of_Z, !ltb_of_Z, !floor_div_of_Z by lia. reflexivity. }
  rewrite Hr.
  split; [|split; [|split; [|split; [|split]]]]; intros H;
    repeat match goal with
           | |- context [Z.eqb ?a ?b] => destruct (Z.eqb_spec a b); try lia
           | |- context [Z.ltb ?a ?b] => destruct (Z.ltb_spec a b); try lia
           end;
    try reflexivity.
  - split; [reflexivity|]. split.
    + apply Z.div_le_lower_bound; lia.
    + apply Z.lt_succ_r. apply Z.div_lt_upper_bound; lia.
  - split; [reflexivity|]. split.
    + apply Z.div_le_lower_bound; lia.
    + apply Z.lt_succ_r. apply Z.div_lt_upper_bound; lia.
  - split; [reflexivity|]. apply Z.div_le_lower_bound; lia.
Qed.

Lemma formatDate_ranges_witness :
  let d := ((1000000000000 - 998000000000) / 86400000)%Z in
  (7 <= d < 30)%Z /\
  formatDate (JS.of_Z 1000000000000) (Some 998000000000%Z) = WeeksAgo (JS.of_Z (d / 7)).
Proof.
  intros d.
  assert (H : (7 <= d < 30)%Z) by (unfold d; split; vm_compute; congruence).
  split; [exact H|].
  exact (proj1 (proj1 (proj2 (proj2 (proj2
           (formatDate_ranges 1000000000000 998000000000)))) H)).
Defined.

Lemma isRecent_iff_witness :
  isRecent (Fin 1000) (Some (GitMetadata.mk None None (Some 400%Z))) (Fin 7) = true.
Proof.
  apply (proj2 (isRecent_iff 1000 7 (Some (GitMetadata.mk None None (Some 400%Z))))).
  exists (GitMetadata.mk None None (Some 400%Z)), 400%Z.
  split; [reflexivity|]. split; [reflexivity|]. lra.
Defined.

(** ** [sort] sorts, and keeps the order of equals *)

Section SortByRank.

Variable A : Type.
Variable cmp : A -> A -> num.
Variable rank : A -> R.

Lemma insert_sorted (a : A) (l : list A) :
  ranksBy cmp rank (a :: l) ->
  StronglySorted (fun x y => rank x <= rank y) l ->
  StronglySorted (fun x y => rank x <= rank y) (insert cmp a l).
Proof.
  intros Hr Hs. induction Hs as [|b l Hs IH Hb]; cbn [insert].
  - constructor; constructor.
  - destruct (JS.gtb (cmp a b) (Fin 0)) eqn:Hgt.
    + assert (Hlt : rank b < rank a).
      { apply (Hr a b); [left; reflexivity | right; left; reflexivity | exact Hgt]. }
      constructor.
      * apply IH. intros x y Hx Hy. apply Hr.
        -- destruct Hx as [<- | Hx]; [left; reflexivity | right; right; exact Hx].
        -- destruct Hy as [<- | Hy]; [left; reflexivity | right; right; exact Hy].
      * apply Forall_forall. intros x Hx.
        apply (Permutation_in _ (insert_perm cmp a l)) in Hx.
        destruct Hx as [<- | Hx]; [lra|].
        rewrite Forall_forall in Hb. apply Hb. exact Hx.
    + assert (Hge : rank a <= rank b).
      { destruct (Rle_or_lt (rank a) (rank b)) as [H | H]; [exact H|].
        apply (Hr a b) in H; [congruence | left; reflexivity | right; left; reflexivity]. }
      constructor.
      * constructor; assumption.
      * constructor; [exact Hge|].
        rewrite Forall_forall in Hb. apply Forall_forall. intros x Hx.
        specialize (Hb x Hx). lra.
Qed.

Lemma sort_sorted (l : list A) :
  ranksBy cmp rank l -> StronglySorted (fun x y => rank x <= rank y) (sort cmp l).
Proof.
  induction l as [|a l IH]; intros Hr; cbn [sort].
  - constructor.
  - apply insert_sorted.
    + intros x y Hx Hy. apply Hr.
      * destruct Hx as [<- | Hx]; [left; reflexivity|].
        right. apply (Permutation_in _ (sort_perm cmp l)). exact Hx.
      * destruct Hy as [<- | Hy]; [left; reflexivity|].
        right. apply (Permutation_in _ (sort_perm cmp l)). exact Hy.
    + apply IH. intros x y Hx Hy. apply Hr; right; assumption.
Qed.

(** stability: [a] passes only elements of a smaller rank *)
Lemma insert_filter (keep : A -> bool) (a : A) (l : list A) :
  ranksBy cmp rank (a :: l) ->
  (forall x y, keep x = true -> keep y = true -> rank x = rank y) ->
  filter keep (insert cmp a l) = filter keep (a :: l).
Proof.
  intros Hr Hk. induction l as [|b l IH]; cbn [insert]; [reflexivity|].
  destruct (JS.gtb (cmp a b) (Fin 0)) eqn:Hgt; [|reflexivity].
  assert (Hlt : rank b < rank a).
  { apply (Hr a b); [left; reflexivity | right; left; reflexivity | exact Hgt]. }
  cbn [filter]. rewrite IH.
  - cbn [filter]. destruct (keep a) eqn:Ka, (keep b) eqn:Kb; try reflexivity.
    pose proof (Hk a b Ka Kb). lra.
  - intros x y Hx Hy. apply Hr.
    + destruct Hx as [<- | Hx]; [left; reflexivity | right; right; exact Hx].
    + destruct Hy as [<- | Hy]; [left; reflexivity | right; right; exact Hy].
Qed.

Lemma sort_filter (keep : A -> bool) (l : list A) :
  ranksBy cmp rank l ->
  (forall x y, keep x = true -> keep y = true -> rank x = rank y) ->
  filter keep (sort cmp l) = filter keep l.
Proof.
  intros Hr Hk. induction l as [|a l IH]; cbn [sort]; [reflexivity|].
  rewrite insert_filter.
  - cbn [filter]. rewrite IH; [reflexivity|].
    intros x y Hx Hy. apply Hr; right; assumption.
  - intros x y Hx Hy. apply Hr.
    + destruct Hx as [<- | Hx]; [left; reflexivity|].
      right. apply (Permutation_in _ (sort_perm cmp l)). exact Hx.
    + destruct Hy as [<- | Hy]; [left; reflexivity|].
      right. apply (Permutation_in _ (sort_perm cmp l)). exact Hy.
  - exact Hk.
Qed.

End SortByRank.

Lemma byLinesOfCodeDesc_ranks (l : list Class.t) :
  Forall wellFormedClass l ->
  ranksBy byLinesOfCodeDesc (fun cls => - IZR (locOf cls)) l.
Proof.
  intros Hwf a b Ha Hb. rewrite Forall_forall in Hwf.
  destruct (Hwf a Ha) as (na & Ea & _). destruct (Hwf b Hb) as (nb & Eb & _).
  unfold byLinesOfCodeDesc, JS.gtb, locOf. rewrite Ea, Eb.
  cbn [JS.of_field JS.of_Z JS.sub JS.ltb]. unfold JS.Rltb.
  destruct (Rlt_dec 0 (IZR nb - IZR na)); split; intros H; try reflexivity;
    try discriminate; lra.
Qed.

(** X5: the buildings of a package stand in the order of non-increasing lines of
    code, and classes with equally many lines keep the order they have in
    the file *)
Theorem calculatePackageLayout_order (pkg : Package.t) :
  Forall wellFormedClass (Package.classes pkg) ->
  let placed := map Position.class (PkgLayout.positions (calculatePackageLayout pkg)) in
  StronglySorted (fun a b => (locOf b <= locOf a)%Z) placed /\
  (forall n, withLines n placed = withLines n (Package.classes pkg)).
Proof.
  intros Hwf placed. unfold placed. rewrite calculatePackageLayout_classes.
  pose proof (byLinesOfCodeDesc_ranks _ Hwf) as Hr.
  split.
  - pose proof (sort_sorted _ _ _ _ Hr) as Hs.
    eapply StronglySorted_ind with (P := fun l => StronglySorted _ l); [| |exact Hs].
    + constructor.
    + intros a l _ IH Ha. constructor; [exact IH|].
      eapply Forall_impl; [|exact Ha]. cbn beta. intros b Hb.
      apply le_IZR. lra.
  - intros n. unfold withLines. apply (sort_filter _ _ _ _ _ Hr).
    intros x y Hx Hy. apply Z.eqb_eq in Hx, Hy. rewrite Hx, Hy. reflexivity.
Qed.

Lemma calculatePackageLayout_order_witness :
  let pkg := Package.mk "p" [ Class.mk "A" (Some 85%Z) None; Class.mk "B" (Some 150%Z) None;
                             Class.mk "C" (Some 85%Z) None ] in
  Forall wellFormedClass (Package.classes pkg) /\
  StronglySorted (fun a b => (locOf b <= locOf a)%Z)
                 (map Position.class (PkgLayout.positions (calculatePackageLayout pkg))).
Proof.
  intros pkg.
  assert (H : Forall wellFormedClass (Package.classes pkg)).
  { repeat constructor; eexists; (split; [reflexivity | lia]). }
  split; [exact H|].
  exact (proj1 (calculatePackageLayout_order pkg H)).
Defined.

(** ** Every package and every class is placed once *)

Lemma placePackage_carries (sx sy w : num) (r : Region.t) (p : PkgWithMass.t) :
  exists P,
    Region.packages (placePackage sx sy w r p) = Region.packages r ++ [P] /\
    Region.buildings (placePackage sx sy w r p)
    = Region.buildings r ++ PackageObj.buildings P /\
    carries P (PkgWithMass.pkg p).
Proof.
  eexists. unfold placePackage. cbn [Region.packages Region.buildings].
  split; [reflexivity|]. split; [reflexivity|].
  unfold carries. cbn [PackageObj.name PackageObj.buildings].
  split; [reflexivity|]. split.
  - rewrite map_map. unfold classNamesInOrder.
    rewrite <- calculatePackageLayout_classes, map_map. reflexivity.
  - apply Forall_map. apply Forall_forall. intros pos _. reflexivity.
Qed.

Lemma fold_placePackage_carries (sx sy w : num) (l : list PkgWithMass.t) (r : Region.t) :
  exists new,
    Region.packages (fold_left (placePackage sx sy w) l r) = Region.packages r ++ new /\
    Region.buildings (fold_left (placePackage sx sy w) l r)
    = Region.buildings r ++ List.concat (map PackageObj.buildings new) /\
    Forall2 carries new (map PkgWithMass.pkg l).
Proof.
  revert r. induction l as [|p l IH]; intros r; cbn [fold_left].
  - exists []. cbn. rewrite !app_nil_r. repeat split. constructor.
  - destruct (placePackage_carries sx sy w r p) as (P & HP & HB & HC).
    destruct (IH (placePackage sx sy w r p)) as (new & Hn & Hb & Hc).
    exists (P :: new). rewrite Hn, Hb, HP, HB. cbn [map List.concat].
    rewrite <- !app_assoc. repeat split. constructor; assumption.
Qed.

Lemma layoutPackagesInRegion_carries (l : list PkgWithMass.t) (sx sy w : num) (st : State.t) :
  exists new,
    State.packages (layoutPackagesInRegion l sx sy w st) = State.packages st ++ new /\
    State.buildings (layoutPackagesInRegion l sx sy w st)
    = State.buildings st ++ List.concat (map PackageObj.buildings new) /\
    Forall2 carries new (map PkgWithMass.pkg l).
Proof.
  destruct (fold_placePackage_carries sx sy w l
              (Region.mk 0 sx sy (Fin 0) (State.buildings st) (State.packages st)))
    as (new & Hn & Hb & Hc).
  exists new. unfold layoutPackagesInRegion.
  cbn [State.packages State.buildings State.setPlacements].
  cbn [Region.packages Region.buildings] in Hn, Hb. auto.
Qed.

Lemma slice_skipn {A : Type} (a b : nat) (l : list A) :
  (a <= b)%nat -> slice a b l ++ skipn b l = skipn a l.
Proof.
  intros Hab. unfold slice.
  replace (skipn b l) with (skipn (b - a) (skipn a l)).
  - apply firstn_skipn.
  - rewrite skipn_skipn. f_equal. lia.
Qed.

Lemma quartiles_cover {A : Type} (q : nat) (l : list A) :
  slice 0 q l ++ slice q (q * 2) l ++ slice (q * 2) (q * 3) l ++ sliceFrom (q * 3) l = l.
Proof.
  unfold sliceFrom.
  rewrite (slice_skipn (q * 2) (q * 3)) by lia.
  rewrite (slice_skipn q (q * 2)) by lia.
  rewrite (slice_skipn 0 q) by lia. reflexivity.
Qed.

Lemma layout_carries (strategy : string) (l : list PkgWithMass.t) (st : State.t) :
  let st' := if String.eqb strategy "grid"
             then layoutPackagesGrid l st else layoutPackagesQuadrant l st in
  exists new,
    State.packages st' = State.packages st ++ new /\
    State.buildings st' = State.buildings st ++ List.concat (map PackageObj.buildings new) /\
    Forall2 carries new (map PkgWithMass.pkg l).
Proof.
  intros st'. unfold st'. destruct (String.eqb strategy "grid").
  - apply layoutPackagesInRegion_carries.
  - unfold layoutPackagesQuadrant.
    set (q := ceil_div (List.length l) 4).
    set (w := of_nat (ceil_sqrt q * 150)).
    cbn [fold_left Quadrant.packages Quadrant.startX Quadrant.startY].
    destruct (layoutPackagesInRegion_carries (slice 0 q l) w w w st) as (n1 & P1 & B1 & C1).
    set (s1 := layoutPackagesInRegion (slice 0 q l) w w w st) in *.
    destruct (layoutPackagesInRegion_carries (slice q (q * 2) l) (JS.mul w (Fin 2)) (Fin 0) w s1)
      as (n2 & P2 & B2 & C2).
    set (s2 := layoutPackagesInRegion (slice q (q * 2) l) (JS.mul w (Fin 2)) (Fin 0) w s1) in *.
    destruct (layoutPackagesInRegion_carries (slice (q * 2) (q * 3) l) (Fin 0)
                (JS.mul w (Fin 2)) w s2) as (n3 & P3 & B3 & C3).
    set (s3 := layoutPackagesInRegion (slice (q * 2) (q * 3) l) (Fin 0)
                 (JS.mul w (Fin 2)) w s2) in *.
    destruct (layoutPackagesInRegion_carries (sliceFrom (q * 3) l) (Fin 0) (Fin 0) w s3)
      as (n4 & P4 & B4 & C4).
    exists (n1 ++ n2 ++ n3 ++ n4).
    rewrite P4, B4, P3, B3, P2, B2, P1, B1.
    rewrite !map_app, !concat_app, <- !app_assoc.
    split; [reflexivity|]. split; [reflexivity|].
    rewrite <- (quartiles_cover q l) at 1. rewrite !map_app.
    repeat apply Forall2_app; assumption.
Qed.

(** X6: [processData] places every package of the data set exactly once, in the
    order of the sort by mass, whatever the strategy; each platform has one
    building per class of its package, in the order of the sort by lines of
    code, and the array of all buildings is the platforms' buildings in
    sequence *)
Theorem processData_places_everything (env : Env.t) (data : Data.t) (st : State.t) :
  let st' := processData env data st in
  Forall2 carries (State.packages st') (map PkgWithMass.pkg (packagesByMass data)) /\
  Permutation (map PkgWithMass.pkg (packagesByMass data)) (Data.packages data) /\
  State.buildings st' = List.concat (map PackageObj.buildings (State.packages st')) /\
  List.length (State.packages st') = List.length (Data.packages data) /\
  List.length (State.buildings st') = List.length (allClasses data).
Proof.
  intros st'.
  destruct (layout_carries (Toggles.layoutStrategy (State.toggles st)) (packagesByMass data)
              (State.setPlacements [] [] st)) as (new & HP & HB & HC).
  cbn [State.packages State.buildings State.setPlacements app] in HP, HB.
  assert (Hp : State.packages st' = new).
  { unfold st', processData.
    match goal with
    | |- State.packages (calculateViewTransform ?e ?s) = _ =>
        destruct (calculateViewTransform_keeps e s) as (-> & _)
    end.
    match goal with
    | |- State.packages (calculateGitNormalization ?e ?d ?s) = _ =>
        destruct (calculateGitNormalization_keeps e d s) as (-> & _)
    end.
    exact HP. }
  assert (Hb : State.buildings st' = List.concat (map PackageObj.buildings new)).
  { unfold st', processData.
    match goal with
    | |- State.buildings (calculateViewTransform ?e ?s) = _ =>
        destruct (calculateViewTransform_keeps e s) as (_ & -> & _)
    end.
    match goal with
    | |- State.buildings (calculateGitNormalization ?e ?d ?s) = _ =>
        destruct (calculateGitNormalization_keeps e d s) as (_ & -> & _)
    end.
    exact HB. }
  assert (Hperm : Permutation (map PkgWithMass.pkg (packagesByMass data)) (Data.packages data)).
  { unfold packagesByMass.
    eapply perm_trans; [apply Permutation_map, sort_perm|].
    rewrite map_map. cbn [PkgWithMass.pkg]. rewrite map_id. apply Permutation_refl. }
  rewrite Hp, Hb. split; [exact HC|]. split; [exact Hperm|]. split; [reflexivity|].
  split.
  - rewrite (Forall2_length HC). apply Permutation_length. exact Hperm.
  - assert (Hlen : forall ps pkgs, Forall2 carries ps pkgs ->
               List.length (List.concat (map PackageObj.buildings ps))
               = List.length (flat_map Package.classes pkgs)).
    { induction 1 as [|P pkg ps pkgs (_ & Hn & _) _ IH]; [reflexivity|].
      cbn [map List.concat flat_map]. rewrite !length_app, IH. f_equal.
      rewrite <- (length_map Building.className), Hn. unfold classNamesInOrder.
      rewrite length_map. apply Permutation_length, sort_perm. }
    rewrite (Hlen _ _ HC). unfold allClasses.
    apply Permutation_length. apply Permutation_flat_map. exact Hperm.
Qed.

(** ** Platforms in rows, buildings on their platform *)

Lemma ForallOrdPairs_map {A B : Type} (f : A -> B) (R : A -> A -> Prop) (S : B -> B -> Prop)
      (l : list A) :
  (forall a b, In a l -> In b l -> R a b -> S (f a) (f b)) ->
  ForallOrdPairs R l -> ForallOrdPairs S (map f l).
Proof.
  intros H Hl. induction Hl as [|a l Ha Hl IH]; cbn [map].
  - constructor.
  - constructor.
    + apply Forall_map. apply Forall_forall. intros b Hb.
      rewrite Forall_forall in Ha. apply H; [left; reflexivity | right; exact Hb | auto].
    + apply IH. intros x y Hx Hy. apply H; right; assumption.
Qed.

Lemma makeBuilding_rect (pkg : Package.t) (nx ny : R) (pos : Position.t) (x y w d : R) :
  placedAt pos x y w d ->
  buildingRect (makeBuilding pkg (Fin nx) (Fin ny) pos) (nx + x) (ny + y) w d.
Proof.
  intros (Hx & Hy & Hf). unfold buildingRect, makeBuilding.
  cbn [Building.x Building.y Building.width Building.depth].
  unfold footprintOf in Hf. rewrite Hx, Hy, Hf. repeat split.
Qed.

Lemma calculatePackageLayout_world (pkg : Package.t) (name : string) (nx ny : R) :
  Forall wellFormedClass (Package.classes pkg) ->
  let L := calculatePackageLayout pkg in
  exists W D,
    PkgLayout.width L = Fin W /\ PkgLayout.depth L = Fin D /\
    wellPlaced (PackageObj.mk name (Fin nx) (Fin ny) (PkgLayout.width L) (PkgLayout.height L)
                              (PkgLayout.depth L) (Fin 0)
                              (map (makeBuilding pkg (Fin nx) (Fin ny)) (PkgLayout.positions L))).
Proof.
  intros Hwf L.
  destruct (calculatePackageLayout_cursor pkg Hwf)
    as (cx & cy & rh & mw & td & Hcx & Hcy & Hrh & Hmw & Htd & Bx & By & Brh & Bmw & Btd
        & Hpos & Hdis & _).
  assert (HW : PkgLayout.width L = Fin (mw + 20)).
  { unfold L, calculatePackageLayout. cbn [PkgLayout.width]. rewrite Hmw. reflexivity. }
  assert (HD : PkgLayout.depth L = Fin (td + 20)).
  { unfold L, calculatePackageLayout. cbn [PkgLayout.depth]. rewrite Htd. reflexivity. }
  change (Cursor.positions _) with (PkgLayout.positions L) in Hpos, Hdis.
  exists (mw + 20), (td + 20). split; [exact HW|]. split; [exact HD|].
  exists nx, ny, (mw + 20), (td + 20).
  split; [unfold platformRect;
          cbn [PackageObj.x PackageObj.y PackageObj.width PackageObj.depth]; auto|].
  split; [lra|]. split; [lra|]. cbn [PackageObj.buildings]. split.
  - intros b Hb. apply in_map_iff in Hb. destruct Hb as (pos & <- & Hin).
    destruct (Hpos pos Hin) as (x & y & w & d & Hpl & H1 & H2 & H3 & H4 & H5 & H6 & _).
    exists (nx + x), (ny + y), w, d.
    split; [apply makeBuilding_rect; exact Hpl|]. repeat split; lra.
  - apply (ForallOrdPairs_map _ disjoint); [|exact Hdis].
    intros p q Hp Hq Hpq.
    destruct (Hpos p Hp) as (x & y & w & d & Hpl & _).
    destruct (Hpos q Hq) as (x' & y' & w' & d' & Hpl' & _).
    destruct (makeBuilding_rect pkg nx ny p _ _ _ _ Hpl) as (E1 & E2 & E3 & E4).
    destruct (makeBuilding_rect pkg nx ny q _ _ _ _ Hpl') as (F1 & F2 & F3 & F4).
    destruct Hpl as (Px & Py & Pf). destruct Hpl' as (Qx & Qy & Qf).
    unfold disjoint in Hpq. rewrite Px, Py, Pf, Qx, Qy, Qf in Hpq. cbn in Hpq.
    unfold buildingsDisjoint. rewrite E1, E2, E3, E4, F1, F2, F3, F4. cbn.
    destruct Hpq as [H | [H | [H | H]]]; [left | right; left | right; right; left
                                          | right; right; right]; lra.
Qed.

Lemma placePackage_rows (sx sy : R) (w : num) (r : Region.t) (cur : list PackageObj.t)
      (p : PkgWithMass.t) :
  Forall wellFormedClass (Package.classes (PkgWithMass.pkg p)) ->
  rowsInv r cur ->
  exists P,
    Region.packages (placePackage (Fin sx) (Fin sy) w r p) = Region.packages r ++ [P] /\
    rowsInv (placePackage (Fin sx) (Fin sy) w r p) (cur ++ [P]).
Proof.
  intros Hwf (px & py & mh & Hpx & Hpy & Hmh & Bmh & Hcur & Hdis & Hwell).
  unfold placePackage. rewrite Hpx, Hpy, Hmh.
  set (wrap := (Nat.ltb 0 (Region.idx r) && _)%bool).
  assert (Hxy : exists nx ny nh,
             (if wrap then Fin sx else Fin px) = Fin nx /\
             (if wrap then JS.add (Fin py) (JS.add (Fin mh) CONFIG.packageSpacing) else Fin py)
             = Fin ny /\
             (if wrap then Fin 0 else Fin mh) = Fin nh /\ 0 <= nh /\
             forall x y w' d : R,
               y + d <= py + mh -> (y + d <= py \/ (y = py /\ x + w' <= px)) ->
               y + d <= ny + nh /\ (y + d <= ny \/ (y = ny /\ x + w' <= nx))).
  { destruct wrap.
    - exists sx, (py + (mh + 0)), 0.
      split; [reflexivity|]. split; [reflexivity|]. split; [reflexivity|].
      split; [lra|]. intros x y w' d H1 H2. split; [lra|]. left. lra.
    - exists px, py, mh.
      split; [reflexivity|]. split; [reflexivity|]. split; [reflexivity|].
      split; [lra|]. intros x y w' d H1 H2. split; [lra | exact H2]. }
  destruct Hxy as (nx & ny & nh & -> & -> & -> & Bnh & Hold).
  destruct (calculatePackageLayout_world (PkgWithMass.pkg p)
              (Package.name (PkgWithMass.pkg p)) nx ny Hwf) as (W & D & HW & HD & HP).
  set (L := calculatePackageLayout (PkgWithMass.pkg p)) in *.
  set (P := PackageObj.mk _ _ _ _ _ _ _ _) in HP.
  exists P. cbn [Region.packages]. split; [reflexivity|].
  assert (HPw : 0 < W /\ 0 < D).
  { destruct HP as (x & y & w' & d & (_ & _ & Ew & Ed) & Hw & Hd & _).
    cbn [PackageObj.width PackageObj.depth P] in Ew, Ed.
    rewrite HW in Ew. rewrite HD in Ed.
    injection Ew as <-. injection Ed as <-. auto. }
  assert (HPrect : platformRect P nx ny W D).
  { unfold platformRect, P.
    cbn [PackageObj.x PackageObj.y PackageObj.width PackageObj.depth]. auto. }
  pose proof (Rmax_l nh D) as M1. pose proof (Rmax_r nh D) as M2.
  exists (nx + (W + 0)), ny, (Rmax nh D).
  cbn [Region.packageX Region.packageY Region.maxRowHeight]. rewrite HW, HD.
  split; [reflexivity|]. split; [reflexivity|]. split; [reflexivity|].
  split; [lra|]. split; [|split].
  - intros Q HQ. apply in_app_or in HQ. destruct HQ as [HQ | [<- | []]].
    + destruct (Hcur Q HQ) as (x & y & w' & d & HR & H1 & H2).
      exists x, y, w', d. split; [exact HR|].
      destruct (Hold x y w' d H1 H2) as [G1 G2]. split; [lra|].
      destruct G2 as [G2 | [G2 G3]]; [left; lra | right; split; lra].
    + exists nx, ny, W, D. split; [exact HPrect|]. split; [lra|]. right. split; lra.
  - apply ForallOrdPairs_snoc; [exact Hdis|].
    apply Forall_forall. intros Q HQ.
    destruct (Hcur Q HQ) as (x & y & w' & d & (E1 & E2 & E3 & E4) & H1 & H2).
    destruct (Hold x y w' d H1 H2) as [_ G2].
    destruct HPrect as (F1 & F2 & F3 & F4).
    unfold platformsDisjoint. rewrite E1, E2, E3, E4, F1, F2. cbn.
    destruct G2 as [G2 | [G2 G3]]; [right; right; left | left]; lra.
  - apply Forall_app. split; [exact Hwell | constructor; [exact HP | constructor]].
Qed.

Lemma fold_placePackage_rows (sx sy : R) (w : num) (l : list PkgWithMass.t) (r : Region.t)
      (cur : list PackageObj.t) :
  Forall (fun p => Forall wellFormedClass (Package.classes (PkgWithMass.pkg p))) l ->
  rowsInv r cur ->
  exists new,
    Region.packages (fold_left (placePackage (Fin sx) (Fin sy) w) l r)
    = Region.packages r ++ new /\
    rowsInv (fold_left (placePackage (Fin sx) (Fin sy) w) l r) (cur ++ new).
Proof.
  revert r cur. induction l as [|p l IH]; intros r cur Hl Hr; cbn [fold_left].
  - exists []. rewrite !app_nil_r. auto.
  - inversion Hl; subst.
    destruct (placePackage_rows sx sy w r cur p) as (P & HP & HI); [assumption..|].
    destruct (IH _ _ ltac:(assumption) HI) as (new & Hn & Hi).
    exists (P :: new). rewrite Hn, HP, <- app_assoc. split; [reflexivity|].
    rewrite <- app_assoc in Hi. exact Hi.
Qed.

(** the platforms that one call of [layoutPackagesInRegion] adds *)
Lemma layoutPackagesInRegion_rows (sx sy : R) (w : num) (l : list PkgWithMass.t)
      (st : State.t) :
  Forall (fun p => Forall wellFormedClass (Package.classes (PkgWithMass.pkg p))) l ->
  exists new,
    State.packages (layoutPackagesInRegion l (Fin sx) (Fin sy) w st)
    = State.packages st ++ new /\
    ForallOrdPairs platformsDisjoint new /\ Forall wellPlaced new.
Proof.
  intros Hl.
  assert (H0 : rowsInv (Region.mk 0 (Fin sx) (Fin sy) (Fin 0) (State.buildings st)
                                  (State.packages st)) []).
  { exists sx, sy, 0. cbn [Region.packageX Region.packageY Region.maxRowHeight].
    split; [reflexivity|]. split; [reflexivity|]. split; [reflexivity|].
    split; [lra|]. split; [intros P []|]. split; constructor. }
  destruct (fold_placePackage_rows sx sy w l _ [] Hl H0) as (new & Hn & Hi).
  exists new. unfold layoutPackagesInRegion.
  cbn [State.packages State.setPlacements]. cbn [Region.packages] in Hn.
  split; [exact Hn|].
  destruct Hi as (? & ? & ? & _ & _ & _ & _ & _ & Hd & Hw). cbn [app] in Hd, Hw. auto.
Qed.

Lemma ForallOrdPairs_append {A : Type} (R : A -> A -> Prop) (l1 l2 : list A) :
  ForallOrdPairs R l1 -> ForallOrdPairs R l2 ->
  (forall a b, In a l1 -> In b l2 -> R a b) ->
  ForallOrdPairs R (l1 ++ l2).
Proof.
  intros H1 H2 H. induction H1 as [|a l Ha Hl IH]; cbn [app].
  - exact H2.
  - constructor.
    + apply Forall_app. split; [exact Ha|].
      apply Forall_forall. intros b Hb. apply H; [left; reflexivity | exact Hb].
    + apply IH. intros x y Hx Hy. apply H; [right; exact Hx | exact Hy].
Qed.

Lemma ForallOrdPairs_concat {A : Type} (R : A -> A -> Prop) (ls : list (list A)) :
  Forall (ForallOrdPairs R) ls ->
  ForallOrdPairs (fun l1 l2 => forall a b, In a l1 -> In b l2 -> R a b) ls ->
  ForallOrdPairs R (List.concat ls).
Proof.
  intros Hin Hcross. induction Hcross as [|l ls Hl Hls IH]; cbn [List.concat].
  - constructor.
  - inversion Hin; subst. apply ForallOrdPairs_append; [assumption | apply IH; assumption |].
    intros a b Ha Hb. apply in_concat in Hb. destruct Hb as (l' & Hl' & Hb).
    rewrite Forall_forall in Hl. exact (Hl l' Hl' a b Ha Hb).
Qed.

(** buildings on platforms that do not overlap do not overlap *)
Lemma wellPlaced_apart (P Q : PackageObj.t) (a b : Building.t) :
  wellPlaced P -> wellPlaced Q -> platformsDisjoint P Q ->
  In a (PackageObj.buildings P) -> In b (PackageObj.buildings Q) ->
  buildingsDisjoint a b.
Proof.
  intros (x & y & w & d & (E1 & E2 & E3 & E4) & Hw & Hd & HbP & _)
         (x' & y' & w' & d' & (F1 & F2 & F3 & F4) & Hw' & Hd' & HbQ & _) Hdis Ha Hb.
  destruct (HbP a Ha) as (ax & ay & aw & ad & (A1 & A2 & A3 & A4) & ? & ? & ? & ? & ? & ?).
  destruct (HbQ b Hb) as (bx & bY & bw & bd & (B1 & B2 & B3 & B4) & ? & ? & ? & ? & ? & ?).
  unfold platformsDisjoint in Hdis. rewrite E1, E2, E3, E4, F1, F2, F3, F4 in Hdis.
  unfold buildingsDisjoint. rewrite A1, A2, A3, A4, B1, B2, B3, B4.
  cbn [JS.add JS.le] in *.
  destruct Hdis as [H' | [H' | [H' | H']]]; [left | right; left | right; right; left
                                             | right; right; right]; lra.
Qed.

Lemma wellPlaced_onPlatform (P : PackageObj.t) :
  wellPlaced P ->
  Forall (onPlatform P) (PackageObj.buildings P) /\
  ForallOrdPairs buildingsDisjoint (PackageObj.buildings P).
Proof.
  intros (x & y & w & d & (E1 & E2 & E3 & E4) & Hw & Hd & Hb & Hdis).
  split; [|exact Hdis]. apply Forall_forall. intros b Hin.
  destruct (Hb b Hin) as (bx & bY & bw & bd & (B1 & B2 & B3 & B4) & ? & ? & ? & ? & ? & ?).
  unfold onPlatform, CONFIG.packagePadding. rewrite E1, E2, E3, E4, B1, B2, B3, B4.
  cbn [JS.add JS.le]. repeat split; lra.
Qed.

Lemma layout_rows (strategy : string) (l : list PkgWithMass.t) (st : State.t) :
  Forall (fun p => Forall wellFormedClass (Package.classes (PkgWithMass.pkg p))) l ->
  let st' := if String.eqb strategy "grid"
             then layoutPackagesGrid l st else layoutPackagesQuadrant l st in
  exists new,
    State.packages st' = State.packages st ++ new /\
    Forall wellPlaced new /\
    (String.eqb strategy "grid" = true -> ForallOrdPairs platformsDisjoint new).
Proof.
  intros Hl st'. unfold st'. destruct (String.eqb strategy "grid").
  - unfold layoutPackagesGrid.
    destruct (layoutPackagesInRegion_rows 0 0 (of_nat (ceil_sqrt (List.length l) * 150)) l st Hl)
      as (new & Hn & Hd & Hw).
    exists new. auto.
  - set (qs := ceil_div (List.length l) 4).
    set (M := IZR (Z.of_nat (ceil_sqrt qs * 150))).
    set (mrw := of_nat (ceil_sqrt qs * 150)).
    set (s1 := layoutPackagesInRegion (slice 0 qs l) (Fin M) (Fin M) mrw st).
    set (s2 := layoutPackagesInRegion (slice qs (qs * 2) l) (Fin (M * 2)) (Fin 0) mrw s1).
    set (s3 := layoutPackagesInRegion (slice (qs * 2) (qs * 3) l) (Fin 0) (Fin (M * 2)) mrw s2).
    set (s4 := layoutPackagesInRegion (sliceFrom (qs * 3) l) (Fin 0) (Fin 0) mrw s3).
    change (layoutPackagesQuadrant l st) with s4.
    destruct (layoutPackagesInRegion_rows M M mrw (slice 0 qs l) st
                (Forall_slice _ _ _ _ Hl)) as (n1 & P1 & _ & W1). fold s1 in P1.
    destruct (layoutPackagesInRegion_rows (M * 2) 0 mrw (slice qs (qs * 2) l) s1
                (Forall_slice _ _ _ _ Hl)) as (n2 & P2 & _ & W2). fold s2 in P2.
    destruct (layoutPackagesInRegion_rows 0 (M * 2) mrw (slice (qs * 2) (qs * 3) l) s2
                (Forall_slice _ _ _ _ Hl)) as (n3 & P3 & _ & W3). fold s3 in P3.
    destruct (layoutPackagesInRegion_rows 0 0 mrw (sliceFrom (qs * 3) l) s3
                (proj2 (Forall_firstn_skipn _ (qs * 3) _ Hl))) as (n4 & P4 & _ & W4).
    fold s4 in P4.
    exists (n1 ++ n2 ++ n3 ++ n4). rewrite P4, P3, P2, P1, <- !app_assoc.
    split; [reflexivity|]. split; [|discriminate].
    repeat (apply Forall_app; split); assumption.
Qed.

Lemma processData_placements (env : Env.t) (data : Data.t) (st : State.t) :
  wellFormedData data ->
  let st' := processData env data st in
  Forall wellPlaced (State.packages st') /\
  State.buildings st' = List.concat (map PackageObj.buildings (State.packages st')) /\
  (Toggles.layoutStrategy (State.toggles st) = "grid" ->
   ForallOrdPairs platformsDisjoint (State.packages st')).
Proof.
  intros Hwf st'.
  assert (Hpwm : Forall (fun p => Forall wellFormedClass (Package.classes (PkgWithMass.pkg p)))
                        (packagesByMass data)).
  { eapply Permutation_Forall; [apply Permutation_sym, sort_perm|].
    rewrite Forall_map. exact Hwf. }
  destruct (layout_rows (Toggles.layoutStrategy (State.toggles st)) (packagesByMass data)
              (State.setPlacements [] [] st) Hpwm) as (new & HP & HW & HD).
  destruct (layout_carries (Toggles.layoutStrategy (State.toggles st)) (packagesByMass data)
              (State.setPlacements [] [] st)) as (new' & HP' & HB & _).
  cbn [State.packages State.buildings State.setPlacements app] in HP, HP', HB.
  assert (E : new' = new) by congruence. rewrite E in HB. clear E HP'.
  assert (Hp : State.packages st' = new).
  { unfold st', processData.
    match goal with
    | |- State.packages (calculateViewTransform ?e ?s) = _ =>
        destruct (calculateViewTransform_keeps e s) as (-> & _)
    end.
    match goal with
    | |- State.packages (calculateGitNormalization ?e ?d ?s) = _ =>
        destruct (calculateGitNormalization_keeps e d s) as (-> & _)
    end.
    exact HP. }
  assert (Hb : State.buildings st' = List.concat (map PackageObj.buildings new)).
  { unfold st', processData.
    match goal with
    | |- State.buildings (calculateViewTransform ?e ?s) = _ =>
        destruct (calculateViewTransform_keeps e s) as (_ & -> & _)
    end.
    match goal with
    | |- State.buildings (calculateGitNormalization ?e ?d ?s) = _ =>
        destruct (calculateGitNormalization_keeps e d s) as (_ & -> & _)
    end.
    exact HB. }
  rewrite Hp, Hb. split; [exact HW|]. split; [reflexivity|].
  intros Hgrid. apply HD. rewrite Hgrid. reflexivity.
Qed.

(** X7: after [processData] on a data set whose classes have non-negative lines
    of code, whatever the strategy: every building stands on the platform
    of its package, the padding away from each of its four edges, in the
    coordinates of the city, and no two buildings of one platform overlap *)
Theorem buildings_stand_on_their_platform (env : Env.t) (data : Data.t) (st : State.t) :
  wellFormedData data ->
  Forall (fun P => Forall (onPlatform P) (PackageObj.buildings P) /\
                   ForallOrdPairs buildingsDisjoint (PackageObj.buildings P))
         (State.packages (processData env data st)).
Proof.
  intros Hwf. destruct (processData_placements env data st Hwf) as (HW & _).
  eapply Forall_impl; [|exact HW]. intros P HP. apply wellPlaced_onPlatform. exact HP.
Qed.

Lemma buildings_stand_on_their_platform_witness :
  wellFormedData scenarioData /\
  Forall (fun P => Forall (onPlatform P) (PackageObj.buildings P) /\
                   ForallOrdPairs buildingsDisjoint (PackageObj.buildings P))
         (State.packages (processData scenarioEnv scenarioData State.initial)).
Proof.
  assert (H : wellFormedData scenarioData).
  { repeat constructor; eexists; (split; [reflexivity | lia]). }
  split; [exact H|].
  exact (buildings_stand_on_their_platform scenarioEnv scenarioData State.initial H).
Defined.

(** X8: with the grid strategy, on a data set whose classes have non-negative
    lines of code: no two platforms of the city overlap, and no two
    buildings of the city overlap, of the same package or not *)
Theorem grid_city_has_no_overlap (env : Env.t) (data : Data.t) (st : State.t) :
  wellFormedData data ->
  Toggles.layoutStrategy (State.toggles st) = "grid" ->
  ForallOrdPairs platformsDisjoint (State.packages (processData env data st)) /\
  ForallOrdPairs buildingsDisjoint (State.buildings (processData env data st)).
Proof.
  intros Hwf Hgrid.
  destruct (processData_placements env data st Hwf) as (HW & HB & HD).
  specialize (HD Hgrid). split; [exact HD|]. rewrite HB.
  apply ForallOrdPairs_concat.
  - apply Forall_map. eapply Forall_impl; [|exact HW].
    intros P HP. apply wellPlaced_onPlatform. exact HP.
  - apply (ForallOrdPairs_map _ platformsDisjoint); [|exact HD].
    intros P Q HP HQ Hdis a b Ha Hb. rewrite Forall_forall in HW.
    exact (wellPlaced_apart P Q a b (HW P HP) (HW Q HQ) Hdis Ha Hb).
Qed.

Lemma grid_city_has_no_overlap_witness :
  let st := layoutRadio_change scenarioEnv "grid" State.initial in
  wellFormedData scenarioData /\
  Toggles.layoutStrategy (State.toggles st) = "grid" /\
  ForallOrdPairs buildingsDisjoint (State.buildings (processData scenarioEnv scenarioData st)).
Proof.
  intros st.
  assert (H : wellFormedData scenarioData).
  { repeat constructor; eexists; (split; [reflexivity | lia]). }
  assert (G : Toggles.layoutStrategy (State.toggles st) = "grid") by reflexivity.
  split; [exact H|]. split; [exact G|].
  exact (proj2 (grid_city_has_no_overlap scenarioEnv scenarioData st H G)).
Defined.

(** ** Deprecated classes *)

Lemma prefix_iff (k s : string) :
  String.prefix k s = true <-> exists q, s = (k ++ q)%string.
Proof.
  revert s. induction k as [|a k IH]; intros s.
  - split; [intros _; exists s; reflexivity | intros _; destruct s; reflexivity].
  - destruct s as [|b s]; cbn [String.prefix String.append].
    + split; [discriminate | intros (q & Hq); discriminate Hq].
    + destruct (Ascii.ascii_dec a b) as [<- | Hab].
      * rewrite IH. split; intros (q & Hq); exists q; congruence.
      * split; [discriminate | intros (q & Hq); congruence].
Qed.

Lemma includes_iff (s k : string) :
  includes s k = true <-> exists p q, s = (p ++ k ++ q)%string.
Proof.
  split.
  - induction s as [|c s IH]; cbn [includes]; intros H; apply orb_true_iff in H.
    + destruct H as [H | H]; [|discriminate].
      apply prefix_iff in H. destruct H as (q & Hq). exists EmptyString, q. exact Hq.
    + destruct H as [H | H].
      * apply prefix_iff in H. destruct H as (q & Hq). exists EmptyString, q. exact Hq.
      * destruct (IH H) as (p & q & Hpq). exists (String c p), q.
        cbn [String.append]. rewrite Hpq. reflexivity.
  - intros (p & q & Hpq). revert s Hpq.
    induction p as [|c p IH]; intros s Hpq; cbn [String.append] in Hpq.
    + assert (Hp : String.prefix k s = true) by (apply prefix_iff; exists q; exact Hpq).
      destruct s; cbn [includes]; rewrite Hp; reflexivity.
    + subst s. cbn [includes]. rewrite (IH _ eq_refl). apply orb_true_r.
Qed.

(** X9: [isDeprecated] holds of a class name exactly when one of the four
    keywords, written with its capital letter, occurs somewhere in it *)
Theorem isDeprecated_iff (className : string) :
  isDeprecated className = true <->
  exists keyword p q,
    In keyword ["Deprecated"; "Legacy"; "Obsolete"; "Old"] /\
    className = (p ++ keyword ++ q)%string.
Proof.
  unfold isDeprecated. rewrite existsb_exists. fold deprecatedKeywords. split.
  - intros (keyword & Hin & H). apply includes_iff in H. destruct H as (p & q & Hpq).
    exists keyword, p, q. auto.
  - intros (keyword & p & q & Hin & Hpq). exists keyword. split; [exact Hin|].
    apply includes_iff. exists p, q. exact Hpq.
Qed.

Lemma isDeprecated_iff_witness : isDeprecated "OldParser" = true.
Proof.
  apply (proj2 (isDeprecated_iff "OldParser")).
  exists "Old", EmptyString, "Parser". split; [right; right; right; left; reflexivity|].
  reflexivity.
Defined.

(** ** Zooming and panning *)

Lemma toIsometric_Fin (s ox oy x y z : R) :
  toIsometric (View.mk (Fin s) (Fin ox) (Fin oy)) (Fin x) (Fin y) (Fin z)
  = Point.mk (Fin ((x - y) * cos CONFIG.isoAngle * s + ox))
             (Fin (((x + y) * sin CONFIG.isoAngle - z) * s + oy)).
Proof. reflexivity. Qed.

Lemma exp_tenth_gt_1 : 1 < exp 0.1.
Proof. rewrite <- exp_0. apply exp_increasing. lra. Qed.

Lemma exp_minus_tenth_lt_1 : 0 < exp (-0.1) < 1.
Proof.
  split; [apply exp_pos|]. rewrite <- exp_0. apply exp_increasing. lra.
Qed.

Lemma handleWheel_Fin (mx my s ox oy : R) (deltaY : num) :
  0 < s ->
  let e := if JS.ltb deltaY (Fin 0) then 1 * 0.1 else -1 * 0.1 in
  let s' := Rmax 0.1 (Rmin 5 (s * exp e)) in
  handleWheel (Fin mx) (Fin my) deltaY (View.mk (Fin s) (Fin ox) (Fin oy))
  = View.mk (Fin s') (Fin (mx - (mx - ox) / s * s')) (Fin (my - (my - oy) / s * s')).
Proof.
  intros Hs e s'. unfold handleWheel. cbn [View.scale View.offsetX View.offsetY JS.sub].
  rewrite !div_Fin by lra. unfold e, s'.
  destruct (JS.ltb deltaY (Fin 0)); reflexivity.
Qed.

(** X10: [handleWheel] on a finite view with a positive scale, whatever
    [deltaY] is: the new scale is the old one times e^0.1 (deltaY < 0) or
    e^-0.1 (any other deltaY, zero and NaN included), clamped to
    [0.1, 5]; zooming in does not lower a scale of at most 5, zooming out
    does not raise a scale of at least 0.1; and the point of the city that
    was drawn under the pointer is drawn under the pointer again *)
Theorem handleWheel_zooms_about_the_pointer (mx my s ox oy : R) (deltaY : num) :
  0 < s ->
  let v := View.mk (Fin s) (Fin ox) (Fin oy) in
  let v' := handleWheel (Fin mx) (Fin my) deltaY v in
  (exists s' : R,
      View.scale v' = Fin s' /\ 0.1 <= s' <= 5 /\
      s' = Rmax 0.1 (Rmin 5 (s * exp (if JS.ltb deltaY (Fin 0) then 0.1 else - 0.1))) /\
      (JS.ltb deltaY (Fin 0) = true -> s <= 5 -> s <= s') /\
      (JS.ltb deltaY (Fin 0) = false -> 0.1 <= s -> s' <= s)) /\
  (forall x y z : R,
      toIsometric v (Fin x) (Fin y) (Fin z) = Point.mk (Fin mx) (Fin my) ->
      toIsometric v' (Fin x) (Fin y) (Fin z) = Point.mk (Fin mx) (Fin my)).
Proof.
  intros Hs v v'. unfold v', v. rewrite handleWheel_Fin by exact Hs.
  set (e := if JS.ltb deltaY (Fin 0) then 1 * 0.1 else -1 * 0.1).
  set (s' := Rmax 0.1 (Rmin 5 (s * exp e))).
  assert (Hs' : 0.1 <= s' <= 5).
  { unfold s'. split; [apply Rmax_l|].
    apply Rmax_lub; [lra | apply Rmin_l]. }
  split.
  - exists s'. cbn [View.scale]. split; [reflexivity|]. split; [exact Hs'|].
    pose proof exp_tenth_gt_1 as E1. pose proof exp_minus_tenth_lt_1 as E2.
    split; [|split].
    + unfold s', e. replace (1 * 0.1) with 0.1 by lra.
      replace (-1 * 0.1) with (- 0.1) by lra.
      destruct (JS.ltb deltaY (Fin 0)); reflexivity.
    + intros Hd Hle. unfold s', e. rewrite Hd. replace (1 * 0.1) with 0.1 by lra.
      apply Rle_trans with (Rmin 5 (s * exp 0.1)); [|apply Rmax_r].
      apply Rmin_glb; [exact Hle | nra].
    + intros Hd Hle. unfold s', e. rewrite Hd. replace (-1 * 0.1) with (- 0.1) by lra.
      apply Rmax_lub; [exact Hle|].
      apply Rle_trans with (s * exp (- 0.1)); [apply Rmin_r | nra].
  - intros x y z. rewrite !toIsometric_Fin. intros H.
    injection H as Hx Hy. f_equal; f_equal.
    + replace (mx - ox) with ((x - y) * cos CONFIG.isoAngle * s) by lra. field. lra.
    + replace (my - oy) with (((x + y) * sin CONFIG.isoAngle - z) * s) by lra. field. lra.
Qed.

Lemma handleWheel_zooms_about_the_pointer_witness :
  0 < 1 /\
  exists s' : R,
    View.scale (handleWheel (Fin 400) (Fin 300) (Fin (-3)) (View.mk (Fin 1) (Fin 100) (Fin 100)))
    = Fin s' /\ 0.1 <= s' <= 5.
Proof.
  split; [lra|].
  destruct (proj1 (handleWheel_zooms_about_the_pointer 400 300 1 100 100 (Fin (-3))
                     ltac:(lra))) as (s' & H1 & H2 & _).
  exists s'. split; [exact H1 | exact H2].
Defined.

(** X11: pressing the middle button at (x0, y0) and moving the pointer to
    (x1, y1) leaves the scale and the hovered building as they are and
    draws every point of the city displaced by (x1 - x0, y1 - y0); what
    counts is the last position of the pointer, not the way to it; after
    the button is released, or the pointer has left the canvas, a move
    does not displace the view; and another button starts nothing *)
Theorem panning_follows_the_pointer (x0 y0 x1 y1 x2 y2 s ox oy : R) (p : Pointer.t)
        (bs : list Drawn.t) :
  let v := View.mk (Fin s) (Fin ox) (Fin oy) in
  let pressed := handleMouseDown 1 (Fin x0) (Fin y0) (v, p) in
  let moved := handleMouseMove (Fin x1) (Fin y1) bs pressed in
  View.scale (fst moved) = Fin s /\
  Pointer.hoveredBuilding (snd moved) = Pointer.hoveredBuilding p /\
  (forall x y z : R,
      Point.x (toIsometric (fst moved) (Fin x) (Fin y) (Fin z))
      = JS.add (Point.x (toIsometric v (Fin x) (Fin y) (Fin z))) (Fin (x1 - x0)) /\
      Point.y (toIsometric (fst moved) (Fin x) (Fin y) (Fin z))
      = JS.add (Point.y (toIsometric v (Fin x) (Fin y) (Fin z))) (Fin (y1 - y0))) /\
  handleMouseMove (Fin x2) (Fin y2) bs moved = handleMouseMove (Fin x2) (Fin y2) bs pressed /\
  fst (handleMouseMove (Fin x2) (Fin y2) bs (handleMouseUp 1 moved)) = fst moved /\
  fst (handleMouseMove (Fin x2) (Fin y2) bs (handleMouseLeave moved)) = fst moved /\
  (forall button : Z, button <> 1%Z ->
      handleMouseDown button (Fin x0) (Fin y0) (v, p) = (v, p) /\
      handleMouseUp button moved = moved).
Proof.
  intros v pressed moved. unfold moved, pressed, v.
  cbn [handleMouseDown handleMouseMove handleMouseUp handleMouseLeave Z.eqb Pos.eqb
       Pointer.isPanning Pointer.panStartX Pointer.panStartY Pointer.panOffsetX
       Pointer.panOffsetY Pointer.hoveredBuilding Pointer.selectedBuilding
       View.scale View.offsetX View.offsetY fst snd stopPanning JS.add JS.sub].
  split; [reflexivity|]. split; [reflexivity|]. split.
  - intros x y z. rewrite !toIsometric_Fin. cbn [Point.x Point.y JS.add].
    split; f_equal; lra.
  - split; [reflexivity|]. split; [reflexivity|]. split; [reflexivity|].
    intros button Hb. apply Z.eqb_neq in Hb.
    unfold handleMouseDown, handleMouseUp. rewrite Hb. split; reflexivity.
Qed.

Lemma panning_follows_the_pointer_witness :
  View.scale
    (fst (handleMouseMove (Fin 30) (Fin 40) []
            (handleMouseDown 1 (Fin 10) (Fin 10) (View.initial, Pointer.initial))))
  = Fin 1.
Proof.
  exact (proj1 (panning_follows_the_pointer 10 10 30 40 0 0 1 100 100 Pointer.initial [])).
Defined.

(** ** The building under the pointer *)

Lemma nth_error_snoc {A : Type} (l : list A) (a : A) (j : nat) (b : A) :
  nth_error (l ++ [a]) j = Some b ->
  ((j < List.length l)%nat /\ nth_error l j = Some b) \/ (j = List.length l /\ b = a).
Proof.
  intros H. destruct (Nat.lt_ge_cases j (List.length l)) as [Hlt | Hge].
  - left. split; [exact Hlt|]. rewrite nth_error_app1 in H by exact Hlt. exact H.
  - right. rewrite nth_error_app2 in H by exact Hge.
    destruct (j - List.length l)%nat as [|k] eqn:E.
    + cbn in H. split; [lia | congruence].
    + cbn in H. destruct k; discriminate H.
Qed.

Lemma hitStep_inv (mouseX mouseY : num) (pre : list Drawn.t) (h : Hit.t) (d : Drawn.t) :
  finiteDepth d -> hitInv mouseX mouseY pre h ->
  hitInv mouseX mouseY (pre ++ [d]) (hitStep mouseX mouseY h d).
Proof.
  intros (r & Hr) (Hi & Hfound). unfold hitStep. fold (buildingDepth (Drawn.building d)).
  rewrite Hr. unfold hitInv. rewrite length_app. cbn [List.length].
  destruct (underPointer mouseX mouseY d) eqn:Hu.
  - destruct (Hit.foundHovered h) as [i|] eqn:Hf.
    + destruct Hfound as (d0 & m & Hn & Hu0 & Hd0 & Hm & Hall).
      assert (Hlt : (i < List.length pre)%nat).
      { apply nth_error_Some. rewrite Hn. discriminate. }
      rewrite Hm. cbn [JS.gtb JS.ltb].
      destruct (Rlt_dec m r) as [Hmr | Hmr].
      * rewrite Rltb_true by exact Hmr. cbn [Hit.i Hit.foundHovered Hit.maxDepth].
        split; [lia|]. exists d, r. rewrite Hi.
        split; [rewrite nth_error_app2 by lia; rewrite Nat.sub_diag; reflexivity|].
        split; [exact Hu|]. split; [exact Hr|]. split; [reflexivity|].
        intros j d' m' Hj Hu' Hd'. apply nth_error_snoc in Hj.
        destruct Hj as [[Hj1 Hj2] | [Hj1 ->]].
        -- destruct (Hall j d' m' Hj2 Hu' Hd') as [H1 _]. split; [lra | intros _; lra].
        -- assert (m' = r) by congruence. subst m'. split; [lra | intros; lia].
      * rewrite Rltb_false by lra. cbn [Hit.i Hit.foundHovered Hit.maxDepth].
        split; [lia|]. exists d0, m.
        split; [rewrite nth_error_app1 by exact Hlt; exact Hn|].
        split; [exact Hu0|]. split; [exact Hd0|]. split; [reflexivity|].
        intros j d' m' Hj Hu' Hd'. apply nth_error_snoc in Hj.
        destruct Hj as [[Hj1 Hj2] | [Hj1 ->]].
        -- exact (Hall j d' m' Hj2 Hu' Hd').
        -- assert (m' = r) by congruence. subst m'. split; [lra | intros; lia].
    + destruct Hfound as (Hm & Hall). rewrite Hm. cbn [JS.gtb JS.ltb].
      cbn [Hit.i Hit.foundHovered Hit.maxDepth].
      split; [lia|]. exists d, r. rewrite Hi.
      split; [rewrite nth_error_app2 by lia; rewrite Nat.sub_diag; reflexivity|].
      split; [exact Hu|]. split; [exact Hr|]. split; [reflexivity|].
      intros j d' m' Hj Hu' Hd'. apply nth_error_snoc in Hj.
      destruct Hj as [[Hj1 Hj2] | [Hj1 ->]].
      * apply nth_error_In in Hj2. rewrite Forall_forall in Hall.
        rewrite (Hall d' Hj2) in Hu'. discriminate Hu'.
      * assert (m' = r) by congruence. subst m'. split; [lra | intros; lia].
  - cbn [Hit.i Hit.foundHovered Hit.maxDepth]. split; [lia|].
    destruct (Hit.foundHovered h) as [i|] eqn:Hf.
    + destruct Hfound as (d0 & m & Hn & Hu0 & Hd0 & Hm & Hall).
      assert (Hlt : (i < List.length pre)%nat).
      { apply nth_error_Some. rewrite Hn. discriminate. }
      exists d0, m.
      split; [rewrite nth_error_app1 by exact Hlt; exact Hn|].
      split; [exact Hu0|]. split; [exact Hd0|]. split; [exact Hm|].
      intros j d' m' Hj Hu' Hd'. apply nth_error_snoc in Hj.
      destruct Hj as [[Hj1 Hj2] | [Hj1 ->]].
      * exact (Hall j d' m' Hj2 Hu' Hd').
      * rewrite Hu in Hu'. discriminate Hu'.
    + destruct Hfound as (Hm & Hall). split; [exact Hm|].
      apply Forall_app. split; [exact Hall | constructor; [exact Hu | constructor]].
Qed.

Lemma fold_hitStep_inv (mouseX mouseY : num) (l pre : list Drawn.t) (h : Hit.t) :
  Forall finiteDepth l -> hitInv mouseX mouseY pre h ->
  hitInv mouseX mouseY (pre ++ l) (fold_left (hitStep mouseX mouseY) l h).
Proof.
  revert pre h. induction l as [|d l IH]; intros pre h Hl Hh; cbn [fold_left].
  - rewrite app_nil_r. exact Hh.
  - inversion Hl; subst.
    replace (pre ++ d :: l) with ((pre ++ [d]) ++ l) by (rewrite <- app_assoc; reflexivity).
    apply IH; [assumption|]. apply hitStep_inv; assumption.
Qed.

(** ** The box of a building on the screen *)

Lemma fold_min_in (l : list R) (a : R) : In (fold_left Rmin l a) (a :: l).
Proof.
  revert a. induction l as [|b l IH]; intros a; cbn [fold_left].
  - left. reflexivity.
  - destruct (IH (Rmin a b)) as [H | H].
    + rewrite <- H. unfold Rmin. destruct (Rle_dec a b); [left | right; left]; reflexivity.
    + right. right. exact H.
Qed.

Lemma fold_max_in (l : list R) (a : R) : In (fold_left Rmax l a) (a :: l).
Proof.
  revert a. induction l as [|b l IH]; intros a; cbn [fold_left].
  - left. reflexivity.
  - destruct (IH (Rmax a b)) as [H | H].
    + rewrite <- H. unfold Rmax. destruct (Rle_dec a b); [right; left | left]; reflexivity.
    + right. right. exact H.
Qed.

Lemma minOf_eq (l : list R) (m : R) :
  In m l -> (forall e, In e l -> m <= e) -> Geometry.minOf l = m.
Proof.
  intros Hin Hall. apply Rle_antisym; [apply minOf_le; exact Hin|].
  apply Hall. destruct l as [|a l]; [destruct Hin|]. apply fold_min_in.
Qed.

Lemma maxOf_eq (l : list R) (m : R) :
  In m l -> (forall e, In e l -> e <= m) -> Geometry.maxOf l = m.
Proof.
  intros Hin Hall. apply Rle_antisym; [|apply maxOf_ge; exact Hin].
  apply Hall. destruct l as [|a l]; [destruct Hin|]. apply fold_max_in.
Qed.

Lemma screenBounds_Fin (s ox oy : R) (b : Building.t) (x y z w d h : R) :
  buildingBox b x y z w d h ->
  drawBuilding_screenBounds (View.mk (Fin s) (Fin ox) (Fin oy)) b
  = ScreenBounds.mk
      (Fin (Geometry.minOf (map (screenX s ox) (boxCorners x y z w d h))))
      (Fin (Geometry.maxOf (map (screenX s ox) (boxCorners x y z w d h))))
      (Fin (Geometry.minOf (map (screenY s oy) (boxCorners x y z w d h))))
      (Fin (Geometry.maxOf (map (screenY s oy) (boxCorners x y z w d h)))).
Proof.
  intros (Hx & Hy & Hz & Hw & Hd & Hh & _).
  unfold drawBuilding_screenBounds, buildingCorners. rewrite Hx, Hy, Hz, Hw, Hd, Hh.
  cbn [JS.add]. rewrite !toIsometric_Fin.
  rewrite <- (min_list_Fin (screenX s ox)) by discriminate.
  rewrite <- (max_list_Fin (screenX s ox)) by discriminate.
  rewrite <- (min_list_Fin (screenY s oy)) by discriminate.
  rewrite <- (max_list_Fin (screenY s oy)) by discriminate.
  reflexivity.
Qed.

Lemma underPointer_box (s ox oy : R) (b : Building.t) (x y z w d h X Y Z : R) :
  buildingBox b x y z w d h -> 0 <= s ->
  x <= X <= x + w -> y <= Y <= y + d -> z <= Z <= z + h ->
  let v := View.mk (Fin s) (Fin ox) (Fin oy) in
  underPointer (Point.x (toIsometric v (Fin X) (Fin Y) (Fin Z)))
               (Point.y (toIsometric v (Fin X) (Fin Y) (Fin Z))) (drawn v b) = true.
Proof.
  intros Hb Hs [HX1 HX2] [HY1 HY2] [HZ1 HZ2] v.
  pose proof Hb as (_ & _ & _ & _ & _ & _ & Hw & Hd & Hh).
  unfold underPointer, drawn, v. cbn [Drawn.screenBounds].
  rewrite (screenBounds_Fin s ox oy b x y z w d h Hb), toIsometric_Fin.
  cbn [Point.x Point.y ScreenBounds.minX ScreenBounds.maxX ScreenBounds.minY ScreenBounds.maxY
       JSMath.geb JSMath.leb].
  set (cs := boxCorners x y z w d h).
  assert (L : Geometry.minOf (map (screenX s ox) cs) <= screenX s ox (x, y + d, z)).
  { apply minOf_le. apply in_map. right; right; right; left. reflexivity. }
  assert (R : screenX s ox (x + w, y, z) <= Geometry.maxOf (map (screenX s ox) cs)).
  { apply maxOf_ge. apply in_map. right; left. reflexivity. }
  assert (T : Geometry.minOf (map (screenY s oy) cs) <= screenY s oy (x, y, z + h)).
  { apply minOf_le. apply in_map. right; right; right; right; left. reflexivity. }
  assert (F : screenY s oy (x + w, y + d, z) <= Geometry.maxOf (map (screenY s oy) cs)).
  { apply maxOf_ge. apply in_map. right; right; left. reflexivity. }
  cbn [screenX screenY] in L, R, T, F.
  assert (Hsn : sin CONFIG.isoAngle = 1 / 2) by apply sin_PI6.
  rewrite Hsn in *.
  pose proof cos_PI6_pos as Hc. change (cos (PI / 6)) with (cos CONFIG.isoAngle) in Hc.
  set (c := cos CONFIG.isoAngle) in *.
  assert (Hcs : 0 <= c * s) by (apply Rmult_le_pos; lra).
  assert (A1 : 0 <= (X - x) * (c * s)) by (apply Rmult_le_pos; lra).
  assert (A2 : 0 <= (x + w - X) * (c * s)) by (apply Rmult_le_pos; lra).
  assert (A3 : 0 <= (Y - y) * (c * s)) by (apply Rmult_le_pos; lra).
  assert (A4 : 0 <= (y + d - Y) * (c * s)) by (apply Rmult_le_pos; lra).
  assert (B1 : 0 <= (X - x) * s) by (apply Rmult_le_pos; lra).
  assert (B2 : 0 <= (x + w - X) * s) by (apply Rmult_le_pos; lra).
  assert (B3 : 0 <= (Y - y) * s) by (apply Rmult_le_pos; lra).
  assert (B4 : 0 <= (y + d - Y) * s) by (apply Rmult_le_pos; lra).
  assert (B5 : 0 <= (Z - z) * s) by (apply Rmult_le_pos; lra).
  assert (B6 : 0 <= (z + h - Z) * s) by (apply Rmult_le_pos; lra).
  rewrite !Rltb_false by lra. reflexivity.
Qed.

(** X12: [drawBuilding] on a building with finite coordinates and sizes that are
    not negative, under a finite view whose scale is not negative: the
    screen bounds it stores are the box from the left corner (x, y + d) to
    the right corner (x + w, y) and from the top of the corner (x, y) to
    the foot of the corner (x + w, y + d); so it is (w + d) cos(pi/6) scale
    wide and ((w + d) / 2 + h) scale high, and the pointer counts as over
    the building wherever a point of the building is drawn *)
Theorem screenBounds_cover_the_building (s ox oy : R) (b : Building.t) (x y z w d h : R) :
  buildingBox b x y z w d h -> 0 <= s ->
  let v := View.mk (Fin s) (Fin ox) (Fin oy) in
  drawBuilding_screenBounds v b
  = ScreenBounds.mk (Fin ((x - (y + d)) * cos (PI / 6) * s + ox))
                    (Fin ((x + w - y) * cos (PI / 6) * s + ox))
                    (Fin (((x + y) / 2 - (z + h)) * s + oy))
                    (Fin (((x + w + (y + d)) / 2 - z) * s + oy)) /\
  forall X Y Z : R,
    x <= X <= x + w -> y <= Y <= y + d -> z <= Z <= z + h ->
    underPointer (Point.x (toIsometric v (Fin X) (Fin Y) (Fin Z)))
                 (Point.y (toIsometric v (Fin X) (Fin Y) (Fin Z))) (drawn v b) = true.
Proof.
  intros Hb Hs v.
  split;
    [|intros X Y Z HX HY HZ;
      exact (underPointer_box s ox oy b x y z w d h X Y Z Hb Hs HX HY HZ)].
  pose proof Hb as (_ & _ & _ & _ & _ & _ & Hw & Hd & Hh).
  assert (Hsn : sin CONFIG.isoAngle = 1 / 2) by apply sin_PI6.
  change (cos (PI / 6)) with (cos CONFIG.isoAngle).
  pose proof cos_PI6_pos as Hc. change (cos (PI / 6)) with (cos CONFIG.isoAngle) in Hc.
  set (c := cos CONFIG.isoAngle) in *.
  assert (Hcs : 0 <= c * s) by (apply Rmult_le_pos; lra).
  pose proof (Rmult_le_pos _ _ Hw Hcs) as Pw. pose proof (Rmult_le_pos _ _ Hd Hcs) as Pd.
  pose proof (Rmult_le_pos _ _ Hw Hs) as Qw. pose proof (Rmult_le_pos _ _ Hd Hs) as Qd.
  pose proof (Rmult_le_pos _ _ Hh Hs) as Qh.
  unfold v. rewrite (screenBounds_Fin s ox oy b x y z w d h Hb).
  cbn [map boxCorners screenX screenY]. fold c. rewrite Hsn.
  f_equal; f_equal.
  - apply minOf_eq.
    + right; right; right; left. lra.
    + intros e He. cbn [In] in He.
      repeat (destruct He as [<- | He]; [lra|]). destruct He.
  - apply maxOf_eq.
    + right; left. lra.
    + intros e He. cbn [In] in He.
      repeat (destruct He as [<- | He]; [lra|]). destruct He.
  - apply minOf_eq.
    + right; right; right; right; left. lra.
    + intros e He. cbn [In] in He.
      repeat (destruct He as [<- | He]; [lra|]). destruct He.
  - apply maxOf_eq.
    + right; right; left. lra.
    + intros e He. cbn [In] in He.
      repeat (destruct He as [<- | He]; [lra|]). destruct He.
Qed.

Lemma screenBounds_cover_the_building_witness :
  let b := Building.mk "X" "a.b" (Some 150%Z) None (Fin 20) (Fin 20) (Fin 5)
                       (Fin 30) (Fin 30) (Fin 120) "#34495e" in
  let v := View.mk (Fin 1) (Fin 100) (Fin 100) in
  buildingBox b 20 20 5 30 30 120 /\ 0 <= 1 /\
  underPointer (Point.x (toIsometric v (Fin 25) (Fin 30) (Fin 100)))
               (Point.y (toIsometric v (Fin 25) (Fin 30) (Fin 100))) (drawn v b) = true.
Proof.
  intros b v.
  assert (Hb : buildingBox b 20 20 5 30 30 120).
  { unfold buildingBox, b. cbn. repeat split; try reflexivity; lra. }
  split; [exact Hb|]. split; [lra|].
  apply (proj2 (screenBounds_cover_the_building 1 100 100 b 20 20 5 30 30 120 Hb ltac:(lra)));
    lra.
Defined.

(** X13: the loop of [handleMouseMove] over buildings at finite places: when it
    finds nothing, no building has the pointer within its screen bounds
    (a building that was never drawn has none); the building it finds has
    the pointer within its bounds, no building under the pointer has a
    greater depth y + x, and none before it in the array has the same *)
Theorem findHovered_is_the_frontmost (mouseX mouseY : num) (buildings : list Drawn.t) :
  Forall finiteDepth buildings ->
  match findHovered mouseX mouseY buildings with
  | None => Forall (fun d => underPointer mouseX mouseY d = false) buildings
  | Some i =>
      exists d,
        nth_error buildings i = Some d /\ underPointer mouseX mouseY d = true /\
        forall j d',
          nth_error buildings j = Some d' -> underPointer mouseX mouseY d' = true ->
          JS.le (buildingDepth (Drawn.building d')) (buildingDepth (Drawn.building d)) /\
          ((j < i)%nat ->
           JS.ltb (buildingDepth (Drawn.building d')) (buildingDepth (Drawn.building d))
           = true)
  end.
Proof.
  intros Hfin.
  assert (H0 : hitInv mouseX mouseY [] (Hit.mk 0 None NInf)).
  { split; [reflexivity|]. cbn [Hit.foundHovered Hit.maxDepth].
    split; [reflexivity | constructor]. }
  pose proof (fold_hitStep_inv mouseX mouseY buildings [] _ Hfin H0) as (_ & H).
  cbn [app] in H. unfold findHovered.
  destruct (Hit.foundHovered (fold_left (hitStep mouseX mouseY) buildings (Hit.mk 0 None NInf)))
    as [i|].
  - destruct H as (d & m & Hn & Hu & Hd & _ & Hall). exists d.
    split; [exact Hn|]. split; [exact Hu|]. intros j d' Hj Hu'.
    rewrite Forall_forall in Hfin. destruct (Hfin d' (nth_error_In _ _ Hj)) as (m' & Hd').
    destruct (Hall j d' m' Hj Hu' Hd') as [H1 H2]. rewrite Hd, Hd'. cbn [JS.le JS.ltb].
    split; [exact H1|]. intros Hji. apply Rltb_true. exact (H2 Hji).
  - exact (proj2 H).
Qed.

Lemma findHovered_is_the_frontmost_witness :
  let far := Building.mk "X" "a.b" (Some 150%Z) None (Fin 20) (Fin 20) (Fin 5)
                         (Fin 30) (Fin 30) (Fin 120) "#34495e" in
  let near := Building.mk "Y" "a.b" (Some 85%Z) None (Fin 55) (Fin 20) (Fin 5)
                          (Fin 30) (Fin 30) (Fin 68) "#34495e" in
  let box := Some (ScreenBounds.mk (Fin 0) (Fin 10) (Fin 0) (Fin 10)) in
  let buildings := [Drawn.mk far box; Drawn.mk near box; Drawn.mk near None] in
  Forall finiteDepth buildings /\
  match findHovered (Fin 5) (Fin 5) buildings with
  | None => False
  | Some i => exists d, nth_error buildings i = Some d /\ underPointer (Fin 5) (Fin 5) d = true
  end.
Proof.
  intros far near box buildings.
  assert (H : Forall finiteDepth buildings).
  { repeat constructor; eexists; reflexivity. }
  split; [exact H|].
  pose proof (findHovered_is_the_frontmost (Fin 5) (Fin 5) buildings H) as F.
  destruct (findHovered (Fin 5) (Fin 5) buildings) as [i|].
  - destruct F as (d & Hn & Hu & _). exists d. split; [exact Hn | exact Hu].
  - inversion F as [|? ? Hu _]; subst. unfold underPointer, box in Hu.
    cbn [Drawn.screenBounds ScreenBounds.minX ScreenBounds.maxX ScreenBounds.minY
         ScreenBounds.maxY JSMath.geb JSMath.leb] in Hu.
    rewrite !Rltb_false in Hu by lra. discriminate Hu.
Defined.

(** X14: [drawBuilding] and [handleMouseMove] together: when every building has
    been drawn under the view, a pointer on the image of a point of a
    building always finds a building, and one that is at least as near to
    the viewer *)
Theorem pointer_on_a_building_finds_one (s ox oy : R) (buildings : list Building.t)
        (b : Building.t) (x y z w d h X Y Z : R) :
  0 <= s ->
  Forall (fun b' => exists x' y' z' w' d' h', buildingBox b' x' y' z' w' d' h') buildings ->
  In b buildings -> buildingBox b x y z w d h ->
  x <= X <= x + w -> y <= Y <= y + d -> z <= Z <= z + h ->
  let v := View.mk (Fin s) (Fin ox) (Fin oy) in
  let pt := toIsometric v (Fin X) (Fin Y) (Fin Z) in
  exists i b',
    findHovered (Point.x pt) (Point.y pt) (map (drawn v) buildings) = Some i /\
    nth_error buildings i = Some b' /\
    JS.le (buildingDepth b) (buildingDepth b').
Proof.
  intros Hs Hall Hin Hb HX HY HZ v pt.
  assert (Hfin : Forall finiteDepth (map (drawn v) buildings)).
  { apply Forall_map. eapply Forall_impl; [|exact Hall].
    intros b' (x' & y' & z' & w' & d' & h' & Hx' & Hy' & _).
    exists (y' + x'). unfold buildingDepth, drawn. cbn [Drawn.building].
    rewrite Hx', Hy'. reflexivity. }
  assert (Hu : underPointer (Point.x pt) (Point.y pt) (drawn v b) = true).
  { exact (underPointer_box s ox oy b x y z w d h X Y Z Hb Hs HX HY HZ). }
  destruct (In_nth_error _ _ Hin) as (k & Hk).
  assert (Hk' : nth_error (map (drawn v) buildings) k = Some (drawn v b)).
  { rewrite nth_error_map, Hk. reflexivity. }
  assert (H0 : hitInv (Point.x pt) (Point.y pt) [] (Hit.mk 0 None NInf)).
  { split; [reflexivity|]. cbn [Hit.foundHovered Hit.maxDepth].
    split; [reflexivity | constructor]. }
  pose proof (fold_hitStep_inv (Point.x pt) (Point.y pt) (map (drawn v) buildings) [] _ Hfin H0)
    as (_ & F).
  cbn [app] in F. unfold findHovered.
  destruct (Hit.foundHovered _) as [i|].
  - destruct F as (d0 & m & Hn & _ & Hd0 & _ & Hmax).
    rewrite nth_error_map in Hn. destruct (nth_error buildings i) as [b'|] eqn:Hb'; [|discriminate].
    injection Hn as <-. exists i, b'. split; [reflexivity|]. split; [exact Hb'|].
    rewrite Forall_forall in Hfin.
    destruct (Hfin (drawn v b) (in_map _ _ _ Hin)) as (m' & Hm').
    destruct (Hmax k (drawn v b) m' Hk' Hu Hm') as [Hle _].
    change (buildingDepth (Drawn.building (drawn v b))) with (buildingDepth b) in Hm'.
    change (buildingDepth (Drawn.building (drawn v b'))) with (buildingDepth b') in Hd0.
    rewrite Hm', Hd0. exact Hle.
  - destruct F as [_ F]. rewrite Forall_forall in F.
    rewrite (F (drawn v b)) in Hu; [discriminate|]. apply in_map. exact Hin.
Qed.

Lemma pointer_on_a_building_finds_one_witness :
  let b := Building.mk "X" "a.b" (Some 150%Z) None (Fin 20) (Fin 20) (Fin 5)
                       (Fin 30) (Fin 30) (Fin 120) "#34495e" in
  let v := View.mk (Fin 1) (Fin 100) (Fin 100) in
  let pt := toIsometric v (Fin 25) (Fin 30) (Fin 100) in
  exists i, findHovered (Point.x pt) (Point.y pt) (map (drawn v) [b]) = Some i.
Proof.
  intros b v pt.
  assert (Hb : buildingBox b 20 20 5 30 30 120).
  { unfold buildingBox, b. cbn. repeat split; try reflexivity; lra. }
  destruct (pointer_on_a_building_finds_one 1 100 100 [b] b 20 20 5 30 30 120 25 30 100)
    as (i & b' & Hf & _).
  - lra.
  - constructor; [|constructor]. exists 20, 20, 5, 30, 30, 120. exact Hb.
  - left. reflexivity.
  - exact Hb.
  - lra.
  - lra.
  - lra.
  - exists i. exact Hf.
Defined.

(** ** The order of painting *)

Lemma StronglySorted_weaken {A : Type} (R S : A -> A -> Prop) (l : list A) :
  (forall a b, In a l -> In b l -> R a b -> S a b) ->
  StronglySorted R l -> StronglySorted S l.
Proof.
  intros H Hs. induction Hs as [|a l Hs IH Ha].
  - constructor.
  - constructor.
    + apply IH. intros x y Hx Hy. apply H; right; assumption.
    + rewrite Forall_forall in Ha. apply Forall_forall. intros b Hb.
      apply H; [left; reflexivity | right; exact Hb | exact (Ha b Hb)].
Qed.

Lemma sorted_before {A : Type} (rank : A -> R) (l : list A) (a b : A) :
  StronglySorted (fun x y => rank x <= rank y) l ->
  In a l -> In b l -> rank a < rank b ->
  exists i j, (i < j)%nat /\ nth_error l i = Some a /\ nth_error l j = Some b.
Proof.
  intros Hs. induction Hs as [|c l Hs IH Hc]; intros Ha Hb Hlt.
  - destruct Ha.
  - rewrite Forall_forall in Hc. destruct Ha as [-> | Ha].
    + destruct Hb as [-> | Hb]; [lra|].
      destruct (In_nth_error _ _ Hb) as (j & Hj).
      exists 0%nat, (S j). split; [lia|]. split; [reflexivity | exact Hj].
    + destruct Hb as [-> | Hb].
      * specialize (Hc a Ha). lra.
      * destruct (IH Ha Hb Hlt) as (i & j & Hij & Hi & Hj).
        exists (S i), (S j). split; [lia|]. split; assumption.
Qed.

Lemma processData_projectData (env : Env.t) (data : Data.t) (st : State.t) :
  State.projectData (processData env data st) = State.projectData st.
Proof.
  unfold processData.
  match goal with
  | |- State.projectData (calculateViewTransform ?e ?s) = _ =>
      destruct (calculateViewTransform_keeps e s) as (_ & _ & _ & ->)
  end.
  unfold calculateGitNormalization.
  destruct (GitScan.hasGitData (scanData data));
    cbn [State.projectData State.setGit];
    destruct (String.eqb _ "grid"); reflexivity.
Qed.

Lemma wellPlaced_depths (P : PackageObj.t) :
  wellPlaced P ->
  exists r, itemDepth (PackageItem P) = Fin r /\
    forall b, In b (PackageObj.buildings P) ->
      exists r', itemDepth (BuildingItem b) = Fin r' /\ r + 40 <= r'.
Proof.
  intros (x & y & w & d & (E1 & E2 & _) & _ & _ & Hb & _).
  exists (y + x). cbn [itemDepth]. rewrite E1, E2. split; [reflexivity|].
  intros b Hin.
  destruct (Hb b Hin) as (bx & bY & bw & bd & (B1 & B2 & _) & _ & _ & H1 & _ & H2 & _).
  exists (bY + bx). rewrite B1, B2. split; [reflexivity | lra].
Qed.

(** X15: [renderCity] after a data set whose classes have non-negative lines of
    code has been loaded: every platform and every building is painted
    once, in the order of their depths y + x, the smallest first; so every
    platform is painted before each of the buildings that stand on it.
    Without a data set nothing is painted. *)
Theorem renderCity_paints_back_to_front (env : Env.t) (data : Data.t) (st : State.t) :
  wellFormedData data ->
  let st' := processData env data (State.setProjectData (Some data) st) in
  let items := renderCity st' in
  Permutation items
              (map PackageItem (State.packages st') ++ map BuildingItem (State.buildings st')) /\
  StronglySorted (fun a b => JS.le (itemDepth a) (itemDepth b)) items /\
  (forall P b, In P (State.packages st') -> In b (PackageObj.buildings P) ->
               paintedBefore items (PackageItem P) (BuildingItem b)) /\
  (forall s, State.projectData s = None -> renderCity s = []).
Proof.
  intros Hwf st' items.
  destruct (processData_placements env data (State.setProjectData (Some data) st) Hwf)
    as (HW & HB & _).
  fold st' in HW, HB.
  set (l := map PackageItem (State.packages st') ++ map BuildingItem (State.buildings st')).
  assert (Hitems : items = sort byDepth l).
  { unfold items, renderCity. unfold st' at 1. rewrite processData_projectData.
    reflexivity. }
  assert (Hfin : forall a, In a l -> exists r, itemDepth a = Fin r).
  { intros a Ha. unfold l in Ha. apply in_app_or in Ha. rewrite Forall_forall in HW.
    destruct Ha as [Ha | Ha]; apply in_map_iff in Ha.
    - destruct Ha as (P & <- & HP).
      destruct (wellPlaced_depths P (HW P HP)) as (r & Hr & _). exists r. exact Hr.
    - destruct Ha as (b & <- & Hb). rewrite HB in Hb. apply in_concat in Hb.
      destruct Hb as (bs & Hbs & Hb). apply in_map_iff in Hbs. destruct Hbs as (P & <- & HP).
      destruct (wellPlaced_depths P (HW P HP)) as (r & _ & Hr).
      destruct (Hr b Hb) as (r' & Hr' & _). exists r'. exact Hr'. }
  assert (Hranks : ranksBy byDepth depthRank l).
  { intros a b Ha Hb. destruct (Hfin a Ha) as (ra & Hra). destruct (Hfin b Hb) as (rb & Hrb).
    unfold byDepth, depthRank. rewrite Hra, Hrb. cbn [JS.sub JS.gtb JS.ltb].
    unfold JS.Rltb. destruct (Rlt_dec 0 (ra - rb)); split; intros H;
      first [lra | reflexivity | discriminate H]. }
  pose proof (sort_sorted _ byDepth depthRank l Hranks) as Hsorted.
  pose proof (sort_perm byDepth l) as Hperm.
  rewrite Hitems. split; [exact Hperm|]. split; [|split].
  - eapply StronglySorted_weaken; [|exact Hsorted].
    intros a b Ha Hb Hab.
    apply (Permutation_in _ Hperm) in Ha, Hb.
    destruct (Hfin a Ha) as (ra & Hra). destruct (Hfin b Hb) as (rb & Hrb).
    unfold depthRank in Hab. rewrite Hra, Hrb in Hab. rewrite Hra, Hrb. exact Hab.
  - intros P b HP Hb. rewrite Forall_forall in HW.
    destruct (wellPlaced_depths P (HW P HP)) as (r & Hr & Hbs).
    destruct (Hbs b Hb) as (r' & Hr' & Hlt).
    apply (sorted_before depthRank _ _ _ Hsorted).
    + apply (Permutation_in _ (Permutation_sym Hperm)). unfold l. apply in_or_app. left.
      apply in_map. exact HP.
    + apply (Permutation_in _ (Permutation_sym Hperm)). unfold l. apply in_or_app. right.
      apply in_map. rewrite HB. apply in_concat. exists (PackageObj.buildings P).
      split; [apply in_map; exact HP | exact Hb].
    + unfold depthRank. rewrite Hr, Hr'. lra.
  - intros s Hs. unfold renderCity. rewrite Hs. reflexivity.
Qed.

Lemma renderCity_paints_back_to_front_witness :
  wellFormedData scenarioData /\
  StronglySorted (fun a b => JS.le (itemDepth a) (itemDepth b))
    (renderCity (processData scenarioEnv scenarioData
                             (State.setProjectData (Some scenarioData) State.initial))).
Proof.
  assert (H : wellFormedData scenarioData).
  { repeat constructor; eexists; (split; [reflexivity | lia]). }
  split; [exact H|].
  exact (proj1 (proj2 (renderCity_paints_back_to_front scenarioEnv scenarioData
                         State.initial H))).
Defined.

(** ** The city fits the canvas *)

Lemma processData_view (env : Env.t) (data : Data.t) (st : State.t) (cw ch : R) :
  wellFormedData data -> Data.packages data <> [] ->
  Env.canvasWidth env = Fin cw -> Env.canvasHeight env = Fin ch ->
  let st' := processData env data st in
  exists boxes,
    cityGeometry st' = map liftBox boxes /\ boxes <> [] /\ Forall Geometry.proper boxes /\
    let B := Geometry.boundingBox boxes in
    let s := Geometry.fitScale cw ch B in
    let xs := map (fun c => Geometry.isoX c * s) (Geometry.corners3 B) in
    let ys := map (fun c => Geometry.isoY c * s) (Geometry.corners3 B) in
    State.view st'
    = View.mk (Fin s)
              (Fin (cw / 2 - (Geometry.minOf xs + Geometry.maxOf xs) / 2))
              (Fin (ch / 2 - (Geometry.minOf ys + Geometry.maxOf ys) / 2)).
Proof.
  intros Hwf Hne Hw Hh st'.
  destruct (layout_proper data st Hwf Hne) as [P N]. cbv zeta in P, N.
  unfold st', processData.
  set (st1 := if String.eqb _ "grid" then _ else _) in *.
  set (st2 := calculateGitNormalization env data st1).
  destruct (calculateGitNormalization_keeps env data st1) as (Kp & Kb & _). fold st2 in Kp, Kb.
  assert (P2 : properCity st2) by (unfold properCity; rewrite Kp, Kb; exact P).
  assert (N2 : State.packages st2 <> []) by (rewrite Kp; exact N).
  destruct (properCity_boxes st2 P2 N2) as (boxes & Hg & Hb & Hproper).
  exists boxes.
  destruct (calculateViewTransform_keeps env st2) as (Vp & Vb & _).
  split; [unfold cityGeometry in *; rewrite Vp, Vb; exact Hg|].
  split; [exact Hb|]. split; [exact Hproper|].
  exact (calculateViewTransform_view env st2 cw ch boxes Hg Hb Hproper Hw Hh).
Qed.

Ltac extreme_of_corners :=
  first [apply minOf_eq | apply maxOf_eq];
  [ cbn [In]; repeat (first [left; lra | right])
  | let e := fresh "e" in
    let He := fresh "He" in
    intros e He; cbn [In] in He;
    repeat (destruct He as [<- | He]; [lra|]); destruct He ].

Lemma corners_extremes (B : Geometry.Bounds3) (s : R) :
  Geometry.minX B <= Geometry.maxX B -> Geometry.minY B <= Geometry.maxY B ->
  Geometry.minZ B <= Geometry.maxZ B -> 0 <= s ->
  let c := cos (PI / 6) in
  Geometry.minOf (map (fun p => Geometry.isoX p * s) (Geometry.corners3 B))
  = (Geometry.minX B - Geometry.maxY B) * c * s /\
  Geometry.maxOf (map (fun p => Geometry.isoX p * s) (Geometry.corners3 B))
  = (Geometry.maxX B - Geometry.minY B) * c * s /\
  Geometry.minOf (map (fun p => Geometry.isoY p * s) (Geometry.corners3 B))
  = ((Geometry.minX B + Geometry.minY B) / 2 - Geometry.maxZ B) * s /\
  Geometry.maxOf (map (fun p => Geometry.isoY p * s) (Geometry.corners3 B))
  = ((Geometry.maxX B + Geometry.maxY B) / 2 - Geometry.minZ B) * s.
Proof.
  intros HX HY HZ Hs c.
  destruct B as [x0 x1 y0 y1 z0 z1].
  cbn [Geometry.minX Geometry.maxX Geometry.minY Geometry.maxY Geometry.minZ Geometry.maxZ] in *.
  cbn [map Geometry.corners3 Geometry.isoX Geometry.isoY
       Geometry.minX Geometry.maxX Geometry.minY Geometry.maxY Geometry.minZ Geometry.maxZ].
  rewrite sin_PI6. fold c.
  pose proof cos_PI6_pos as Hc. fold c in Hc.
  assert (Hcs : 0 <= c * s) by (apply Rmult_le_pos; lra).
  assert (P1 : 0 <= (x1 - x0) * (c * s)) by (apply Rmult_le_pos; lra).
  assert (P2 : 0 <= (y1 - y0) * (c * s)) by (apply Rmult_le_pos; lra).
  assert (Q1 : 0 <= (x1 - x0) * s) by (apply Rmult_le_pos; lra).
  assert (Q2 : 0 <= (y1 - y0) * s) by (apply Rmult_le_pos; lra).
  assert (Q3 : 0 <= (z1 - z0) * s) by (apply Rmult_le_pos; lra).
  split; [|split; [|split]]; extreme_of_corners.
Qed.

Lemma projected_extents (B : Geometry.Bounds3) :
  Geometry.minX B <= Geometry.maxX B -> Geometry.minY B <= Geometry.maxY B ->
  Geometry.minZ B <= Geometry.maxZ B ->
  Geometry.projectedWidth B
  = (Geometry.maxX B - Geometry.minX B + (Geometry.maxY B - Geometry.minY B)) * cos (PI / 6) /\
  Geometry.projectedHeight B
  = (Geometry.maxX B - Geometry.minX B + (Geometry.maxY B - Geometry.minY B)) / 2
    + (Geometry.maxZ B - Geometry.minZ B).
Proof.
  intros HX HY HZ.
  destruct (corners_extremes B 1 HX HY HZ ltac:(lra)) as (E1 & E2 & E3 & E4).
  assert (Hx : map Geometry.isoX (Geometry.corners3 B)
               = map (fun p => Geometry.isoX p * 1) (Geometry.corners3 B)).
  { apply map_ext. intros p. lra. }
  assert (Hy : map Geometry.isoY (Geometry.corners3 B)
               = map (fun p => Geometry.isoY p * 1) (Geometry.corners3 B)).
  { apply map_ext. intros p. lra. }
  unfold Geometry.projectedWidth, Geometry.projectedHeight.
  rewrite Hx, Hy, E1, E2, E3, E4. split; lra.
Qed.

(** X16: after [processData] on a data set with at least one package, whose
    classes have non-negative lines of code, on a canvas wider and higher
    than 100: the scale is positive and at most 1.5, and every point of
    every platform and every building is drawn on the canvas, 50 or more
    away from each of its four edges *)
Theorem city_fits_the_canvas (env : Env.t) (data : Data.t) (st : State.t) (cw ch : R) :
  wellFormedData data -> Data.packages data <> [] ->
  Env.canvasWidth env = Fin cw -> Env.canvasHeight env = Fin ch ->
  100 < cw -> 100 < ch ->
  let st' := processData env data st in
  exists boxes s,
    cityGeometry st' = map liftBox boxes /\
    View.scale (State.view st') = Fin s /\ 0 < s <= 1.5 /\
    forall box X Y Z,
      In box boxes ->
      Geometry.x box <= X <= Geometry.x box + Geometry.width box ->
      Geometry.y box <= Y <= Geometry.y box + Geometry.depth box ->
      Geometry.z box <= Z <= Geometry.z box + Geometry.height box ->
      exists px py,
        toIsometric (State.view st') (Fin X) (Fin Y) (Fin Z) = Point.mk (Fin px) (Fin py) /\
        50 <= px <= cw - 50 /\ 50 <= py <= ch - 50.
Proof.
  intros Hwf Hne Hw Hh Hcw Hch st'.
  destruct (processData_view env data st cw ch Hwf Hne Hw Hh)
    as (boxes & Hg & Hb & Hproper & Hview).
  fold st' in Hg, Hview. cbv zeta in Hview.
  set (B := Geometry.boundingBox boxes) in *.
  set (s := Geometry.fitScale cw ch B) in *.
  destruct (boundingBox_extent boxes Hb Hproper) as (HX & HY & HZ). fold B in HX, HY, HZ.
  destruct (projected_extent_pos B HX HY HZ) as [Hpw Hph].
  destruct (projected_extents B ltac:(lra) ltac:(lra) HZ) as [Epw Eph].
  pose proof cos_PI6_pos as Hc.
  assert (Hs : 0 < s <= 1.5).
  { unfold s, Geometry.fitScale, Geometry.padding. split; [|apply Rmin_r].
    apply Rmin_glb_lt; [apply Rmin_glb_lt|lra]; apply Rdiv_lt_0_compat; lra. }
  assert (Hsw : s * Geometry.projectedWidth B <= cw - 100).
  { assert (H : s <= (cw - 2 * Geometry.padding) / Geometry.projectedWidth B).
    { unfold s, Geometry.fitScale. eapply Rle_trans; [apply Rmin_l | apply Rmin_l]. }
    apply (Rmult_le_compat_r _ _ _ (Rlt_le _ _ Hpw)) in H.
    unfold Geometry.padding in H. unfold Rdiv in H.
    rewrite Rmult_assoc, Rinv_l, Rmult_1_r in H by lra. lra. }
  assert (Hsh : s * Geometry.projectedHeight B <= ch - 100).
  { assert (H : s <= (ch - 2 * Geometry.padding) / Geometry.projectedHeight B).
    { unfold s, Geometry.fitScale. eapply Rle_trans; [apply Rmin_l | apply Rmin_r]. }
    apply (Rmult_le_compat_r _ _ _ (Rlt_le _ _ Hph)) in H.
    unfold Geometry.padding in H. unfold Rdiv in H.
    rewrite Rmult_assoc, Rinv_l, Rmult_1_r in H by lra. lra. }
  destruct (corners_extremes B s ltac:(lra) ltac:(lra) HZ ltac:(lra)) as (E1 & E2 & E3 & E4).
  cbv zeta in E1, E2, E3, E4. rewrite E1, E2, E3, E4 in Hview.
  rewrite Epw in Hsw. rewrite Eph in Hsh.
  exists boxes, s. split; [exact Hg|]. rewrite Hview. cbn [View.scale].
  split; [reflexivity|]. split; [exact Hs|].
  intros box X Y Z Hin [HX1 HX2] [HY1 HY2] [HZ1 HZ2].
  rewrite toIsometric_Fin. eexists. eexists. split; [reflexivity|].
  unfold CONFIG.isoAngle. rewrite sin_PI6.
  assert (Bx1 : Geometry.minX B <= Geometry.x box).
  { apply minOf_le. apply in_map. exact Hin. }
  assert (Bx2 : Geometry.x box + Geometry.width box <= Geometry.maxX B).
  { apply (maxOf_ge (map (fun b => Geometry.x b + Geometry.width b) boxes)).
    apply (in_map (fun b => Geometry.x b + Geometry.width b)). exact Hin. }
  assert (By1 : Geometry.minY B <= Geometry.y box).
  { apply minOf_le. apply in_map. exact Hin. }
  assert (By2 : Geometry.y box + Geometry.depth box <= Geometry.maxY B).
  { apply (maxOf_ge (map (fun b => Geometry.y b + Geometry.depth b) boxes)).
    apply (in_map (fun b => Geometry.y b + Geometry.depth b)). exact Hin. }
  assert (Bz1 : Geometry.minZ B <= Geometry.z box).
  { apply minOf_le. apply in_map. exact Hin. }
  assert (Bz2 : Geometry.z box + Geometry.height box <= Geometry.maxZ B).
  { apply (maxOf_ge (map (fun b => Geometry.z b + Geometry.height b) boxes)).
    apply (in_map (fun b => Geometry.z b + Geometry.height b)). exact Hin. }
  set (c := cos (PI / 6)) in *.
  set (x0 := Geometry.minX B) in *. set (x1 := Geometry.maxX B) in *.
  set (y0 := Geometry.minY B) in *. set (y1 := Geometry.maxY B) in *.
  set (z0 := Geometry.minZ B) in *. set (z1 := Geometry.maxZ B) in *.
  assert (Hcs : 0 <= c * s) by (apply Rmult_le_pos; lra).
  assert (A1 : 0 <= (X - x0) * (c * s)) by (apply Rmult_le_pos; lra).
  assert (A2 : 0 <= (x1 - X) * (c * s)) by (apply Rmult_le_pos; lra).
  assert (A3 : 0 <= (Y - y0) * (c * s)) by (apply Rmult_le_pos; lra).
  assert (A4 : 0 <= (y1 - Y) * (c * s)) by (apply Rmult_le_pos; lra).
  assert (C1 : 0 <= (X - x0) * s) by (apply Rmult_le_pos; lra).
  assert (C2 : 0 <= (x1 - X) * s) by (apply Rmult_le_pos; lra).
  assert (C3 : 0 <= (Y - y0) * s) by (apply Rmult_le_pos; lra).
  assert (C4 : 0 <= (y1 - Y) * s) by (apply Rmult_le_pos; lra).
  assert (C5 : 0 <= (Z - z0) * s) by (apply Rmult_le_pos; lra).
  assert (C6 : 0 <= (z1 - Z) * s) by (apply Rmult_le_pos; lra).
  repeat split; lra.
Qed.

Lemma city_fits_the_canvas_witness :
  wellFormedData scenarioData /\ Data.packages scenarioData <> [] /\
  100 < 800 /\ 100 < 600 /\
  exists s, View.scale (State.view (processData scenarioEnv scenarioData State.initial)) = Fin s
            /\ 0 < s <= 1.5.
Proof.
  assert (H : wellFormedData scenarioData).
  { repeat constructor; eexists; (split; [reflexivity | lia]). }
  assert (N : Data.packages scenarioData <> []) by discriminate.
  split; [exact H|]. split; [exact N|]. split; [lra|]. split; [lra|].
  destruct (city_fits_the_canvas scenarioEnv scenarioData State.initial 800 600 H N
              eq_refl eq_refl ltac:(lra) ltac:(lra)) as (boxes & s & _ & Hs & Hb & _).
  exists s. split; [exact Hs | exact Hb].
Defined.

(** ** Choosing a layout strategy *)

Lemma layoutRadio_change_loaded (env : Env.t) (value : string) (st : State.t) (data : Data.t) :
  State.projectData st = Some data ->
  State.projectData (layoutRadio_change env value st) = Some data /\
  Toggles.layoutStrategy (State.toggles (layoutRadio_change env value st)) = value /\
  forall env' st0,
    Toggles.layoutStrategy (State.toggles st0) = value ->
    samePlacements (layoutRadio_change env value st) (processData env' data st0).
Proof.
  intros Hd. unfold layoutRadio_change. cbn [State.projectData]. rewrite Hd.
  split; [rewrite processData_projectData; reflexivity|].
  split; [rewrite processData_toggles; reflexivity|].
  intros env' st0 H0. apply processData_same. rewrite H0. reflexivity.
Qed.

(** X17: the [change] listener of the layout radios, with a data set loaded:
    the strategy becomes the value of the radio and the city is laid out
    anew, to the placements that this strategy gives for the data set from
    any state; so choosing another strategy and then the first one again
    brings back the placements of the first.  Without a data set only the
    strategy changes. *)
Theorem layout_choice_is_reversible (env env' env0 : Env.t) (value : string) (st : State.t)
        (data : Data.t) :
  State.projectData st = Some data ->
  let value0 := Toggles.layoutStrategy (State.toggles st) in
  let there := layoutRadio_change env value st in
  let back := layoutRadio_change env' value0 there in
  Toggles.layoutStrategy (State.toggles there) = value /\
  samePlacements there
                 (processData env0 data (layoutRadio_change env0 value State.initial)) /\
  Toggles.layoutStrategy (State.toggles back) = value0 /\
  samePlacements back (processData env0 data st) /\
  (forall s, State.projectData s = None ->
             samePlacements (layoutRadio_change env value s) s /\
             Toggles.layoutStrategy (State.toggles (layoutRadio_change env value s)) = value).
Proof.
  intros Hd value0 there back.
  destruct (layoutRadio_change_loaded env value st data Hd) as (Hd1 & Hv1 & Hs1).
  fold there in Hd1, Hv1, Hs1.
  destruct (layoutRadio_change_loaded env' value0 there data Hd1) as (_ & Hv2 & Hs2).
  fold back in Hv2, Hs2.
  split; [exact Hv1|]. split; [apply Hs1; reflexivity|].
  split; [exact Hv2|]. split; [apply Hs2; reflexivity|].
  intros s Hs. unfold layoutRadio_change. cbn [State.projectData]. rewrite Hs.
  split; [split; reflexivity | reflexivity].
Qed.

Lemma layout_choice_is_reversible_witness :
  let st := processData scenarioEnv scenarioData
                        (State.setProjectData (Some scenarioData) State.initial) in
  State.projectData st = Some scenarioData /\
  samePlacements
    (layoutRadio_change scenarioEnv "quadrant" (layoutRadio_change scenarioEnv "grid" st))
    (processData scenarioEnv scenarioData st).
Proof.
  intros st.
  assert (H : State.projectData st = Some scenarioData).
  { unfold st. rewrite processData_projectData. reflexivity. }
  split; [exact H|].
  assert (T : Toggles.layoutStrategy (State.toggles st) = "quadrant").
  { unfold st. rewrite processData_toggles. reflexivity. }
  pose proof (layout_choice_is_reversible scenarioEnv scenarioEnv scenarioEnv "grid" st
                scenarioData H) as W.
  cbv zeta in W. rewrite T in W. exact (proj1 (proj2 (proj2 (proj2 W)))).
Defined.

(** ** A property of every platform that is placed *)

Section PlacedAll.

Variable Q : PackageObj.t -> Prop.

Hypothesis HQ :
  forall (pkg : Package.t) (x y : num),
    Forall wellFormedClass (Package.classes pkg) ->
    let L := calculatePackageLayout pkg in
    Q (PackageObj.mk (Package.name pkg) x y (PkgLayout.width L) (PkgLayout.height L)
                     (PkgLayout.depth L) (Fin 0)
                     (map (makeBuilding pkg x y) (PkgLayout.positions L))).

Lemma fold_placePackage_all (sx sy w : num) (l : list PkgWithMass.t) (r : Region.t) :
  Forall (fun p => Forall wellFormedClass (Package.classes (PkgWithMass.pkg p))) l ->
  Forall Q (Region.packages r) ->
  Forall Q (Region.packages (fold_left (placePackage sx sy w) l r)).
Proof.
  revert r. induction l as [|p l IH]; intros r Hl Hr; cbn [fold_left]; [exact Hr|].
  inversion Hl; subst. apply IH; [assumption|].
  unfold placePackage. cbn [Region.packages]. apply Forall_app. split; [exact Hr|].
  constructor; [|constructor]. apply HQ. assumption.
Qed.

Lemma layoutPackagesInRegion_all (sx sy w : num) (l : list PkgWithMass.t) (st : State.t) :
  Forall (fun p => Forall wellFormedClass (Package.classes (PkgWithMass.pkg p))) l ->
  Forall Q (State.packages st) ->
  Forall Q (State.packages (layoutPackagesInRegion l sx sy w st)).
Proof.
  intros Hl Hst. unfold layoutPackagesInRegion. cbn [State.packages State.setPlacements].
  apply fold_placePackage_all; assumption.
Qed.

Lemma processData_all (env : Env.t) (data : Data.t) (st : State.t) :
  wellFormedData data -> Forall Q (State.packages (processData env data st)).
Proof.
  intros Hwf.
  assert (Hpwm : Forall (fun p => Forall wellFormedClass (Package.classes (PkgWithMass.pkg p)))
                        (packagesByMass data)).
  { eapply Permutation_Forall; [apply Permutation_sym, sort_perm|].
    rewrite Forall_map. exact Hwf. }
  unfold processData.
  match goal with
  | |- Forall Q (State.packages (calculateViewTransform ?e ?s)) =>
      destruct (calculateViewTransform_keeps e s) as (-> & _)
  end.
  match goal with
  | |- Forall Q (State.packages (calculateGitNormalization ?e ?d ?s)) =>
      destruct (calculateGitNormalization_keeps e d s) as (-> & _)
  end.
  fold (packagesByMass data).
  assert (H0 : Forall Q (State.packages (State.setPlacements [] [] st))) by constructor.
  destruct (String.eqb _ "grid").
  - apply layoutPackagesInRegion_all; assumption.
  - unfold layoutPackagesQuadrant.
    cbn [fold_left Quadrant.packages Quadrant.startX Quadrant.startY].
    apply layoutPackagesInRegion_all;
      [exact (proj2 (Forall_firstn_skipn _ _ _ Hpwm))|].
    apply layoutPackagesInRegion_all; [apply Forall_slice; exact Hpwm|].
    apply layoutPackagesInRegion_all; [apply Forall_slice; exact Hpwm|].
    apply layoutPackagesInRegion_all; [apply Forall_slice; exact Hpwm | exact H0].
Qed.

End PlacedAll.

Lemma makeBuilding_shaped (pkg : Package.t) (x y : num) (pos : Position.t) :
  wellFormedClass (Position.class pos) -> shapedBuilding (makeBuilding pkg x y pos).
Proof.
  intros (n & Hn & Hpos). exists n. unfold makeBuilding.
  cbn [Building.linesOfCode Building.z Building.height Building.width Building.depth
       Building.color].
  rewrite Hn. cbn [JS.of_field]. rewrite (calculateBuildingFootprint_of_Z n Hpos).
  repeat split; try reflexivity; assumption.
Qed.

(** X18: after [processData] on a data set whose classes have non-negative lines
    of code: every platform lies on the ground and is 5 high; every
    building stands at height 5, is max(10, 0.8 n) high for its n lines of
    code, has the square footprint of side min(80, max(20, 30 sqrt(n / 50)))
    and the base colour *)
Theorem buildings_are_shaped_by_their_lines (env : Env.t) (data : Data.t) (st : State.t) :
  wellFormedData data ->
  Forall shapedPlatform (State.packages (processData env data st)) /\
  Forall shapedBuilding (State.buildings (processData env data st)).
Proof.
  intros Hwf.
  assert (HP : Forall shapedPlatform (State.packages (processData env data st))).
  { apply processData_all; [|exact Hwf].
    intros pkg x y Hpkg L. split; [reflexivity|]. split; [reflexivity|].
    cbn [PackageObj.buildings]. apply Forall_map. apply Forall_forall. intros pos Hpos.
    apply makeBuilding_shaped.
    assert (Hin : In (Position.class pos) (sort byLinesOfCodeDesc (Package.classes pkg))).
    { rewrite <- calculatePackageLayout_classes. apply in_map. exact Hpos. }
    apply (Permutation_in _ (sort_perm _ _)) in Hin.
    rewrite Forall_forall in Hpkg. exact (Hpkg _ Hin). }
  split; [exact HP|].
  destruct (processData_placements env data st Hwf) as (_ & -> & _).
  apply Forall_concat. apply Forall_map.
  eapply Forall_impl; [|exact HP]. intros P (_ & _ & H). exact H.
Qed.

Lemma buildings_are_shaped_by_their_lines_witness :
  wellFormedData scenarioData /\
  Forall shapedBuilding (State.buildings (processData scenarioEnv scenarioData State.initial)).
Proof.
  assert (H : wellFormedData scenarioData).
  { repeat constructor; eexists; (split; [reflexivity | lia]). }
  split; [exact H|].
  exact (proj2 (buildings_are_shaped_by_their_lines scenarioEnv scenarioData State.initial H)).
Defined.

(** ** The footprint as a function of the lines of code *)

Lemma sqrt_two_thirds : sqrt (4 / 9) = 2 / 3.
Proof. replace (4 / 9) with ((2 / 3) * (2 / 3)) by lra. apply sqrt_square. lra. Qed.

Lemma sqrt_eight_thirds : sqrt (64 / 9) = 8 / 3.
Proof. replace (64 / 9) with ((8 / 3) * (8 / 3)) by lra. apply sqrt_square. lra. Qed.

Lemma footprintSide_mono (n m : Z) : (0 <= n <= m)%Z -> footprintSide n <= footprintSide m.
Proof.
  intros [H0 Hnm]. unfold footprintSide.
  assert (Hs : sqrt (IZR n / 50) <= sqrt (IZR m / 50)).
  { apply sqrt_le_1_alt. apply IZR_le in Hnm. lra. }
  apply Rmin_glb; [apply Rmin_l|].
  eapply Rle_trans; [apply Rmin_r|].
  apply Rmax_lub; [apply Rmax_l|].
  eapply Rle_trans; [|apply Rmax_r]. lra.
Qed.

(** X19: [calculateBuildingFootprint] on a whole number of lines: the footprint
    is a square; its side is 20 up to 22 lines, 30 sqrt(n / 50) from 23 to
    355 lines, where it lies strictly between 20 and 80, and 80 from 356
    lines on; more lines never give a smaller side; a negative number of
    lines gives NaN for both sides *)
Theorem footprint_side_by_lines (n : Z) :
  let f := calculateBuildingFootprint (JS.of_Z n) in
  Footprint.width f = Footprint.depth f /\
  ((n < 0)%Z -> Footprint.width f = NaN) /\
  ((0 <= n <= 22)%Z -> Footprint.width f = Fin 20) /\
  ((23 <= n <= 355)%Z ->
   Footprint.width f = Fin (30 * sqrt (IZR n / 50)) /\ 20 < 30 * sqrt (IZR n / 50) < 80) /\
  ((356 <= n)%Z -> Footprint.width f = Fin 80) /\
  (forall m : Z, (0 <= n <= m)%Z ->
     JS.le (Footprint.width f) (Footprint.width (calculateBuildingFootprint (JS.of_Z m)))).
Proof.
  intros f. unfold f. split; [reflexivity|]. split; [|split; [|split; [|split]]].
  - intros Hn. rewrite (calculateBuildingFootprint_negative n Hn). reflexivity.
  - intros [H0 H22]. rewrite (calculateBuildingFootprint_of_Z n H0). cbn [Footprint.width].
    f_equal. unfold footprintSide.
    apply IZR_le in H0, H22.
    assert (Hs : sqrt (IZR n / 50) <= 2 / 3).
    { rewrite <- sqrt_two_thirds. apply sqrt_le_1_alt. lra. }
    rewrite Rmax_left by lra. apply Rmin_right. lra.
  - intros [H23 H355].
    rewrite (calculateBuildingFootprint_of_Z n ltac:(lia)). cbn [Footprint.width].
    apply IZR_le in H23, H355.
    assert (Hlo : 2 / 3 < sqrt (IZR n / 50)).
    { rewrite <- sqrt_two_thirds. apply sqrt_lt_1_alt. lra. }
    assert (Hhi : sqrt (IZR n / 50) < 8 / 3).
    { rewrite <- sqrt_eight_thirds. apply sqrt_lt_1_alt. lra. }
    split; [|lra]. f_equal. unfold footprintSide.
    rewrite Rmax_right by lra. apply Rmin_right. lra.
  - intros H356. rewrite (calculateBuildingFootprint_of_Z n ltac:(lia)). cbn [Footprint.width].
    f_equal. unfold footprintSide. apply IZR_le in H356.
    assert (Hs : 8 / 3 <= sqrt (IZR n / 50)).
    { rewrite <- sqrt_eight_thirds. apply sqrt_le_1_alt. lra. }
    apply Rmin_left. eapply Rle_trans; [|apply Rmax_r]. lra.
  - intros m [H0 Hnm].
    rewrite (calculateBuildingFootprint_of_Z n H0).
    rewrite (calculateBuildingFootprint_of_Z m ltac:(lia)). cbn [Footprint.width JS.le].
    apply footprintSide_mono. lia.
Qed.

Lemma footprint_side_by_lines_witness :
  Footprint.width (calculateBuildingFootprint (JS.of_Z 10)) = Fin 20 /\
  Footprint.width (calculateBuildingFootprint (JS.of_Z 400)) = Fin 80.
Proof.
  split.
  - apply (proj1 (proj2 (proj2 (footprint_side_by_lines 10)))). lia.
  - apply (proj1 (proj2 (proj2 (proj2 (proj2 (footprint_side_by_lines 400)))))). lia.
Defined.

(** ** The statistics of the project *)

Lemma statsStep_largest (e : Extremes.t) (cls : Class.t) :
  let loc := JS.of_field (Class.linesOfCode cls) in
  Extremes.largestClass (statsStep e cls)
  = (if JS.gtb loc (Extremes.largestLoc e) then Some (Class.name cls)
     else Extremes.largestClass e) /\
  Extremes.largestLoc (statsStep e cls)
  = (if JS.gtb loc (Extremes.largestLoc e) then loc else Extremes.largestLoc e).
Proof.
  intros loc. unfold statsStep. fold loc.
  destruct (JS.gtb loc (Extremes.largestLoc e));
    cbn [Extremes.smallestLoc];
    destruct (JS.ltb loc (Extremes.smallestLoc e)); split; reflexivity.
Qed.

Lemma statsStep_smallest (e : Extremes.t) (cls : Class.t) :
  let loc := JS.of_field (Class.linesOfCode cls) in
  Extremes.smallestClass (statsStep e cls)
  = (if JS.ltb loc (Extremes.smallestLoc e) then Some (Class.name cls)
     else Extremes.smallestClass e) /\
  Extremes.smallestLoc (statsStep e cls)
  = (if JS.ltb loc (Extremes.smallestLoc e) then loc else Extremes.smallestLoc e).
Proof.
  intros loc. unfold statsStep. fold loc.
  destruct (JS.gtb loc (Extremes.largestLoc e));
    cbn [Extremes.smallestLoc];
    destruct (JS.ltb loc (Extremes.smallestLoc e)); split; reflexivity.
Qed.

Lemma wellFormedClass_loc (cls : Class.t) :
  wellFormedClass cls ->
  JS.of_field (Class.linesOfCode cls) = JS.of_Z (locOf cls) /\ (0 <= locOf cls)%Z.
Proof.
  intros (n & Hn & Hpos). unfold locOf. rewrite Hn. split; [reflexivity | exact Hpos].
Qed.

Lemma firstLargest_bound (l : list Class.t) (c c' : Class.t) :
  firstLargest l c -> In c' l -> (locOf c' <= locOf c)%Z.
Proof.
  intros (before & after & -> & Hb & Ha) Hin. apply in_app_or in Hin.
  destruct Hin as [Hin | [<- | Hin]]; [specialize (Hb _ Hin); lia | lia | exact (Ha _ Hin)].
Qed.

Lemma firstSmallest_bound (l : list Class.t) (c c' : Class.t) :
  firstSmallest l c -> In c' l -> (locOf c <= locOf c')%Z.
Proof.
  intros (before & after & -> & Hb & Ha) Hin. apply in_app_or in Hin.
  destruct Hin as [Hin | [<- | Hin]]; [specialize (Hb _ Hin); lia | lia | exact (Ha _ Hin)].
Qed.

Lemma statsStep_inv (seen : list Class.t) (e : Extremes.t) (x : Class.t) :
  wellFormedClass x -> extremesInv seen e -> extremesInv (seen ++ [x]) (statsStep e x).
Proof.
  intros Hx [Hl Hs]. destruct (wellFormedClass_loc x Hx) as [Eloc Hpos].
  destruct (statsStep_largest e x) as [L1 L2]. destruct (statsStep_smallest e x) as [S1 S2].
  cbv zeta in L1, L2, S1, S2. rewrite Eloc in L1, L2, S1, S2.
  split.
  - destruct Hl as [(Hc & Hloc & Hall) | (c & Hc & Hcpos & Hname & Hloc)].
    + rewrite Hloc in L1, L2. change (Fin 0) with (JS.of_Z 0) in L1, L2.
      unfold JS.gtb in L1, L2. rewrite ltb_of_Z in L1, L2.
      destruct (Z.ltb_spec 0 (locOf x)) as [Hlt | Hge].
      * right. exists x. split; [|auto].
        exists seen, []. split; [reflexivity|]. split; [|intros c' []].
        intros c' Hin. rewrite (Hall c' Hin). exact Hlt.
      * left. rewrite L1, L2, Hc. split; [reflexivity|]. split; [reflexivity|].
        intros c' Hin. apply in_app_or in Hin.
        destruct Hin as [Hin | [<- | []]]; [exact (Hall c' Hin) | lia].
    + rewrite Hloc in L1, L2. unfold JS.gtb in L1, L2. rewrite ltb_of_Z in L1, L2.
      right. destruct (Z.ltb_spec (locOf c) (locOf x)) as [Hlt | Hge].
      * exists x. split; [|split; [lia | auto]].
        exists seen, []. split; [reflexivity|]. split; [|intros c' []].
        intros c' Hin. pose proof (firstLargest_bound seen c c' Hc Hin). lia.
      * exists c. rewrite L1, L2. split; [|auto].
        destruct Hc as (before & after & -> & Hb & Ha).
        exists before, (after ++ [x]). split; [rewrite <- app_assoc; reflexivity|].
        split; [exact Hb|]. intros c' Hin. apply in_app_or in Hin.
        destruct Hin as [Hin | [<- | []]]; [exact (Ha c' Hin) | exact Hge].
  - right. destruct Hs as [(-> & Hc & Hloc) | (c & Hc & Hname & Hloc)].
    + rewrite Hloc in S1, S2. cbn [JS.ltb JS.of_Z] in S1, S2.
      exists x. split; [|auto].
      exists [], []. split; [reflexivity|]. split; intros c' [].
    + rewrite Hloc in S1, S2. rewrite ltb_of_Z in S1, S2.
      destruct (Z.ltb_spec (locOf x) (locOf c)) as [Hlt | Hge].
      * exists x. split; [|auto].
        exists seen, []. split; [reflexivity|]. split; [|intros c' []].
        intros c' Hin. pose proof (firstSmallest_bound seen c c' Hc Hin). lia.
      * exists c. rewrite S1, S2. split; [|auto].
        destruct Hc as (before & after & -> & Hb & Ha).
        exists before, (after ++ [x]). split; [rewrite <- app_assoc; reflexivity|].
        split; [exact Hb|]. intros c' Hin. apply in_app_or in Hin.
        destruct Hin as [Hin | [<- | []]]; [exact (Ha c' Hin) | exact Hge].
Qed.

Lemma fold_statsStep_inv (l seen : list Class.t) (e : Extremes.t) :
  Forall wellFormedClass l -> extremesInv seen e ->
  extremesInv (seen ++ l) (fold_left statsStep l e).
Proof.
  revert seen e. induction l as [|x l IH]; intros seen e Hl He; cbn [fold_left].
  - rewrite app_nil_r. exact He.
  - inversion Hl; subst.
    replace (seen ++ x :: l) with ((seen ++ [x]) ++ l) by (rewrite <- app_assoc; reflexivity).
    apply IH; [assumption|]. apply statsStep_inv; assumption.
Qed.

Lemma extremes_flat (data : Data.t) :
  Stats.extremes (displayProjectStats data)
  = fold_left statsStep (allClasses data) Extremes.initial.
Proof.
  unfold displayProjectStats, allClasses. cbn [Stats.extremes].
  generalize Extremes.initial. induction (Data.packages data) as [|pkg l IH]; intros e.
  - reflexivity.
  - cbn [fold_left flat_map]. rewrite fold_left_app. apply IH.
Qed.

Lemma wellFormedData_classes (data : Data.t) :
  wellFormedData data -> Forall wellFormedClass (allClasses data).
Proof.
  unfold wellFormedData, allClasses. induction 1 as [|pkg l Hpkg _ IH]; cbn [flat_map].
  - constructor.
  - apply Forall_app. split; assumption.
Qed.

(** X20: [displayProjectStats] on a data set whose classes have non-negative
    lines of code: the largest class shown is the first class, in the order
    of the data set, with the greatest number of lines, and its lines are
    shown; but when no class has a line (or there is no class) the name
    shown is null and the number 0.  The smallest class shown is the first
    class with the least number of lines; without any class the name is
    null and the number Infinity. *)
Theorem displayProjectStats_extremes (data : Data.t) :
  wellFormedData data ->
  let e := Stats.extremes (displayProjectStats data) in
  match Extremes.largestClass e with
  | None => Extremes.largestLoc e = Fin 0 /\ forall c, In c (allClasses data) -> locOf c = 0%Z
  | Some name =>
      exists c, firstLargest (allClasses data) c /\ (0 < locOf c)%Z /\
                name = Class.name c /\ Extremes.largestLoc e = JS.of_Z (locOf c)
  end /\
  match Extremes.smallestClass e with
  | None => allClasses data = [] /\ Extremes.smallestLoc e = PInf
  | Some name =>
      exists c, firstSmallest (allClasses data) c /\
                name = Class.name c /\ Extremes.smallestLoc e = JS.of_Z (locOf c)
  end.
Proof.
  intros Hwf e.
  assert (H0 : extremesInv [] Extremes.initial).
  { split; left; [split; [reflexivity|]; split; [reflexivity|]; intros c [] | auto]. }
  pose proof (fold_statsStep_inv (allClasses data) [] Extremes.initial
                (wellFormedData_classes data Hwf) H0) as [Hl Hs].
  cbn [app] in Hl, Hs. rewrite <- extremes_flat in Hl, Hs. fold e in Hl, Hs.
  split.
  - destruct Hl as [(Hc & Hloc & Hall) | (c & Hc & Hpos & Hname & Hloc)].
    + rewrite Hc. auto.
    + rewrite Hname. exists c. auto.
  - destruct Hs as [(Hnil & Hc & Hloc) | (c & Hc & Hname & Hloc)].
    + rewrite Hc. auto.
    + rewrite Hname. exists c. auto.
Qed.

Lemma displayProjectStats_extremes_witness :
  wellFormedData scenarioData /\
  Extremes.largestClass (Stats.extremes (displayProjectStats scenarioData)) <> None.
Proof.
  assert (H : wellFormedData scenarioData).
  { repeat constructor; eexists; (split; [reflexivity | lia]). }
  split; [exact H|].
  pose proof (proj1 (displayProjectStats_extremes scenarioData H)) as W.
  destruct (Extremes.largestClass (Stats.extremes (displayProjectStats scenarioData))).
  - discriminate.
  - destruct W as [_ W]. specialize (W (Class.mk "X" (Some 150%Z) None) (or_introl eq_refl)).
    discriminate W.
Defined.

Lemma add_of_Z (a b : Z) : JS.add (JS.of_Z a) (JS.of_Z b) = JS.of_Z (a + b).
Proof. unfold JS.of_Z, JS.add. rewrite plus_IZR. reflexivity. Qed.

Lemma totalLines_app (l1 l2 : list Class.t) :
  totalLines (l1 ++ l2) = (totalLines l1 + totalLines l2)%Z.
Proof.
  induction l1 as [|c l1 IH]; cbn [app totalLines fold_right]; [reflexivity|].
  fold (totalLines (l1 ++ l2)). fold (totalLines l1). rewrite IH. lia.
Qed.

Lemma fold_lines (l : list Class.t) (a : Z) :
  Forall wellFormedClass l ->
  fold_left (fun s cls => JS.add s (JS.of_field (Class.linesOfCode cls))) l (JS.of_Z a)
  = JS.of_Z (a + totalLines l).
Proof.
  revert a. induction l as [|c l IH]; intros a Hl; cbn [fold_left].
  - cbn. rewrite Z.add_0_r. reflexivity.
  - inversion Hl as [|? ? Hc Hl']; subst.
    destruct (wellFormedClass_loc c Hc) as [-> _]. rewrite add_of_Z, (IH _ Hl').
    cbn [totalLines fold_right]. fold (totalLines l). f_equal. lia.
Qed.

Lemma round_div_of_Z (T N : Z) :
  (0 < N)%Z ->
  JSMath.round (JS.div (JS.of_Z T) (JS.of_Z N)) = JS.of_Z ((2 * T + N) / (2 * N)).
Proof.
  intros HN. assert (HN' : 0 < IZR N) by (apply IZR_lt; exact HN).
  unfold JSMath.round, JS.of_Z. rewrite div_Fin by lra. cbn [JS.add JSMath.floor].
  do 2 f_equal. rewrite <- (Int_part_div (2 * T + N) (2 * N)) by lia. f_equal.
  rewrite plus_IZR, !mult_IZR. replace 0.5 with (1 / 2) by lra. field. lra.
Qed.

(** X21: [displayProjectStats] on a data set whose classes have non-negative
    lines of code: the totals are the number of packages, the number of
    classes and the sum of their lines; the average is the quotient of the
    last two rounded to the nearest whole number, halves upwards, which is
    floor((2 T + N) / (2 N)); for a data set without a class it is NaN *)
Theorem displayProjectStats_totals (data : Data.t) :
  wellFormedData data ->
  let s := displayProjectStats data in
  let N := Z.of_nat (List.length (allClasses data)) in
  let T := totalLines (allClasses data) in
  Stats.totalPackages s = JS.of_Z (Z.of_nat (List.length (Data.packages data))) /\
  Stats.totalClasses s = JS.of_Z N /\
  Stats.totalLoc s = JS.of_Z T /\
  Stats.avgLocPerClass s = (if Z.eqb N 0 then NaN else JS.of_Z ((2 * T + N) / (2 * N))).
Proof.
  intros Hwf s N T.
  assert (HN : Stats.totalClasses s = JS.of_Z N).
  { unfold s, displayProjectStats, N, allClasses. cbn [Stats.totalClasses].
    change (Fin 0) with (JS.of_Z 0).
    replace (Z.of_nat (List.length (flat_map Package.classes (Data.packages data))))
      with (0 + Z.of_nat (List.length (flat_map Package.classes (Data.packages data))))%Z
      by lia.
    generalize 0%Z. induction (Data.packages data) as [|pkg l IH]; intros a.
    - cbn. rewrite Z.add_0_r. reflexivity.
    - cbn [fold_left flat_map]. unfold of_nat at 2. rewrite add_of_Z, IH.
      rewrite length_app. f_equal. lia. }
  assert (HT : Stats.totalLoc s = JS.of_Z T).
  { assert (Haux : forall l a,
               Forall (fun pkg => Forall wellFormedClass (Package.classes pkg)) l ->
               fold_left
                 (fun sum pkg =>
                    JS.add sum
                      (fold_left (fun s cls => JS.add s (JS.of_field (Class.linesOfCode cls)))
                                 (Package.classes pkg) (Fin 0)))
                 l (JS.of_Z a)
               = JS.of_Z (a + totalLines (flat_map Package.classes l))).
    { intros l a Hl. revert a. induction Hl as [|pkg l Hpkg _ IH]; intros a.
      - cbn. rewrite Z.add_0_r. reflexivity.
      - cbn [fold_left flat_map]. change (Fin 0) with (JS.of_Z 0).
        rewrite (fold_lines _ 0 Hpkg), add_of_Z, IH.
        rewrite totalLines_app. f_equal. lia. }
    unfold s, displayProjectStats, T, allClasses. cbn [Stats.totalLoc].
    change (Fin 0) with (JS.of_Z 0) at 2. rewrite (Haux _ 0%Z Hwf). reflexivity. }
  split; [reflexivity|]. split; [exact HN|]. split; [exact HT|].
  change (Stats.avgLocPerClass s)
    with (JSMath.round (JS.div (Stats.totalLoc s) (Stats.totalClasses s))).
  rewrite HN, HT. destruct (Z.eqb_spec N 0) as [E | E].
  - assert (ET : T = 0%Z).
    { unfold T. assert (Hnil : allClasses data = []).
      { destruct (allClasses data); [reflexivity | unfold N in E; cbn in E; lia]. }
      rewrite Hnil. reflexivity. }
    rewrite E, ET. unfold JS.of_Z, JS.div. rewrite Reqb_true by reflexivity.
    unfold JS.inf_signed. rewrite !Rltb_false by lra. reflexivity.
  - apply round_div_of_Z. unfold N in *. lia.
Qed.

Lemma displayProjectStats_totals_witness :
  wellFormedData scenarioData /\
  Stats.totalLoc (displayProjectStats scenarioData) = JS.of_Z 235 /\
  Stats.avgLocPerClass (displayProjectStats scenarioData) = JS.of_Z 118.
Proof.
  assert (H : wellFormedData scenarioData).
  { repeat constructor; eexists; (split; [reflexivity | lia]). }
  split; [exact H|].
  destruct (displayProjectStats_totals scenarioData H) as (_ & _ & HT & HA).
  split; [exact HT | exact HA].
Defined.

(** ** The colour manager and the data set it was made for *)

Lemma scanClass_maxima (g : GitScan.t) (cls : Class.t) (gm : GitMetadata.t) :
  Class.gitMetadata cls = Some gm ->
  GitScan.maxCommits (scanClass g cls)
  = match GitMetadata.commits gm with
    | Some k => JS.max (GitScan.maxCommits g) (JS.of_Z k)
    | None => GitScan.maxCommits g
    end /\
  GitScan.maxAuthors (scanClass g cls)
  = match GitMetadata.authors gm with
    | Some k => JS.max (GitScan.maxAuthors g) (JS.of_Z k)
    | None => GitScan.maxAuthors g
    end.
Proof.
  intros Hgm. unfold scanClass. rewrite Hgm.
  destruct (GitMetadata.lastModified gm); split; reflexivity.
Qed.

Lemma scanClass_bounds (seen : list Class.t) (g : GitScan.t) (x : Class.t) :
  gitBounds seen g -> gitBounds (seen ++ [x]) (scanClass g x).
Proof.
  intros (c & a & Hc & Ha & Ec & Ea & Hall).
  destruct (Class.gitMetadata x) as [gm|] eqn:Hgm.
  - destruct (scanClass_maxima g x gm Hgm) as [Mc Ma]. rewrite Ec in Mc. rewrite Ea in Ma.
    exists (match GitMetadata.commits gm with Some k => Z.max c k | None => c end),
           (match GitMetadata.authors gm with Some k => Z.max a k | None => a end).
    split; [destruct (GitMetadata.commits gm); lia|].
    split; [destruct (GitMetadata.authors gm); lia|].
    split; [rewrite Mc; destruct (GitMetadata.commits gm); [apply max_of_Z | reflexivity]|].
    split; [rewrite Ma; destruct (GitMetadata.authors gm); [apply max_of_Z | reflexivity]|].
    intros cls gm' Hin Hgm'. apply in_app_or in Hin. destruct Hin as [Hin | [<- | []]].
    + destruct (Hall cls gm' Hin Hgm') as [H1 H2]. split; intros k Hk.
      * specialize (H1 k Hk). destruct (GitMetadata.commits gm); lia.
      * specialize (H2 k Hk). destruct (GitMetadata.authors gm); lia.
    + assert (gm' = gm) by congruence. subst gm'. split; intros k Hk; rewrite Hk; lia.
  - assert (E : scanClass g x = g) by (unfold scanClass; rewrite Hgm; reflexivity).
    rewrite E. exists c, a. repeat (split; [assumption|]).
    intros cls gm Hin Hgm'. apply in_app_or in Hin. destruct Hin as [Hin | [<- | []]].
    + exact (Hall cls gm Hin Hgm').
    + congruence.
Qed.

Lemma fold_scanClass_bounds (l seen : list Class.t) (g : GitScan.t) :
  gitBounds seen g -> gitBounds (seen ++ l) (fold_left scanClass l g).
Proof.
  revert seen g. induction l as [|x l IH]; intros seen g Hg; cbn [fold_left].
  - rewrite app_nil_r. exact Hg.
  - replace (seen ++ x :: l) with ((seen ++ [x]) ++ l) by (rewrite <- app_assoc; reflexivity).
    apply IH. apply scanClass_bounds. exact Hg.
Qed.

Lemma fold_scanClass_no_metadata (l : list Class.t) (g : GitScan.t) :
  (forall cls, In cls l -> Class.gitMetadata cls = None) -> fold_left scanClass l g = g.
Proof.
  induction l as [|x l IH]; intros H; cbn [fold_left]; [reflexivity|].
  assert (E : scanClass g x = g).
  { unfold scanClass. rewrite (H x (or_introl eq_refl)). reflexivity. }
  rewrite E. apply IH. intros cls Hin. apply H. right. exact Hin.
Qed.

(** X22: [calculateGitNormalization] and [getColorForBuilding] together.  For a
    data set in which no class carries git metadata the state stays as it
    is: a colour manager made for the data set loaded before is kept.
    Otherwise the new manager's maxCommits is at least 1 and at least the
    commits of every class of the data set, so that the hue of each of
    them is base - 240 commits / maxCommits with nothing cut off, base
    being 240, or 270 in colour-blind mode *)
Theorem colour_manager_covers_its_data_set (env : Env.t) (data : Data.t) (st : State.t) :
  let st' := calculateGitNormalization env data st in
  ((forall cls, In cls (allClasses data) -> Class.gitMetadata cls = None) -> st' = st) /\
  (forall cls gm,
      In cls (allClasses data) -> Class.gitMetadata cls = Some gm ->
      exists manager m,
        State.gitColorManager st' = Some manager /\
        GitMetadataColorManager.maxCommits manager = Fin m /\ 1 <= m /\
        forall k, GitMetadata.commits gm = Some k ->
          IZR k <= m /\
          forall now useAge colorBlind,
            Color.hue (GitMetadataColorManager.getColorForBuilding
                         manager now (Some gm) (ColorOptions.mk true useAge colorBlind))
            = Fin ((if colorBlind then 270 else 240) - IZR k / m * 240)).
Proof.
  intros st'. split.
  - intros Hnone. unfold st', calculateGitNormalization.
    rewrite scanData_flat, (fold_scanClass_no_metadata _ _ Hnone). reflexivity.
  - intros cls gm Hin Hgm.
    assert (Hinit : scanInv GitScan.initial).
    { exists 0%Z, 0%Z. repeat split; try lia; reflexivity. }
    destruct (fold_scanClass (allClasses data) _ Hinit) as (_ & Hhas & _).
    assert (B0 : gitBounds [] GitScan.initial).
    { exists 0%Z, 0%Z. repeat split; try lia; try reflexivity; destruct H. }
    pose proof (fold_scanClass_bounds (allClasses data) [] _ B0) as HB. cbn [app] in HB.
    rewrite <- scanData_flat in Hhas, HB.
    destruct HB as (c & a & Hc & Ha & Ec & Ea & Hall).
    unfold st', calculateGitNormalization.
    rewrite Hhas by (right; exists cls; split; [exact Hin | congruence]).
    set (c' := (if Z.eqb c 0 then 1 else c)%Z).
    assert (Hc' : (1 <= c')%Z) by (unfold c'; destruct (Z.eqb_spec c 0); lia).
    assert (Ec' : (if Z.eqb c' 0 then 1 else c')%Z = c') by (destruct (Z.eqb_spec c' 0); lia).
    assert (Hcc : (c <= c')%Z) by (unfold c'; destruct (Z.eqb_spec c 0); lia).
    eexists. exists (IZR c'). cbn [State.gitColorManager State.setGit].
    split; [reflexivity|].
    assert (Em : GitMetadataColorManager.maxCommits
                   (GitMetadataColorManager.constructor (Env.now env)
                      (Some (JS.or (GitScan.maxCommits (scanData data)) (Fin 1)))
                      (Some (JS.or (GitScan.maxAuthors (scanData data)) (Fin 1)))
                      (Some (if JS.eqb (GitScan.oldestDate (scanData data)) PInf
                             then Env.now env else GitScan.oldestDate (scanData data)))
                      (Some (JS.or (GitScan.newestDate (scanData data)) (Env.now env))))
                 = Fin (IZR c')).
    { unfold GitMetadataColorManager.constructor.
      cbn [GitMetadataColorManager.maxCommits orDefault].
      rewrite Ec, !or_of_Z_one. fold c'. rewrite Ec'. reflexivity. }
    split; [exact Em|]. split; [apply IZR_le; exact Hc'|].
    intros k Hk. destruct (Hall cls gm Hin Hgm) as [H1 _]. specialize (H1 k Hk).
    assert (Hkm : IZR k <= IZR c') by (apply IZR_le; lia).
    apply IZR_le in Hc'.
    split; [exact Hkm|]. intros now useAge colorBlind.
    destruct gm as [commits authors lastModified]. cbn [GitMetadata.commits] in Hk. subst commits.
    rewrite (hue_closed_form _ (IZR c') now k authors lastModified useAge colorBlind Em)
      by lra.
    rewrite Rmin_right; [reflexivity|].
    apply (Rmult_le_reg_r (IZR c')); [lra|]. unfold Rdiv.
    rewrite Rmult_assoc, Rinv_l by lra. lra.
Qed.

Lemma colour_manager_covers_its_data_set_witness :
  let gm := GitMetadata.mk (Some 7%Z) None None in
  let cls := Class.mk "Calculator" (Some 150%Z) (Some gm) in
  let data := Data.mk [Package.mk "com.example.math" [cls]] in
  exists manager m,
    State.gitColorManager (calculateGitNormalization scenarioEnv data State.initial)
    = Some manager /\
    GitMetadataColorManager.maxCommits manager = Fin m /\ IZR 7 <= m.
Proof.
  intros gm cls data.
  destruct (proj2 (colour_manager_covers_its_data_set scenarioEnv data State.initial)
                  cls gm (or_introl eq_refl) eq_refl) as (manager & m & H1 & H2 & _ & H3).
  exists manager, m. split; [exact H1|]. split; [exact H2|].
  exact (proj1 (H3 7%Z eq_refl)).
Defined.

(** ** A data set without packages *)

(** X23: a data set whose [packages] array is empty: [processData] clears the
    placements and leaves the view, the colour manager and the
    normalization as they were; [renderCity] then paints nothing; and
    [displayProjectStats] shows 0 packages, 0 classes, 0 lines, the average
    NaN, null (0) as the largest class and null (Infinity) as the smallest *)
Theorem empty_data_set (env : Env.t) (data : Data.t) (st : State.t) :
  Data.packages data = [] ->
  processData env data st = State.setPlacements [] [] st /\
  renderCity (processData env data (State.setProjectData (Some data) st)) = [] /\
  displayProjectStats data
  = Stats.mk (Fin 0) (Fin 0) (Fin 0) NaN (Extremes.mk None None (Fin 0) PInf).
Proof.
  intros Hnil.
  assert (E : forall s, processData env data s = State.setPlacements [] [] s).
  { intros s. unfold processData. rewrite Hnil. cbn [map sort].
    assert (L : (if String.eqb (Toggles.layoutStrategy
                                  (State.toggles (State.setPlacements [] [] s))) "grid"
                 then layoutPackagesGrid [] (State.setPlacements [] [] s)
                 else layoutPackagesQuadrant [] (State.setPlacements [] [] s))
                = State.setPlacements [] [] s).
    { destruct (String.eqb _ "grid"); reflexivity. }
    rewrite L. unfold calculateGitNormalization, scanData. rewrite Hnil.
    cbn [fold_left GitScan.initial GitScan.hasGitData]. reflexivity. }
  split; [apply E|]. split.
  - rewrite E. unfold renderCity.
    cbn [State.projectData State.setPlacements State.setProjectData State.packages
         State.buildings map app sort]. reflexivity.
  - unfold displayProjectStats. rewrite Hnil. cbn [fold_left List.length].
    unfold JS.div, of_nat, JS.of_Z. cbn [Z.of_nat].
    rewrite Reqb_true by reflexivity. unfold JS.inf_signed.
    rewrite !Rltb_false by lra. reflexivity.
Qed.

Lemma empty_data_set_witness :
  Data.packages (Data.mk []) = [] /\
  renderCity (processData scenarioEnv (Data.mk [])
                          (State.setProjectData (Some (Data.mk [])) State.initial)) = [].
Proof.
  split; [reflexivity|].
  exact (proj1 (proj2 (empty_data_set scenarioEnv (Data.mk []) State.initial eq_refl))).
Defined.

(** ** Rows of buildings *)

Lemma div_pred (m j : nat) :
  (0 < j)%nat ->
  ((j mod m)%nat <> 0%nat -> ((j - 1) / m = j / m)%nat) /\
  ((j mod m)%nat = 0%nat -> ((j - 1) / m < j / m)%nat).
Proof.
  intros Hj. destruct m as [|m'].
  - cbn. split; [reflexivity | lia].
  - set (m := S m'). assert (Hm : (0 < m)%nat) by (unfold m; lia).
    pose proof (Nat.div_mod_eq j m) as E.
    pose proof (Nat.mod_upper_bound j m ltac:(lia)) as B.
    split; intros H.
    + symmetry. apply (Nat.div_unique (j - 1) m (j / m) (j mod m - 1)); lia.
    + rewrite H, Nat.add_0_r in E.
      assert (Hq : (0 < j / m)%nat) by (destruct (j / m)%nat; lia).
      assert (E' : ((j - 1) / m = j / m - 1)%nat).
      { symmetry. apply (Nat.div_unique (j - 1) m (j / m - 1) (m - 1)); nia. }
      lia.
Qed.

Lemma placeClass_rows (m : nat) (c : Cursor.t) (cls : Class.t) :
  wellFormedClass cls -> rowsOf m c -> rowsOf m (placeClass m c cls).
Proof.
  intros (n & Hloc & Hn) (Hidx & cx & cy & rh & Hcx & Hcy & Hrh & Hnil & Hpos & Hpair).
  assert (Hfp : calculateBuildingFootprint (JS.of_field (Class.linesOfCode cls))
                = Footprint.mk (Fin (footprintSide n)) (Fin (footprintSide n))).
  { rewrite Hloc. apply calculateBuildingFootprint_of_Z. assumption. }
  pose proof (footprintSide_bounds n) as Hs. set (s := footprintSide n) in *.
  set (ps := Cursor.positions c) in *. set (j := List.length ps) in *.
  unfold placeClass. rewrite Hfp, Hcx, Hcy, Hrh, Hidx. fold ps j.
  set (wrap := (Nat.ltb 0 j && Nat.eqb (j mod m) 0)%bool).
  assert (Hw : exists nx ny nrh,
             (if wrap then CONFIG.packagePadding else Fin cx) = Fin nx /\
             (if wrap then JS.add (Fin cy) (JS.add (Fin rh) CONFIG.buildingSpacing) else Fin cy)
             = Fin ny /\
             (if wrap then Fin 0 else Fin rh) = Fin nrh /\
             (forall y d : R, y + d <= cy + rh -> y + d <= ny + Rmax nrh s) /\
             ((j mod m)%nat = 0%nat -> nx = 20) /\
             ((j mod m)%nat <> 0%nat -> nx = cx) /\
             (forall i y d, (i < j)%nat -> y + d <= cy + rh ->
                ((i / m = (j - 1) / m)%nat -> y = cy) ->
                ((i / m < (j - 1) / m)%nat -> y + d + 5 <= cy) ->
                ((i / m = j / m)%nat -> y = ny) /\ ((i / m < j / m)%nat -> y + d + 5 <= ny))).
  { pose proof (Rmax_l rh s) as M1. pose proof (Rmax_r 0 s) as M2.
    unfold wrap. destruct (Nat.ltb_spec 0 j) as [Hj | Hj]; cbn [andb].
    - destruct (div_pred m j Hj) as [D1 D2].
      destruct (Nat.eqb_spec (j mod m) 0) as [Hmod | Hmod].
      + exists 20, (cy + (rh + 5)), 0.
        split; [reflexivity|]. split; [reflexivity|]. split; [reflexivity|].
        split; [intros; lra|]. split; [reflexivity|]. split; [contradiction|].
        intros i y d Hi Hyd _ _.
        assert (Hlt : (i / m < j / m)%nat).
        { pose proof (Nat.Div0.div_le_mono i (j - 1) m ltac:(lia)). specialize (D2 Hmod). lia. }
        split; [lia | intros _; lra].
      + exists cx, cy, rh.
        split; [reflexivity|]. split; [reflexivity|]. split; [reflexivity|].
        split; [intros; lra|]. split; [contradiction|]. split; [reflexivity|].
        intros i y d Hi Hyd H1 H2. rewrite <- (D1 Hmod). split; assumption.
    - assert (j = 0%nat) by lia.
      exists cx, cy, rh.
      split; [reflexivity|]. split; [reflexivity|]. split; [reflexivity|].
      split; [intros; lra|].
      split; [intros _; apply Hnil; destruct ps; [reflexivity | cbn in *; lia]|].
      split; [reflexivity|]. intros i y d Hi. lia. }
  destruct Hw as (nx & ny & nrh & -> & -> & -> & Hold & Hx0 & Hx1 & Hrow).
  set (q := Position.mk (Fin nx) (Fin ny) cls).
  assert (Hq : placedAt q nx ny s s).
  { unfold placedAt, q, footprintOf. cbn [Position.x Position.y Position.class].
    rewrite Hfp. auto. }
  cbn [Footprint.width Footprint.depth JS.add JS.max CONFIG.buildingSpacing].
  split; [cbn [Cursor.index Cursor.positions]; rewrite length_app; cbn; lia|].
  exists (nx + (s + 5)), ny, (Rmax nrh s).
  cbn [Cursor.currentX Cursor.currentY Cursor.rowHeight Cursor.positions].
  split; [reflexivity|]. split; [reflexivity|]. split; [reflexivity|].
  split; [intros E; destruct ps; discriminate E|].
  assert (Hlen : (List.length (ps ++ [q]) - 1 = j)%nat).
  { rewrite length_app. cbn. unfold j. lia. }
  rewrite Hlen.
  assert (Hlen' : List.length (ps ++ [q]) = S j).
  { rewrite length_app. cbn. unfold j. lia. }
  rewrite Hlen'.
  pose proof (Rmax_r nrh s) as M3.
  split.
  - intros i p Hi. apply nth_error_snoc in Hi. destruct Hi as [[Hi1 Hi2] | [Hi1 ->]].
    + destruct (Hpos i p Hi2) as (x & y & w & d & Hp & H1 & H2 & H3 & H4 & H5).
      exists x, y, w, d. split; [exact Hp|]. split; [exact (Hold y d H1)|].
      destruct (Hrow i y d Hi1 H1 H2 H3) as [R1 R2].
      split; [exact R1|]. split; [exact R2|]. split; [exact H4|].
      intros E. fold j in Hi1. lia.
    + fold j in Hi1. subst i.
      exists nx, ny, s, s. split; [exact Hq|]. split; [lra|].
      split; [reflexivity|]. split; [lia|].
      split; [exact Hx0|]. intros _. lra.
  - intros i k p r Hik Hi Hk.
    apply nth_error_snoc in Hk. destruct Hk as [[Hk1 Hk2] | [Hk1 ->]].
    + rewrite nth_error_app1 in Hi by lia. exact (Hpair i k p r Hik Hi Hk2).
    + fold j in Hk1. subst k. rewrite nth_error_app1 in Hi by (fold j; lia).
      destruct (Hpos i p Hi) as (x & y & w & d & (Px & Py & Pf) & H1 & H2 & H3 & H4 & H5).
      destruct (Hrow i y d Hik H1 H2 H3) as [R1 R2].
      unfold inRows. rewrite Px, Py, Pf. unfold q.
      cbn [Position.x Position.y Footprint.width Footprint.depth JS.add JS.le
           CONFIG.buildingSpacing].
      split; [intros E; rewrite (R1 E); reflexivity|].
      split; [intros E; specialize (R2 E); lra|].
      intros E Hmod. rewrite (Hx1 Hmod), (H5 (eq_sym E)). reflexivity.
Qed.

Lemma fold_placeClass_rows (m : nat) (l : list Class.t) (c : Cursor.t) :
  Forall wellFormedClass l -> rowsOf m c -> rowsOf m (fold_left (placeClass m) l c).
Proof.
  revert c. induction l as [|cls l IH]; intros c Hl Hc; cbn [fold_left]; [exact Hc|].
  inversion Hl; subst. apply IH; [assumption|]. apply placeClass_rows; assumption.
Qed.

(** X24: [calculatePackageLayout] on a package whose classes have non-negative
    lines of code sets the buildings in rows of m = min(6, ceil(sqrt n))
    for its n classes: the i-th building placed, counted from 0, stands in
    row i / m; the first of each row stands at x = 20; a building that is
    not the first of its row stands in x directly behind the one before
    it, at the spacing 5; the buildings of a row have the same y; and a
    later row begins beyond the end in y of every building of an earlier
    row and the spacing *)
Theorem calculatePackageLayout_rows (pkg : Package.t) :
  Forall wellFormedClass (Package.classes pkg) ->
  let m := Nat.min 6 (ceil_sqrt (List.length (Package.classes pkg))) in
  let ps := PkgLayout.positions (calculatePackageLayout pkg) in
  (forall i p, nth_error ps i = Some p -> (i mod m)%nat = 0%nat ->
               Position.x p = CONFIG.packagePadding) /\
  (forall i j p q, (i < j)%nat -> nth_error ps i = Some p -> nth_error ps j = Some q ->
                   inRows m i j p q).
Proof.
  intros Hwf m ps.
  assert (H0 : rowsOf m (Cursor.mk 0 [] CONFIG.packagePadding CONFIG.packagePadding (Fin 0)
                                   (Fin 0) CONFIG.packagePadding)).
  { split; [reflexivity|]. exists 20, 20, 0. cbn [Cursor.currentX Cursor.currentY
      Cursor.rowHeight Cursor.positions].
    split; [reflexivity|]. split; [reflexivity|]. split; [reflexivity|].
    split; [reflexivity|]. split.
    - intros i p Hi. destruct i; discriminate Hi.
    - intros i j p q _ Hi. destruct i; discriminate Hi. }
  assert (Hsorted : Forall wellFormedClass (sort byLinesOfCodeDesc (Package.classes pkg))).
  { eapply Permutation_Forall; [apply Permutation_sym, sort_perm | exact Hwf]. }
  pose proof (fold_placeClass_rows m _ _ Hsorted H0)
    as (_ & cx & cy & rh & _ & _ & _ & _ & Hpos & Hpair).
  change (Cursor.positions _) with ps in Hpos, Hpair.
  split; [|exact Hpair].
  intros i p Hi Hmod.
  destruct (Hpos i p Hi) as (x & y & w & d & (Px & _) & _ & _ & _ & H4 & _).
  rewrite Px, (H4 Hmod). reflexivity.
Qed.

Lemma calculatePackageLayout_rows_witness :
  let pkg := Package.mk "p" [ Class.mk "A" (Some 85%Z) None; Class.mk "B" (Some 150%Z) None;
                             Class.mk "C" (Some 85%Z) None ] in
  Forall wellFormedClass (Package.classes pkg) /\
  forall i p, nth_error (PkgLayout.positions (calculatePackageLayout pkg)) i = Some p ->
              (i mod 2)%nat = 0%nat -> Position.x p = CONFIG.packagePadding.
Proof.
  intros pkg.
  assert (H : Forall wellFormedClass (Package.classes pkg)).
  { repeat constructor; eexists; (split; [reflexivity | lia]). }
  split; [exact H|].
  exact (proj1 (calculatePackageLayout_rows pkg H)).
Defined.

(** ** The order of the packages *)

Lemma calculatePackageMass_of_Z (pkg : Package.t) :
  Forall wellFormedClass (Package.classes pkg) ->
  calculatePackageMass pkg = JS.of_Z (massOf pkg).
Proof.
  intros Hwf. unfold calculatePackageMass, massOf. change (Fin 0) with (JS.of_Z 0).
  rewrite (fold_lines _ 0 Hwf). reflexivity.
Qed.

Lemma byMassDesc_ranks (l : list Package.t) :
  Forall (fun pkg => Forall wellFormedClass (Package.classes pkg)) l ->
  ranksBy byMassDesc (fun p => - IZR (massOf (PkgWithMass.pkg p)))
          (map (fun pkg => PkgWithMass.mk pkg (calculatePackageMass pkg)) l).
Proof.
  intros Hwf a b Ha Hb. rewrite Forall_forall in Hwf.
  apply in_map_iff in Ha, Hb. destruct Ha as (pa & <- & Ha). destruct Hb as (pb & <- & Hb).
  unfold byMassDesc, JS.gtb. cbn [PkgWithMass.pkg PkgWithMass.mass].
  rewrite (calculatePackageMass_of_Z pa (Hwf pa Ha)), (calculatePackageMass_of_Z pb (Hwf pb Hb)).
  cbn [JS.of_Z JS.sub JS.ltb]. unfold JS.Rltb.
  destruct (Rlt_dec 0 (IZR (massOf pb) - IZR (massOf pa))); split; intros H;
    try reflexivity; try discriminate; lra.
Qed.

Lemma StronglySorted_map {A B : Type} (f : A -> B) (R : B -> B -> Prop) (l : list A) :
  StronglySorted (fun a b => R (f a) (f b)) l -> StronglySorted R (map f l).
Proof.
  induction 1 as [|a l Hs IH Ha]; cbn [map]; constructor; [exact IH|].
  apply Forall_map. exact Ha.
Qed.

Lemma filter_map_comm {A B : Type} (f : A -> B) (g : B -> bool) (l : list A) :
  filter g (map f l) = map f (filter (fun a => g (f a)) l).
Proof.
  induction l as [|a l IH]; cbn [map filter]; [reflexivity|].
  destruct (g (f a)); cbn [map]; rewrite IH; reflexivity.
Qed.

Lemma packagesByMass_sorted (data : Data.t) :
  wellFormedData data ->
  let order := map PkgWithMass.pkg (packagesByMass data) in
  StronglySorted (fun a b => (massOf b <= massOf a)%Z) order /\
  (forall n, withMass n order = withMass n (Data.packages data)).
Proof.
  intros Hwf order. pose proof (byMassDesc_ranks _ Hwf) as Hr.
  split.
  - unfold order. apply StronglySorted_map. unfold packagesByMass.
    eapply StronglySorted_weaken; [|exact (sort_sorted _ _ _ _ Hr)].
    intros a b _ _ H. cbn beta in H. apply le_IZR. lra.
  - intros n. unfold order, withMass, packagesByMass. rewrite filter_map_comm.
    rewrite (sort_filter _ _ _ _ _ Hr).
    + generalize (Data.packages data). intros l.
      induction l as [|a l IH]; [reflexivity|]. cbn [map filter PkgWithMass.pkg].
      destruct (Z.eqb (massOf a) n); cbn [map PkgWithMass.pkg]; rewrite IH; reflexivity.
    + intros x y Hx Hy. apply Z.eqb_eq in Hx, Hy. rewrite Hx, Hy. reflexivity.
Qed.

Lemma layoutPackagesInRegion_first (sx sy w : num) (p : PkgWithMass.t)
      (l : list PkgWithMass.t) (st : State.t) :
  State.packages st = [] ->
  exists P rest,
    State.packages (layoutPackagesInRegion (p :: l) sx sy w st) = P :: rest /\
    PackageObj.x P = sx /\ PackageObj.y P = sy.
Proof.
  intros Hnil. unfold layoutPackagesInRegion. cbn [State.packages State.setPlacements fold_left].
  destruct (fold_placePackage_carries sx sy w l
              (placePackage sx sy w (Region.mk 0 sx sy (Fin 0) (State.buildings st)
                                               (State.packages st)) p))
    as (new & Hn & _).
  rewrite Hn, Hnil. unfold placePackage at 1.
  cbn [Region.idx Region.packages Region.packageX Region.packageY Nat.ltb Nat.leb andb app].
  eexists. eexists. split; [reflexivity|]. split; reflexivity.
Qed.

(** X25: [processData] on a data set whose classes have non-negative lines of
    code places the packages in the order of non-increasing mass, the sum
    of the lines of their classes; packages of equal mass keep the order
    of the data set.  The first platform, that of the heaviest package,
    stands at the origin with the grid strategy and at the corner
    (M, M), M = 150 ceil(sqrt(ceil(n / 4))), of the first quadrant
    otherwise, n being the number of packages *)
Theorem packages_are_placed_by_mass (env : Env.t) (data : Data.t) (st : State.t) :
  wellFormedData data ->
  let st' := processData env data st in
  let order := map PkgWithMass.pkg (packagesByMass data) in
  map PackageObj.name (State.packages st') = map Package.name order /\
  StronglySorted (fun a b => (massOf b <= massOf a)%Z) order /\
  (forall n, withMass n order = withMass n (Data.packages data)) /\
  match State.packages st' with
  | [] => Data.packages data = []
  | P :: _ =>
      let corner := firstCorner (Toggles.layoutStrategy (State.toggles st))
                                (List.length (Data.packages data)) in
      PackageObj.x P = corner /\ PackageObj.y P = corner
  end.
Proof.
  intros Hwf st' order.
  destruct (packagesByMass_sorted data Hwf) as [Hsorted Hstable].
  destruct (layout_carries (Toggles.layoutStrategy (State.toggles st)) (packagesByMass data)
              (State.setPlacements [] [] st)) as (new & HP & _ & HC).
  cbn [State.packages State.setPlacements app] in HP.
  assert (Hp : State.packages st' = new).
  { unfold st', processData.
    match goal with
    | |- State.packages (calculateViewTransform ?e ?s) = _ =>
        destruct (calculateViewTransform_keeps e s) as (-> & _)
    end.
    match goal with
    | |- State.packages (calculateGitNormalization ?e ?d ?s) = _ =>
        destruct (calculateGitNormalization_keeps e d s) as (-> & _)
    end.
    exact HP. }
  assert (Hlen : List.length (packagesByMass data) = List.length (Data.packages data)).
  { unfold packagesByMass. rewrite (Permutation_length (sort_perm _ _)). apply length_map. }
  split; [|split; [exact Hsorted | split; [exact Hstable|]]].
  - rewrite Hp. fold order in HC. clear - HC.
    induction HC as [|P pkg ps pkgs (Hn & _) _ IH]; [reflexivity|].
    cbn [map]. rewrite Hn, IH. reflexivity.
  - rewrite Hp, <- HP. unfold firstCorner.
    destruct (packagesByMass data) as [|p l] eqn:El.
    + assert (Data.packages data = []).
      { destruct (Data.packages data); [reflexivity | discriminate Hlen]. }
      destruct (String.eqb _ "grid"); cbn; assumption.
    + destruct (String.eqb _ "grid").
      * unfold layoutPackagesGrid.
        destruct (layoutPackagesInRegion_first (Fin 0) (Fin 0)
                    (of_nat (ceil_sqrt (List.length (p :: l)) * 150)) p l
                    (State.setPlacements [] [] st) eq_refl) as (P & rest & -> & Hx & Hy).
        split; assumption.
      * rewrite <- Hlen.
        set (q := ceil_div (List.length (p :: l)) 4).
        set (M := of_nat (ceil_sqrt q * 150)).
        assert (Hq : (1 <= q)%nat).
        { unfold q, ceil_div. cbn [List.length].
          apply Nat.div_str_pos. lia. }
        assert (Hs : slice 0 q (p :: l) = p :: firstn (q - 1) l).
        { unfold slice. cbn [skipn]. destruct q as [|q']; [lia|].
          cbn [Nat.sub firstn]. rewrite Nat.sub_0_r. reflexivity. }
        unfold layoutPackagesQuadrant. fold q. fold M.
        cbn [fold_left Quadrant.packages Quadrant.startX Quadrant.startY].
        rewrite Hs.
        destruct (layoutPackagesInRegion_first M M M p (firstn (q - 1) l)
                    (State.setPlacements [] [] st) eq_refl) as (P & rest & E1 & Hx & Hy).
        set (s1 := layoutPackagesInRegion (p :: firstn (q - 1) l) M M M
                                          (State.setPlacements [] [] st)) in *.
        destruct (layoutPackagesInRegion_carries (slice q (q * 2) (p :: l))
                    (JS.mul M (Fin 2)) (Fin 0) M s1) as (n2 & P2 & _).
        set (s2 := layoutPackagesInRegion (slice q (q * 2) (p :: l))
                                          (JS.mul M (Fin 2)) (Fin 0) M s1) in *.
        destruct (layoutPackagesInRegion_carries (slice (q * 2) (q * 3) (p :: l))
                    (Fin 0) (JS.mul M (Fin 2)) M s2) as (n3 & P3 & _).
        set (s3 := layoutPackagesInRegion (slice (q * 2) (q * 3) (p :: l))
                                          (Fin 0) (JS.mul M (Fin 2)) M s2) in *.
        destruct (layoutPackagesInRegion_carries (sliceFrom (q * 3) (p :: l))
                    (Fin 0) (Fin 0) M s3) as (n4 & P4 & _).
        rewrite P4, P3, P2, E1. cbn [app]. split; assumption.
Qed.

Lemma packages_are_placed_by_mass_witness :
  wellFormedData scenarioData /\
  map PackageObj.name (State.packages (processData scenarioEnv scenarioData State.initial))
  = map Package.name (map PkgWithMass.pkg (packagesByMass scenarioData)).
Proof.
  assert (H : wellFormedData scenarioData).
  { repeat constructor; eexists; (split; [reflexivity | lia]). }
  split; [exact H|].
  exact (proj1 (packages_are_placed_by_mass scenarioEnv scenarioData State.initial H)).
Defined.

(** ** A canvas that is too small *)

(** X26: [processData] on a data set with at least one package, whose classes
    have non-negative lines of code: on a canvas that is not wider, or not
    higher, than the two paddings of 50 the scale comes out as 0 or
    negative, and negative when the canvas is narrower or lower than 100;
    the guard of [calculateViewTransform] is for the empty city only *)
Theorem small_canvas_gives_no_positive_scale (env : Env.t) (data : Data.t) (st : State.t)
        (cw ch : R) :
  wellFormedData data -> Data.packages data <> [] ->
  Env.canvasWidth env = Fin cw -> Env.canvasHeight env = Fin ch ->
  cw <= 100 \/ ch <= 100 ->
  exists s,
    View.scale (State.view (processData env data st)) = Fin s /\ s <= 0 /\
    (cw < 100 \/ ch < 100 -> s < 0).
Proof.
  intros Hwf Hne Hw Hh Hsmall.
  destruct (processData_view env data st cw ch Hwf Hne Hw Hh)
    as (boxes & _ & Hb & Hproper & Hview).
  cbv zeta in Hview.
  set (B := Geometry.boundingBox boxes) in *.
  destruct (boundingBox_extent boxes Hb Hproper) as (HX & HY & HZ). fold B in HX, HY, HZ.
  destruct (projected_extent_pos B HX HY HZ) as [Hpw Hph].
  exists (Geometry.fitScale cw ch B). rewrite Hview. cbn [View.scale].
  split; [reflexivity|].
  set (pw := Geometry.projectedWidth B) in *. set (ph := Geometry.projectedHeight B) in *.
  assert (H1 : Geometry.fitScale cw ch B <= (cw - 100) / pw).
  { unfold Geometry.fitScale, Geometry.padding. fold pw ph.
    replace (cw - 100) with (cw - 2 * 50) by lra.
    eapply Rle_trans; [apply Rmin_l | apply Rmin_l]. }
  assert (H2 : Geometry.fitScale cw ch B <= (ch - 100) / ph).
  { unfold Geometry.fitScale, Geometry.padding. fold pw ph.
    replace (ch - 100) with (ch - 2 * 50) by lra.
    eapply Rle_trans; [apply Rmin_l | apply Rmin_r]. }
  assert (E1 : (cw - 100) / pw * pw = cw - 100) by (field; lra).
  assert (E2 : (ch - 100) / ph * ph = ch - 100) by (field; lra).
  split.
  - destruct Hsmall as [Hc | Hc].
    + assert ((cw - 100) / pw <= 0) by nra. lra.
    + assert ((ch - 100) / ph <= 0) by nra. lra.
  - intros [Hc | Hc].
    + assert ((cw - 100) / pw < 0) by nra. lra.
    + assert ((ch - 100) / ph < 0) by nra. lra.
Qed.

Lemma small_canvas_gives_no_positive_scale_witness :
  wellFormedData scenarioData /\ Data.packages scenarioData <> [] /\
  (80 <= 100 \/ 600 <= 100) /\
  exists s,
    View.scale (State.view (processData (Env.mk (Fin 0) (Fin 80) (Fin 600)) scenarioData
                                        State.initial)) = Fin s /\ s <= 0.
Proof.
  assert (H : wellFormedData scenarioData).
  { repeat constructor; eexists; (split; [reflexivity | lia]). }
  assert (N : Data.packages scenarioData <> []) by discriminate.
  assert (S : 80 <= 100 \/ 600 <= 100) by (left; lra).
  split; [exact H|]. split; [exact N|]. split; [exact S|].
  destruct (small_canvas_gives_no_positive_scale (Env.mk (Fin 0) (Fin 80) (Fin 600))
              scenarioData State.initial 80 600 H N eq_refl eq_refl S) as (s & Hs & Hle & _).
  exists s. split; [exact Hs | exact Hle].
Defined.

(** ** A class without [linesOfCode] and the view *)

Lemma placePackage_keeps (sx sy w : num) (r : Region.t) (p : PkgWithMass.t) (b : Building.t) :
  In b (Region.buildings r) -> In b (Region.buildings (placePackage sx sy w r p)).
Proof.
  intros H. unfold placePackage. cbn [Region.buildings]. apply in_or_app. left. exact H.
Qed.

Lemma fold_placePackage_keeps (sx sy w : num) (l : list PkgWithMass.t) (r : Region.t)
      (b : Building.t) :
  In b (Region.buildings r) -> In b (Region.buildings (fold_left (placePackage sx sy w) l r)).
Proof.
  revert r. induction l as [|p l IH]; intros r H; cbn [fold_left]; [exact H|].
  apply IH. apply placePackage_keeps. exact H.
Qed.

Lemma placePackage_missing (sx sy w : num) (r : Region.t) (p : PkgWithMass.t) (cls : Class.t) :
  In cls (Package.classes (PkgWithMass.pkg p)) -> Class.linesOfCode cls = None ->
  exists b, In b (Region.buildings (placePackage sx sy w r p)) /\ Building.width b = NaN.
Proof.
  intros Hin Hnone.
  assert (Hpos : exists pos,
             In pos (PkgLayout.positions (calculatePackageLayout (PkgWithMass.pkg p)))
             /\ Position.class pos = cls).
  { apply (Permutation_in _ (Permutation_sym (sort_perm byLinesOfCodeDesc _))) in Hin.
    rewrite <- calculatePackageLayout_classes in Hin. apply in_map_iff in Hin.
    destruct Hin as (pos & E & Hpos). exists pos. auto. }
  destruct Hpos as (pos & Hpos & Hcls).
  unfold placePackage. cbn [Region.buildings].
  eexists. split.
  - apply in_or_app. right. apply in_map. exact Hpos.
  - unfold makeBuilding. cbn [Building.width]. rewrite Hcls, Hnone. reflexivity.
Qed.

Lemma layoutPackagesInRegion_keeps (l : list PkgWithMass.t) (sx sy w : num) (st : State.t)
      (b : Building.t) :
  In b (State.buildings st) -> In b (State.buildings (layoutPackagesInRegion l sx sy w st)).
Proof.
  intros H. unfold layoutPackagesInRegion. cbn [State.buildings State.setPlacements].
  apply fold_placePackage_keeps. exact H.
Qed.

Lemma layoutPackagesInRegion_missing (l : list PkgWithMass.t) (sx sy w : num) (st : State.t)
      (p : PkgWithMass.t) (cls : Class.t) :
  In p l -> In cls (Package.classes (PkgWithMass.pkg p)) -> Class.linesOfCode cls = None ->
  exists b, In b (State.buildings (layoutPackagesInRegion l sx sy w st)) /\
            Building.width b = NaN.
Proof.
  intros Hp Hin Hnone. unfold layoutPackagesInRegion.
  cbn [State.buildings State.setPlacements].
  generalize (Region.mk 0 sx sy (Fin 0) (State.buildings st) (State.packages st)).
  induction l as [|q l IH]; intros r; [destruct Hp|]. cbn [fold_left].
  destruct Hp as [-> | Hp].
  - destruct (placePackage_missing sx sy w r p cls Hin Hnone) as (b & Hb & Hw).
    exists b. split; [apply fold_placePackage_keeps; exact Hb | exact Hw].
  - apply IH. exact Hp.
Qed.

Lemma layout_missing (strategy : string) (l : list PkgWithMass.t) (st : State.t)
      (p : PkgWithMass.t) (cls : Class.t) :
  In p l -> In cls (Package.classes (PkgWithMass.pkg p)) -> Class.linesOfCode cls = None ->
  let st' := if String.eqb strategy "grid"
             then layoutPackagesGrid l st else layoutPackagesQuadrant l st in
  exists b, In b (State.buildings st') /\ Building.width b = NaN.
Proof.
  intros Hp Hin Hnone st'. unfold st'. destruct (String.eqb strategy "grid").
  - apply (layoutPackagesInRegion_missing l _ _ _ st p cls Hp Hin Hnone).
  - unfold layoutPackagesQuadrant.
    set (q := ceil_div (List.length l) 4). set (w := of_nat (ceil_sqrt q * 150)).
    cbn [fold_left Quadrant.packages Quadrant.startX Quadrant.startY].
    set (s1 := layoutPackagesInRegion (slice 0 q l) w w w st).
    set (s2 := layoutPackagesInRegion (slice q (q * 2) l) (JS.mul w (Fin 2)) (Fin 0) w s1).
    set (s3 := layoutPackagesInRegion (slice (q * 2) (q * 3) l) (Fin 0) (JS.mul w (Fin 2)) w s2).
    rewrite <- (quartiles_cover q l) in Hp.
    apply in_app_or in Hp. destruct Hp as [Hp | Hp].
    { destruct (layoutPackagesInRegion_missing _ w w w st p cls Hp Hin Hnone) as (b & Hb & Hw).
      exists b. split; [|exact Hw]. do 3 apply layoutPackagesInRegion_keeps. exact Hb. }
    apply in_app_or in Hp. destruct Hp as [Hp | Hp].
    { destruct (layoutPackagesInRegion_missing _ (JS.mul w (Fin 2)) (Fin 0) w s1 p cls
                  Hp Hin Hnone) as (b & Hb & Hw).
      exists b. split; [|exact Hw]. do 2 apply layoutPackagesInRegion_keeps. exact Hb. }
    apply in_app_or in Hp. destruct Hp as [Hp | Hp].
    { destruct (layoutPackagesInRegion_missing _ (Fin 0) (JS.mul w (Fin 2)) w s2 p cls
                  Hp Hin Hnone) as (b & Hb & Hw).
      exists b. split; [|exact Hw]. apply layoutPackagesInRegion_keeps. exact Hb. }
    apply (layoutPackagesInRegion_missing _ (Fin 0) (Fin 0) w s3 p cls Hp Hin Hnone).
Qed.

Lemma max_NaN_r (a : num) : JS.max a NaN = NaN.
Proof. destruct a; reflexivity. Qed.

Lemma mul_NaN_r (a : num) : JS.mul a NaN = NaN.
Proof. destruct a; reflexivity. Qed.

Lemma fold_max_NaN (l : list num) : fold_left JS.max l NaN = NaN.
Proof. induction l as [|a l IH]; cbn [fold_left]; [reflexivity | exact IH]. Qed.

Lemma max_list_NaN (l : list num) : In NaN l -> JS.max_list l = NaN.
Proof.
  unfold JS.max_list. generalize NInf. induction l as [|a l IH]; intros acc Hin; [destruct Hin|].
  cbn [fold_left]. destruct Hin as [-> | Hin].
  - rewrite max_NaN_r. apply fold_max_NaN.
  - apply IH. exact Hin.
Qed.

Lemma growByBuilding_NaN (bs : list Building.t) (B : Bounds.t) :
  Bounds.maxX B = NaN \/ (exists b, In b bs /\ Building.width b = NaN) ->
  Bounds.maxX (fold_left growByBuilding bs B) = NaN.
Proof.
  revert B. induction bs as [|a bs IH]; intros B H; cbn [fold_left].
  - destruct H as [H | (b & [] & _)]. exact H.
  - apply IH. destruct H as [H | (b & [-> | Hin] & Hw)].
    + left. unfold growByBuilding, growBounds. cbn [Bounds.maxX]. rewrite H. reflexivity.
    + left. unfold growByBuilding, growBounds. cbn [Bounds.maxX].
      rewrite Hw, add_NaN_r, max_NaN_r. reflexivity.
    + right. exists b. auto.
Qed.

Lemma div_NaN_r (a : num) : JS.div a NaN = NaN.
Proof. destruct a; reflexivity. Qed.

Lemma sub_NaN_r (a : num) : JS.sub a NaN = NaN.
Proof. destruct a; reflexivity. Qed.

Lemma calculateViewTransform_NaN (env : Env.t) (st : State.t) (b : Building.t) :
  In b (State.buildings st) -> Building.width b = NaN ->
  State.view (calculateViewTransform env st) = View.mk NaN NaN NaN.
Proof.
  intros Hin Hw. unfold calculateViewTransform.
  assert (Hlen : Nat.eqb (List.length (State.buildings st)) 0 = false).
  { destruct (State.buildings st); [destruct Hin | reflexivity]. }
  rewrite Hlen. cbn [andb].
  set (B := cityBounds (State.packages st) (State.buildings st)).
  assert (HB : Bounds.maxX B = NaN).
  { unfold B, cityBounds. apply growByBuilding_NaN. right. exists b. auto. }
  assert (Hscale : fitScale env (boundsCorners B) = NaN).
  { unfold fitScale.
    assert (Hmax : JS.max_list (map Point.x (boundsCorners B)) = NaN).
    { apply max_list_NaN. unfold boundsCorners, toIsoRaw. rewrite HB.
      cbn [map Point.x JS.sub JS.mul]. right. left. reflexivity. }
    rewrite Hmax. cbn [JS.sub]. rewrite div_NaN_r. reflexivity. }
  rewrite Hscale. cbn [State.view State.setView].
  unfold boundsCorners. cbn [map Point.x Point.y]. rewrite !mul_NaN_r.
  cbn [JS.min_list JS.max_list fold_left JS.min JS.max JS.add JS.div].
  rewrite !sub_NaN_r. reflexivity.
Qed.

(** X27: a single class without [linesOfCode] blanks the city: after
    [processData] on a data set that has such a class, whatever the other
    classes, the strategy and the canvas are, its building has the width
    NaN, the bounding box of the city has the greatest x NaN, and the
    scale and both offsets of the view are NaN *)
Theorem missing_linesOfCode_blanks_the_view (env : Env.t) (data : Data.t) (st : State.t)
        (cls : Class.t) :
  In cls (allClasses data) -> Class.linesOfCode cls = None ->
  (exists b, In b (State.buildings (processData env data st)) /\ Building.width b = NaN) /\
  State.view (processData env data st) = View.mk NaN NaN NaN.
Proof.
  intros Hin Hnone. unfold allClasses in Hin. apply in_flat_map in Hin.
  destruct Hin as (pkg & Hpkg & Hcls).
  assert (Hp : In (PkgWithMass.mk pkg (calculatePackageMass pkg)) (packagesByMass data)).
  { unfold packagesByMass. apply (Permutation_in _ (Permutation_sym (sort_perm _ _))).
    apply (in_map (fun pkg => PkgWithMass.mk pkg (calculatePackageMass pkg))). exact Hpkg. }
  destruct (layout_missing (Toggles.layoutStrategy (State.toggles st)) (packagesByMass data)
              (State.setPlacements [] [] st) _ cls Hp Hcls Hnone) as (b & Hb & Hw).
  unfold processData. fold (packagesByMass data).
  cbn [State.toggles State.setPlacements].
  set (st1 := if String.eqb _ "grid" then _ else _) in *.
  set (st2 := calculateGitNormalization env data st1).
  assert (Hb2 : In b (State.buildings st2)).
  { unfold st2. destruct (calculateGitNormalization_keeps env data st1) as (_ & -> & _).
    exact Hb. }
  split.
  - exists b. destruct (calculateViewTransform_keeps env st2) as (_ & -> & _). auto.
  - exact (calculateViewTransform_NaN env st2 b Hb2 Hw).
Qed.

Lemma missing_linesOfCode_blanks_the_view_witness :
  let cls := Class.mk "X" None None in
  let data := Data.mk [Package.mk "a.b" [Class.mk "Y" (Some 85%Z) None; cls]] in
  In cls (allClasses data) /\ Class.linesOfCode cls = None /\
  State.view (processData scenarioEnv data State.initial) = View.mk NaN NaN NaN.
Proof.
  intros cls data.
  assert (Hin : In cls (allClasses data)) by (right; left; reflexivity).
  split; [exact Hin|]. split; [reflexivity|].
  exact (proj2 (missing_linesOfCode_blanks_the_view scenarioEnv data State.initial cls
                  Hin eq_refl)).
Defined.

(** ** The quadrant strategy and large packages *)

Lemma ceil_sqrt_bounds (n : nat) : (3 <= n)%nat -> (2 <= ceil_sqrt n < n)%nat.
Proof.
  intros Hn. unfold ceil_sqrt. pose proof (Nat.sqrt_spec n ltac:(lia)) as [H1 H2].
  set (s := Nat.sqrt n) in *.
  destruct (Nat.eqb_spec (s * s) n) as [E | E].
  - assert (2 <= s)%nat by (destruct s as [|[|s']]; cbn in E; lia). nia.
  - assert (1 <= s)%nat by (destruct s; cbn in H2; lia).
    destruct s as [|[|s']]; [lia | cbn in H1, H2; lia | nia].
Qed.

Lemma footprintSide_greatest (n : Z) : (356 <= n)%Z -> footprintSide n = 80.
Proof.
  intros H. unfold footprintSide. apply IZR_le in H.
  assert (Hs : 8 / 3 <= sqrt (IZR n / 50)).
  { rewrite <- sqrt_eight_thirds. apply sqrt_le_1_alt. lra. }
  apply Rmin_left. eapply Rle_trans; [|apply Rmax_r]. lra.
Qed.

Lemma largePackage_wellFormed (pkg : Package.t) :
  largePackage pkg -> Forall wellFormedClass (Package.classes pkg).
Proof.
  intros [_ H]. eapply Forall_impl; [|exact H].
  intros cls (n & Hn & Hbig). exists n. split; [exact Hn | lia].
Qed.

(** the platform of a large package is at least 205 wide and deep *)
Lemma largePackage_layout (pkg : Package.t) :
  largePackage pkg ->
  exists W D,
    PkgLayout.width (calculatePackageLayout pkg) = Fin W /\
    PkgLayout.depth (calculatePackageLayout pkg) = Fin D /\
    205 <= W /\ 205 <= D.
Proof.
  intros Hbig. pose proof (largePackage_wellFormed pkg Hbig) as Hwf.
  destruct Hbig as [Hlen Hall].
  set (n := List.length (Package.classes pkg)) in *.
  set (m := Nat.min 6 (ceil_sqrt n)).
  assert (Hm : (2 <= m < n)%nat).
  { pose proof (ceil_sqrt_bounds n Hlen). unfold m. lia. }
  set (sorted := sort byLinesOfCodeDesc (Package.classes pkg)).
  assert (Hsorted : Forall wellFormedClass sorted).
  { eapply Permutation_Forall; [apply Permutation_sym, sort_perm | exact Hwf]. }
  set (start := Cursor.mk 0 [] CONFIG.packagePadding CONFIG.packagePadding (Fin 0) (Fin 0)
                          CONFIG.packagePadding).
  assert (H0 : rowsOf m start).
  { split; [reflexivity|]. exists 20, 20, 0.
    cbn [start Cursor.currentX Cursor.currentY Cursor.rowHeight Cursor.positions].
    split; [reflexivity|]. split; [reflexivity|]. split; [reflexivity|].
    split; [reflexivity|]. split.
    - intros i p Hi. destruct i; discriminate Hi.
    - intros i j p q _ Hi. destruct i; discriminate Hi. }
  pose proof (fold_placeClass_rows m sorted start Hsorted H0)
    as (_ & rx & ry & rr & _ & _ & _ & _ & Hrow & Hpair).
  destruct (calculatePackageLayout_cursor pkg Hwf)
    as (cx & cy & rh & mw & td & _ & _ & _ & Hmw & Htd & _ & _ & _ & _ & _ & Hpos & _).
  fold n m sorted start in Hmw, Htd, Hpos.
  set (c := fold_left (placeClass m) sorted start) in *.
  assert (Hclasses : map Position.class (Cursor.positions c) = sorted).
  { unfold c. rewrite fold_placeClass_classes. reflexivity. }
  assert (Hlen' : List.length (Cursor.positions c) = n).
  { rewrite <- (length_map Position.class), Hclasses. unfold sorted, n.
    apply Permutation_length, sort_perm. }
  assert (Hside : forall p, In p (Cursor.positions c) ->
                            footprintOf p = Footprint.mk (Fin 80) (Fin 80)).
  { intros p Hp.
    assert (Hin : In (Position.class p) (Package.classes pkg)).
    { apply (Permutation_in _ (sort_perm byLinesOfCodeDesc _)). fold sorted.
      rewrite <- Hclasses. apply in_map. exact Hp. }
    rewrite Forall_forall in Hall. destruct (Hall _ Hin) as (k & Hk & Hbig).
    unfold footprintOf. rewrite Hk. cbn [JS.of_field].
    rewrite (calculateBuildingFootprint_of_Z k ltac:(lia)), (footprintSide_greatest k Hbig).
    reflexivity. }
  destruct (nth_error (Cursor.positions c) 0) as [p0|] eqn:E0;
    [|apply nth_error_None in E0; lia].
  destruct (nth_error (Cursor.positions c) 1) as [p1|] eqn:E1;
    [|apply nth_error_None in E1; lia].
  destruct (nth_error (Cursor.positions c) m) as [pm|] eqn:Em;
    [|apply nth_error_None in Em; lia].
  pose proof (Hside p0 (nth_error_In _ _ E0)) as S0.
  destruct (Hrow 0%nat p0 E0) as (x0 & y0 & w0 & d0 & (X0 & Y0 & F0) & _ & _ & _ & Hx0 & _).
  assert (x0 = 20) by (apply Hx0; apply Nat.Div0.mod_0_l). subst x0.
  destruct (Hpos p0 (nth_error_In _ _ E0))
    as (x0' & y0' & w0' & d0' & (X0' & Y0' & _) & _ & Hy0 & _).
  assert (y0' = y0) by congruence. subst y0'.
  destruct (Hpair 0%nat 1%nat p0 p1 ltac:(lia) E0 E1) as (_ & _ & Hnext).
  assert (Hmod1 : (1 mod m)%nat <> 0%nat) by (rewrite Nat.mod_small; lia).
  specialize (Hnext eq_refl Hmod1). rewrite X0, S0 in Hnext.
  cbn [Footprint.width JS.add CONFIG.buildingSpacing] in Hnext.
  destruct (Hpos p1 (nth_error_In _ _ E1))
    as (x1 & y1 & w1 & d1 & (X1 & _ & F1) & _ & _ & _ & _ & Hend1 & _).
  rewrite (Hside p1 (nth_error_In _ _ E1)) in F1. injection F1 as <- <-.
  assert (x1 = 20 + 80 + 5) by congruence. subst x1.
  destruct (Hpair 0%nat m p0 pm ltac:(lia) E0 Em) as (_ & Hlater & _).
  assert (Hrows : (0 / m < m / m)%nat).
  { rewrite Nat.Div0.div_0_l, Nat.div_same by lia. lia. }
  specialize (Hlater Hrows). rewrite Y0, S0 in Hlater.
  destruct (Hpos pm (nth_error_In _ _ Em))
    as (xm & ym & wm & dm & (_ & Ym & Fm) & _ & _ & _ & _ & _ & Hendm & _).
  rewrite (Hside pm (nth_error_In _ _ Em)) in Fm. injection Fm as <- <-.
  rewrite Ym in Hlater. cbn [Footprint.depth JS.add JS.le CONFIG.buildingSpacing] in Hlater.
  exists (mw + 20), (td + 20). unfold calculatePackageLayout.
  cbn [PkgLayout.width PkgLayout.depth]. fold n m sorted start c. rewrite Hmw, Htd.
  split; [reflexivity|]. split; [reflexivity|]. split; lra.
Qed.

Lemma layoutPackagesInRegion_single (sx sy w : num) (m : PkgWithMass.t) (st : State.t) :
  State.packages (layoutPackagesInRegion [m] sx sy w st)
  = State.packages st
    ++ [PackageObj.mk (Package.name (PkgWithMass.pkg m)) sx sy
                      (PkgLayout.width (calculatePackageLayout (PkgWithMass.pkg m)))
                      (PkgLayout.height (calculatePackageLayout (PkgWithMass.pkg m)))
                      (PkgLayout.depth (calculatePackageLayout (PkgWithMass.pkg m)))
                      (Fin 0)
                      (map (makeBuilding (PkgWithMass.pkg m) sx sy)
                           (PkgLayout.positions (calculatePackageLayout (PkgWithMass.pkg m))))].
Proof. reflexivity. Qed.

Lemma layoutPackagesQuadrant_four (m1 m2 m3 m4 : PkgWithMass.t) (st : State.t) :
  State.packages st = [] ->
  exists P1 P2 P3 P4,
    State.packages (layoutPackagesQuadrant [m1; m2; m3; m4] st) = [P1; P2; P3; P4] /\
    PackageObj.x P1 = Fin 150 /\ PackageObj.y P1 = Fin 150 /\
    PackageObj.width P1 = PkgLayout.width (calculatePackageLayout (PkgWithMass.pkg m1)) /\
    PackageObj.depth P1 = PkgLayout.depth (calculatePackageLayout (PkgWithMass.pkg m1)) /\
    PackageObj.x P4 = Fin 0 /\ PackageObj.y P4 = Fin 0 /\
    PackageObj.width P4 = PkgLayout.width (calculatePackageLayout (PkgWithMass.pkg m4)) /\
    PackageObj.depth P4 = PkgLayout.depth (calculatePackageLayout (PkgWithMass.pkg m4)).
Proof.
  intros Hnil. unfold layoutPackagesQuadrant.
  change (ceil_div (List.length [m1; m2; m3; m4]) 4) with 1%nat.
  change (ceil_sqrt 1) with 1%nat.
  cbn [Nat.mul Nat.add slice sliceFrom Nat.sub skipn firstn fold_left
       Quadrant.packages Quadrant.startX Quadrant.startY].
  rewrite !layoutPackagesInRegion_single, Hnil. cbn [app].
  do 4 eexists. split; [reflexivity|].
  cbn [PackageObj.x PackageObj.y PackageObj.width PackageObj.depth].
  repeat split; reflexivity.
Qed.

(** X28: the quadrant strategy does not keep platforms apart: for every data
    set of four large packages (three classes or more each, every class
    of 356 lines or more) it places four platforms, the heaviest at
    (150, 150) and the lightest at (0, 0), and since each is at least 205
    wide and deep these two overlap *)
Theorem quadrant_platforms_overlap (env : Env.t) (data : Data.t) (st : State.t) :
  List.length (Data.packages data) = 4%nat ->
  Forall largePackage (Data.packages data) ->
  Toggles.layoutStrategy (State.toggles st) <> "grid" ->
  exists P1 P2 P3 P4,
    State.packages (processData env data st) = [P1; P2; P3; P4] /\
    PackageObj.x P1 = Fin 150 /\ PackageObj.y P1 = Fin 150 /\
    PackageObj.x P4 = Fin 0 /\ PackageObj.y P4 = Fin 0 /\
    platformsOverlap P1 P4.
Proof.
  intros Hlen Hbig Hstrategy.
  assert (Hperm : Permutation (map PkgWithMass.pkg (packagesByMass data)) (Data.packages data)).
  { unfold packagesByMass.
    eapply perm_trans; [apply Permutation_map, sort_perm|].
    rewrite map_map. cbn [PkgWithMass.pkg]. rewrite map_id. apply Permutation_refl. }
  assert (Hl : List.length (packagesByMass data) = 4%nat).
  { rewrite <- Hlen, <- (Permutation_length Hperm). symmetry. apply length_map. }
  assert (Hbig' : Forall largePackage (map PkgWithMass.pkg (packagesByMass data))).
  { eapply Permutation_Forall; [apply Permutation_sym; exact Hperm | exact Hbig]. }
  assert (Hp : State.packages (processData env data st)
               = State.packages (layoutPackagesQuadrant (packagesByMass data)
                                                        (State.setPlacements [] [] st))).
  { unfold processData.
    match goal with
    | |- State.packages (calculateViewTransform ?e ?s) = _ =>
        destruct (calculateViewTransform_keeps e s) as (-> & _)
    end.
    match goal with
    | |- State.packages (calculateGitNormalization ?e ?d ?s) = _ =>
        destruct (calculateGitNormalization_keeps e d s) as (-> & _)
    end.
    cbn [State.toggles State.setPlacements].
    destruct (String.eqb_spec (Toggles.layoutStrategy (State.toggles st)) "grid");
      [contradiction | reflexivity]. }
  rewrite Hp.
  destruct (packagesByMass data) as [|m1 [|m2 [|m3 [|m4 [|m5 l]]]]]; try discriminate Hl.
  cbn [map] in Hbig'.
  inversion Hbig' as [|? ? B1 Hbig2]; subst. inversion Hbig2 as [|? ? _ Hbig3]; subst.
  inversion Hbig3 as [|? ? _ Hbig4]; subst. inversion Hbig4 as [|? ? B4 _]; subst.
  destruct (layoutPackagesQuadrant_four m1 m2 m3 m4 (State.setPlacements [] [] st) eq_refl)
    as (P1 & P2 & P3 & P4 & HP & X1 & Y1 & W1 & D1 & X4 & Y4 & W4 & D4).
  destruct (largePackage_layout _ B1) as (w1 & d1 & Ew1 & Ed1 & Hw1 & Hd1).
  destruct (largePackage_layout _ B4) as (w4 & d4 & Ew4 & Ed4 & Hw4 & Hd4).
  exists P1, P2, P3, P4. split; [exact HP|].
  repeat (split; [assumption|]).
  unfold platformsOverlap. rewrite X1, Y1, W1, D1, X4, Y4, W4, D4, Ew1, Ed1, Ew4, Ed4.
  cbn [JS.add JS.ltb]. rewrite !Rltb_true by lra. auto.
Qed.

Lemma quadrant_platforms_overlap_witness :
  let big := Class.mk "Service" (Some 400%Z) None in
  let pkg name := Package.mk name [big; big; big] in
  let data := Data.mk [pkg "a"; pkg "b"; pkg "c"; pkg "d"] in
  List.length (Data.packages data) = 4%nat /\
  Forall largePackage (Data.packages data) /\
  Toggles.layoutStrategy (State.toggles State.initial) <> "grid" /\
  exists P1 P2 P3 P4,
    State.packages (processData scenarioEnv data State.initial) = [P1; P2; P3; P4] /\
    platformsOverlap P1 P4.
Proof.
  intros big pkg data.
  assert (H1 : List.length (Data.packages data) = 4%nat) by reflexivity.
  assert (H2 : Forall largePackage (Data.packages data)).
  { repeat constructor; cbn; try lia; eexists; (split; [reflexivity | lia]). }
  assert (H3 : Toggles.layoutStrategy (State.toggles State.initial) <> "grid") by discriminate.
  split; [exact H1|]. split; [exact H2|]. split; [exact H3|].
  destruct (quadrant_platforms_overlap scenarioEnv data State.initial H1 H2 H3)
    as (P1 & P2 & P3 & P4 & HP & _ & _ & _ & _ & Ho).
  exists P1, P2, P3, P4. split; [exact HP | exact Ho].
Defined.

Lemma layoutPackagesInRegion_region (sx sy : R) (w : num) (l : list PkgWithMass.t)
      (st : State.t) :
  Forall (fun p => Forall wellFormedClass (Package.classes (PkgWithMass.pkg p))) l ->
  exists new,
    State.packages (layoutPackagesInRegion l (Fin sx) (Fin sy) w st)
    = State.packages st ++ new /\
    ForallOrdPairs platformsDisjoint new /\
    Forall2 carries new (map PkgWithMass.pkg l).
Proof.
  intros Hl.
  destruct (layoutPackagesInRegion_rows sx sy w l st Hl) as (new & Hn & Hd & _).
  destruct (layoutPackagesInRegion_carries l (Fin sx) (Fin sy) w st) as (new' & Hn' & _ & Hc).
  assert (new' = new) by (rewrite Hn in Hn'; exact (eq_sym (app_inv_head _ _ _ Hn'))).
  subst new'. exists new. auto.
Qed.

(** X29: with the quadrant strategy, on a data set whose classes have
    non-negative lines of code, the platforms come in four groups, one for
    each quarter of the packages in the order of the sort by mass, and no
    two platforms of one group overlap: platforms that overlap belong to
    different quadrants *)
Theorem quadrant_groups_do_not_overlap (env : Env.t) (data : Data.t) (st : State.t) :
  wellFormedData data ->
  Toggles.layoutStrategy (State.toggles st) <> "grid" ->
  let order := packagesByMass data in
  let q := ceil_div (List.length order) 4 in
  exists g1 g2 g3 g4,
    State.packages (processData env data st) = g1 ++ g2 ++ g3 ++ g4 /\
    Forall2 carries g1 (map PkgWithMass.pkg (slice 0 q order)) /\
    Forall2 carries g2 (map PkgWithMass.pkg (slice q (q * 2) order)) /\
    Forall2 carries g3 (map PkgWithMass.pkg (slice (q * 2) (q * 3) order)) /\
    Forall2 carries g4 (map PkgWithMass.pkg (sliceFrom (q * 3) order)) /\
    ForallOrdPairs platformsDisjoint g1 /\ ForallOrdPairs platformsDisjoint g2 /\
    ForallOrdPairs platformsDisjoint g3 /\ ForallOrdPairs platformsDisjoint g4.
Proof.
  intros Hwf Hstrategy order q.
  assert (Hl : Forall (fun p => Forall wellFormedClass (Package.classes (PkgWithMass.pkg p)))
                      order).
  { eapply Permutation_Forall; [apply Permutation_sym, sort_perm|].
    rewrite Forall_map. exact Hwf. }
  assert (Hp : State.packages (processData env data st)
               = State.packages (layoutPackagesQuadrant order (State.setPlacements [] [] st))).
  { unfold processData.
    match goal with
    | |- State.packages (calculateViewTransform ?e ?s) = _ =>
        destruct (calculateViewTransform_keeps e s) as (-> & _)
    end.
    match goal with
    | |- State.packages (calculateGitNormalization ?e ?d ?s) = _ =>
        destruct (calculateGitNormalization_keeps e d s) as (-> & _)
    end.
    cbn [State.toggles State.setPlacements].
    destruct (String.eqb_spec (Toggles.layoutStrategy (State.toggles st)) "grid");
      [contradiction | reflexivity]. }
  rewrite Hp.
  set (M := IZR (Z.of_nat (ceil_sqrt q * 150))).
  set (mrw := of_nat (ceil_sqrt q * 150)).
  set (s0 := State.setPlacements [] [] st).
  set (s1 := layoutPackagesInRegion (slice 0 q order) (Fin M) (Fin M) mrw s0).
  set (s2 := layoutPackagesInRegion (slice q (q * 2) order) (Fin (M * 2)) (Fin 0) mrw s1).
  set (s3 := layoutPackagesInRegion (slice (q * 2) (q * 3) order) (Fin 0) (Fin (M * 2)) mrw s2).
  set (s4 := layoutPackagesInRegion (sliceFrom (q * 3) order) (Fin 0) (Fin 0) mrw s3).
  change (layoutPackagesQuadrant order s0) with s4.
  destruct (layoutPackagesInRegion_region M M mrw (slice 0 q order) s0
              (Forall_slice _ _ _ _ Hl)) as (g1 & P1 & D1 & C1). fold s1 in P1.
  destruct (layoutPackagesInRegion_region (M * 2) 0 mrw (slice q (q * 2) order) s1
              (Forall_slice _ _ _ _ Hl)) as (g2 & P2 & D2 & C2). fold s2 in P2.
  destruct (layoutPackagesInRegion_region 0 (M * 2) mrw (slice (q * 2) (q * 3) order) s2
              (Forall_slice _ _ _ _ Hl)) as (g3 & P3 & D3 & C3). fold s3 in P3.
  destruct (layoutPackagesInRegion_region 0 0 mrw (sliceFrom (q * 3) order) s3
              (proj2 (Forall_firstn_skipn _ (q * 3) _ Hl))) as (g4 & P4 & D4 & C4).
  fold s4 in P4.
  exists g1, g2, g3, g4. rewrite P4, P3, P2, P1. cbn [s0 State.packages State.setPlacements app].
  rewrite <- !app_assoc. split; [reflexivity|]. auto 10.
Qed.

Lemma quadrant_groups_do_not_overlap_witness :
  wellFormedData scenarioData /\
  Toggles.layoutStrategy (State.toggles State.initial) <> "grid" /\
  exists g1 g2 g3 g4,
    State.packages (processData scenarioEnv scenarioData State.initial) = g1 ++ g2 ++ g3 ++ g4 /\
    ForallOrdPairs platformsDisjoint g1.
Proof.
  assert (H : wellFormedData scenarioData).
  { repeat constructor; eexists; (split; [reflexivity | lia]). }
  assert (G : Toggles.layoutStrategy (State.toggles State.initial) <> "grid") by discriminate.
  split; [exact H|]. split; [exact G|].
  destruct (quadrant_groups_do_not_overlap scenarioEnv scenarioData State.initial H G)
    as (g1 & g2 & g3 & g4 & HP & _ & _ & _ & _ & D1 & _).
  exists g1, g2, g3, g4. split; [exact HP | exact D1].
Defined.
